(** * CoastWatch Format (CWF) library: a shallow embedding of cwflib.c and
    cwproj.c, and the properties of the specification checked against it.

    Conventions of the embedding.
    - C integers are [Z] with the conversions written out: [to_short],
      [to_ushort], [to_uchar] and [to_size_t] (an LP64 host: [size_t] has 64
      bits, [int] has 32 and never overflows on the values met here).
    - C [float] is IEEE-754 binary32 and [double] binary64, both with
      round-to-nearest-even, taken from the Standard Library's [SpecFloat];
      every operation is evaluated in the type C gives it.
    - A [FILE *] is an index into a table of streams over byte files; the
      registry [cw_files] is a list of 100 optional handles.  Reads and writes
      fail where the state decides it (a missing file, a read past the end, a
      write to a read-only stream).  The host decides whether a file can be
      created ([can_create]), a temporary file opened ([can_tmpfile]) and a
      block allocated ([can_malloc], by the rank of the call to malloc within
      one call of the library) in cw_create, cw_compress, cw_uncompress and
      cw_enddef; cw_open and the functions that move pixel data are modelled
      on a host where allocation succeeds.
    - The map projections of cwproj.c are computed in binary64, the type of
      their arguments and results, with [res] and [plon] in binary32; the
      functions of math.h that they call ([sin], [atan], [acos], [exp],
      [sqrt], [pow]) are a parameter [libm] of the conversions. *)

From Stdlib Require Import ZArith List Bool Lia String SpecFloat.
Import ListNotations.
Open Scope Z_scope.

(** ** Integer conversions *)

Definition to_short (z : Z) : Z := (z + 32768) mod 65536 - 32768.
Definition to_ushort (z : Z) : Z := z mod 65536.
Definition to_uchar (z : Z) : Z := z mod 256.
Definition SIZE_MOD : Z := 2 ^ 64.
Definition to_size_t (z : Z) : Z := z mod SIZE_MOD.

(** ** Constants of cwflib.h and cwflib.c *)

Definition CW_NOERR := 0.
Definition CW_CLOBBER := 0.
Definition CW_NOCLOBBER := 1.
Definition CW_NOWRITE := 0.
Definition CW_WRITE := 1.
Definition CW_BYTE := 0.
Definition CW_FLOAT := 3.
Definition CW_ROWS := 0.
Definition CW_COLUMNS := 1.
Definition CW_DATA := 0.
Definition CW_GRAPHICS := 1.
Definition CW_MAX_FILES := 100.
Definition CW_HEAD_MIN := 136.
Definition CW_HEAD_COMP := 1024.
Definition CW_MAGIC_NUM := 213.
Definition CW_O_ROWS := 34.
Definition CW_O_COLUMNS := 36.
Definition CW_O_CALIBRATION_TYPE := 44.
Definition CW_O_CHANNEL_NUMBER := 48.
Definition CW_O_DATA_ID := 50.
Definition CW_O_CHANNEL_PIXEL_SIZE := 62.
Definition CW_O_ANCILLARY_PIXEL_SIZE := 70.
Definition CW_O_COMPRESSION_TYPE := 78.
Definition CW_O_HORIZONTAL_SHIFT := 84.
Definition CW_O_VERTICAL_SHIFT := 86.
Definition CW_CALIBRATION_TYPE_RAW := 0.
Definition CW_CALIBRATION_TYPE_ALBEDO_TEMPERATURE := 2.
Definition CW_CHANNEL_NUMBER_AVHRR5 := 5.
Definition CW_CHANNEL_NUMBER_SCAN_ANGLE := 101.
Definition CW_CHANNEL_NUMBER_SAT_ZENITH := 102.
Definition CW_CHANNEL_NUMBER_SOL_ZENITH := 103.
Definition CW_CHANNEL_NUMBER_REL_AZIMUTH := 104.
Definition CW_CHANNEL_NUMBER_SCAN_TIME := 105.
Definition CW_DATA_ID_VISIBLE := 0.
Definition CW_DATA_ID_IR := 1.
Definition CW_DATA_ID_ANCILLARY := 2.
Definition CW_DATA_ID_CLOUD := 3.
Definition CW_COMPRESSION_TYPE_NONE := 0.
Definition CW_COMPRESSION_TYPE_FLAT := 1.
Definition CW_COMPRESSION_TYPE_1B := 2.

Definition CW_ERR_CREATE := 1.
Definition CW_ERR_CREATE_MODE := 2.
Definition CW_ERR_ACCESS := 3.
Definition CW_ERR_ACCESS_MODE := 4.
Definition CW_ERR_NOT_DEFINE_MODE := 5.
Definition CW_ERR_DATASET_ID := 6.
Definition CW_ERR_ENDDEF_FAILED := 7.
Definition CW_ERR_VAR_ID := 16.
Definition CW_ERR_VAR_INDEX := 17.
Definition CW_ERR_VAR_VALUE := 18.
Definition CW_ERR_DEFINE_MODE := 19.
Definition CW_ERR_NOMEM := 22.
Definition CW_ERR_MAX_FILES := 23.
Definition CW_ERR_CREATE_EXISTS := 24.
Definition CW_ERR_CREATE_HEADER := 25.
Definition CW_ERR_MAGIC := 26.
Definition CW_ERR_MAGIC_READ := 27.
Definition CW_ERR_READ_ATT := 31.
Definition CW_ERR_READ_DATA := 32.
Definition CW_ERR_WRITE_DATA := 35.
Definition CW_ERR_DIM_UNDEFINED := 36.
Definition CW_ERR_VAR_UNDEFINED := 37.
Definition CW_ERR_UNSUP_DATA_ID := 39.
Definition CW_ERR_UNSUP_CHANNEL_NUMBER := 40.
Definition CW_ERR_UNSUP_PIXEL_SIZE := 43.
Definition CW_ERR_UNSUP_CALIBRATION_TYPE := 44.
Definition CW_ERR_CFILE := 45.
Definition CW_ERR_UFILE := 46.
Definition CW_ERR_UNSUP_COMPRESSION_TYPE := 47.
Definition CW_ERR_COM_BYTE0 := 48.
Definition CW_ERR_WRITE_SHIFT := 50.

(** ** The bit-packing macros *)

Definition sign_of (nonzero : Z) : Z := if nonzero =? 0 then 1 else -1.

Definition CW_UNC_RVAL (a : Z) : Z :=
  to_short (Z.shiftr (Z.land a 0x7FF0) 4) * sign_of (Z.land a 0x8000).
Definition CW_UNC_RGRA (a : Z) : Z := to_uchar (Z.land a 0x000F).
Definition CW_UNC_W (a b : Z) : Z :=
  Z.lor (Z.lor (Z.shiftl (to_ushort (Z.abs a)) 4)
               (if a <? 0 then 0x8000 else 0x0000))
        (Z.land (to_ushort b) 0x000F).

Definition CW_COM_ISMVAL (a : Z) : Z := Z.land a 0x80.
Definition CW_COM_RMVAL (a b : Z) : Z :=
  (Z.shiftl (to_short (Z.land a 0x0F)) 8 + to_short b) * sign_of (Z.land a 0x08).
Definition CW_COM_RVAL (l a : Z) : Z :=
  l + to_short (Z.land a 0x3F) * sign_of (Z.land a 0x40).
Definition CW_COM_RGRA (a : Z) : Z := a.
Definition CW_COM_WVAL_B1 (a : Z) : Z :=
  Z.lor (Z.lor (to_uchar (Z.shiftr (to_ushort (Z.abs a)) 8))
               (if a <? 0 then 0x08 else 0x00)) 0x80.
Definition CW_COM_WVAL_B2 (a : Z) : Z :=
  to_uchar (Z.land (to_ushort (Z.abs a)) 0x00FF).
Definition CW_COM_WVAL (a : Z) : Z :=
  Z.land (Z.lor (to_uchar (Z.abs a)) (if a <? 0 then 0x40 else 0x00)) 0x7F.
Definition CW_COM_WGRA_B1 (a : Z) : Z := a.
Definition CW_COM_WGRA_B2 (a : Z) : Z := to_uchar a.

(** ** Floating point: C [float] (binary32) and [double] (binary64) *)

Definition float32 : Type := spec_float.

Definition f32_of_Z (z : Z) : float32 := binary_normalize 24 128 z 0 false.
Definition f32_add : float32 -> float32 -> float32 := SFadd 24 128.
Definition f32_sub : float32 -> float32 -> float32 := SFsub 24 128.
Definition f32_mul : float32 -> float32 -> float32 := SFmul 24 128.
Definition f32_div : float32 -> float32 -> float32 := SFdiv 24 128.

(** A decimal literal [n/d] of type float, for [n] and [d] below 2^24: the
    correctly rounded quotient, as the compiler produces it. *)
Definition f32_lit (n d : Z) : float32 := f32_div (f32_of_Z n) (f32_of_Z d).

(** Promotion of a float to double. *)
Definition f64_of_f32 (f : float32) : spec_float :=
  match f with
  | S754_finite s m e => binary_normalize 53 1024 (cond_Zopp s (Zpos m)) e s
  | _ => f
  end.
Definition f64_half : spec_float := binary_normalize 53 1024 1 (-1) false.

(** [floor] and [ceil] of a finite double, as integers. *)
Definition sf_floor (d : spec_float) : Z :=
  match d with
  | S754_finite s m e =>
      if 0 <=? e then cond_Zopp s (Zpos m) * 2 ^ e
      else (cond_Zopp s (Zpos m)) / 2 ^ (- e)
  | _ => 0
  end.
Definition sf_ceil (d : spec_float) : Z := - sf_floor (SFopp d).

(** The integral part of a float, for the conversions to integer types (zero
    for the values that are no numbers, where C leaves the result open). *)
Definition sf_trunc (f : spec_float) : Z :=
  match f with
  | S754_finite s m e =>
      if 0 <=? e then cond_Zopp s (Zpos m) * 2 ^ e
      else cond_Zopp s (Zpos m / 2 ^ (- e))
  | _ => 0
  end.

(** [roundf] as cwflib.c defines it when the host has none:
    [(float) (f > 0 ? floor (f+0.5) : ceil (f-0.5))], computed in double. *)
Definition roundf (f : float32) : float32 :=
  f32_of_Z (if SFltb (S754_zero false) f
            then sf_floor (SFadd 53 1024 (f64_of_f32 f) f64_half)
            else sf_ceil (SFsub 53 1024 (f64_of_f32 f) f64_half)).

(** Conversions of a float to [short] and [unsigned short]; the truncated
    value is reduced to 16 bits where it does not fit (C leaves that open). *)
Definition short_of_f32 (f : float32) : Z := to_short (sf_trunc f).
Definition ushort_of_f32 (f : float32) : Z := to_ushort (sf_trunc f).

Definition CW_BADVAL : float32 := f32_of_Z (-999).
Definition ZEROC : float32 := f32_lit 27315 100.
Definition KTOC (a : float32) : float32 := f32_sub a ZEROC.

(** ** Calibration codec: one value at a time, then over arrays *)

Definition cal_raw_val (compression sp : Z) : float32 :=
  if compression =? CW_COMPRESSION_TYPE_FLAT then
    if (sp <? 0) || (1023 <? sp) then CW_BADVAL else f32_of_Z sp
  else
    if (sp <? 1) || (1024 <? sp) then CW_BADVAL
    else f32_sub (f32_of_Z sp) (f32_of_Z 1).

Definition cal_visible_val (compression sp : Z) : float32 :=
  if compression =? CW_COMPRESSION_TYPE_FLAT then
    if (sp <? 0) || (10000 <? sp) then CW_BADVAL
    else f32_div (f32_of_Z sp) (f32_of_Z 100)
  else
    if (sp <? 1) || (2047 <? sp) then CW_BADVAL
    else f32_div (f32_of_Z (sp - 1)) (f32_lit 2047 100).

Definition cal_ir_val (compression channel sp : Z) : float32 :=
  if compression =? CW_COMPRESSION_TYPE_FLAT then
    if channel <=? CW_CHANNEL_NUMBER_AVHRR5 then
      if (sp <? 0) || (32760 <? sp) then CW_BADVAL
      else KTOC (f32_div (f32_of_Z sp) (f32_of_Z 100))
    else
      if (sp <? -4000) || (4000 <? sp) then CW_BADVAL
      else f32_div (f32_of_Z sp) (f32_of_Z 100)
  else
    if (sp <? 1) || (2047 <? sp) then CW_BADVAL
    else if sp =? 1 then KTOC (f32_of_Z 178)
    else if sp <? 921 then
      f32_add (f32_mul (f32_of_Z (sp - 1)) (f32_lit 1 10)) (KTOC (f32_of_Z 178))
    else if sp <=? 1721 then
      let v := f32_add (f32_mul (f32_of_Z (sp - 921)) (f32_lit 5 100))
                       (KTOC (f32_of_Z 270)) in
      if SFltb (SFabs (f32_sub v (f32_of_Z 0))) (f32_lit 1 100)
      then f32_of_Z 0 else v
    else
      f32_add (f32_mul (f32_of_Z (sp - 1721)) (f32_lit 1 10)) (KTOC (f32_of_Z 310)).

Definition cw_cal_raw (sp : list Z) (compression : Z) : list float32 :=
  map (cal_raw_val compression) sp.
Definition cw_cal_visible (sp : list Z) (compression : Z) : list float32 :=
  map (cal_visible_val compression) sp.
Definition cw_cal_ir (sp : list Z) (compression channel : Z) : list float32 :=
  map (cal_ir_val compression channel) sp.

Definition range_or_zero (lo hi v : Z) : Z :=
  if (v <? lo) || (hi <? v) then 0 else v.

Definition uncal_raw_val (f : float32) : Z :=
  if SFeqb f CW_BADVAL then 0
  else range_or_zero 1 1024 (to_short (short_of_f32 (roundf f) + 1)).

Definition uncal_visible_val (f : float32) : Z :=
  if SFeqb f CW_BADVAL then 0
  else range_or_zero 1 2047
         (to_short (short_of_f32 (roundf (f32_mul f (f32_lit 2047 100))) + 1)).

Definition uncal_ir_val (f : float32) : Z :=
  let k178 := KTOC (f32_of_Z 178) in
  let k270 := KTOC (f32_of_Z 270) in
  let k310 := KTOC (f32_of_Z 310) in
  if SFeqb f CW_BADVAL || SFltb f k178 then 0
  else
    range_or_zero 1 2047
      (if SFeqb f k178 then 1
       else if SFltb k178 f && SFltb f k270 then
         to_short (short_of_f32 (roundf (f32_div (f32_sub f k178) (f32_lit 1 10))) + 1)
       else if SFleb k270 f && SFleb f k310 then
         to_short (short_of_f32 (roundf (f32_div (f32_sub f k270) (f32_lit 5 100))) + 921)
       else
         to_short (short_of_f32 (roundf (f32_div (f32_sub f k310) (f32_lit 1 10))) + 1721)).

Definition cw_uncal_raw (fp : list float32) : list Z := map uncal_raw_val fp.
Definition cw_uncal_visible (fp : list float32) : list Z := map uncal_visible_val fp.
Definition cw_uncal_ir (fp : list float32) : list Z := map uncal_ir_val fp.

(** Ancillary data, decoded from and encoded to unsigned 16-bit codes. *)

Definition is_angle_channel (channel : Z) : bool :=
  (channel =? CW_CHANNEL_NUMBER_SCAN_ANGLE) || (channel =? CW_CHANNEL_NUMBER_SAT_ZENITH)
  || (channel =? CW_CHANNEL_NUMBER_SOL_ZENITH) || (channel =? CW_CHANNEL_NUMBER_REL_AZIMUTH).

Definition decode_angle_val (compression usp : Z) : float32 :=
  if compression =? CW_COMPRESSION_TYPE_FLAT then f32_div (f32_of_Z usp) (f32_of_Z 100)
  else if usp =? 0 then CW_BADVAL
  else f32_div (f32_of_Z (usp - 1)) (f32_of_Z 128).

(** [hours = (short) usp[i]/100; minutes = (short) usp[i] - hours;] *)
Definition time_hours (usp : Z) : Z := to_short (Z.quot (to_short usp) 100).
Definition time_minutes (usp : Z) : Z := to_short (to_short usp - time_hours usp).
Definition decode_time_val (usp : Z) : float32 :=
  f32_add (f32_of_Z (time_hours usp))
          (f32_div (f32_of_Z (time_minutes usp)) (f32_of_Z 60)).

Definition cw_decode_ancillary (usp : list Z) (channel compression : Z)
  : Z * list float32 :=
  if is_angle_channel channel then (CW_NOERR, map (decode_angle_val compression) usp)
  else if channel =? CW_CHANNEL_NUMBER_SCAN_TIME then (CW_NOERR, map decode_time_val usp)
  else (CW_ERR_UNSUP_CHANNEL_NUMBER, []).

Definition encode_angle_val (f : float32) : Z :=
  if SFeqb f CW_BADVAL then 0
  else to_ushort (ushort_of_f32 (roundf (f32_mul f (f32_of_Z 128))) + 1).

Definition encode_time_val (f : float32) : Z :=
  let hours := short_of_f32 f in
  let minutes :=
    short_of_f32 (roundf (f32_mul (f32_sub f (f32_of_Z hours)) (f32_of_Z 60))) in
  to_ushort (hours * 100 + minutes).

Definition cw_encode_ancillary (fp : list float32) (channel : Z) : Z * list Z :=
  if is_angle_channel channel then (CW_NOERR, map encode_angle_val fp)
  else if channel =? CW_CHANNEL_NUMBER_SCAN_TIME then (CW_NOERR, map encode_time_val fp)
  else (CW_ERR_UNSUP_CHANNEL_NUMBER, []).

(** ** Files, streams and the process-wide state *)

Definition to_long (z : Z) : Z := (z + 2 ^ 63) mod SIZE_MOD - 2 ^ 63.

(** A stream ([FILE]) is a position in a numbered file, opened for reading,
    writing or both. *)
Record stream : Type := mkStream
  { s_file : nat; s_pos : Z; s_read : bool; s_write : bool }.

(** [cw_file_type]; [fp] and [ufp] are stream numbers, [None] the null
    pointer, and [dims] is the pair (dims[CW_ROWS], dims[CW_COLUMNS]). *)
Record cw_file_type : Type := mkFile
  { fp : nat; ufp : option nat; path : string; defmode : bool; wmode : Z;
    data_id : Z; graphics : Z; dims : Z * Z; pixel_size : Z }.

(** The files of the host: the open streams, the bytes of every file and the
    directory. *)
Record filesys : Type := mkFS
  { streams : list (option stream);         (* None: closed *)
    files : list (list Z);                  (* the bytes of every file *)
    names : list (string * nat) }.          (* directory: path to file number *)

(** The byte-order flag of the library, the byte order of the host and what
    the host grants: the paths [fopen] can open for writing, whether
    [tmpfile] gives a file, and which [malloc] of a library call (the first
    is number 0) gives memory. *)
Record host : Type := mkHost
  { cw_byteswap : Z;                        (* -1 until the first create/open *)
    host_little : bool;                     (* byte_order () == 0 *)
    can_create : string -> bool;
    can_tmpfile : bool;
    can_malloc : nat -> bool }.

(** A host that grants every request. *)
Definition granting_host (b : Z) (little : bool) : host :=
  mkHost b little (fun _ => true) true (fun _ => true).

Record world : Type := mkWorld
  { cw_files : list (option cw_file_type); (* the table, CW_MAX_FILES slots *)
    hst : host;
    beyond : Z -> option cw_file_type;      (* what lies outside the table *)
    reg_log : list Z;                       (* indices cw_files was read at *)
    fs : filesys }.

Definition set_files_of (w : filesys) (fl : list (list Z)) : filesys :=
  mkFS (streams w) fl (names w).
Definition set_streams (w : filesys) (ss : list (option stream)) : filesys :=
  mkFS ss (files w) (names w).
Definition set_names (w : filesys) (ns : list (string * nat)) : filesys :=
  mkFS (streams w) (files w) ns.
Definition set_cw_files (w : world) (t : list (option cw_file_type)) : world :=
  mkWorld t (hst w) (beyond w) (reg_log w) (fs w).
Definition set_byteswap (w : world) (b : Z) : world :=
  mkWorld (cw_files w)
          (mkHost b (host_little (hst w)) (can_create (hst w)) (can_tmpfile (hst w))
                  (can_malloc (hst w)))
          (beyond w) (reg_log w) (fs w).
Definition log_index (w : world) (id : Z) : world :=
  mkWorld (cw_files w) (hst w) (beyond w) (reg_log w ++ [id]) (fs w).
Definition with_fs (w : world) (s : filesys) : world :=
  mkWorld (cw_files w) (hst w) (beyond w) (reg_log w) s.

Fixpoint upd {A : Type} (n : nat) (x : A) (l : list A) : list A :=
  match l, n with
  | [], _ => []
  | _ :: t, O => x :: t
  | h :: t, S k => h :: upd k x t
  end.

Definition get_stream (w : filesys) (f : nat) : option stream :=
  match nth_error (streams w) f with Some (Some s) => Some s | _ => None end.
Definition file_bytes (w : filesys) (n : nat) : list Z := nth n (files w) [].

(** Bytes written at [pos]: a gap past the end of the file reads as zeros. *)
Definition write_at (content : list Z) (pos : nat) (bytes : list Z) : list Z :=
  firstn pos content ++ repeat 0 (pos - List.length content) ++ bytes
  ++ skipn (pos + List.length bytes) content.

(** Bytes stored into a memory buffer at [off]; what would fall past the end
    of the buffer is not kept. *)
Definition blit (buf : list Z) (off : nat) (bytes : list Z) : list Z :=
  firstn off buf ++ firstn (List.length buf - off) bytes
  ++ skipn (off + List.length bytes) buf.

Definition set_pos (w : filesys) (f : nat) (s : stream) (p : Z) : filesys :=
  set_streams w (upd f (Some (mkStream (s_file s) p (s_read s) (s_write s))) (streams w)).

(** [fseek] with SEEK_SET, SEEK_CUR and SEEK_END: [true] on success. *)
Definition fseek_set (w : filesys) (f : nat) (off : Z) : filesys * bool :=
  match get_stream w f with
  | Some s => if off <? 0 then (w, false) else (set_pos w f s off, true)
  | None => (w, false)
  end.
Definition fseek_cur (w : filesys) (f : nat) (off : Z) : filesys * bool :=
  match get_stream w f with
  | Some s => if s_pos s + off <? 0 then (w, false)
              else (set_pos w f s (s_pos s + off), true)
  | None => (w, false)
  end.
Definition fseek_end (w : filesys) (f : nat) : filesys * bool :=
  match get_stream w f with
  | Some s => (set_pos w f s (Z.of_nat (List.length (file_bytes w (s_file s)))), true)
  | None => (w, false)
  end.
Definition ftell (w : filesys) (f : nat) : Z :=
  match get_stream w f with Some s => s_pos s | None => -1 end.

(** [fread (ptr, size, n, f)]: the bytes of the whole items read, and their
    number. *)
Definition fread (w : filesys) (f : nat) (size n : Z) : filesys * list Z * Z :=
  match get_stream w f with
  | Some s =>
      let avail := Z.max 0 (Z.of_nat (List.length (file_bytes w (s_file s))) - s_pos s) in
      if negb (s_read s) || (size <=? 0) || (n <=? 0) then (w, [], 0)
      else
        let items := Z.min n (avail / size) in
        let bytes := firstn (Z.to_nat (items * size))
                            (skipn (Z.to_nat (s_pos s)) (file_bytes w (s_file s))) in
        (set_pos w f s (s_pos s + items * size), bytes, items)
  | None => (w, [], 0)
  end.

(** [fwrite] of a block of bytes: [true] when all of it was written. *)
Definition fwrite (w : filesys) (f : nat) (bytes : list Z) : filesys * bool :=
  match get_stream w f with
  | Some s =>
      if negb (s_write s) then (w, false)
      else
        let c := write_at (file_bytes w (s_file s)) (Z.to_nat (s_pos s)) bytes in
        (set_pos (set_files_of w (upd (s_file s) c (files w))) f s
                 (s_pos s + Z.of_nat (List.length bytes)), true)
  | None => (w, false)
  end.

Definition fclose (w : filesys) (f : nat) : filesys :=
  set_streams w (upd f None (streams w)).

Fixpoint lookup_name (ns : list (string * nat)) (p : string) : option nat :=
  match ns with
  | [] => None
  | (q, n) :: t => if String.eqb p q then Some n else lookup_name t p
  end.

Definition new_stream (w : filesys) (s : stream) : filesys * nat :=
  (set_streams w (streams w ++ [Some s]), List.length (streams w)).

(** [fopen] in the modes the library uses.  "rb" and "r+b" need an existing
    file; "w+b" and "wb" create the file or empty it. *)
Definition fopen_existing (w : filesys) (p : string) (writable : bool)
  : filesys * option nat :=
  match lookup_name (names w) p with
  | Some n => let (w1, f) := new_stream w (mkStream n 0 true writable) in (w1, Some f)
  | None => (w, None)
  end.
Definition fopen_create (h : host) (w : filesys) (p : string) (readable : bool)
  : filesys * option nat :=
  if negb (can_create h p) then (w, None)
  else
    let (w1, f) :=
      match lookup_name (names w) p with
      | Some n => new_stream (set_files_of w (upd n [] (files w))) (mkStream n 0 readable true)
      | None =>
          new_stream (set_names (set_files_of w (files w ++ [[]]))
                                ((p, List.length (files w)) :: names w))
                     (mkStream (List.length (files w)) 0 readable true)
      end in
    (w1, Some f).
Definition tmpfile (h : host) (w : filesys) : filesys * option nat :=
  if negb (can_tmpfile h) then (w, None)
  else
    let (w1, f) := new_stream (set_files_of w (files w ++ [[]]))
                              (mkStream (List.length (files w)) 0 true true) in
    (w1, Some f).
(** [fclose] gives 0 for a stream that is open. *)
Definition fclose_ok (w : filesys) (f : nat) : bool :=
  match get_stream w f with Some _ => true | None => false end.
Definition remove (w : filesys) (p : string) : filesys :=
  set_names w (filter (fun e => negb (String.eqb p (fst e))) (names w)).

(** ** Memory views, byte order and the header attributes *)

Fixpoint byte_swap (l : list Z) : list Z :=
  match l with
  | b0 :: b1 :: t => b1 :: b0 :: byte_swap t
  | _ => l
  end.

(** An unsigned short as the host lays it out in memory, and back. *)
Definition ushort_mem (little : bool) (v : Z) : list Z :=
  if little then [v mod 256; v / 256] else [v / 256; v mod 256].
Definition mem_ushort (little : bool) (b0 b1 : Z) : Z :=
  if little then b0 + 256 * b1 else 256 * b0 + b1.
Fixpoint ushorts_of_bytes (little : bool) (l : list Z) : list Z :=
  match l with
  | b0 :: b1 :: t => mem_ushort little b0 b1 :: ushorts_of_bytes little t
  | _ => []
  end.
Definition bytes_of_ushorts (little : bool) (l : list Z) : list Z :=
  flat_map (ushort_mem little) l.

(** [cw_get_att]: status (0, -1 or -2) and the attribute code read. *)
Definition cw_get_att (h : host) (w : filesys) (f : nat) (att_offset : Z) : filesys * Z * Z :=
  let (w1, ok) := fseek_set w f att_offset in
  if negb ok then (w1, -1, 0)
  else
    let '(w2, bytes, n) := fread w1 f 2 1 in
    if n <? 1 then (w2, -2, 0)
    else
      let mem := if cw_byteswap h =? 0 then bytes else byte_swap bytes in
      (w2, 0, to_short (nth 0 (ushorts_of_bytes (host_little h) mem) 0)).

Definition cw_put_att (h : host) (w : filesys) (f : nat) (att_code att_offset : Z) : filesys * Z :=
  let mem0 := ushort_mem (host_little h) (to_ushort att_code) in
  let mem := if cw_byteswap h =? 0 then mem0 else byte_swap mem0 in
  let (w1, ok) := fseek_set w f att_offset in
  if negb ok then (w1, -1)
  else let (w2, ok2) := fwrite w1 f mem in
       if negb ok2 then (w2, -2) else (w2, 0).

(** ** Raw pixel input and output *)

(** The start and the end of the shifted window on one axis, as the shorts
    [tmp_start] and [tmp_end] of [cw_get_raw]. *)
Definition shifted_start (start shift : Z) : Z := to_short (to_short start - shift).
Definition shifted_end (start count shift : Z) : Z :=
  to_short (shifted_start start shift + to_short count - 1).

(** One turn of the shift loop: [None] when the window misses the grid on
    this axis, else [(s_ucp, s_start, s_count)]. *)
Definition shift_axis (start count shift dim : Z) : option (Z * Z * Z) :=
  let tmp_start := shifted_start start shift in
  let tmp_end := shifted_end start count shift in
  if (dim - 1 <? tmp_start) || (tmp_end <? 0) then None
  else
    let s_ucp := to_size_t (Z.abs (Z.min 0 tmp_start)) in
    let tmp_start' := to_short (Z.max 0 (Z.min tmp_start dim)) in
    let tmp_end' := to_short (Z.max 0 (Z.min tmp_end (dim - 1))) in
    Some (s_ucp, to_size_t tmp_start', to_size_t (tmp_end' - tmp_start' + 1)).

Fixpoint get_raw_rows (n : nat) (w : filesys) (f : nat)
    (pixel_size s_count_c readstep ucpstep ucp : Z) (buf : list Z)
  : filesys * Z * list Z :=
  match n with
  | O => (w, CW_NOERR, buf)
  | S k =>
      let '(w1, bytes, items) := fread w f (to_size_t pixel_size) s_count_c in
      let buf1 := blit buf (Z.to_nat ucp) bytes in
      if items <? s_count_c then (w1, CW_ERR_READ_DATA, buf1)
      else
        let (w2, ok) := match k with
                        | O => (w1, true)
                        | S _ => fseek_cur w1 f readstep
                        end in
        if negb ok then (w2, CW_ERR_READ_DATA, buf1)
        else get_raw_rows k w2 f pixel_size s_count_c readstep ucpstep
                          (to_size_t (ucp + ucpstep)) buf1
  end.

(** [cw_get_raw]: the status and the caller's buffer [raw] of [len] bytes
    as the call leaves it. *)
Definition cw_get_raw (h : host) (w : filesys) (f : nat) (pixel_size : Z) (dims start count : Z * Z)
    (shift : option (Z * Z)) : filesys * Z * list Z :=
  let len := to_size_t (fst count * snd count * pixel_size) in
  let raw := repeat 0 (Z.to_nat len) in
  let window :=
    match shift with
    | Some sh =>
        match shift_axis (fst start) (fst count) (fst sh) (fst dims) with
        | None => None
        | Some (ucp_r, start_r, count_r) =>
            match shift_axis (snd start) (snd count) (snd sh) (snd dims) with
            | None => None
            | Some (ucp_c, start_c, count_c) =>
                Some (start_r, start_c, count_r, count_c,
                      to_size_t ((ucp_r * snd count + ucp_c) * pixel_size))
            end
        end
    | None => Some (fst start, snd start, fst count, snd count, 0)
    end in
  match window with
  | None => (w, CW_NOERR, raw)
  | Some (s_start_r, s_start_c, s_count_r, s_count_c, ucpoffset) =>
      let ucpstep := to_size_t (snd count * pixel_size) in
      let cols := to_size_t (snd dims) in
      let rowstep := to_long (cols * pixel_size) in
      let headlen := to_size_t rowstep in
      let colstep := pixel_size in
      let offset := to_long (headlen + s_start_r * rowstep + s_start_c * colstep) in
      let (w1, ok) := fseek_set w f offset in
      if negb ok then (w1, CW_ERR_READ_DATA, raw)
      else
        let readstep := to_long (rowstep - s_count_c * colstep) in
        let rowend := to_size_t (s_start_r + s_count_r) in
        let '(w2, ret, raw2) :=
          get_raw_rows (Z.to_nat (rowend - s_start_r)) w1 f pixel_size s_count_c
                       readstep ucpstep ucpoffset raw in
        if negb (ret =? CW_NOERR) then (w2, ret, raw2)
        else if negb (cw_byteswap h =? 0) && (pixel_size =? 2)
             then (w2, CW_NOERR, byte_swap raw2)
             else (w2, CW_NOERR, raw2)
  end.

Fixpoint put_raw_rows (n : nat) (w : filesys) (f : nat)
    (pixel_size count_c writestep ucpstep ucp : Z) (data : list Z) : filesys * Z :=
  match n with
  | O => (w, CW_NOERR)
  | S k =>
      let bytes := firstn (Z.to_nat (count_c * pixel_size)) (skipn (Z.to_nat ucp) data) in
      let (w1, ok) := fwrite w f bytes in
      if negb ok && (0 <? count_c) then (w1, CW_ERR_WRITE_DATA)
      else
        let (w2, ok2) := match k with
                         | O => (w1, true)
                         | S _ => fseek_cur w1 f writestep
                         end in
        if negb ok2 then (w2, CW_ERR_WRITE_DATA)
        else put_raw_rows k w2 f pixel_size count_c writestep ucpstep
                          (to_size_t (ucp + ucpstep)) data
  end.

Definition cw_put_raw (h : host) (w : filesys) (f : nat) (raw : list Z) (pixel_size : Z)
    (dims start count : Z * Z) : filesys * Z :=
  let data := if negb (cw_byteswap h =? 0) && (pixel_size =? 2)
              then byte_swap raw else raw in
  let ucpstep := to_size_t (snd count * pixel_size) in
  let cols := to_size_t (snd dims) in
  let rowstep := to_long (cols * pixel_size) in
  let headlen := to_size_t rowstep in
  let colstep := pixel_size in
  let offset := to_long (headlen + fst start * rowstep + snd start * colstep) in
  let (w1, ok) := fseek_set w f offset in
  if negb ok then (w1, CW_ERR_WRITE_DATA)
  else
    let writestep := to_long (rowstep - snd count * colstep) in
    let rowend := to_size_t (fst start + fst count) in
    put_raw_rows (Z.to_nat (rowend - fst start)) w1 f pixel_size (snd count)
                 writestep ucpstep 0 data.

(** ** Channel data and graphics in one 16-bit word *)

Definition separate_data (usp : list Z) : list Z := map CW_UNC_RVAL usp.
Definition separate_graphics (usp : list Z) : list Z := map CW_UNC_RGRA usp.

(** [cw_combine_channel]; [None] is the null pointer. *)
Definition cw_combine_channel (sp ucp : option (list Z)) : list Z :=
  match sp, ucp with
  | None, Some g => map (fun b => to_ushort (CW_UNC_W 0 b)) g
  | Some d, None => map (fun a => to_ushort (CW_UNC_W a 0)) d
  | Some d, Some g => map (fun ab => to_ushort (CW_UNC_W (fst ab) (snd ab))) (combine d g)
  | None, None => []
  end.

(** ** The 1B compression codec *)

(** The table is indexed by a C [int]: [slot_at] is the value of
    [cw_files[id]], taken from [beyond] when [id] is no index of the table,
    and [set_slot] the assignment to it (not tracked outside the table). *)
Definition in_table (id : Z) : bool := (0 <=? id) && (id <? CW_MAX_FILES).
Definition slot_at (w : world) (id : Z) : option cw_file_type :=
  if in_table id then nth (Z.to_nat id) (cw_files w) None else beyond w id.
Definition set_slot (w : world) (cwid : Z) (cf : option cw_file_type) : world :=
  if in_table cwid then set_cw_files w (upd (Z.to_nat cwid) cf (cw_files w)) else w.

(** The bytes written for one channel value: [first] is [i == 0 && j == 0]. *)
Definition com_value (first : bool) (lastd d : Z) : list Z :=
  if first || (63 <? Z.abs (d - lastd))
  then [to_uchar (CW_COM_WVAL_B1 d); to_uchar (CW_COM_WVAL_B2 d)]
  else [to_uchar (CW_COM_WVAL (d - lastd))].

(** The inner loop over the columns of one row: the bytes written and the
    last value seen. *)
Fixpoint com_row (first : bool) (lastd : Z) (data : list Z) : list Z * Z :=
  match data with
  | [] => ([], lastd)
  | d :: t => let (bs, l) := com_row false d t in (com_value first lastd d ++ bs, l)
  end.

(** Run-length coding of one row of graphics; [k] is the run counted so far. *)
Fixpoint com_graphics (g : list Z) (k : Z) : list Z :=
  match g with
  | [] => []
  | a :: t =>
      match t with
      | b :: _ => if (a =? b) && (k <? 255) then com_graphics t (k + 1)
                  else to_uchar (CW_COM_WGRA_B1 a) :: CW_COM_WGRA_B2 k :: com_graphics t 0
      | [] => [to_uchar (CW_COM_WGRA_B1 a); CW_COM_WGRA_B2 k]
      end
  end.

(** The two row loops of [cw_compress]; each row is written with the bytes of
    its values in order. *)
Fixpoint com_data_rows (h : host) (n : nat) (w : filesys) (ufp cfp : nat) (dims : Z * Z)
    (columns i lastd : Z) : filesys * Z :=
  match n with
  | O => (w, CW_NOERR)
  | S k =>
      let '(w1, ret, raw) := cw_get_raw h w ufp 2 dims (i, 0) (1, columns) None in
      if negb (ret =? CW_NOERR) then (w1, CW_ERR_READ_DATA)
      else
        let data := separate_data (ushorts_of_bytes (host_little h) raw) in
        let (bytes, lastd') := com_row (i =? 0) lastd data in
        let (w2, ok) := fwrite w1 cfp bytes in
        if negb ok && negb (Nat.eqb (List.length bytes) 0) then (w2, CW_ERR_WRITE_DATA)
        else com_data_rows h k w2 ufp cfp dims columns (i + 1) lastd'
  end.

Fixpoint com_graphics_rows (h : host) (n : nat) (w : filesys) (ufp cfp : nat) (dims : Z * Z)
    (columns i : Z) : filesys * Z :=
  match n with
  | O => (w, CW_NOERR)
  | S k =>
      let '(w1, ret, raw) := cw_get_raw h w ufp 2 dims (i, 0) (1, columns) None in
      if negb (ret =? CW_NOERR) then (w1, CW_ERR_READ_DATA)
      else
        let g := separate_graphics (ushorts_of_bytes (host_little h) raw) in
        let bytes := com_graphics g 0 in
        let (w2, ok) := fwrite w1 cfp bytes in
        if negb ok && negb (Nat.eqb (List.length bytes) 0) then (w2, CW_ERR_WRITE_DATA)
        else com_graphics_rows h k w2 ufp cfp dims columns (i + 1)
  end.

(** [cw_compress] on the dataset [cf] (the struct [cw_files[cwid]] points to);
    the result carries the struct as the call leaves it. *)
Definition cw_compress (h : host) (w : filesys) (cf : cw_file_type)
  : filesys * Z * cw_file_type :=
  match fopen_create h w (path cf) false with
  | (w0, None) => (w0, CW_ERR_CFILE, cf)
  | (w0, Some cfp) =>
      let rows := to_size_t (fst (dims cf)) in
      let columns := to_size_t (snd (dims cf)) in
      let headlen := to_size_t (columns * 2) in
      if negb (can_malloc h 0) then (w0, CW_ERR_NOMEM, cf)
      else
        match ufp cf with
        | None => (w0, CW_ERR_READ_DATA, cf)
        | Some u =>
            let (w1, ok) := fseek_set w0 u 0 in
            if negb ok then (w1, CW_ERR_READ_DATA, cf)
            else
              let '(w2, head, items) := fread w1 u 1 headlen in
              if items <? headlen then (w2, CW_ERR_READ_DATA, cf)
              else
                let (w3, ok3) := fwrite w2 cfp head in
                if negb ok3 && (0 <? headlen) then (w3, CW_ERR_WRITE_DATA, cf)
                else
                  let (w4, ok4) :=
                    if CW_HEAD_COMP <? headlen then fseek_set w3 cfp CW_HEAD_COMP
                    else if headlen <? CW_HEAD_COMP
                         then fwrite w3 cfp (repeat 0 (Z.to_nat (CW_HEAD_COMP - headlen)))
                         else (w3, true) in
                  if negb ok4 then (w4, CW_ERR_WRITE_DATA, cf)
                  else if negb (can_malloc h 1 && can_malloc h 2) then (w4, CW_ERR_NOMEM, cf)
                  else
                    let (w5, ret5) :=
                      com_data_rows h (Z.to_nat rows) w4 u cfp (dims cf) columns 0 0 in
                    if negb (ret5 =? CW_NOERR) then (w5, ret5, cf)
                    else if negb (can_malloc h 3) then (w5, CW_ERR_NOMEM, cf)
                    else
                      let (w6, ret6) :=
                        com_graphics_rows h (Z.to_nat rows) w5 u cfp (dims cf) columns 0 in
                      if negb (ret6 =? CW_NOERR) then (w6, ret6, cf)
                      else if negb (fclose_ok w6 u) then (w6, CW_ERR_UFILE, cf)
                      else
                        (fclose w6 u, CW_NOERR,
                         mkFile cfp None (path cf) (defmode cf) (wmode cf)
                                (data_id cf) (graphics cf) (dims cf) (pixel_size cf))
        end
  end.

(** Decoding of the channel values of one row; [first] is [i == 0 && j == 0].
    The result is the status, the row and the last value. *)
Fixpoint unc_row (n : nat) (w : filesys) (cfp : nat) (first : bool) (lastd : Z)
    (data : list Z) : filesys * Z * list Z * Z :=
  match n with
  | O => (w, CW_NOERR, data, lastd)
  | S k =>
      let '(w1, b0, items) := fread w cfp 1 1 in
      if items <? 1 then (w1, CW_ERR_READ_DATA, data, lastd)
      else
        let byte0 := nth 0 b0 0 in
        if negb (CW_COM_ISMVAL byte0 =? 0) then
          let '(w2, b1, items2) := fread w1 cfp 1 1 in
          if items2 <? 1 then (w2, CW_ERR_READ_DATA, data, lastd)
          else
            let d := to_short (CW_COM_RMVAL byte0 (nth 0 b1 0)) in
            unc_row k w2 cfp false d (data ++ [d])
        else if first then (w1, CW_ERR_COM_BYTE0, data, lastd)
        else
          let d := to_short (CW_COM_RVAL lastd byte0) in
          unc_row k w1 cfp false d (data ++ [d])
  end.

Fixpoint unc_data_rows (h : host) (n : nat) (w : filesys) (ufp cfp : nat) (dims : Z * Z)
    (columns i lastd : Z) : filesys * Z :=
  match n with
  | O => (w, CW_NOERR)
  | S k =>
      let '(w1, ret, data, lastd') :=
        unc_row (Z.to_nat columns) w cfp (i =? 0) lastd [] in
      if negb (ret =? CW_NOERR) then (w1, ret)
      else
        let raw := bytes_of_ushorts (host_little h) (cw_combine_channel (Some data) None) in
        let (w2, ret2) := cw_put_raw h w1 ufp raw 2 dims (i, 0) (1, columns) in
        if negb (ret2 =? CW_NOERR) then (w2, CW_ERR_WRITE_DATA)
        else unc_data_rows h k w2 ufp cfp dims columns (i + 1) lastd'
  end.

(** Decoding of the graphics of one row from column [j] on: each pair read
    fills [k] places, [k] at most the run length plus one and stopping at the
    end of the row.  [g] is the graphics memory written so far. *)
Fixpoint unc_graphics_row (n : nat) (w : filesys) (cfp : nat) (j columns : Z)
    (g : list Z) (b1 k : Z) : filesys * bool * Z * list Z * Z * Z :=
  match n with
  | O => (w, true, j, g, b1, k)
  | S m =>
      if columns <=? j then (w, true, j, g, b1, k)
      else
        let '(w1, bytes, items) := fread w cfp 1 2 in
        if items <? 2 then (w1, false, j, g, b1, k)
        else
          let run := nth 1 bytes 0 in
          let k' := Z.min (run + 1) (columns - j) in
          unc_graphics_row m w1 cfp (j + k') columns
            (g ++ repeat (CW_COM_RGRA (nth 0 bytes 0)) (Z.to_nat k')) run k'
  end.

(** The graphics loop of [cw_uncompress], carrying [spill], [lastg] and the
    stale [bytes[1]] and [k] from row to row. *)
Fixpoint unc_graphics_rows (h : host) (n : nat) (w : filesys) (ufp cfp : nat) (dims : Z * Z)
    (columns i spill lastg b1 k : Z) : filesys * Z :=
  match n with
  | O => (w, CW_NOERR)
  | S m =>
      let '(w1, ok, j, g, b1', k') :=
        unc_graphics_row (Z.to_nat (columns - spill)) w cfp spill columns
                         (repeat lastg (Z.to_nat spill)) b1 k in
      if negb ok then (w1, CW_ERR_READ_DATA)
      else
        let lastg' := if j <? 1 then 0 else nth (Z.to_nat (j - 1)) g 0 in
        let spill' := to_size_t (b1' - k' + 1) in
        let '(w2, ret, raw) := cw_get_raw h w1 ufp 2 dims (i, 0) (1, columns) None in
        if negb (ret =? CW_NOERR) then (w2, CW_ERR_READ_DATA)
        else
          let data := separate_data (ushorts_of_bytes (host_little h) raw) in
          let raw' := bytes_of_ushorts (host_little h)
                        (cw_combine_channel (Some data)
                                            (Some (firstn (Z.to_nat columns) g))) in
          let (w3, ret3) := cw_put_raw h w2 ufp raw' 2 dims (i, 0) (1, columns) in
          if negb (ret3 =? CW_NOERR) then (w3, CW_ERR_WRITE_DATA)
          else unc_graphics_rows h m w3 ufp cfp dims columns (i + 1) spill' lastg' b1' k'
  end.

(** [cw_uncompress] on the dataset [cf], likewise. *)
Definition cw_uncompress (h : host) (w : filesys) (cf : cw_file_type)
  : filesys * Z * cw_file_type :=
  let cfp := fp cf in
  match tmpfile h w with
  | (w0, None) => (w0, CW_ERR_UFILE, cf)
  | (w0, Some u) =>
      let rows := to_size_t (fst (dims cf)) in
      let columns := to_size_t (snd (dims cf)) in
      let headlen := CW_HEAD_COMP in
      if negb (can_malloc h 0) then (w0, CW_ERR_NOMEM, cf)
      else
        let (w1, ok) := fseek_set w0 cfp 0 in
        if negb ok then (w1, CW_ERR_READ_DATA, cf)
        else
          let '(w2, head, items) := fread w1 cfp 1 headlen in
          if items <? headlen then (w2, CW_ERR_READ_DATA, cf)
          else
            let (w3, ok3) := fwrite w2 u head in
            if negb ok3 then (w3, CW_ERR_WRITE_DATA, cf)
            else
              let uheadlen := to_size_t (columns * 2) in
              let (w4, ok4) :=
                if headlen <? uheadlen
                then fwrite w3 u (repeat 0 (Z.to_nat (uheadlen - headlen)))
                else (w3, true) in
              if negb ok4 then (w4, CW_ERR_WRITE_DATA, cf)
              else if negb (can_malloc h 1 && can_malloc h 2) then (w4, CW_ERR_NOMEM, cf)
              else
                let (w5, ret5) :=
                  unc_data_rows h (Z.to_nat rows) w4 u cfp (dims cf) columns 0 0 in
                if negb (ret5 =? CW_NOERR) then (w5, ret5, cf)
                else if negb (can_malloc h 3) then (w5, CW_ERR_NOMEM, cf)
                else
                  let (w6, ret6) :=
                    unc_graphics_rows h (Z.to_nat rows) w5 u cfp (dims cf) columns 0 0 0 0 0 in
                  if negb (ret6 =? CW_NOERR) then (w6, ret6, cf)
                  else
                    (fclose w6 cfp, CW_NOERR,
                     mkFile u (Some u) (path cf) (defmode cf) (wmode cf)
                            (data_id cf) (graphics cf) (dims cf) (pixel_size cf))
  end.

(** ** Decoding and encoding of channel data *)

Definition guess_calibration (calibration data_id : Z) : Z :=
  if negb (calibration =? CW_CALIBRATION_TYPE_RAW)
     && negb (calibration =? CW_CALIBRATION_TYPE_ALBEDO_TEMPERATURE)
     && ((data_id =? CW_DATA_ID_VISIBLE) || (data_id =? CW_DATA_ID_IR))
  then CW_CALIBRATION_TYPE_ALBEDO_TEMPERATURE else calibration.

(** [cw_decode_channel] as [cw_get_vara] calls it, with floats asked for and
    no graphics ([ucp] null). *)
Definition cw_decode_channel (usp : list Z) (calibration data_id compression channel : Z)
  : Z * list float32 :=
  let sp := if negb (compression =? CW_COMPRESSION_TYPE_FLAT)
            then separate_data usp else map to_short usp in
  let cal := guess_calibration calibration data_id in
  if cal =? CW_CALIBRATION_TYPE_RAW then (CW_NOERR, cw_cal_raw sp compression)
  else if cal =? CW_CALIBRATION_TYPE_ALBEDO_TEMPERATURE then
    if data_id =? CW_DATA_ID_VISIBLE then (CW_NOERR, cw_cal_visible sp compression)
    else if data_id =? CW_DATA_ID_IR then (CW_NOERR, cw_cal_ir sp compression channel)
    else (CW_ERR_UNSUP_DATA_ID, [])
  else (CW_ERR_UNSUP_CALIBRATION_TYPE, []).

(** [cw_encode_channel] with floats given: the status and the combined words. *)
Definition cw_encode_channel (fltp : list float32) (ucp : option (list Z))
    (calibration data_id : Z) : Z * list Z :=
  let cal := guess_calibration calibration data_id in
  if cal =? CW_CALIBRATION_TYPE_RAW
  then (CW_NOERR, cw_combine_channel (Some (cw_uncal_raw fltp)) ucp)
  else if cal =? CW_CALIBRATION_TYPE_ALBEDO_TEMPERATURE then
    if data_id =? CW_DATA_ID_VISIBLE
    then (CW_NOERR, cw_combine_channel (Some (cw_uncal_visible fltp)) ucp)
    else if data_id =? CW_DATA_ID_IR
    then (CW_NOERR, cw_combine_channel (Some (cw_uncal_ir fltp)) ucp)
    else (CW_ERR_UNSUP_DATA_ID, [])
  else (CW_ERR_UNSUP_CALIBRATION_TYPE, []).

(** ** Reading and writing a window of a variable *)

(** "Check start and extents": the comparisons are made in [size_t], to which
    [dims[i]-1] is converted. *)
Definition index_out_of_range (dims start count : Z * Z) : bool :=
  (to_size_t (fst dims - 1) <? fst start)
  || (to_size_t (snd dims - 1) <? snd start)
  || (to_size_t (fst dims - 1) <? to_size_t (fst start + fst count - 1))
  || (to_size_t (snd dims - 1) <? to_size_t (snd start + snd count - 1)).

(** "Check compression", the same block in [cw_get_vara] and [cw_put_vara]:
    a 1B file is uncompressed on its first access.  The result carries the
    dataset struct as the block leaves it. *)
Definition check_compression (h : host) (s : filesys) (cf : cw_file_type)
  : filesys * Z * cw_file_type :=
  match ufp cf with
  | None =>
      if ((data_id cf =? CW_DATA_ID_VISIBLE) || (data_id cf =? CW_DATA_ID_IR))
         && (pixel_size cf =? 2)
      then
        let '(s1, st, compression) := cw_get_att h s (fp cf) CW_O_COMPRESSION_TYPE in
        if negb (st =? 0) then (s1, CW_ERR_READ_ATT, cf)
        else if (compression =? CW_COMPRESSION_TYPE_NONE)
                || (compression =? CW_COMPRESSION_TYPE_FLAT) then (s1, CW_NOERR, cf)
        else if compression =? CW_COMPRESSION_TYPE_1B then cw_uncompress h s1 cf
        else (s1, CW_ERR_UNSUP_COMPRESSION_TYPE, cf)
      else (s, CW_NOERR, cf)
  | Some _ => (s, CW_NOERR, cf)
  end.

(** The two shift attributes, rows first: [None] when a read fails. *)
Definition get_shifts (h : host) (s : filesys) (f : nat) : filesys * option (Z * Z) :=
  let '(s1, st1, vs) := cw_get_att h s f CW_O_VERTICAL_SHIFT in
  if negb (st1 =? 0) then (s1, None)
  else
    let '(s2, st2, hs) := cw_get_att h s1 f CW_O_HORIZONTAL_SHIFT in
    if negb (st2 =? 0) then (s2, None) else (s2, Some (vs, hs)).

(** The caller's array behind the untyped [data] of the get and put calls. *)
Inductive cw_data : Type :=
  | DataFloat (l : list float32)
  | DataByte (l : list Z).

Definition type_of_data (d : cw_data) : Z :=
  match d with DataFloat _ => CW_FLOAT | DataByte _ => CW_BYTE end.

Definition cw_cast_frombyte (byte : list Z) (type : Z) : Z * option cw_data :=
  if type =? CW_BYTE then (CW_NOERR, Some (DataByte byte))
  else if type =? CW_FLOAT then (CW_NOERR, Some (DataFloat (map f32_of_Z byte)))
  else (CW_ERR_VAR_VALUE, None).

Definition cw_cast_tofloat (data : cw_data) : list float32 :=
  match data with
  | DataByte l => map f32_of_Z l
  | DataFloat l => l
  end.

(** The floats read through the cast of [data] to a pointer to float: a byte
    array seen through that cast is memory the model does not follow, and
    gives no value. *)
Definition floats_behind (data : cw_data) : list float32 :=
  match data with DataFloat l => l | DataByte _ => [] end.
Definition bytes_behind (data : cw_data) : list Z :=
  match data with DataByte l => l | DataFloat _ => [] end.

(** The part of [cw_get_vara] after the compression check, on the files. *)
Definition get_vara_body (h : host) (s1 : filesys) (cf : cw_file_type)
    (varid : Z) (start count : Z * Z) (type : Z) : filesys * Z * option cw_data :=
  let len := to_size_t (fst count * snd count) in
  let f := fp cf in
  let dm := dims cf in
  let psz := pixel_size cf in
  let did := data_id cf in
  if varid =? CW_DATA then
    match get_shifts h s1 f with
    | (s2, None) => (s2, CW_ERR_READ_ATT, None)
    | (s2, Some shift) =>
        let '(s3, ret, raw) := cw_get_raw h s2 f psz dm start count (Some shift) in
        if negb (ret =? CW_NOERR) then (s3, ret, None)
        else if (did =? CW_DATA_ID_VISIBLE) || (did =? CW_DATA_ID_IR) then
          if negb (type =? CW_FLOAT) then (s3, CW_ERR_VAR_VALUE, None)
          else
            let '(s4, a1, calibration) := cw_get_att h s3 f CW_O_CALIBRATION_TYPE in
            if negb (a1 =? 0) then (s4, CW_ERR_READ_ATT, None)
            else
              let '(s5, a2, compression) := cw_get_att h s4 f CW_O_COMPRESSION_TYPE in
              if negb (a2 =? 0) then (s5, CW_ERR_READ_ATT, None)
              else
                let '(s6, a3, channel) := cw_get_att h s5 f CW_O_CHANNEL_NUMBER in
                if negb (a3 =? 0) then (s6, CW_ERR_READ_ATT, None)
                else
                  let (r, fl) :=
                    cw_decode_channel
                      (firstn (Z.to_nat len) (ushorts_of_bytes (host_little h) raw))
                      calibration did compression channel in
                  (s6, r, if r =? CW_NOERR then Some (DataFloat fl) else None)
        else if did =? CW_DATA_ID_ANCILLARY then
          if negb (type =? CW_FLOAT) then (s3, CW_ERR_VAR_VALUE, None)
          else
            let '(s4, a1, channel) := cw_get_att h s3 f CW_O_CHANNEL_NUMBER in
            if negb (a1 =? 0) then (s4, CW_ERR_READ_ATT, None)
            else
              let '(s5, a2, compression) := cw_get_att h s4 f CW_O_COMPRESSION_TYPE in
              if negb (a2 =? 0) then (s5, CW_ERR_READ_ATT, None)
              else
                let (r, fl) :=
                  cw_decode_ancillary
                    (firstn (Z.to_nat len) (ushorts_of_bytes (host_little h) raw))
                    channel compression in
                (s5, r, if r =? CW_NOERR then Some (DataFloat fl) else None)
        else if did =? CW_DATA_ID_CLOUD then
          let (r, d) := cw_cast_frombyte (firstn (Z.to_nat len) raw) type in
          (s3, r, d)
        else (s3, CW_ERR_UNSUP_DATA_ID, None)
    end
  else if varid =? CW_GRAPHICS then
    if graphics cf =? -1 then (s1, CW_ERR_VAR_ID, None)
    else if (did =? CW_DATA_ID_VISIBLE) || (did =? CW_DATA_ID_IR) then
      let '(s2, ret, raw) := cw_get_raw h s1 f psz dm start count None in
      if negb (ret =? CW_NOERR) then (s2, ret, None)
      else
        let ucp := separate_graphics
                     (firstn (Z.to_nat len) (ushorts_of_bytes (host_little h) raw)) in
        let (r, d) := cw_cast_frombyte ucp type in
        (s2, r, d)
    else (s1, CW_ERR_VAR_ID, None)
  else (s1, CW_ERR_VAR_ID, None).

(** [cw_get_vara]: the status and what the call stored in the caller's
    array ([None]: nothing). *)
Definition cw_get_vara (w0 : world) (cwid varid : Z) (start count : Z * Z) (type : Z)
  : world * Z * option cw_data :=
  let w := log_index w0 cwid in
  match slot_at w cwid with
  | None => (w, CW_ERR_DATASET_ID, None)
  | Some cf0 =>
      if defmode cf0 then (w, CW_ERR_DEFINE_MODE, None)
      else if index_out_of_range (dims cf0) start count then (w, CW_ERR_VAR_INDEX, None)
      else
        let '(s1, rc, cf) := check_compression (hst w) (fs w) cf0 in
        let w1 := set_slot w cwid (Some cf) in
        if negb (rc =? CW_NOERR) then (with_fs w1 s1, rc, None)
        else
          let '(s2, ret, d) := get_vara_body (hst w) s1 cf varid start count type in
          (with_fs w1 s2, ret, d)
  end.

(** The switch of [cw_put_vara] that fills [raw]: the status and [raw]. *)
Definition put_vara_encode (h : host) (s2 : filesys) (cf : cw_file_type)
    (varid : Z) (start count : Z * Z) (data : cw_data) : filesys * Z * list Z :=
  let type := type_of_data data in
  let len := to_size_t (fst count * snd count) in
  let f := fp cf in
  let dm := dims cf in
  let psz := pixel_size cf in
  let did := data_id cf in
  if varid =? CW_DATA then
    if (did =? CW_DATA_ID_VISIBLE) || (did =? CW_DATA_ID_IR) then
      let fltp := firstn (Z.to_nat len) (cw_cast_tofloat data) in
      let '(s3, a1, calibration) := cw_get_att h s2 f CW_O_CALIBRATION_TYPE in
      if negb (a1 =? 0) then (s3, CW_ERR_READ_ATT, [])
      else
        let '(s4, r, raw0) := cw_get_raw h s3 f psz dm start count None in
        if negb (r =? CW_NOERR) then (s4, r, raw0)
        else
          let ucp := separate_graphics
                       (firstn (Z.to_nat len) (ushorts_of_bytes (host_little h) raw0)) in
          let (r2, usp) := cw_encode_channel fltp (Some ucp) calibration did in
          (s4, r2, if r2 =? CW_NOERR then bytes_of_ushorts (host_little h) usp else raw0)
    else if did =? CW_DATA_ID_ANCILLARY then
      let '(s3, a1, channel) := cw_get_att h s2 f CW_O_CHANNEL_NUMBER in
      if negb (a1 =? 0) then (s3, CW_ERR_READ_ATT, [])
      else
        let (r, usp) :=
          cw_encode_ancillary (firstn (Z.to_nat len) (floats_behind data)) channel in
        (s3, r, bytes_of_ushorts (host_little h) usp)
    else if did =? CW_DATA_ID_CLOUD then
      if negb (type =? CW_BYTE) then (s2, CW_ERR_VAR_VALUE, [])
      else (s2, CW_NOERR, firstn (Z.to_nat len) (bytes_behind data))
    else (s2, CW_ERR_UNSUP_DATA_ID, [])
  else if varid =? CW_GRAPHICS then
    if negb (type =? CW_BYTE) then (s2, CW_ERR_VAR_VALUE, [])
    else if graphics cf =? -1 then (s2, CW_ERR_VAR_ID, [])
    else if (did =? CW_DATA_ID_VISIBLE) || (did =? CW_DATA_ID_IR) then
      let '(s3, r, raw0) := cw_get_raw h s2 f psz dm start count None in
      if negb (r =? CW_NOERR) then (s3, r, raw0)
      else
        let sp := separate_data
                    (firstn (Z.to_nat len) (ushorts_of_bytes (host_little h) raw0)) in
        (s3, CW_NOERR,
         bytes_of_ushorts (host_little h)
           (cw_combine_channel (Some sp)
              (Some (firstn (Z.to_nat len) (bytes_behind data)))))
    else (s2, CW_ERR_VAR_ID, [])
  else (s2, CW_ERR_VAR_ID, []).

(** [cw_put_vara]; the type argument is the one of the caller's array. *)
Definition cw_put_vara (w0 : world) (cwid varid : Z) (start count : Z * Z) (data : cw_data)
  : world * Z :=
  let w := log_index w0 cwid in
  match slot_at w cwid with
  | None => (w, CW_ERR_DATASET_ID)
  | Some cf0 =>
      if defmode cf0 then (w, CW_ERR_DEFINE_MODE)
      else if index_out_of_range (dims cf0) start count then (w, CW_ERR_VAR_INDEX)
      else
        let '(s1, rc, cf) := check_compression (hst w) (fs w) cf0 in
        let w1 := set_slot w cwid (Some cf) in
        if negb (rc =? CW_NOERR) then (with_fs w1 s1, rc)
        else
          match get_shifts (hst w) s1 (fp cf) with
          | (s2, None) => (with_fs w1 s2, CW_ERR_READ_ATT)
          | (s2, Some (vshift, hshift)) =>
              if negb (vshift =? 0) || negb (hshift =? 0)
              then (with_fs w1 s2, CW_ERR_WRITE_SHIFT)
              else
                let '(s3, ret, raw) :=
                  put_vara_encode (hst w) s2 cf varid start count data in
                if ret =? CW_NOERR then
                  let (s4, r4) :=
                    cw_put_raw (hst w) s3 (fp cf) raw (pixel_size cf) (dims cf) start count in
                  (with_fs w1 s4, r4)
                else (with_fs w1 s3, ret)
          end
  end.

(** ** The registry: create, open, end of define mode, close *)

(** "Determine byte order": done once, by the first create or open. *)
Definition init_byteswap (w : world) : world :=
  if cw_byteswap (hst w) =? -1
  then set_byteswap w (if host_little (hst w) then 1 else 0) else w.

(** "Find file slot": [id = 0; while (cw_files[id] != NULL && id < CW_MAX_FILES)
    id++;].  Every evaluation of [cw_files[id]] is logged; 101 turns are
    enough, for the second test fails at 100 at the latest. *)
Fixpoint find_slot (fuel : nat) (w : world) (id : Z) : world * Z :=
  match fuel with
  | O => (w, id)
  | S k =>
      let w1 := log_index w id in
      match slot_at w1 id with
      | Some _ => if id <? CW_MAX_FILES then find_slot k w1 (id + 1) else (w1, id)
      | None => (w1, id)
      end
  end.

(** [cw_create]: the status and the dataset id stored through [cwidp]. *)
Definition cw_create (w0 : world) (p : string) (cmode : Z) : world * Z * option Z :=
  let w := init_byteswap w0 in
  if negb ((cmode =? CW_CLOBBER) || (cmode =? CW_NOCLOBBER))
  then (w, CW_ERR_CREATE_MODE, None)
  else
    let (w1, id) := find_slot 101 w 0 in
    if id =? CW_MAX_FILES then (w1, CW_ERR_MAX_FILES, None)
    else
      let (s2, found) :=
        if cmode =? CW_CLOBBER then (fs w1, false)
        else match fopen_existing (fs w1) p false with
             | (s, Some f) => (fclose s f, true)
             | (s, None) => (s, false)
             end in
      if found then (with_fs w1 s2, CW_ERR_CREATE_EXISTS, None)
      else
        match fopen_create (hst w1) s2 p true with
        | (s3, None) => (with_fs w1 s3, CW_ERR_CREATE, None)
        | (s3, Some f) =>
            if negb (can_malloc (hst w1) 0 && can_malloc (hst w1) 1)
            then (with_fs w1 (remove (fclose s3 f) p), CW_ERR_NOMEM, None)
            else
              let cf := mkFile f None p true CW_WRITE (-1) (-1) (-1, -1) (-1) in
              let (s4, ok) :=
                fwrite s3 f (CW_MAGIC_NUM :: repeat 0 (Z.to_nat (CW_HEAD_MIN - 1))) in
              if negb ok
              then (with_fs w1 (remove (fclose s4 f) p), CW_ERR_CREATE_HEADER, None)
              else (with_fs (set_slot w1 id (Some cf)) s4, CW_NOERR, Some id)
        end.

(** What [cw_open] reads from the header once the magic number is right: the
    status and the fields data_id, dims, pixel_size and graphics. *)
Definition open_header (h : host) (s3 : filesys) (f : nat)
  : filesys * Z * (Z * (Z * Z) * Z * Z) :=
  let none := (0, (0, 0), 0, 0) in
  let '(s4, a1, did) := cw_get_att h s3 f CW_O_DATA_ID in
  if negb (a1 =? 0) then (s4, CW_ERR_READ_ATT, none)
  else
    let '(s5, a2, rows) := cw_get_att h s4 f CW_O_ROWS in
    if negb (a2 =? 0) then (s5, CW_ERR_READ_ATT, none)
    else
      let '(s6, a3, columns) := cw_get_att h s5 f CW_O_COLUMNS in
      if negb (a3 =? 0) then (s6, CW_ERR_READ_ATT, none)
      else if (did =? CW_DATA_ID_VISIBLE) || (did =? CW_DATA_ID_IR) then
        let '(s7, a4, psz) := cw_get_att h s6 f CW_O_CHANNEL_PIXEL_SIZE in
        if negb (a4 =? 0) then (s7, CW_ERR_READ_ATT, none)
        else if negb (psz =? 2) then (s7, CW_ERR_UNSUP_PIXEL_SIZE, none)
        else
          let '(s8, a5, compression) := cw_get_att h s7 f CW_O_COMPRESSION_TYPE in
          if negb (a5 =? 0) then (s8, CW_ERR_READ_ATT, none)
          else (s8, CW_NOERR,
                (did, (rows, columns), psz,
                 if compression =? CW_COMPRESSION_TYPE_FLAT then -1 else 1))
      else if did =? CW_DATA_ID_ANCILLARY then
        let '(s7, a4, psz) := cw_get_att h s6 f CW_O_ANCILLARY_PIXEL_SIZE in
        if negb (a4 =? 0) then (s7, CW_ERR_READ_ATT, none)
        else if negb (psz =? 2) then (s7, CW_ERR_UNSUP_PIXEL_SIZE, none)
        else (s7, CW_NOERR, (did, (rows, columns), psz, -1))
      else if did =? CW_DATA_ID_CLOUD then (s6, CW_NOERR, (did, (rows, columns), 1, -1))
      else (s6, CW_ERR_UNSUP_DATA_ID, none).

(** [cw_open]. *)
Definition cw_open (w0 : world) (p : string) (omode : Z) : world * Z * option Z :=
  let w := init_byteswap w0 in
  if negb ((omode =? CW_NOWRITE) || (omode =? CW_WRITE))
  then (w, CW_ERR_ACCESS_MODE, None)
  else
    let (w1, id) := find_slot 101 w 0 in
    if id =? CW_MAX_FILES then (w1, CW_ERR_MAX_FILES, None)
    else
      match fopen_existing (fs w1) p (negb (omode =? CW_NOWRITE)) with
      | (s2, None) => (with_fs w1 s2, CW_ERR_ACCESS, None)
      | (s2, Some f) =>
          let '(s3, magic, items) := fread s2 f 1 1 in
          if items <? 1 then (with_fs w1 (fclose s3 f), CW_ERR_MAGIC_READ, None)
          else if negb (nth 0 magic 0 =? CW_MAGIC_NUM)
          then (with_fs w1 (fclose s3 f), CW_ERR_MAGIC, None)
          else
            let '(s4, rc, (did, dm, psz, gr)) := open_header (hst w1) s3 f in
            if negb (rc =? CW_NOERR) then (with_fs w1 (fclose s4 f), rc, None)
            else (with_fs (set_slot w1 id (Some (mkFile f None p false omode did gr dm psz)))
                          s4, CW_NOERR, Some id)
      end.

(** [cpyfile]: both files rewound, then all of [src] written to [dst]. *)
Definition cpyfile (s : filesys) (dst src : nat) : filesys * Z :=
  let (s1, _) := fseek_set s dst 0 in
  let (s2, _) := fseek_set s1 src 0 in
  let '(s3, bytes, n) :=
    fread s2 src 1 (Z.of_nat (List.length (match get_stream s2 src with
                                           | Some st => file_bytes s2 (s_file st)
                                           | None => []
                                           end))) in
  let (s4, ok) := fwrite s3 dst bytes in
  if negb ok && (0 <? n) then (s4, -1) else (s4, 0).

(** [cw_enddef] once the dataset [cf] has been found: the status and the
    struct as the call leaves it.  The zeros that pad the header and fill the
    data are written in one block. *)
Definition enddef_body (h : host) (s : filesys) (cf : cw_file_type)
  : filesys * Z * cw_file_type :=
  if negb (defmode cf) then (s, CW_ERR_NOT_DEFINE_MODE, cf)
  else
    let rows := fst (dims cf) in
    let columns := snd (dims cf) in
    if (rows =? -1) || (columns =? -1) then (s, CW_ERR_DIM_UNDEFINED, cf)
    else if data_id cf =? -1 then (s, CW_ERR_VAR_UNDEFINED, cf)
    else
      let psz := pixel_size cf in
      let '(s1, rc, cf1) :=
        if ((data_id cf =? CW_DATA_ID_VISIBLE) || (data_id cf =? CW_DATA_ID_IR))
           && (psz =? 2)
        then
          let '(sa, st, compression) := cw_get_att h s (fp cf) CW_O_COMPRESSION_TYPE in
          if negb (st =? 0) then (sa, CW_ERR_READ_ATT, cf)
          else if compression =? CW_COMPRESSION_TYPE_1B then
            match tmpfile h sa with
            | (sb, None) => (sb, CW_ERR_UFILE, cf)
            | (sb, Some u) =>
                let (sc, st2) := cpyfile sb u (fp cf) in
                if negb (st2 =? 0) then (sc, CW_ERR_UFILE, cf)
                else if negb (fclose_ok sc (fp cf)) then (sc, CW_ERR_UFILE, cf)
                else
                  (fclose sc (fp cf), CW_NOERR,
                   mkFile u (Some u) (path cf) (defmode cf) (wmode cf)
                          (data_id cf) (graphics cf) (dims cf) (pixel_size cf))
            end
          else (sa, CW_NOERR, cf)
        else (s, CW_NOERR, cf) in
      if negb (rc =? CW_NOERR) then (s1, rc, cf1)
      else
        let f := fp cf1 in
        let headlen := to_size_t (to_size_t columns * psz) in
        let (s2, ok) := fseek_end s1 f in
        if negb ok then (s2, CW_ERR_WRITE_DATA, cf1)
        else
          let fill := Z.max 0 (headlen - ftell s2 f)
                      + Z.max 0 rows * Z.max 0 columns * Z.max 0 psz in
          let (s3, ok3) := fwrite s2 f (repeat 0 (Z.to_nat fill)) in
          if negb ok3 && (0 <? fill) then (s3, CW_ERR_WRITE_DATA, cf1)
          else
            (s3, CW_NOERR,
             mkFile (fp cf1) (ufp cf1) (path cf1) false (wmode cf1)
                    (data_id cf1) (graphics cf1) (dims cf1) (pixel_size cf1)).

Definition cw_enddef (w0 : world) (cwid : Z) : world * Z :=
  let w := log_index w0 cwid in
  match slot_at w cwid with
  | None => (w, CW_ERR_DATASET_ID)
  | Some cf =>
      let '(s1, rc, cf1) := enddef_body (hst w) (fs w) cf in
      (with_fs (set_slot w cwid (Some cf1)) s1, rc)
  end.

(** "Check compression" of [cw_close]: a dataset with an uncompressed copy,
    opened for writing, is compressed again. *)
Definition close_compress (h : host) (s : filesys) (cf : cw_file_type)
  : filesys * Z * cw_file_type :=
  match ufp cf with
  | Some _ =>
      if wmode cf =? CW_WRITE then
        let '(sa, st, compression) := cw_get_att h s (fp cf) CW_O_COMPRESSION_TYPE in
        if negb (st =? 0) then (sa, CW_ERR_READ_ATT, cf)
        else if compression =? CW_COMPRESSION_TYPE_1B then cw_compress h sa cf
        else (sa, CW_NOERR, cf)
      else (s, CW_NOERR, cf)
  | None => (s, CW_NOERR, cf)
  end.

(** [cw_close]. *)
Definition cw_close (w0 : world) (cwid : Z) : world * Z :=
  let w := log_index w0 cwid in
  match slot_at w cwid with
  | None => (w, CW_ERR_DATASET_ID)
  | Some cf0 =>
      let '(s1, rc, cf1) :=
        if defmode cf0 then enddef_body (hst w) (fs w) cf0 else (fs w, CW_NOERR, cf0) in
      if negb (rc =? CW_NOERR)
      then (with_fs (set_slot w cwid (Some cf1)) s1, CW_ERR_ENDDEF_FAILED)
      else
        let '(s2, rc2, cf2) := close_compress (hst w) s1 cf1 in
        if negb (rc2 =? CW_NOERR) then (with_fs (set_slot w cwid (Some cf2)) s2, rc2)
        else (with_fs (set_slot w cwid None) (fclose s2 (fp cf2)), CW_NOERR)
  end.

(** The number of datasets open at a time. *)
Definition open_count (w : world) : nat :=
  List.length (filter (fun c => match c with Some _ => true | None => false end)
                      (cw_files w)).

(** ** Map projections (cwproj.c), in double precision *)

(** For the statements on rounding: a mantissa is canonical when its
    exponent is the one the format gives to a number of its size, and a
    float is below a bound in magnitude by the order of exponents, then of
    mantissas. *)
Definition canonical (prec emax : Z) (m : positive) (e : Z) : Prop :=
  fexp prec emax (Zpos (digits2_pos m) + e) = e.
Definition mag_le (x : spec_float) (mB : positive) (eB : Z) : Prop :=
  match x with
  | S754_zero _ => True
  | S754_finite _ m e => e < eB \/ (e = eB /\ Zpos m <= Zpos mB)
  | _ => False
  end.

Module Proj.

Definition UNMAPPED : Z := 0.
Definition MERCATOR : Z := 1.
Definition POLAR : Z := 2.
Definition LINEAR : Z := 3.

(** C [double] is binary64: every sum, difference, product and quotient is
    rounded to the nearest double.  An integer operand is converted first. *)
Definition double : Type := spec_float.
Definition d_of_Z (z : Z) : double := binary_normalize 53 1024 z 0 false.
Definition d_add : double -> double -> double := SFadd 53 1024.
Definition d_sub : double -> double -> double := SFsub 53 1024.
Definition d_mul : double -> double -> double := SFmul 53 1024.
Definition d_div : double -> double -> double := SFdiv 53 1024.
(** A decimal literal [n/d] of type double, for [n] and [d] below 2^53: the
    correctly rounded quotient, as the compiler produces it. *)
Definition d_lit (n d : Z) : double := d_div (d_of_Z n) (d_of_Z d).
(** The conversion of a double to float, as in [plon = -132.5]. *)
Definition f32_of_double (d : double) : float32 :=
  match d with
  | S754_finite s m e => binary_round 24 128 s m e
  | _ => d
  end.

(** The functions of math.h that cwproj.c calls.  Their results are those of
    the C library of the host, so they are a parameter of the conversions;
    [fabs], which clears the sign, is [SFabs]. *)
Record libm : Type := mkLibm
  { m_sin : double -> double;
    m_atan : double -> double;
    m_acos : double -> double;
    m_exp : double -> double;
    m_sqrt : double -> double;
    m_pow : double -> double -> double }.

(** The constants are the decimal numbers the source writes, [PI] included,
    as doubles. *)
Definition PI_c : double := d_lit 3141592654 1000000000.
Definition R_c : double := d_lit 63712 10.
Definition B_c : double := d_lit 414159203 100000000.
Definition JMAX : Z := 24385.
Definition ICEN : Z := 12193.
Definition DTOR (a : double) : double := d_div (d_mul a PI_c) (d_of_Z 180).
Definition RTOD (a : double) : double := d_div (d_mul a (d_of_Z 180)) PI_c.

(** The macro [LONR]: one turn of 360 degrees at most.  It is applied to a
    double, the longitude, and to a float, the parameter [plon]. *)
Definition LONR (a : double) : double :=
  if SFleb (d_of_Z 180) a then d_sub a (d_of_Z 360)
  else if SFltb a (d_of_Z (-180)) then d_add a (d_of_Z 360) else a.

Definition LONR_float (a : float32) : float32 :=
  if SFleb (f32_of_Z 180) a then f32_sub a (f32_of_Z 360)
  else if SFltb a (f32_of_Z (-180)) then f32_add a (f32_of_Z 360) else a.

(** The projection state that [cw_init_proj] leaves: [res] and [plon] are
    floats, [hem], [ioff] and [joff] shorts. *)
Record proj_state : Type := mkProj
  { ptype : Z; res : float32; plon : float32; hem : Z; ioff : Z; joff : Z }.

(** The prime longitude that [polar_correct] derives from the header's. *)
Definition polar_correct_plon (splon : Z) : float32 :=
  if splon =? -132 then f32_of_double (SFopp (d_lit 1325 10))
  else if splon =? 180 then f32_of_double (SFopp (d_lit 17907 100))
  else if splon =? 179 then f32_of_double (d_lit 17965 100)
  else f32_of_Z splon.

(** [(i + ioff - 1)*res] and [(j + joff - 1)*res], in double. *)
Definition ijxy (i j : double) (res : float32) (ioff joff : Z) : double * double :=
  (d_mul (d_sub (d_add i (d_of_Z ioff)) (d_of_Z 1)) (f64_of_f32 res),
   d_mul (d_sub (d_add j (d_of_Z joff)) (d_of_Z 1)) (f64_of_f32 res)).

(** The grid point of a pixel in the polar projection, after the flip of
    the southern hemisphere. *)
Definition polar_xy (i j : double) (hem : Z) (res : float32) (ioff joff : Z)
    : double * double :=
  let (x, y) := ijxy i j res ioff joff in
  (x, if hem =? -1 then d_sub (d_of_Z (JMAX + 1)) y else y).

(** The three conversions return (lat, lon).  The static [scale] of the
    polar conversion is computed at the first call, by the formula below. *)
Definition cw_polar_ijll (L : libm) (i j : double) (hem : Z) (plon res : float32)
    (ioff joff : Z) : double * double :=
  let (x, y) := polar_xy i j hem res ioff joff in
  let scale := d_mul (d_add (d_of_Z 1) (m_sin L (DTOR (d_of_Z 60)))) R_c in
  let dist := m_sqrt L (d_add (m_pow L (d_sub x (d_of_Z ICEN)) (d_of_Z 2))
                              (m_pow L (d_sub y (d_of_Z ICEN)) (d_of_Z 2))) in
  let lat := d_sub (d_of_Z 90) (RTOD (d_mul (d_of_Z 2) (m_atan L (d_div dist scale)))) in
  let plon' := LONR_float plon in
  let signx := if SFltb (d_sub x (d_of_Z ICEN)) (d_of_Z 0) then -1 else 1 in
  let lon := d_add (d_mul (RTOD (m_acos L (d_div (d_sub y (d_of_Z ICEN)) dist)))
                          (d_of_Z signx))
                   (f64_of_f32 plon') in
  (lat, LONR lon).

(** The longitude of [cw_polar_ijll] as line 310 stores it, before the
    [LONR] of line 311. *)
Definition polar_lon_unfolded (L : libm) (i j : double) (hem : Z) (plon res : float32)
    (ioff joff : Z) : double :=
  let (x, y) := polar_xy i j hem res ioff joff in
  let dist := m_sqrt L (d_add (m_pow L (d_sub x (d_of_Z ICEN)) (d_of_Z 2))
                              (m_pow L (d_sub y (d_of_Z ICEN)) (d_of_Z 2))) in
  let signx := if SFltb (d_sub x (d_of_Z ICEN)) (d_of_Z 0) then -1 else 1 in
  d_add (d_mul (RTOD (m_acos L (d_div (d_sub y (d_of_Z ICEN)) dist))) (d_of_Z signx))
        (f64_of_f32 (LONR_float plon)).

Definition cw_mercator_ijll (L : libm) (i j : double) (hem : Z) (res : float32)
    (ioff joff : Z) : double * double :=
  let (x, y) := ijxy i j res ioff joff in
  let lat := RTOD (d_mul (d_of_Z 2)
                         (d_sub (m_atan L (m_exp L (SFabs (d_sub (d_div y R_c) B_c))))
                                (d_div PI_c (d_of_Z 4)))) in
  (if hem =? -1 then SFopp (SFabs lat) else SFabs lat, RTOD (d_div x R_c)).

Definition cw_linear_ijll (i j : double) (res : float32) (ioff joff : Z)
    : double * double :=
  let (x, y) := ijxy i j res ioff joff in (SFopp y, x).

(** [cw_get_ll]: the caller's [lat] and [lon] stay as they are when no
    projection has been initialised. *)
Definition cw_get_ll (L : libm) (st : proj_state) (i j : double)
    (latlon : double * double) : double * double :=
  if ptype st =? UNMAPPED then (j, i)
  else if ptype st =? MERCATOR
  then cw_mercator_ijll L i j (hem st) (res st) (ioff st) (joff st)
  else if ptype st =? POLAR
  then cw_polar_ijll L i j (hem st) (plon st) (res st) (ioff st) (joff st)
  else if ptype st =? LINEAR
  then cw_linear_ijll i j (res st) (ioff st) (joff st)
  else latlon.

(** What the statements on the polar longitude ask of the C library: the
    angle RTOD (acos (q)) is, for every [q], a double between 0 and 180, or
    no number. *)
Definition acos_in_degrees (L : libm) : Prop :=
  forall q : double,
    RTOD (m_acos L q) = S754_nan
    \/ (valid_binary 53 1024 (RTOD (m_acos L q)) = true
        /\ SFleb (S754_zero false) (RTOD (m_acos L q)) = true
        /\ SFleb (RTOD (m_acos L q)) (d_of_Z 180) = true).

(** A longitude in the half-open interval [-180, 180), by the comparisons
    of doubles; what is not a number is not in it. *)
Definition lon_normalised (lon : double) : Prop :=
  SFleb (d_of_Z (-180)) lon = true /\ SFltb lon (d_of_Z 180) = true.

(** A C library for the examples: [sqrt] correctly rounded, [pow] the
    product for the exponent 2, [acos] at 1 and at 0, and no number anywhere
    else. *)
Definition half_pi : double := S754_finite false 7074237752028440 (-52).
Definition sample_libm : libm :=
  mkLibm (fun _ => S754_nan) (fun _ => S754_nan)
         (fun x => if SFeqb x (d_of_Z 1) then S754_zero false
                   else if SFeqb x (d_of_Z 0) then half_pi else S754_nan)
         (fun _ => S754_nan) (SFsqrt 53 1024)
         (fun x y => if SFeqb y (d_of_Z 2) then d_mul x x else S754_nan).

(** The grid of Alaska, one kilometre to the pixel, and a linear and a
    Mercator grid. *)
Definition P_alaska : proj_state := mkProj POLAR (f32_of_Z 1) (polar_correct_plon (-132)) 1 0 0.
Definition P_linear : proj_state := mkProj LINEAR (f32_of_Z 1) (f32_of_Z 0) 1 5 5.
Definition P_mercator : proj_state := mkProj MERCATOR (f32_of_Z 1) (f32_of_Z 0) 1 0 0.
(** A polar grid whose header gives the prime longitude 1000. *)
Definition P_far : proj_state := mkProj POLAR (f32_of_Z 1) (polar_correct_plon 1000) 1 0 0.

End Proj.

(** ** The attribute schema, the dimensions and the error table *)

Definition CW_CHAR := 1.
Definition CW_SHORT := 2.
Definition CW_ATT_RW := 0.
Definition CW_ATT_RO := 1.
Definition CW_ATT_NUM := 57.
Definition CW_DIM_NUM := 2.
Definition CW_CHANNEL_NUMBER := 18.
Definition CW_O_CHANNELS_PRODUCED := 60.
Definition CW_O_ANCILLARIES_PRODUCED := 68.
Definition CW_ERR_NUM := 51.
Definition CW_ERR_DIM_DEFINED := 8.
Definition CW_ERR_DIM := 10.
Definition CW_ERR_VAR_DEFINED := 11.
Definition CW_ERR_DATA_TYPE := 12.
Definition CW_ERR_DIM_NUM := 13.
Definition CW_ERR_DIM_ID := 14.
Definition CW_ERR_VAR := 15.
Definition CW_ERR_ATT := 20.
Definition CW_ERR_ATT_VALUE := 21.
Definition CW_ERR_UNKNOWN := 28.
Definition CW_ERR_READ_DIM := 30.
Definition CW_ERR_WRITE_DIM := 33.
Definition CW_ERR_WRITE_ATT := 34.
Definition CW_ERR_INTERNAL := 38.
Definition CW_ERR_DATASET_RO := 41.
Definition CW_ERR_ATT_TYPE := 42.
Definition CW_ERR_ATT_LEN := 49.
Definition CW_ERR_ATT_RO := 51.

(** [cw_att_type]: an attribute of the schema, with its table of codes. *)
Record cw_att_type : Type := mkAtt
  { att_name : string; att_offset : Z; att_code_num : Z;
    att_code : list (string * Z); att_mode : Z; att_scale : Z; att_type : Z }.

(** The tables of codes, each a list of (code_name, code). *)
Definition satellite_id : list (string * Z) :=
  [("noaa-6"%string, (-10815));
   ("noaa-7"%string, (-10813));
   ("noaa-8"%string, (-10811));
   ("noaa-9"%string, (-10810));
   ("noaa-10"%string, (-10809));
   ("noaa-11"%string, (-10808));
   ("noaa-12"%string, (-10812));
   ("noaa-14"%string, (-10799));
   ("noaa-15"%string, (-10798));
   ("noaa-16"%string, (-10797));
   ("noaa-17"%string, (-10796))].

Definition satellite_type : list (string * Z) :=
  [("morning"%string, 0);
   ("afternoon"%string, 1)].

Definition data_set_type : list (string * Z) :=
  [("lac"%string, 1);
   ("gac"%string, 2);
   ("hrpt"%string, 3)].

Definition projection_type : list (string * Z) :=
  [("unmapped"%string, 0);
   ("mercator"%string, 1);
   ("polar"%string, 2);
   ("linear"%string, 3)].

Definition composite_type : list (string * Z) :=
  [("none"%string, 0);
   ("nadir"%string, 1);
   ("average"%string, 2);
   ("latest"%string, 3);
   ("warmest"%string, 4);
   ("coldest"%string, 5)].

Definition calibration_type : list (string * Z) :=
  [("raw"%string, 0);
   ("albedo_temperature"%string, 2)].

Definition fill_type : list (string * Z) :=
  [("none"%string, 0);
   ("average"%string, 1);
   ("adjacent"%string, 2)].

Definition channel_number : list (string * Z) :=
  [("avhrr_ch1"%string, 1);
   ("avhrr_ch2"%string, 2);
   ("avhrr_ch3"%string, 3);
   ("avhrr_ch4"%string, 4);
   ("avhrr_ch5"%string, 5);
   ("mcsst"%string, 6);
   ("scan_angle"%string, 101);
   ("sat_zenith"%string, 102);
   ("solar_zenith"%string, 103);
   ("rel_azimuth"%string, 104);
   ("scan_time"%string, 105);
   ("mcsst_split"%string, 201);
   ("mcsst_dual"%string, 202);
   ("mcsst_triple"%string, 203);
   ("cpsst_split"%string, 204);
   ("cpsst_dual"%string, 205);
   ("cpsst_triple"%string, 206);
   ("nlsst_split"%string, 207);
   ("nlsst_dual"%string, 208);
   ("nlsst_triple"%string, 209);
   ("sst_multi"%string, 210);
   ("ocean_reflect"%string, 301);
   ("turbidity"%string, 302);
   ("cloud"%string, 401)].

(** The table [data_id] of the source; the name is taken by the field of
    [cw_file_type]. *)
Definition data_id_codes : list (string * Z) :=
  [("visible"%string, 0);
   ("infrared"%string, 1);
   ("ancillary"%string, 2);
   ("cloud"%string, 3)].

Definition sun_normalization : list (string * Z) :=
  [("no"%string, 0);
   ("yes"%string, 1)].

Definition limb_correction : list (string * Z) :=
  [("no"%string, 0);
   ("yes"%string, 1)].

Definition nonlinearity_correction : list (string * Z) :=
  [("no"%string, 0);
   ("yes"%string, 1)].

Definition compression_type : list (string * Z) :=
  [("none"%string, 0);
   ("flat"%string, 1);
   ("1b"%string, 2)].

Definition orbit_type : list (string * Z) :=
  [("ascending"%string, (-1));
   ("descending"%string, 1);
   ("both"%string, 2)].

Definition orbit_time : list (string * Z) :=
  [("day"%string, 0);
   ("night"%string, 1);
   ("both"%string, 2)].

(** [cw_attributes]; the offsets and the scales are the values of the
    source's constants. *)
Definition cw_attributes : list cw_att_type :=
  [mkAtt "satellite_id" 0 11 satellite_id CW_ATT_RW 0 CW_CHAR;
   mkAtt "satellite_type" 2 2 satellite_type CW_ATT_RW 0 CW_CHAR;
   mkAtt "data_set_type" 4 3 data_set_type CW_ATT_RW 0 CW_CHAR;
   mkAtt "projection_type" 6 4 projection_type CW_ATT_RW 0 CW_CHAR;
   mkAtt "start_latitude" 8 0 [] CW_ATT_RW 128 CW_FLOAT;
   mkAtt "end_latitude" 10 0 [] CW_ATT_RW 128 CW_FLOAT;
   mkAtt "start_longitude" 12 0 [] CW_ATT_RW 128 CW_FLOAT;
   mkAtt "end_longitude" 14 0 [] CW_ATT_RW 128 CW_FLOAT;
   mkAtt "resolution" 16 0 [] CW_ATT_RW 100 CW_FLOAT;
   mkAtt "polar_grid_size" 22 0 [] CW_ATT_RW 0 CW_SHORT;
   mkAtt "polar_grid_points" 24 0 [] CW_ATT_RW 0 CW_SHORT;
   mkAtt "polar_hemisphere" 26 0 [] CW_ATT_RW 0 CW_SHORT;
   mkAtt "polar_prime_longitude" 28 0 [] CW_ATT_RW 0 CW_SHORT;
   mkAtt "grid_ioffset" 30 0 [] CW_ATT_RW 0 CW_SHORT;
   mkAtt "grid_joffset" 32 0 [] CW_ATT_RW 0 CW_SHORT;
   mkAtt "composite_type" 42 6 composite_type CW_ATT_RW 0 CW_CHAR;
   mkAtt "calibration_type" 44 2 calibration_type CW_ATT_RO 0 CW_CHAR;
   mkAtt "fill_type" 46 3 fill_type CW_ATT_RW 0 CW_CHAR;
   mkAtt "channel_number" 48 24 channel_number CW_ATT_RO 0 CW_CHAR;
   mkAtt "data_id" 50 4 data_id_codes CW_ATT_RO 0 CW_CHAR;
   mkAtt "sun_normalization" 52 2 sun_normalization CW_ATT_RW 0 CW_CHAR;
   mkAtt "limb_correction" 54 2 limb_correction CW_ATT_RW 0 CW_CHAR;
   mkAtt "nonlinearity_correction" 56 2 nonlinearity_correction CW_ATT_RW 0 CW_CHAR;
   mkAtt "orbits_processed" 58 0 [] CW_ATT_RW 0 CW_SHORT;
   mkAtt "channels_produced" 60 0 [] CW_ATT_RO 0 CW_SHORT;
   mkAtt "channel_pixel_size" 62 0 [] CW_ATT_RO 0 CW_SHORT;
   mkAtt "channel_start_block" 64 0 [] CW_ATT_RW 0 CW_SHORT;
   mkAtt "channel_end_block" 66 0 [] CW_ATT_RW 0 CW_SHORT;
   mkAtt "ancillaries_produced" 68 0 [] CW_ATT_RO 0 CW_SHORT;
   mkAtt "ancillary_pixel_size" 70 0 [] CW_ATT_RO 0 CW_SHORT;
   mkAtt "ancillary_start_block" 72 0 [] CW_ATT_RW 0 CW_SHORT;
   mkAtt "ancillary_end_block" 74 0 [] CW_ATT_RW 0 CW_SHORT;
   mkAtt "image_block_size" 76 0 [] CW_ATT_RW 0 CW_SHORT;
   mkAtt "compression_type" 78 3 compression_type CW_ATT_RO 0 CW_CHAR;
   mkAtt "percent_non_zero" 82 0 [] CW_ATT_RW 0 CW_SHORT;
   mkAtt "horizontal_shift" 84 0 [] CW_ATT_RW 0 CW_SHORT;
   mkAtt "vertical_shift" 86 0 [] CW_ATT_RW 0 CW_SHORT;
   mkAtt "horizontal_skew" 88 0 [] CW_ATT_RW 0 CW_SHORT;
   mkAtt "vertical_skew" 90 0 [] CW_ATT_RW 0 CW_SHORT;
   mkAtt "orbit_type" 100 3 orbit_type CW_ATT_RW 0 CW_CHAR;
   mkAtt "orbit_time" 102 3 orbit_time CW_ATT_RW 0 CW_CHAR;
   mkAtt "start_row" 104 0 [] CW_ATT_RW 0 CW_SHORT;
   mkAtt "start_column" 106 0 [] CW_ATT_RW 0 CW_SHORT;
   mkAtt "end_row" 108 0 [] CW_ATT_RW 0 CW_SHORT;
   mkAtt "end_column" 110 0 [] CW_ATT_RW 0 CW_SHORT;
   mkAtt "orbit_start_year" 112 0 [] CW_ATT_RW 0 CW_SHORT;
   mkAtt "orbit_start_day" 114 0 [] CW_ATT_RW 0 CW_SHORT;
   mkAtt "orbit_start_month_day" 116 0 [] CW_ATT_RW 0 CW_SHORT;
   mkAtt "orbit_start_hour_minute" 118 0 [] CW_ATT_RW 0 CW_SHORT;
   mkAtt "orbit_start_second" 120 0 [] CW_ATT_RW 0 CW_SHORT;
   mkAtt "orbit_start_millisecond" 122 0 [] CW_ATT_RW 0 CW_SHORT;
   mkAtt "orbit_end_year" 124 0 [] CW_ATT_RW 0 CW_SHORT;
   mkAtt "orbit_end_day" 126 0 [] CW_ATT_RW 0 CW_SHORT;
   mkAtt "orbit_end_month_day" 128 0 [] CW_ATT_RW 0 CW_SHORT;
   mkAtt "orbit_end_hour_minute" 130 0 [] CW_ATT_RW 0 CW_SHORT;
   mkAtt "orbit_end_second" 132 0 [] CW_ATT_RW 0 CW_SHORT;
   mkAtt "orbit_end_millisecond" 134 0 [] CW_ATT_RW 0 CW_SHORT].

Definition cw_error_table : list string :=
  (["no error";
   "cannot create dataset";
   "invalid creation mode";
   "cannot access dataset";
   "invalid access mode";
   "dataset not in define mode";
   "invalid dataset id";
   "call to cw_enddef failed";
   "dimension already defined";
   "dimension must be greater than 0";
   "invalid dimension";
   "variable already defined (only 1 allowed)";
   "invalid data type";
   "invalid number of dimensions";
   "invalid dimension id";
   "invalid variable";
   "invalid variable id";
   "variable index is out of range";
   "variable value is out of range";
   "dataset in define mode";
   "invalid attribute";
   "invalid attribute value";
   "failed to allocate memory";
   "maximum open file limit reached";
   "cannot create, dataset exists";
   "header creation failed";
   "wrong magic number, unrecognized format";
   "cannot read magic number";
   "unknown error";
   "invalid attribute id";
   "error reading dimension";
   "error reading attribute";
   "error reading data";
   "error writing dimension";
   "error writing attribute";
   "error writing data";
   "dimension must be defined";
   "data variable must be defined";
   "internal consistency error";
   "unsupported data id in header";
   "unsupported channel number in header";
   "dataset opened read-only";
   "attribute type mismatch";
   "unsupported pixel size in header";
   "unsupported calibration type in header";
   "error manipulating uncompressed file";
   "error manipulating compressed file";
   "unsupported compression type in header";
   "error in compressed file, byte 0";
   "invalid attribute length";
   "cannot write data to file with non-zero navigational shifts";
   "attribute is read-only"])%string.

(** [cw_dimensions]: name and header offset. *)
Definition cw_dimensions : list (string * Z) :=
  [("rows"%string, CW_O_ROWS); ("columns"%string, CW_O_COLUMNS)].

(** The linear searches of the lookup functions: the first index below [n]
    whose entry passes the test. *)
Fixpoint scan {A : Type} (test : A -> bool) (l : list A) (n : nat) (i : Z) : option Z :=
  match n, l with
  | S k, a :: t => if test a then Some i else scan test t k (i + 1)
  | _, _ => None
  end.

Definition cw_lookup_attid (name : string) : option Z :=
  scan (fun a => String.eqb name (att_name a)) cw_attributes (Z.to_nat CW_ATT_NUM) 0.

Definition att_at (attid : Z) : cw_att_type :=
  nth (Z.to_nat attid) cw_attributes (mkAtt EmptyString 0 0 [] 0 0 0).

Definition cw_lookup_att_code (name : string) (attid : Z) : option Z :=
  match scan (fun e => String.eqb name (fst e)) (att_code (att_at attid))
             (Z.to_nat (att_code_num (att_at attid))) 0 with
  | Some i => Some (snd (nth (Z.to_nat i) (att_code (att_at attid)) (EmptyString, 0)))
  | None => None
  end.

Definition cw_lookup_att_code_name (code attid : Z) : option string :=
  match scan (fun e => code =? snd e) (att_code (att_at attid))
             (Z.to_nat (att_code_num (att_at attid))) 0 with
  | Some i => Some (fst (nth (Z.to_nat i) (att_code (att_at attid)) (EmptyString, 0)))
  | None => None
  end.

Definition cw_lookup_dimid (name : string) : option Z :=
  scan (fun e => String.eqb name (fst e)) cw_dimensions (Z.to_nat CW_DIM_NUM) 0.

Definition dim_offset (dimid : Z) : Z := snd (nth (Z.to_nat dimid) cw_dimensions (EmptyString, 0)).
Definition dim_name (dimid : Z) : string := fst (nth (Z.to_nat dimid) cw_dimensions (EmptyString, 0)).

(** [dims[dimid]] of a dataset, read and assigned, for the ids 0 and 1. *)
Definition get_dim (d : Z * Z) (dimid : Z) : Z := if dimid =? CW_ROWS then fst d else snd d.
Definition set_dim (d : Z * Z) (dimid v : Z) : Z * Z :=
  if dimid =? CW_ROWS then (v, snd d) else (fst d, v).

Definition with_dims (cf : cw_file_type) (d : Z * Z) : cw_file_type :=
  mkFile (fp cf) (ufp cf) (path cf) (defmode cf) (wmode cf) (data_id cf) (graphics cf)
         d (pixel_size cf).
Definition with_var (cf : cw_file_type) (did gr psz : Z) : cw_file_type :=
  mkFile (fp cf) (ufp cf) (path cf) (defmode cf) (wmode cf) did gr (dims cf) psz.

(** [cw_strerror]. *)
Definition cw_strerror (cwerr : Z) : string :=
  if (cwerr <? 0) || (CW_ERR_NUM <? cwerr)
  then nth (Z.to_nat CW_ERR_UNKNOWN) cw_error_table EmptyString
  else nth (Z.to_nat cwerr) cw_error_table EmptyString.

(** ** Dimensions and variables *)

(** [cw_def_dim]: the status and the id stored through [dimidp]. *)
Definition cw_def_dim (w0 : world) (cwid : Z) (name : string) (len : Z)
  : world * Z * option Z :=
  let w := log_index w0 cwid in
  match slot_at w cwid with
  | None => (w, CW_ERR_DATASET_ID, None)
  | Some cf =>
      if negb (defmode cf) then (w, CW_ERR_NOT_DEFINE_MODE, None)
      else
        match cw_lookup_dimid name with
        | None => (w, CW_ERR_DIM, None)
        | Some dimid =>
            if negb (get_dim (dims cf) dimid =? -1) then (w, CW_ERR_DIM_DEFINED, Some dimid)
            else
              let (s1, st) :=
                cw_put_att (hst w) (fs w) (fp cf) (to_short len) (dim_offset dimid) in
              if negb (st =? 0) then (with_fs w s1, CW_ERR_WRITE_DIM, Some dimid)
              else (with_fs (set_slot w cwid
                               (Some (with_dims cf (set_dim (dims cf) dimid (to_short len)))))
                            s1, CW_NOERR, Some dimid)
        end
  end.

Definition cw_inq_dimid (w0 : world) (cwid : Z) (name : string) : world * Z * option Z :=
  let w := log_index w0 cwid in
  match slot_at w cwid with
  | None => (w, CW_ERR_DATASET_ID, None)
  | Some cf =>
      match cw_lookup_dimid name with
      | None => (w, CW_ERR_DIM, None)
      | Some dimid =>
          if get_dim (dims cf) dimid =? -1 then (w, CW_ERR_DIM, Some dimid)
          else (w, CW_NOERR, Some dimid)
      end
  end.

(** [cw_inq_dim] with both results asked for: the status, the name and the
    length. *)
Definition cw_inq_dim (w0 : world) (cwid dimid : Z) : world * Z * option string * option Z :=
  let w := log_index w0 cwid in
  match slot_at w cwid with
  | None => (w, CW_ERR_DATASET_ID, None, None)
  | Some cf =>
      if (dimid <? 0) || (CW_DIM_NUM - 1 <? dimid) then (w, CW_ERR_DIM_ID, None, None)
      else if get_dim (dims cf) dimid =? -1 then (w, CW_ERR_DIM_ID, None, None)
      else
        let '(s1, st, length) := cw_get_att (hst w) (fs w) (fp cf) (dim_offset dimid) in
        if negb (st =? 0) then (with_fs w s1, CW_ERR_READ_DIM, Some (dim_name dimid), None)
        else (with_fs w s1, CW_NOERR, Some (dim_name dimid), Some (to_size_t length))
  end.

(** The switch of [cw_def_var] on the channel code: the data id and the type
    of the file, [None] for the default branch. *)
Definition channel_class (code : Z) : option (Z * Z) :=
  if (code =? 1) || (code =? 2) || (code =? 301) || (code =? 302)
  then Some (CW_DATA_ID_VISIBLE, CW_FLOAT)
  else if (code =? 3) || (code =? 4) || (code =? 5) || (code =? 6)
          || (code =? 201) || (code =? 202) || (code =? 203) || (code =? 204)
          || (code =? 205) || (code =? 206) || (code =? 207) || (code =? 208)
          || (code =? 209)
  then Some (CW_DATA_ID_IR, CW_FLOAT)
  else if (code =? 101) || (code =? 102) || (code =? 103) || (code =? 104) || (code =? 105)
  then Some (CW_DATA_ID_ANCILLARY, CW_FLOAT)
  else if code =? 401 then Some (CW_DATA_ID_CLOUD, CW_BYTE)
  else None.

(** A run of [cw_put_att] calls that stops at the first failure. *)
Fixpoint put_atts (h : host) (s : filesys) (f : nat) (l : list (Z * Z)) : filesys * bool :=
  match l with
  | [] => (s, true)
  | (code, off) :: t =>
      let (s1, st) := cw_put_att h s f code off in
      if negb (st =? 0) then (s1, false) else put_atts h s1 f t
  end.

(** "Set attributes" of [cw_def_var], once the data id and the channel code
    are stored: the attributes of the data class, the status, and the pixel
    size once it is assigned. *)
Definition def_var_class (h : host) (s : filesys) (f : nat) (did : Z)
  : filesys * Z * option Z :=
  if (did =? CW_DATA_ID_VISIBLE) || (did =? CW_DATA_ID_IR) then
    let (s1, st1) := cw_put_att h s f 2 CW_O_CHANNEL_PIXEL_SIZE in
    if negb (st1 =? 0) then (s1, CW_ERR_WRITE_ATT, None)
    else
      let (s2, ok) :=
        put_atts h s1 f [(CW_CALIBRATION_TYPE_ALBEDO_TEMPERATURE, CW_O_CALIBRATION_TYPE);
                         (1, CW_O_CHANNELS_PRODUCED);
                         (CW_COMPRESSION_TYPE_1B, CW_O_COMPRESSION_TYPE)] in
      (s2, if ok then CW_NOERR else CW_ERR_WRITE_ATT, Some 2)
  else if did =? CW_DATA_ID_ANCILLARY then
    let (s1, st1) := cw_put_att h s f 2 CW_O_ANCILLARY_PIXEL_SIZE in
    if negb (st1 =? 0) then (s1, CW_ERR_WRITE_ATT, None)
    else
      let (s2, st2) := cw_put_att h s1 f 1 CW_O_ANCILLARIES_PRODUCED in
      (s2, if st2 =? 0 then CW_NOERR else CW_ERR_WRITE_ATT, Some 2)
  else if did =? CW_DATA_ID_CLOUD then (s, CW_NOERR, Some 1)
  else (s, CW_ERR_INTERNAL, None).

(** [cw_def_var]: the status and the id stored through [varidp]. *)
Definition cw_def_var (w0 : world) (cwid : Z) (name : string) (xtype ndims : Z)
    (dimids : Z * Z) : world * Z * option Z :=
  let w := log_index w0 cwid in
  match slot_at w cwid with
  | None => (w, CW_ERR_DATASET_ID, None)
  | Some cf =>
      if negb (defmode cf) then (w, CW_ERR_NOT_DEFINE_MODE, None)
      else if negb (ndims =? CW_DIM_NUM) then (w, CW_ERR_DIM_NUM, None)
      else if negb (fst dimids =? CW_ROWS) || negb (snd dimids =? CW_COLUMNS)
      then (w, CW_ERR_DIM_ID, None)
      else if (fst (dims cf) =? -1) || (snd (dims cf) =? -1) then (w, CW_ERR_DIM_ID, None)
      else if String.eqb name "graphics" then
        if data_id cf =? -1 then (w, CW_ERR_VAR, None)
        else if negb (data_id cf =? CW_DATA_ID_VISIBLE) && negb (data_id cf =? CW_DATA_ID_IR)
        then (w, CW_ERR_VAR, None)
        else if negb (xtype =? CW_BYTE) then (w, CW_ERR_DATA_TYPE, None)
        else (set_slot w cwid (Some (with_var cf (data_id cf) 1 (pixel_size cf))),
              CW_NOERR, Some CW_GRAPHICS)
      else if negb (data_id cf =? -1) then (w, CW_ERR_VAR_DEFINED, None)
      else
        match cw_lookup_att_code name CW_CHANNEL_NUMBER with
        | None => (w, CW_ERR_VAR, None)
        | Some code =>
            match channel_class code with
            | None => (w, CW_ERR_INTERNAL, None)
            | Some (did, file_xtype) =>
                if negb (xtype =? file_xtype) then (w, CW_ERR_DATA_TYPE, None)
                else
                  let (s1, st1) := cw_put_att (hst w) (fs w) (fp cf) did CW_O_DATA_ID in
                  if negb (st1 =? 0) then (with_fs w s1, CW_ERR_WRITE_ATT, None)
                  else
                    let (s2, st2) :=
                      cw_put_att (hst w) s1 (fp cf) code CW_O_CHANNEL_NUMBER in
                    if negb (st2 =? 0) then (with_fs w s2, CW_ERR_WRITE_ATT, None)
                    else
                      let '(s3, rc, psz) := def_var_class (hst w) s2 (fp cf) did in
                      let cf' := with_var cf did (graphics cf)
                                          (match psz with
                                           | Some p => p
                                           | None => pixel_size cf
                                           end) in
                      (with_fs (set_slot w cwid (Some cf')) s3, rc,
                       if rc =? CW_NOERR then Some CW_DATA else None)
            end
        end
  end.

(** [cw_inq_varid]. *)
Definition cw_inq_varid (w0 : world) (cwid : Z) (name : string) : world * Z * option Z :=
  let w := log_index w0 cwid in
  match slot_at w cwid with
  | None => (w, CW_ERR_DATASET_ID, None)
  | Some cf =>
      if String.eqb name "graphics" then
        if graphics cf =? -1 then (w, CW_ERR_VAR, None)
        else (w, CW_NOERR, Some CW_GRAPHICS)
      else if data_id cf =? -1 then (w, CW_ERR_VAR, None)
      else
        let '(s1, st, file_code) := cw_get_att (hst w) (fs w) (fp cf) CW_O_CHANNEL_NUMBER in
        if negb (st =? 0) then (with_fs w s1, CW_ERR_READ_ATT, None)
        else match cw_lookup_att_code name CW_CHANNEL_NUMBER with
             | None => (with_fs w s1, CW_ERR_VAR, None)
             | Some user_code =>
                 if negb (user_code =? file_code) then (with_fs w s1, CW_ERR_VAR, None)
                 else (with_fs w s1, CW_NOERR, Some CW_DATA)
             end
  end.

(** ** The attribute functions for text and integers *)

(** The checks every attribute function starts with, after the one of the
    dataset id: the variable id, the variable and the name. *)
Definition att_checks (cf : cw_file_type) (varid : Z) (name : string) : Z + Z :=
  if varid =? CW_GRAPHICS then inl CW_ERR_ATT
  else if negb (varid =? CW_DATA) then inl CW_ERR_VAR_ID
  else if data_id cf =? -1 then inl CW_ERR_VAR_ID
  else match cw_lookup_attid name with
       | None => inl CW_ERR_ATT
       | Some attid => inr attid
       end.

(** [cw_put_att_text]; the source does not use its argument [len]. *)
Definition cw_put_att_text (w0 : world) (cwid varid : Z) (name tp : string) : world * Z :=
  let w := log_index w0 cwid in
  match slot_at w cwid with
  | None => (w, CW_ERR_DATASET_ID)
  | Some cf =>
      if wmode cf =? CW_NOWRITE then (w, CW_ERR_DATASET_RO)
      else
        match att_checks cf varid name with
        | inl e => (w, e)
        | inr attid =>
            if att_mode (att_at attid) =? CW_ATT_RO then (w, CW_ERR_ATT_RO)
            else if negb (att_type (att_at attid) =? CW_CHAR) then (w, CW_ERR_ATT_TYPE)
            else
              match cw_lookup_att_code tp attid with
              | None => (w, CW_ERR_ATT_VALUE)
              | Some code =>
                  let (s1, st) :=
                    cw_put_att (hst w) (fs w) (fp cf) code (att_offset (att_at attid)) in
                  (with_fs w s1, if negb (st =? 0) then CW_ERR_WRITE_ATT else CW_NOERR)
              end
        end
  end.

Definition cw_get_att_text (w0 : world) (cwid varid : Z) (name : string)
  : world * Z * option string :=
  let w := log_index w0 cwid in
  match slot_at w cwid with
  | None => (w, CW_ERR_DATASET_ID, None)
  | Some cf =>
      match att_checks cf varid name with
      | inl e => (w, e, None)
      | inr attid =>
          if negb (att_type (att_at attid) =? CW_CHAR) then (w, CW_ERR_ATT_TYPE, None)
          else
            let '(s1, st, code) :=
              cw_get_att (hst w) (fs w) (fp cf) (att_offset (att_at attid)) in
            if negb (st =? 0) then (with_fs w s1, CW_ERR_READ_ATT, None)
            else match cw_lookup_att_code_name code attid with
                 | None => (with_fs w s1, CW_ERR_ATT_VALUE, None)
                 | Some tp => (with_fs w s1, CW_NOERR, Some tp)
                 end
      end
  end.

Definition cw_put_att_short (w0 : world) (cwid varid : Z) (name : string)
    (xtype len sp : Z) : world * Z :=
  let w := log_index w0 cwid in
  match slot_at w cwid with
  | None => (w, CW_ERR_DATASET_ID)
  | Some cf =>
      if negb (len =? 1) then (w, CW_ERR_ATT_LEN)
      else if wmode cf =? CW_NOWRITE then (w, CW_ERR_DATASET_RO)
      else
        match att_checks cf varid name with
        | inl e => (w, e)
        | inr attid =>
            let a := att_at attid in
            if att_mode a =? CW_ATT_RO then (w, CW_ERR_ATT_RO)
            else if negb (att_type a =? xtype) then (w, CW_ERR_ATT_TYPE)
            else if (att_type a =? CW_SHORT) || (att_type a =? CW_FLOAT) then
              let code := if att_type a =? CW_SHORT then sp
                          else to_short (sp * att_scale a) in
              let (s1, st) := cw_put_att (hst w) (fs w) (fp cf) code (att_offset a) in
              (with_fs w s1, if negb (st =? 0) then CW_ERR_WRITE_ATT else CW_NOERR)
            else if att_type a =? CW_CHAR then (w, CW_ERR_ATT_TYPE)
            else (w, CW_ERR_INTERNAL)
        end
  end.

Definition cw_get_att_short (w0 : world) (cwid varid : Z) (name : string)
  : world * Z * option Z :=
  let w := log_index w0 cwid in
  match slot_at w cwid with
  | None => (w, CW_ERR_DATASET_ID, None)
  | Some cf =>
      match att_checks cf varid name with
      | inl e => (w, e, None)
      | inr attid =>
          let a := att_at attid in
          let '(s1, st, code) := cw_get_att (hst w) (fs w) (fp cf) (att_offset a) in
          if negb (st =? 0) then (with_fs w s1, CW_ERR_READ_ATT, None)
          else if att_type a =? CW_SHORT then (with_fs w s1, CW_NOERR, Some code)
          else if (att_type a =? CW_FLOAT) || (att_type a =? CW_CHAR)
          then (with_fs w s1, CW_ERR_ATT_TYPE, None)
          else (with_fs w s1, CW_ERR_INTERNAL, None)
      end
  end.

(** ** Definitions that follow the words of the specification *)

(** Scan time as the specification reads it: hours are the code divided by 100,
    minutes its last two decimal digits, the value hours + minutes/60. *)
Definition spec_time_hours (v : Z) : Z := v / 100.
Definition spec_time_minutes (v : Z) : Z := v mod 100.
Definition spec_decode_time (v : Z) : float32 :=
  f32_add (f32_of_Z (spec_time_hours v))
          (f32_div (f32_of_Z (spec_time_minutes v)) (f32_of_Z 60)).

(** The window test of the specification, in plain integers. *)
Definition spec_out_of_range (dims start count : Z * Z) : Prop :=
  fst start > fst dims - 1 \/ snd start > snd dims - 1
  \/ fst start + fst count - 1 > fst dims - 1
  \/ snd start + snd count - 1 > snd dims - 1.

(** Check of a property of every integer of a range, by running it. *)
Fixpoint all_from (n : nat) (lo : Z) (p : Z -> bool) : bool :=
  match n with
  | O => true
  | S k => p lo && all_from k (lo + 1) p
  end.

(** The calibration paths of the codec, each with its decoder, its encoder
    and the range of raw codes its decoder accepts. *)
Inductive cal_path : Type :=
  | PathRaw | PathVisible | PathInfrared (channel : Z) | PathAngle | PathTime.

Definition path_decode (p : cal_path) (compression code : Z) : float32 :=
  match p with
  | PathRaw => cal_raw_val compression code
  | PathVisible => cal_visible_val compression code
  | PathInfrared channel => cal_ir_val compression channel code
  | PathAngle => decode_angle_val compression code
  | PathTime => decode_time_val code
  end.

Definition path_encode (p : cal_path) (f : float32) : Z :=
  match p with
  | PathRaw => uncal_raw_val f
  | PathVisible => uncal_visible_val f
  | PathInfrared _ => uncal_ir_val f
  | PathAngle => encode_angle_val f
  | PathTime => encode_time_val f
  end.

Definition in_range (lo hi v : Z) : bool := (lo <=? v) && (v <=? hi).

Definition path_valid (p : cal_path) (compression code : Z) : bool :=
  let flat := compression =? CW_COMPRESSION_TYPE_FLAT in
  match p with
  | PathRaw => if flat then in_range 0 1023 code else in_range 1 1024 code
  | PathVisible => if flat then in_range 0 10000 code else in_range 1 2047 code
  | PathInfrared channel =>
      if flat then
        if channel <=? CW_CHANNEL_NUMBER_AVHRR5 then in_range 0 32760 code
        else in_range (-4000) 4000 code
      else in_range 1 2047 code
  | PathAngle => if flat then in_range 0 65535 code else in_range 1 65535 code
  | PathTime => in_range 0 65535 code
  end.

Definition is_time_path (p : cal_path) : bool :=
  match p with PathTime => true | _ => false end.

(** ** Sample states, for the examples *)

(** A header of 136 bytes with the given attributes, high byte first. *)
Definition poke16 (bytes : list Z) (off v : Z) : list Z :=
  write_at bytes (Z.to_nat off) [to_ushort v / 256; to_ushort v mod 256].
Definition sample_header (rows columns did vshift hshift : Z) : list Z :=
  poke16 (poke16 (poke16 (poke16 (poke16
    (CW_MAGIC_NUM :: repeat 0 135) CW_O_ROWS rows) CW_O_COLUMNS columns)
    CW_O_DATA_ID did) CW_O_VERTICAL_SHIFT vshift) CW_O_HORIZONTAL_SHIFT hshift.

(** A cloud dataset (one byte per pixel) open for writing on stream 0. *)
Definition sample_cloud (rows columns : Z) (dm : bool) : cw_file_type :=
  mkFile 0 None "a.cwf" dm CW_WRITE CW_DATA_ID_CLOUD (-1) (rows, columns) 1.

Definition sample_world (table : list (option cw_file_type)) (hdr : list Z) : world :=
  mkWorld table (granting_host 1 true) (fun _ => None) []
          (mkFS [Some (mkStream 0 0 true true)] [hdr] [("a.cwf"%string, 0%nat)]).

Definition one_open (cf : cw_file_type) : list (option cw_file_type) :=
  Some cf :: repeat None 99.
Definition all_open (cf : cw_file_type) : list (option cw_file_type) :=
  repeat (Some cf) 100.

Definition is_open (c : option cw_file_type) : bool :=
  match c with Some _ => true | None => false end.

(** The registry is full when none of the 100 slots of the table is null. *)
Definition table_full (w : world) : Prop :=
  Nat.eqb (List.length (cw_files w)) 100 && forallb is_open (cw_files w) = true.

(** Every index at which cw_files was read is one of the table. *)
Definition reads_in_table (w : world) : Prop :=
  forallb in_table (reg_log w) = true.

Definition W_zero_rows : world :=
  sample_world (one_open (sample_cloud 0 5 false))
               (sample_header 0 5 CW_DATA_ID_CLOUD 0 0).
Definition W_shifted : world :=
  sample_world (one_open (sample_cloud 4 5 false))
               (sample_header 4 5 CW_DATA_ID_CLOUD 2 0).
Definition W_full : world :=
  sample_world (all_open (sample_cloud 4 5 false))
               (sample_header 4 5 CW_DATA_ID_CLOUD 0 0).
(** The world of [W_shifted] on a host that lets no file be created. *)
Definition W_no_room : world :=
  mkWorld (cw_files W_shifted)
          (mkHost 1 true (fun _ => false) true (fun _ => true))
          (beyond W_shifted) (reg_log W_shifted) (fs W_shifted).
(** The same world on a host that has no memory left. *)
Definition W_no_memory : world :=
  mkWorld (cw_files W_shifted)
          (mkHost 1 true (fun _ => true) true (fun _ => false))
          (beyond W_shifted) (reg_log W_shifted) (fs W_shifted).
Definition W_empty : world :=
  sample_world (repeat None 100) (sample_header 4 5 CW_DATA_ID_CLOUD 0 0).


(** The capacity rule as the specification words it, for one call. *)
Definition max_files_claim (w : world) (p : string) (mode : Z) : Prop :=
  table_full w ->
  snd (fst (cw_create w p mode)) = CW_ERR_MAX_FILES
  /\ snd (fst (cw_open w p mode)) = CW_ERR_MAX_FILES.

(** Decoding then encoding gives the code back, on a path and a code. *)
Definition roundtrip_holds (p : cal_path) (compression code : Z) : Prop :=
  path_valid p compression code = true ->
  path_encode p (path_decode p compression code) = code.

(** The shifted window of [cw_get_raw] misses the grid on an axis. *)
Definition window_misses (start count shift dim : Z) : Prop :=
  shifted_start start shift > dim - 1 \/ shifted_end start count shift < 0.

(** ** Predicates of the statements on attributes, dimensions and variables *)

(** A stream open for reading and writing, on a file that exists. *)
Definition rw_stream (s : filesys) (f : nat) (st : stream) : Prop :=
  get_stream s f = Some st /\ s_read st = true /\ s_write st = true
  /\ (s_file st < List.length (files s))%nat.

(** The two bytes [cw_put_att] hands to [fwrite] for a code. *)
Definition att_bytes (h : host) (code : Z) : list Z :=
  if cw_byteswap h =? 0 then ushort_mem (host_little h) (to_ushort code)
  else byte_swap (ushort_mem (host_little h) (to_ushort code)).

(** The byte-order flag as the first create or open sets it. *)
Definition byteswap_set (h : host) : Prop :=
  cw_byteswap h = if host_little h then 1 else 0.

(** The code that [cw_get_att] decodes from the bytes [c] of a file at [off]. *)
Definition att_code_at (h : host) (c : list Z) (off : Z) : Z :=
  to_short (nth 0 (ushorts_of_bytes (host_little h)
                     (if cw_byteswap h =? 0
                      then [nth (Z.to_nat off) c 0; nth (S (Z.to_nat off)) c 0]
                      else [nth (S (Z.to_nat off)) c 0; nth (Z.to_nat off) c 0])) 0).

(** Stream [f] is open for reading and writing on file [n], whose bytes are
    [c]. *)
Definition on_file (s : filesys) (f n : nat) (c : list Z) : Prop :=
  exists p, get_stream s f = Some (mkStream n p true true)
            /\ (n < List.length (files s))%nat /\ file_bytes s n = c.

(** Every name of the directory stands for a file that exists. *)
Definition names_ok (s : filesys) : Prop :=
  forall q m, lookup_name (names s) q = Some m -> (m < List.length (files s))%nat.

(** Stream [f] can be read and stands at [pos] in a file whose bytes are
    [bytes]. *)
Definition reads (s : filesys) (f : nat) (pos : Z) (bytes : list Z) : Prop :=
  exists st, get_stream s f = Some st /\ s_pos st = pos /\ s_read st = true
             /\ file_bytes s (s_file st) = bytes.

(** ** The two files of the compression, and the 1B codes of the specification *)

(** Stream [f] stands at [p] in file [n], whose bytes are [c]; [r] and [w]
    say whether it can be read and written. *)
Definition stream_at (s : filesys) (f n : nat) (p : Z) (r w : bool) (c : list Z) : Prop :=
  get_stream s f = Some (mkStream n p r w)
  /\ (n < List.length (files s))%nat /\ file_bytes s n = c.

(** The file and the modes of a stream. *)
Definition stream_kind (s : filesys) (f : nat) : option (nat * bool * bool) :=
  match get_stream s f with
  | Some st => Some (s_file st, s_read st, s_write st)
  | None => None
  end.

(** From [s] to [s'] nothing changed but the position of stream [f] and the
    bytes of the file it is on. *)
Definition touches_only (f : nat) (s s' : filesys) : Prop :=
  List.length (files s') = List.length (files s)
  /\ names s' = names s
  /\ (forall g, g <> f -> get_stream s' g = get_stream s g)
  /\ stream_kind s' f = stream_kind s f
  /\ (forall m, match stream_kind s f with
                | Some (n, _, _) => m <> n
                | None => True
                end -> file_bytes s' m = file_bytes s m).

(** Two streams on two files. *)
Definition two_at (s : filesys) (f n : nat) (p : Z) (r w : bool) (c : list Z)
    (g m : nat) (q : Z) (r' w' : bool) (c' : list Z) : Prop :=
  stream_at s f n p r w c /\ stream_at s g m q r' w' c' /\ f <> g /\ n <> m.

(** The codes of the channel stream as the specification describes them, in
    plain arithmetic: an absolute code is two bytes, the first with the marker
    128, the sign in bit 3 and the high bits of the magnitude, the second the
    low eight bits of the magnitude; a delta is one byte, the magnitude of the
    difference with the sign in bit 6.  The first value of a stream is an
    absolute code, every later one a delta when it is within 63 of its
    predecessor and an absolute code otherwise. *)
Definition absolute_code (d : Z) : list Z :=
  [128 + (if d <? 0 then 8 else 0) + Z.abs d / 256; Z.abs d mod 256].
Definition delta_code (prev d : Z) : list Z :=
  [Z.abs (d - prev) + (if d - prev <? 0 then 64 else 0)].
Fixpoint spec_code_rest (prev : Z) (l : list Z) : list Z :=
  match l with
  | [] => []
  | d :: t => (if Z.abs (d - prev) <=? 63 then delta_code prev d else absolute_code d)
              ++ spec_code_rest d t
  end.
Definition spec_code_stream (l : list Z) : list Z :=
  match l with
  | [] => []
  | d :: t => absolute_code d ++ spec_code_rest d t
  end.

(** The channel stream as the specification has it read, in plain
    arithmetic.  A byte of 128 or more opens a two-byte absolute code: its
    four low bits are the high bits of the magnitude, the second byte the low
    eight, and the value is negative where bit 3 is set.  Any other byte is a
    delta on the value before: its six low bits, subtracted where bit 6 is
    set.  The first byte of a stream has to open an absolute code.  The
    result is the values and the bytes behind them. *)
Definition absolute_value (b0 b1 : Z) : Z :=
  (if b0 mod 16 <? 8 then 1 else -1) * ((b0 mod 16) * 256 + b1).
Definition delta_value (prev b : Z) : Z := prev + (if b <? 64 then b else 64 - b).
Fixpoint spec_decode (n : nat) (first : bool) (prev : Z) (bytes : list Z)
  : option (list Z * list Z) :=
  match n with
  | O => Some ([], bytes)
  | S k =>
      match bytes with
      | [] => None
      | b0 :: t =>
          if 128 <=? b0 then
            match t with
            | [] => None
            | b1 :: t' =>
                match spec_decode k false (absolute_value b0 b1) t' with
                | Some (vs, rest) => Some (absolute_value b0 b1 :: vs, rest)
                | None => None
                end
            end
          else if first then None
          else
            match spec_decode k false (delta_value prev b0) t with
            | Some (vs, rest) => Some (delta_value prev b0 :: vs, rest)
            | None => None
            end
      end
  end.

(** A 16-bit word of an uncompressed file, in plain arithmetic: without its
    four low bits, which are the graphics, it is the channel value, the sign
    in the top bit and the magnitude in the eleven bits below.  Words lie in
    a file high byte first. *)
Definition word_value (w : Z) : Z :=
  (if w / 16 <? 2048 then 1 else -1) * ((w / 16) mod 2048).
Definition word_graphics (w : Z) : Z := w mod 16.
Definition be_bytes (ws : list Z) : list Z := flat_map (fun w => [w / 256; w mod 256]) ws.

Definition is_byte (b : Z) : Prop := 0 <= b <= 255.
Definition is_word (w : Z) : Prop := 0 <= w < 65536.
Definition is_value (d : Z) : Prop := -2047 <= d <= 2047.
Definition is_graphics (g : Z) : Prop := 0 <= g <= 15.

(** Rows of [cols] words, of channel values, of graphics, and of both. *)
Definition row_ok (cols : Z) (r : list Z) : Prop :=
  Z.of_nat (List.length r) = cols /\ Forall is_word r.
Definition vrow_ok (cols : Z) (r : list Z) : Prop :=
  Z.of_nat (List.length r) = cols /\ Forall is_value r.
Definition grow_ok (cols : Z) (r : list Z) : Prop :=
  Z.of_nat (List.length r) = cols /\ Forall is_graphics r.
Definition prow_ok (cols : Z) (p : list Z * list Z) : Prop :=
  vrow_ok cols (fst p) /\ grow_ok cols (snd p).

(** The uncompressed file [cu] of a grid: a header of the length of one row,
    then the words of the rows. *)
Definition grid_file (cu : list Z) (cols : Z) (wrows : list (list Z)) : Prop :=
  exists hdu tlu,
    cu = hdu ++ be_bytes (List.concat wrows) ++ tlu
    /\ Z.of_nat (List.length hdu) = cols * 2
    /\ Forall (row_ok cols) wrows.

(** While cw_compress writes: the uncompressed copy on [u], and the new file
    on [cfp] holding [hd], then [out], with the stream right behind them. *)
Definition compressing (s : filesys) (u nu : nat) (cu : list Z) (cfp nc : nat)
    (hd out : list Z) : Prop :=
  exists pu tl,
    two_at s u nu pu true true cu
           cfp nc (Z.of_nat (List.length hd + List.length out)) false true (hd ++ out ++ tl).

(** The words of a row after the data loop of cw_uncompress, and after its
    graphics loop. *)
Definition data_words (v : list Z) : list Z := cw_combine_channel (Some v) None.
Definition full_words (v g : list Z) : list Z := cw_combine_channel (Some v) (Some g).

(** A grid of two rows of two words, its uncompressed copy open on stream 0,
    and the compressed file of the same grid. *)
Definition sample_grid : list (list Z) := [[1603; 1763]; [1616; 4805]].
Definition S_grid : filesys :=
  mkFS [Some (mkStream 0 0 true true)]
       [[213; 0; 0; 0] ++ be_bytes (List.concat sample_grid)] [].
Definition F_grid : cw_file_type :=
  mkFile 0 (Some 0%nat) "c.cwf" false CW_WRITE CW_DATA_ID_IR 1 (2, 2) 2.
Definition S_coded : filesys :=
  mkFS [Some (mkStream 0 0 true false)]
       [repeat 0 1024 ++ [128; 100; 10; 73; 129; 44] ++ [3; 1; 0; 0; 5; 0]] [].
Definition F_coded : cw_file_type :=
  mkFile 0 None "c.cwf" false CW_NOWRITE CW_DATA_ID_IR 1 (2, 2) 2.

(** A compressed file whose channel stream starts with a byte that has no
    marker, open for reading on stream 0, and its dataset of one pixel. *)
Definition S_no_marker : filesys :=
  mkFS [Some (mkStream 0 0 true false)] [repeat 0 1024 ++ [5; 0; 0]] [].
Definition F_one_pixel : cw_file_type :=
  mkFile 0 None "c.cwf" false CW_NOWRITE CW_DATA_ID_IR 1 (1, 1) 2.

(** * Properties *)

Lemma all_from_spec (n : nat) (p : Z -> bool) :
  forall lo, all_from n lo p = true ->
  forall c, lo <= c < lo + Z.of_nat n -> p c = true.
Proof.
  induction n as [|k IH]; intros lo H c Hc.
  - simpl in Hc. lia.
  - simpl in H. apply andb_true_iff in H. destruct H as [H0 H1].
    destruct (Z.eq_dec c lo) as [->|Hne]; [exact H0|].
    apply (IH (lo + 1) H1). lia.
Qed.

Lemma roundtrip_raw_all :
  all_from 1024 1 (fun c => uncal_raw_val (cal_raw_val 0 c) =? c) = true.
Proof. vm_compute. reflexivity. Qed.

Lemma roundtrip_visible_all :
  all_from 2047 1 (fun c => uncal_visible_val (cal_visible_val 0 c) =? c) = true.
Proof. vm_compute. reflexivity. Qed.

Lemma roundtrip_ir_all :
  all_from 2047 1 (fun c => uncal_ir_val (cal_ir_val 0 0 c) =? c) = true.
Proof. vm_compute. reflexivity. Qed.

Lemma roundtrip_angle_all :
  all_from (Z.to_nat 65535) 1 (fun c => encode_angle_val (decode_angle_val 0 c) =? c) = true.
Proof. vm_compute. reflexivity. Qed.

(** ** Calibration round trips *)

Lemma nonflat_eqb (compression : Z) :
  compression <> CW_COMPRESSION_TYPE_FLAT ->
  (compression =? CW_COMPRESSION_TYPE_FLAT) = false.
Proof. intro H. apply Z.eqb_neq. exact H. Qed.

Lemma in_range_bounds (lo hi v : Z) : in_range lo hi v = true -> lo <= v <= hi.
Proof. unfold in_range. intro H. apply andb_true_iff in H. lia. Qed.

Lemma roundtrip_nonflat (p : cal_path) (compression code : Z) :
  compression <> CW_COMPRESSION_TYPE_FLAT -> is_time_path p = false ->
  roundtrip_holds p compression code.
Proof.
  intros Hc Hp Hv. unfold path_valid in Hv.
  rewrite (nonflat_eqb _ Hc) in Hv.
  destruct p; try discriminate Hp; apply in_range_bounds in Hv; simpl;
    [ unfold cal_raw_val | unfold cal_visible_val | unfold cal_ir_val
    | unfold decode_angle_val ];
    rewrite (nonflat_eqb _ Hc); apply Z.eqb_eq.
  - apply (all_from_spec _ _ 1 roundtrip_raw_all). lia.
  - apply (all_from_spec _ _ 1 roundtrip_visible_all). lia.
  - apply (all_from_spec _ _ 1 roundtrip_ir_all). lia.
  - apply (all_from_spec _ _ 1 roundtrip_angle_all). lia.
Qed.

Lemma badval_encodes_zero (p : cal_path) (f : float32) :
  is_time_path p = false -> SFeqb f CW_BADVAL = true -> path_encode p f = 0.
Proof.
  intros Hp Hf.
  destruct p; try discriminate Hp; simpl;
    [ unfold uncal_raw_val | unfold uncal_visible_val | unfold uncal_ir_val
    | unfold encode_angle_val ];
    rewrite Hf; reflexivity.
Qed.

(** C1, as the code has it: on every path but scan time, a valid raw code of
    a file that is not flat is given back by decoding then encoding, and a
    code that decodes to the bad value (flat or not) is encoded as 0. *)
Theorem C1_roundtrip_nonflat_paths (p : cal_path) (compression code : Z) :
  is_time_path p = false ->
  (compression <> CW_COMPRESSION_TYPE_FLAT -> roundtrip_holds p compression code)
  /\ (SFeqb (path_decode p compression code) CW_BADVAL = true ->
      path_encode p (path_decode p compression code) = 0).
Proof.
  intro Hp. split.
  - intro Hc. apply roundtrip_nonflat; assumption.
  - apply badval_encodes_zero. exact Hp.
Qed.

Lemma C1_roundtrip_witness :
  roundtrip_holds (PathInfrared 4) CW_COMPRESSION_TYPE_1B 984
  /\ (SFeqb (path_decode PathAngle CW_COMPRESSION_TYPE_1B 0) CW_BADVAL = true ->
      path_encode PathAngle (path_decode PathAngle CW_COMPRESSION_TYPE_1B 0) = 0).
Proof.
  split.
  - apply (C1_roundtrip_nonflat_paths (PathInfrared 4) CW_COMPRESSION_TYPE_1B 984);
      [reflexivity | discriminate].
  - apply (C1_roundtrip_nonflat_paths PathAngle CW_COMPRESSION_TYPE_1B 0). reflexivity.
Defined.

(** C1 as stated fails on a flat file: raw code 5 is in the flat range 0..1023
    and decodes to 5.0, which the only encoder there is turns into 6. *)
Lemma C1_flat_raw_counterexample :
  ~ roundtrip_holds PathRaw CW_COMPRESSION_TYPE_FLAT 5.
Proof.
  unfold roundtrip_holds. intro H.
  assert (E : path_encode PathRaw (path_decode PathRaw CW_COMPRESSION_TYPE_FLAT 5) = 6)
    by (vm_compute; reflexivity).
  rewrite H in E; [discriminate E | reflexivity].
Qed.

(** ** Scan time *)

Lemma time_minutes_is_code_minus_hours (v : Z) :
  0 <= v < 32768 -> time_hours v = v / 100 /\ time_minutes v = v - v / 100.
Proof.
  intro Hv. unfold time_minutes, time_hours, to_short.
  assert (E0 : (v + 32768) mod 65536 - 32768 = v).
  { rewrite Z.mod_small by lia. lia. }
  rewrite E0. rewrite Z.quot_div_nonneg by lia.
  assert (Hq : 0 <= v / 100 <= v) by (split; [apply Z.div_pos; lia | apply Z.div_le_upper_bound; lia]).
  assert (E1 : (v / 100 + 32768) mod 65536 - 32768 = v / 100).
  { rewrite Z.mod_small by lia. lia. }
  rewrite E1. split; [reflexivity|].
  rewrite Z.mod_small by lia. lia.
Qed.

(** C2 against the code: for the stored value 130 (01:30) the decoder takes
    129 minutes, the value less the hours, where the claim has the last two
    digits, 30; the decoded hours differ. *)
Theorem C2_scan_time_minutes_slip :
  time_hours 130 = spec_time_hours 130
  /\ time_minutes 130 = 129 /\ spec_time_minutes 130 = 30
  /\ decode_time_val 130 <> spec_decode_time 130.
Proof.
  repeat split; try (vm_compute; reflexivity).
  vm_compute. discriminate.
Qed.

(** ** Reads of a shifted window *)

Lemma shift_axis_misses (start count shift dim : Z) :
  window_misses start count shift dim -> shift_axis start count shift dim = None.
Proof.
  unfold window_misses, shift_axis. intros [H|H].
  - replace (dim - 1 <? shifted_start start shift) with true
      by (symmetry; apply Z.ltb_lt; lia). reflexivity.
  - replace (shifted_end start count shift <? 0) with true
      by (symmetry; apply Z.ltb_lt; lia). rewrite orb_true_r. reflexivity.
Qed.

(** C5: when the shifted window misses the grid on the rows or on the
    columns, cw_get_raw succeeds, leaves the file alone and hands back a
    buffer of zeros. *)
Theorem C5_shifted_window_outside (h : host) (s : filesys) (f : nat) (psz : Z)
    (dims start count shift : Z * Z) :
  window_misses (fst start) (fst count) (fst shift) (fst dims)
  \/ window_misses (snd start) (snd count) (snd shift) (snd dims) ->
  cw_get_raw h s f psz dims start count (Some shift)
  = (s, CW_NOERR, repeat 0 (Z.to_nat (to_size_t (fst count * snd count * psz)))).
Proof.
  intros [H|H]; unfold cw_get_raw.
  - rewrite (shift_axis_misses _ _ _ _ H). reflexivity.
  - rewrite (shift_axis_misses _ _ _ _ H).
    destruct (shift_axis (fst start) (fst count) (fst shift) (fst dims))
      as [[[? ?] ?]|]; reflexivity.
Qed.

Lemma C5_shifted_window_witness :
  cw_get_raw (granting_host 1 true) (mkFS [] [] []) 0 2 (10, 20) (3, 18) (2, 2) (Some (0, -4))
  = (mkFS [] [] [], CW_NOERR, repeat 0 8).
Proof.
  apply (C5_shifted_window_outside (granting_host 1 true) (mkFS [] [] []) 0 2
           (10, 20) (3, 18) (2, 2) (0, -4)).
  right. left. vm_compute. reflexivity.
Defined.

(** On the requests cw_get_vara lets through, the shorts of the shift loop
    are the plain differences: a window that misses the grid in plain
    integers misses it for cw_get_raw. *)
Lemma window_misses_plain (start count shift dim : Z) :
  0 <= start -> 1 <= count -> start + count <= dim -> dim <= 32767 ->
  -32768 <= shift <= 32767 ->
  start - shift > dim - 1 \/ start - shift + count - 1 < 0 ->
  window_misses start count shift dim.
Proof.
  intros H0 H1 H2 H3 H4 H5.
  unfold window_misses, shifted_end, shifted_start, to_short.
  Z.div_mod_to_equations. lia.
Qed.

(** ** The window test of cw_get_vara and cw_put_vara *)

Lemma slot_at_log (w : world) (id cwid : Z) :
  slot_at (log_index w id) cwid = slot_at w cwid.
Proof. reflexivity. Qed.

(** A window the test finds out of range is refused before any file access:
    the files are as they were and the caller's array is not touched. *)
Lemma index_check_rejects (w : world) (cwid varid : Z) (start count : Z * Z)
    (type : Z) (data : cw_data) (cf : cw_file_type) :
  slot_at w cwid = Some cf -> defmode cf = false ->
  index_out_of_range (dims cf) start count = true ->
  cw_get_vara w cwid varid start count type
    = (log_index w cwid, CW_ERR_VAR_INDEX, None)
  /\ cw_put_vara w cwid varid start count data = (log_index w cwid, CW_ERR_VAR_INDEX).
Proof.
  intros Hs Hd Hi. unfold cw_get_vara, cw_put_vara.
  rewrite slot_at_log, Hs, Hd, Hi. split; reflexivity.
Qed.

(** On a grid with at least one row and one column, and a request that does
    not run past the range of size_t, the test of the code is the one of the
    specification. *)
Lemma index_out_of_range_plain (dims start count : Z * Z) :
  1 <= fst dims <= 32767 -> 1 <= snd dims <= 32767 ->
  0 <= fst start -> 0 <= snd start -> 0 <= fst count -> 0 <= snd count ->
  fst start + fst count <= SIZE_MOD -> snd start + snd count <= SIZE_MOD ->
  spec_out_of_range dims start count ->
  index_out_of_range dims start count = true.
Proof.
  unfold spec_out_of_range, index_out_of_range, to_size_t, SIZE_MOD.
  intros Hr Hc Hsr Hsc Hcr Hcc Hwr Hwc H.
  rewrite !(Z.mod_small (_ - 1) (2 ^ 64)) by lia.
  assert (Er : (fst start + fst count - 1) mod 2 ^ 64 = fst start + fst count - 1
               \/ (fst start + fst count - 1) mod 2 ^ 64 = 2 ^ 64 - 1).
  { destruct (Z.eq_dec (fst start + fst count) 0) as [E|E].
    - right. replace (fst start + fst count - 1) with (-1) by lia. reflexivity.
    - left. apply Z.mod_small. lia. }
  assert (Ec : (snd start + snd count - 1) mod 2 ^ 64 = snd start + snd count - 1
               \/ (snd start + snd count - 1) mod 2 ^ 64 = 2 ^ 64 - 1).
  { destruct (Z.eq_dec (snd start + snd count) 0) as [E|E].
    - right. replace (snd start + snd count - 1) with (-1) by lia. reflexivity.
    - left. apply Z.mod_small. lia. }
  rewrite !orb_true_iff, !Z.ltb_lt.
  destruct Er as [Er|Er]; destruct Ec as [Ec|Ec]; rewrite Er, Ec;
    change (2 ^ 64) with 18446744073709551616 in *; lia.
Qed.

(** C6 against the code: on a grid declared with no row, the window that
    starts at row 0 is past the last row (0 > 0 - 1), yet the test, made in
    size_t, lets it through, and cw_put_vara stores the byte and succeeds. *)
Theorem C6_zero_rows_window_accepted :
  spec_out_of_range (0, 5) (0, 0) (1, 1)
  /\ index_out_of_range (0, 5) (0, 0) (1, 1) = false
  /\ snd (cw_put_vara W_zero_rows 0 CW_DATA (0, 0) (1, 1) (DataByte [7])) = CW_NOERR
  /\ nth 5 (file_bytes (fs W_zero_rows) 0) 0 = 0
  /\ nth 5 (file_bytes
              (fs (fst (cw_put_vara W_zero_rows 0 CW_DATA (0, 0) (1, 1) (DataByte [7])))) 0) 0
     = 7.
Proof.
  split; [left; simpl; lia|].
  repeat split; vm_compute; reflexivity.
Qed.

(** ** Writes to a shifted grid *)



(** A dataset that has its uncompressed copy, or is neither visible nor
    infrared, goes through the compression check untouched. *)
Lemma check_compression_skips (h : host) (s : filesys) (cf : cw_file_type) :
  ufp cf <> None
  \/ ((data_id cf =? CW_DATA_ID_VISIBLE) || (data_id cf =? CW_DATA_ID_IR)) = false ->
  check_compression h s cf = (s, CW_NOERR, cf).
Proof.
  unfold check_compression. intros [H|H].
  - destruct (ufp cf); [reflexivity | contradiction].
  - destruct (ufp cf); [reflexivity|]. rewrite H. reflexivity.
Qed.




(** ** The capacity of the registry *)

Lemma table_full_slot (w : world) (id : Z) :
  table_full w -> in_table id = true -> slot_at w id <> None.
Proof.
  unfold table_full, slot_at, in_table. intros Hf Hi. rewrite Hi.
  apply andb_true_iff in Hf. destruct Hf as [Hl Ha].
  apply Nat.eqb_eq in Hl. apply andb_true_iff in Hi.
  assert (Hin : In (nth (Z.to_nat id) (cw_files w) None) (cw_files w)).
  { apply nth_In. destruct Hi as [H0 H1]. apply Z.leb_le in H0. apply Z.ltb_lt in H1.
    unfold CW_MAX_FILES in H1. rewrite Hl. clear Hl Ha. lia. }
  rewrite forallb_forall in Ha. specialize (Ha _ Hin).
  destruct (nth (Z.to_nat id) (cw_files w) None); [discriminate | discriminate Ha].
Qed.

(** On a full table the slot search stops at CW_MAX_FILES, whatever lies
    behind the table, and changes nothing but the log of the reads. *)
Lemma find_slot_full (fuel : nat) :
  forall (w : world) (id : Z),
  table_full w -> 0 <= id <= 100 -> 100 - id < Z.of_nat fuel ->
  exists lg, find_slot fuel w id
             = (mkWorld (cw_files w) (hst w) (beyond w) lg (fs w), CW_MAX_FILES).
Proof.
  induction fuel as [|k IH]; intros w id Hf Hid Hfuel.
  - change (Z.of_nat 0) with 0 in Hfuel. lia.
  - cbn [find_slot]. rewrite slot_at_log.
    destruct (Z.eq_dec id 100) as [->|Hne].
    + change (100 <? CW_MAX_FILES) with false.
      exists (reg_log w ++ [100]). destruct (slot_at w 100); reflexivity.
    + assert (Hi : in_table id = true).
      { unfold in_table, CW_MAX_FILES. apply andb_true_iff.
        split; [apply Z.leb_le | apply Z.ltb_lt]; lia. }
      pose proof (table_full_slot w id Hf Hi) as Hs.
      destruct (slot_at w id) as [c|]; [|contradiction].
      replace (id <? CW_MAX_FILES) with true
        by (symmetry; apply Z.ltb_lt; unfold CW_MAX_FILES; lia).
      destruct (IH (log_index w id) (id + 1) Hf ltac:(lia) ltac:(lia)) as [lg E].
      exists lg. exact E.
Qed.

Lemma find_slot_cw_files (fuel : nat) :
  forall (w : world) (id : Z), cw_files (fst (find_slot fuel w id)) = cw_files w.
Proof.
  induction fuel as [|k IH]; intros w id; [reflexivity|].
  cbn [find_slot]. rewrite slot_at_log.
  destruct (slot_at w id); [|reflexivity].
  destruct (id <? CW_MAX_FILES); [|reflexivity].
  rewrite IH. reflexivity.
Qed.

Lemma upd_length {A : Type} (l : list A) :
  forall n x, List.length (upd n x l) = List.length l.
Proof.
  induction l as [|h t IH]; intros n x; [destruct n; reflexivity|].
  destruct n; simpl; [reflexivity | rewrite IH; reflexivity].
Qed.

Lemma set_slot_length (w : world) (id : Z) (c : option cw_file_type) :
  List.length (cw_files (set_slot w id c)) = List.length (cw_files w).
Proof.
  unfold set_slot. destruct (in_table id); [apply upd_length | reflexivity].
Qed.

Lemma init_byteswap_cw_files (w : world) : cw_files (init_byteswap w) = cw_files w.
Proof. unfold init_byteswap. destruct (cw_byteswap (hst w) =? -1); reflexivity. Qed.

Lemma cw_create_length (w : world) (p : string) (cmode : Z) :
  List.length (cw_files (fst (fst (cw_create w p cmode)))) = List.length (cw_files w).
Proof.
  unfold cw_create.
  destruct (negb ((cmode =? CW_CLOBBER) || (cmode =? CW_NOCLOBBER)));
    [simpl; rewrite init_byteswap_cw_files; reflexivity|].
  pose proof (find_slot_cw_files 101 (init_byteswap w) 0) as Hf.
  rewrite init_byteswap_cw_files in Hf.
  destruct (find_slot 101 (init_byteswap w) 0) as [w1 id]. simpl in Hf.
  destruct (id =? CW_MAX_FILES); [simpl; congruence|].
  match goal with |- context [let (_, _) := ?c in _] => destruct c as [s2 found] end.
  destruct found; [simpl; congruence|].
  destruct (fopen_create (hst w1) s2 p true) as [s3 [f|]]; [|simpl; congruence].
  destruct (negb (can_malloc (hst w1) 0 && can_malloc (hst w1) 1)); [simpl; congruence|].
  match goal with |- context [let (_, _) := ?c in _] => destruct c as [s4 ok] end.
  destruct (negb ok); simpl; [congruence|].
  rewrite set_slot_length. congruence.
Qed.

Lemma cw_open_length (w : world) (p : string) (omode : Z) :
  List.length (cw_files (fst (fst (cw_open w p omode)))) = List.length (cw_files w).
Proof.
  unfold cw_open.
  destruct (negb ((omode =? CW_NOWRITE) || (omode =? CW_WRITE)));
    [simpl; rewrite init_byteswap_cw_files; reflexivity|].
  pose proof (find_slot_cw_files 101 (init_byteswap w) 0) as Hf.
  rewrite init_byteswap_cw_files in Hf.
  destruct (find_slot 101 (init_byteswap w) 0) as [w1 id]. simpl in Hf.
  destruct (id =? CW_MAX_FILES); [simpl; congruence|].
  destruct (fopen_existing (fs w1) p (negb (omode =? CW_NOWRITE))) as [s2 [f|]];
    [|simpl; congruence].
  destruct (fread s2 f 1 1) as [[s3 magic] items].
  destruct (items <? 1); [simpl; congruence|].
  destruct (negb (nth 0 magic 0 =? CW_MAGIC_NUM)); [simpl; congruence|].
  destruct (open_header (hst w1) s3 f) as [[s4 rc] [[[did dm] psz] gr]].
  destruct (negb (rc =? CW_NOERR)); simpl; [congruence|].
  rewrite set_slot_length. congruence.
Qed.

Lemma open_count_le (w : world) : (open_count w <= List.length (cw_files w))%nat.
Proof. unfold open_count. apply filter_length_le. Qed.

(** The slot search from [id0] changes nothing but the log; it ends at
    CW_MAX_FILES or at a slot of the table that is free. *)
Lemma find_slot_result (fuel : nat) :
  forall (w : world) (id0 : Z),
  0 <= id0 <= 100 -> 100 - id0 < Z.of_nat fuel ->
  cw_files (fst (find_slot fuel w id0)) = cw_files w
  /\ hst (fst (find_slot fuel w id0)) = hst w
  /\ fs (fst (find_slot fuel w id0)) = fs w
  /\ id0 <= snd (find_slot fuel w id0) <= 100
  /\ (snd (find_slot fuel w id0) <> 100 -> slot_at w (snd (find_slot fuel w id0)) = None).
Proof.
  induction fuel as [|k IH]; intros w id0 Hid Hfuel.
  - change (Z.of_nat 0) with 0 in Hfuel. lia.
  - cbn [find_slot]. rewrite slot_at_log.
    destruct (slot_at w id0) as [c|] eqn:Hs.
    + destruct (id0 <? CW_MAX_FILES) eqn:Hlt.
      * apply Z.ltb_lt in Hlt. unfold CW_MAX_FILES in Hlt.
        destruct (IH (log_index w id0) (id0 + 1) ltac:(lia) ltac:(lia))
          as [H1 [H2 [H3 [H4 H5]]]].
        repeat split; try assumption; try lia.
      * apply Z.ltb_ge in Hlt. unfold CW_MAX_FILES in Hlt. cbn [fst snd].
        repeat split; try reflexivity; try lia.
    + cbn [fst snd]. repeat split; try reflexivity; try lia. intros _. exact Hs.
Qed.

Lemma filter_upd_free (l : list (option cw_file_type)) :
  forall (n : nat) (cf : cw_file_type),
  (n < List.length l)%nat -> nth n l None = None ->
  List.length (filter is_open (upd n (Some cf) l)) = S (List.length (filter is_open l)).
Proof.
  induction l as [|a t IH]; intros n cf Hn Hfree; [simpl in Hn; lia|].
  destruct n as [|n].
  - cbn [nth] in Hfree. subst a. reflexivity.
  - cbn [upd filter]. cbn [nth] in Hfree. simpl in Hn.
    destruct (is_open a); cbn [List.length]; rewrite (IH n cf) by (lia || assumption);
      reflexivity.
Qed.

Lemma open_count_set_slot (w : world) (id : Z) (cf : cw_file_type) (s : filesys) :
  0 <= id < 100 -> List.length (cw_files w) = 100%nat -> slot_at w id = None ->
  open_count (with_fs (set_slot w id (Some cf)) s) = S (open_count w).
Proof.
  intros Hid Hl Hfree. unfold open_count, set_slot, slot_at in *.
  assert (Hin : in_table id = true).
  { unfold in_table, CW_MAX_FILES. apply andb_true_iff.
    split; [apply Z.leb_le | apply Z.ltb_lt]; lia. }
  rewrite Hin in *. cbn [cw_files with_fs set_cw_files].
  apply (filter_upd_free (cw_files w) (Z.to_nat id) cf); [lia | exact Hfree].
Qed.

(** What a create does to the table: nothing when it fails, and when it
    succeeds it fills a slot of the table that was free. *)
Lemma cw_create_cases (w : world) (p : string) (m : Z) :
  (snd (fst (cw_create w p m)) <> CW_NOERR
   /\ snd (cw_create w p m) = None
   /\ cw_files (fst (fst (cw_create w p m))) = cw_files w)
  \/ (snd (fst (cw_create w p m)) = CW_NOERR
      /\ exists id cf s,
           snd (cw_create w p m) = Some id /\ 0 <= id < 100 /\ slot_at w id = None
           /\ fst (fst (cw_create w p m))
              = with_fs (set_slot (fst (find_slot 101 (init_byteswap w) 0)) id (Some cf)) s).
Proof.
  unfold cw_create.
  assert (Hi : cw_files (init_byteswap w) = cw_files w) by apply init_byteswap_cw_files.
  destruct (negb ((m =? CW_CLOBBER) || (m =? CW_NOCLOBBER))).
  { left. cbn [fst snd]. repeat split; [discriminate | exact Hi]. }
  destruct (find_slot_result 101 (init_byteswap w) 0 ltac:(lia) ltac:(reflexivity))
    as [H1 [H2 [H3 [H4 H5]]]].
  destruct (find_slot 101 (init_byteswap w) 0) as [w1 id]. cbn [fst snd] in *.
  destruct (id =? CW_MAX_FILES) eqn:Eid.
  { left. cbn [fst snd]. repeat split; [discriminate | congruence]. }
  apply Z.eqb_neq in Eid. unfold CW_MAX_FILES in Eid.
  destruct (if m =? CW_CLOBBER then (fs w1, false)
            else match fopen_existing (fs w1) p false with
                 | (s, Some f) => (fclose s f, true)
                 | (s, None) => (s, false)
                 end) as [s2 found].
  destruct found.
  { left. cbn [fst snd cw_files with_fs]. repeat split; [discriminate | congruence]. }
  destruct (fopen_create (hst w1) s2 p true) as [s3 [f|]].
  2:{ left. cbn [fst snd cw_files with_fs]. repeat split; [discriminate | congruence]. }
  destruct (negb (can_malloc (hst w1) 0 && can_malloc (hst w1) 1)).
  { left. cbn [fst snd cw_files with_fs]. repeat split; [discriminate | congruence]. }
  destruct (fwrite s3 f _) as [s4 ok]. destruct ok; cbn [negb].
  - right. cbn [fst snd]. split; [reflexivity|].
    exists id. eexists. exists s4. repeat split; try lia.
    specialize (H5 Eid). unfold slot_at in *. unfold init_byteswap in H5.
    destruct (cw_byteswap (hst w) =? -1); exact H5.
  - left. cbn [fst snd cw_files with_fs]. repeat split; [discriminate | congruence].
Qed.

Lemma cw_open_cases (w : world) (p : string) (m : Z) :
  (snd (fst (cw_open w p m)) <> CW_NOERR
   /\ snd (cw_open w p m) = None
   /\ cw_files (fst (fst (cw_open w p m))) = cw_files w)
  \/ (snd (fst (cw_open w p m)) = CW_NOERR
      /\ exists id cf s,
           snd (cw_open w p m) = Some id /\ 0 <= id < 100 /\ slot_at w id = None
           /\ fst (fst (cw_open w p m))
              = with_fs (set_slot (fst (find_slot 101 (init_byteswap w) 0)) id (Some cf)) s).
Proof.
  unfold cw_open.
  assert (Hi : cw_files (init_byteswap w) = cw_files w) by apply init_byteswap_cw_files.
  destruct (negb ((m =? CW_NOWRITE) || (m =? CW_WRITE))).
  { left. cbn [fst snd]. repeat split; [discriminate | exact Hi]. }
  destruct (find_slot_result 101 (init_byteswap w) 0 ltac:(lia) ltac:(reflexivity))
    as [H1 [H2 [H3 [H4 H5]]]].
  destruct (find_slot 101 (init_byteswap w) 0) as [w1 id]. cbn [fst snd] in *.
  destruct (id =? CW_MAX_FILES) eqn:Eid.
  { left. cbn [fst snd]. repeat split; [discriminate | congruence]. }
  apply Z.eqb_neq in Eid. unfold CW_MAX_FILES in Eid.
  destruct (fopen_existing (fs w1) p (negb (m =? CW_NOWRITE))) as [s2 [f|]].
  2:{ left. cbn [fst snd cw_files with_fs]. repeat split; [discriminate | congruence]. }
  destruct (fread s2 f 1 1) as [[s3 magic] items].
  destruct (items <? 1).
  { left. cbn [fst snd cw_files with_fs]. repeat split; [discriminate | congruence]. }
  destruct (negb (nth 0 magic 0 =? CW_MAGIC_NUM)).
  { left. cbn [fst snd cw_files with_fs]. repeat split; [discriminate | congruence]. }
  destruct (open_header (hst w1) s3 f) as [[s4 rc] [[[did dm] psz] gr]].
  destruct (negb (rc =? CW_NOERR)) eqn:Erc.
  - left. cbn [fst snd cw_files with_fs]. apply negb_true_iff in Erc. apply Z.eqb_neq in Erc.
    repeat split; [exact Erc | congruence].
  - right. cbn [fst snd]. split; [reflexivity|].
    exists id. eexists. exists s4. repeat split; try lia.
    specialize (H5 Eid). unfold slot_at in *. unfold init_byteswap in H5.
    destruct (cw_byteswap (hst w) =? -1); exact H5.
Qed.

(** A create or an open that succeeds on a table of 100 slots takes one that
    was free: one more dataset is open, and there was room for it. *)
Lemma success_takes_a_free_slot (w : world) (r : world * Z * option Z) :
  List.length (cw_files w) = 100%nat ->
  (exists id cf s,
     snd r = Some id /\ 0 <= id < 100 /\ slot_at w id = None
     /\ fst (fst r)
        = with_fs (set_slot (fst (find_slot 101 (init_byteswap w) 0)) id (Some cf)) s) ->
  (open_count w < 100)%nat /\ open_count (fst (fst r)) = S (open_count w).
Proof.
  intros Hl [id [cf [s [_ [Hid [Hfree E]]]]]].
  destruct (find_slot_result 101 (init_byteswap w) 0 ltac:(lia) ltac:(reflexivity))
    as [H1 _].
  rewrite init_byteswap_cw_files in H1.
  set (w1 := fst (find_slot 101 (init_byteswap w) 0)) in *.
  assert (Hc : open_count (fst (fst r)) = S (open_count w)).
  { rewrite E.
    replace (open_count w) with (open_count w1) by (unfold open_count; rewrite H1; reflexivity).
    apply open_count_set_slot; [exact Hid | congruence|].
    unfold slot_at in *. rewrite H1.
    replace (in_table id) with true in *
      by (symmetry; unfold in_table, CW_MAX_FILES; apply andb_true_iff;
          split; [apply Z.leb_le | apply Z.ltb_lt]; lia).
    exact Hfree. }
  split; [|exact Hc].
  pose proof (open_count_le (fst (fst r))) as Hle. rewrite E in Hle, Hc.
  cbn [cw_files with_fs] in Hle. rewrite set_slot_length in Hle.
  fold w1 in Hle. rewrite H1, Hl in Hle.
  change (open_count (with_fs (set_slot w1 id (Some cf)) s))
    with (List.length (filter (fun c => match c with Some _ => true | None => false end)
                              (cw_files (with_fs (set_slot w1 id (Some cf)) s)))) in Hc.
  unfold open_count in *. cbn [cw_files with_fs] in *. lia.
Qed.

(** C9, as the code has it: on a full registry cw_create and cw_open fail and
    leave the table and the files as they were, whatever lies behind the
    table: with CW_ERR_MAX_FILES when called with a mode they accept, and with
    CW_ERR_CREATE_MODE or CW_ERR_ACCESS_MODE with any other mode, for the mode
    is tested first.  And on a table of 100 slots a create or an open, in any
    state, that fails leaves the table as it was, and one that succeeds takes
    a slot that was free, so that the number of open datasets grows by one
    and never passes 100. *)
Theorem C9_full_registry_refuses (w : world) (p : string) (mode : Z) :
  table_full w ->
  (snd (fst (cw_create w p mode))
   = (if (mode =? CW_CLOBBER) || (mode =? CW_NOCLOBBER)
      then CW_ERR_MAX_FILES else CW_ERR_CREATE_MODE)
   /\ snd (cw_create w p mode) = None
   /\ cw_files (fst (fst (cw_create w p mode))) = cw_files w
   /\ fs (fst (fst (cw_create w p mode))) = fs w)
  /\ (snd (fst (cw_open w p mode))
      = (if (mode =? CW_NOWRITE) || (mode =? CW_WRITE)
         then CW_ERR_MAX_FILES else CW_ERR_ACCESS_MODE)
      /\ snd (cw_open w p mode) = None
      /\ cw_files (fst (fst (cw_open w p mode))) = cw_files w
      /\ fs (fst (fst (cw_open w p mode))) = fs w)
  /\ (forall w' p' m, List.length (cw_files w') = 100%nat ->
        ((open_count (fst (fst (cw_create w' p' m))) <= 100)%nat
         /\ (snd (fst (cw_create w' p' m)) = CW_NOERR ->
             (open_count w' < 100)%nat
             /\ open_count (fst (fst (cw_create w' p' m))) = S (open_count w'))
         /\ (snd (fst (cw_create w' p' m)) <> CW_NOERR ->
             cw_files (fst (fst (cw_create w' p' m))) = cw_files w'))
        /\ ((open_count (fst (fst (cw_open w' p' m))) <= 100)%nat
            /\ (snd (fst (cw_open w' p' m)) = CW_NOERR ->
                (open_count w' < 100)%nat
                /\ open_count (fst (fst (cw_open w' p' m))) = S (open_count w'))
            /\ (snd (fst (cw_open w' p' m)) <> CW_NOERR ->
                cw_files (fst (fst (cw_open w' p' m))) = cw_files w'))).
Proof.
  intros Hf.
  assert (Hf' : table_full (init_byteswap w)).
  { unfold table_full. rewrite init_byteswap_cw_files. exact Hf. }
  destruct (find_slot_full 101 (init_byteswap w) 0 Hf' ltac:(lia) ltac:(reflexivity))
    as [lg E].
  assert (Efs : fs (init_byteswap w) = fs w).
  { unfold init_byteswap. destruct (cw_byteswap (hst w) =? -1); reflexivity. }
  split; [|split].
  - unfold cw_create.
    destruct ((mode =? CW_CLOBBER) || (mode =? CW_NOCLOBBER)); cbn [negb].
    + rewrite E. change (CW_MAX_FILES =? CW_MAX_FILES) with true. cbn [fst snd fs cw_files].
      rewrite init_byteswap_cw_files, Efs. repeat split.
    + cbn [fst snd]. rewrite init_byteswap_cw_files, Efs. repeat split.
  - unfold cw_open.
    destruct ((mode =? CW_NOWRITE) || (mode =? CW_WRITE)); cbn [negb].
    + rewrite E. change (CW_MAX_FILES =? CW_MAX_FILES) with true. cbn [fst snd fs cw_files].
      rewrite init_byteswap_cw_files, Efs. repeat split.
    + cbn [fst snd]. rewrite init_byteswap_cw_files, Efs. repeat split.
  - intros w' p' m Hl. split.
    + split; [|split].
      * pose proof (open_count_le (fst (fst (cw_create w' p' m)))) as H.
        rewrite cw_create_length, Hl in H. exact H.
      * intro Hok. destruct (cw_create_cases w' p' m) as [[Hbad _]|[_ Hgood]];
          [contradiction|].
        apply (success_takes_a_free_slot w' _ Hl Hgood).
      * intro Hbad. destruct (cw_create_cases w' p' m) as [[_ [_ Hsame]]|[Hok _]];
          [exact Hsame | contradiction].
    + split; [|split].
      * pose proof (open_count_le (fst (fst (cw_open w' p' m)))) as H.
        rewrite cw_open_length, Hl in H. exact H.
      * intro Hok. destruct (cw_open_cases w' p' m) as [[Hbad _]|[_ Hgood]];
          [contradiction|].
        apply (success_takes_a_free_slot w' _ Hl Hgood).
      * intro Hbad. destruct (cw_open_cases w' p' m) as [[_ [_ Hsame]]|[Hok _]];
          [exact Hsame | contradiction].
Qed.

Lemma C9_full_registry_witness :
  snd (fst (cw_create W_full "b.cwf" CW_NOCLOBBER)) = CW_ERR_MAX_FILES
  /\ snd (fst (cw_open W_full "a.cwf" CW_WRITE)) = CW_ERR_MAX_FILES
  /\ snd (fst (cw_create W_full "b.cwf" 7)) = CW_ERR_CREATE_MODE
  /\ snd (fst (cw_open W_full "a.cwf" 7)) = CW_ERR_ACCESS_MODE.
Proof.
  pose proof (C9_full_registry_refuses W_full "b.cwf" CW_NOCLOBBER eq_refl) as [[H1 _] _].
  pose proof (C9_full_registry_refuses W_full "a.cwf" CW_WRITE eq_refl) as [_ [[H2 _] _]].
  pose proof (C9_full_registry_refuses W_full "b.cwf" 7 eq_refl) as [[H3 _] _].
  pose proof (C9_full_registry_refuses W_full "a.cwf" 7 eq_refl) as [_ [[H4 _] _]].
  repeat split; assumption.
Defined.

(** C9 as stated fails on a call whose mode is refused first: on a full
    registry, cw_create with the creation mode 7 fails with CW_ERR_CREATE_MODE. *)
Lemma C9_bad_mode_counterexample : ~ max_files_claim W_full "b.cwf" 7.
Proof.
  intro H. destruct (H eq_refl) as [H1 _].
  assert (E : snd (fst (cw_create W_full "b.cwf" 7)) = CW_ERR_CREATE_MODE)
    by (vm_compute; reflexivity).
  rewrite H1 in E. discriminate E.
Qed.

(** ** Reads of the table *)

Lemma set_slot_reg_log (w : world) (id : Z) (c : option cw_file_type) :
  reg_log (set_slot w id c) = reg_log w.
Proof. unfold set_slot. destruct (in_table id); reflexivity. Qed.

Lemma cw_get_vara_reg_log (w : world) (cwid varid : Z) (start count : Z * Z) (type : Z) :
  reg_log (fst (fst (cw_get_vara w cwid varid start count type))) = reg_log w ++ [cwid].
Proof.
  unfold cw_get_vara. rewrite slot_at_log.
  destruct (slot_at w cwid) as [cf0|]; [|reflexivity].
  destruct (defmode cf0); [reflexivity|].
  destruct (index_out_of_range (dims cf0) start count); [reflexivity|].
  destruct (check_compression (hst (log_index w cwid)) (fs (log_index w cwid)) cf0)
    as [[s1 rc] cf].
  destruct (negb (rc =? CW_NOERR)); [simpl; apply set_slot_reg_log|].
  destruct (get_vara_body (hst (log_index w cwid)) s1 cf varid start count type)
    as [[s2 ret] d].
  simpl. apply set_slot_reg_log.
Qed.

Lemma cw_put_vara_reg_log (w : world) (cwid varid : Z) (start count : Z * Z)
    (data : cw_data) :
  reg_log (fst (cw_put_vara w cwid varid start count data)) = reg_log w ++ [cwid].
Proof.
  unfold cw_put_vara. rewrite slot_at_log.
  destruct (slot_at w cwid) as [cf0|]; [|reflexivity].
  destruct (defmode cf0); [reflexivity|].
  destruct (index_out_of_range (dims cf0) start count); [reflexivity|].
  destruct (check_compression (hst (log_index w cwid)) (fs (log_index w cwid)) cf0)
    as [[s1 rc] cf].
  destruct (negb (rc =? CW_NOERR)); [simpl; apply set_slot_reg_log|].
  destruct (get_shifts (hst (log_index w cwid)) s1 (fp cf)) as [s2 [[vs hs]|]];
    [|simpl; apply set_slot_reg_log].
  destruct (negb (vs =? 0) || negb (hs =? 0)); [simpl; apply set_slot_reg_log|].
  destruct (put_vara_encode (hst (log_index w cwid)) s2 cf varid start count data)
    as [[s3 ret] raw].
  destruct (ret =? CW_NOERR); [|simpl; apply set_slot_reg_log].
  destruct (cw_put_raw (hst (log_index w cwid)) s3 (fp cf) raw (pixel_size cf)
                       (dims cf) start count) as [s4 r4].
  simpl. apply set_slot_reg_log.
Qed.

Lemma cw_close_reg_log (w : world) (cwid : Z) :
  reg_log (fst (cw_close w cwid)) = reg_log w ++ [cwid].
Proof.
  unfold cw_close. rewrite slot_at_log.
  destruct (slot_at w cwid) as [cf0|]; [|reflexivity].
  destruct (defmode cf0);
    [ destruct (enddef_body (hst (log_index w cwid)) (fs (log_index w cwid)) cf0)
        as [[s1 rc] cf1]
    | cbv beta iota ];
    (destruct (negb (_ =? CW_NOERR)); [simpl; apply set_slot_reg_log|]);
    match goal with
    | |- context [close_compress ?a ?b ?c] =>
        destruct (close_compress a b c) as [[s2 rc2] cf2]
    end;
    destruct (negb (rc2 =? CW_NOERR)); simpl; apply set_slot_reg_log.
Qed.

Lemma reads_in_table_log (w : world) (id : Z) :
  reads_in_table w -> in_table id = true -> reads_in_table (log_index w id).
Proof.
  unfold reads_in_table. intros Hw Hi. cbn [log_index reg_log].
  rewrite forallb_app, Hw. simpl. rewrite Hi. reflexivity.
Qed.

(** While a slot of the table is free, the slot search reads inside the
    table only. *)
Lemma find_slot_reads_in_table (fuel : nat) :
  forall (w : world) (id : Z),
  0 <= id -> (exists j, id <= j < 100 /\ slot_at w j = None) ->
  reads_in_table w -> reads_in_table (fst (find_slot fuel w id)).
Proof.
  induction fuel as [|k IH]; intros w id Hid [j [Hj Hfree]] Hw; [exact Hw|].
  cbn [find_slot]. rewrite slot_at_log.
  assert (Hi : in_table id = true).
  { unfold in_table, CW_MAX_FILES. apply andb_true_iff.
    split; [apply Z.leb_le | apply Z.ltb_lt]; lia. }
  pose proof (reads_in_table_log w id Hw Hi) as Hw1.
  destruct (slot_at w id) as [c|] eqn:Es; [|exact Hw1].
  replace (id <? CW_MAX_FILES) with true
    by (symmetry; apply Z.ltb_lt; unfold CW_MAX_FILES; lia).
  apply IH; [lia | | exact Hw1].
  exists j. split; [|exact Hfree].
  destruct (Z.eq_dec j id) as [->|Hne]; [congruence | lia].
Qed.

(** C10, as the code has it: with a dataset id that is an index of the
    table, cw_get_vara, cw_put_vara and cw_close read the table at that index
    and nowhere else, and return CW_ERR_DATASET_ID when the slot is null; the
    id itself is never checked against the bounds of the table. *)
Theorem C10_ids_of_the_table (w : world) (cwid varid : Z) (start count : Z * Z)
    (type : Z) (data : cw_data) :
  in_table cwid = true -> reads_in_table w ->
  (reads_in_table (fst (fst (cw_get_vara w cwid varid start count type)))
   /\ reads_in_table (fst (cw_put_vara w cwid varid start count data))
   /\ reads_in_table (fst (cw_close w cwid)))
  /\ (slot_at w cwid = None ->
      snd (fst (cw_get_vara w cwid varid start count type)) = CW_ERR_DATASET_ID
      /\ snd (cw_put_vara w cwid varid start count data) = CW_ERR_DATASET_ID
      /\ snd (cw_close w cwid) = CW_ERR_DATASET_ID).
Proof.
  intros Hi Hw.
  pose proof (reads_in_table_log w cwid Hw Hi) as Hl.
  unfold reads_in_table in *. cbn [log_index reg_log] in Hl. split.
  - rewrite cw_get_vara_reg_log, cw_put_vara_reg_log, cw_close_reg_log.
    repeat split; exact Hl.
  - intro Hs. unfold cw_get_vara, cw_put_vara, cw_close.
    rewrite !slot_at_log, Hs. repeat split.
Qed.

Lemma C10_ids_of_the_table_witness :
  reads_in_table (fst (cw_close W_shifted 0))
  /\ snd (fst (cw_get_vara W_empty 99 CW_DATA (0, 0) (1, 1) CW_FLOAT)) = CW_ERR_DATASET_ID.
Proof.
  split.
  - apply (C10_ids_of_the_table W_shifted 0 CW_DATA (0, 0) (1, 1) CW_FLOAT (DataByte []));
      reflexivity.
  - apply (C10_ids_of_the_table W_empty 99 CW_DATA (0, 0) (1, 1) CW_FLOAT (DataByte []));
      reflexivity.
Defined.

(** C10 as stated fails on an id that is no index of the table: with the id
    100, cw_get_vara evaluates cw_files[100]. *)
Lemma C10_id_past_table_counterexample :
  reads_in_table W_empty
  /\ ~ reads_in_table (fst (fst (cw_get_vara W_empty 100 CW_DATA (0, 0) (1, 1) CW_FLOAT))).
Proof.
  split; [reflexivity|]. unfold reads_in_table. vm_compute. discriminate.
Qed.

(** The slot search of cw_create and cw_open tests cw_files[id] before it
    tests id against CW_MAX_FILES: on a full table it reads cw_files[100]. *)
Lemma slot_search_reads_past_table :
  In 100 (reg_log (fst (fst (cw_create W_full "b.cwf" CW_CLOBBER))))
  /\ In 100 (reg_log (fst (fst (cw_open W_full "a.cwf" CW_NOWRITE)))).
Proof.
  split; vm_compute; repeat (first [left; reflexivity | right]).
Qed.

(** ** Lists, streams and sizes *)

Lemma nth_error_upd_same {A : Type} (l : list A) :
  forall n x, (n < List.length l)%nat -> nth_error (upd n x l) n = Some x.
Proof.
  induction l as [|h t IH]; intros n x Hn; [simpl in Hn; lia|].
  destruct n; [reflexivity|]. simpl. apply IH. simpl in Hn. lia.
Qed.

Lemma nth_error_upd_other {A : Type} (l : list A) :
  forall n m x, n <> m -> nth_error (upd n x l) m = nth_error l m.
Proof.
  induction l as [|h t IH]; intros n m x Hne; [destruct n; reflexivity|].
  destruct n; destruct m; try reflexivity; try contradiction.
  simpl. apply IH. congruence.
Qed.

Lemma nth_upd_other {A : Type} (l : list A) (d : A) :
  forall n m x, n <> m -> nth m (upd n x l) d = nth m l d.
Proof.
  induction l as [|h t IH]; intros n m x Hne; [destruct n; reflexivity|].
  destruct n; destruct m; try reflexivity; try contradiction.
  simpl. apply IH. congruence.
Qed.

Lemma get_stream_lt (s : filesys) (f : nat) (st : stream) :
  get_stream s f = Some st -> (f < List.length (streams s))%nat.
Proof.
  unfold get_stream. intro H. apply nth_error_Some.
  destruct (nth_error (streams s) f); [discriminate | discriminate H].
Qed.

Lemma size_t_of_dim (d : Z) : 1 <= d <= 32767 -> to_size_t d = d.
Proof.
  intro H. unfold to_size_t, SIZE_MOD. apply Z.mod_small.
  change (2 ^ 64) with 18446744073709551616. lia.
Qed.

(** ** Rounding in binary32 and binary64 *)

(** The number of binary digits of a mantissa. *)
Lemma digits2_size (m : positive) : digits2_pos m = Pos.size m.
Proof. induction m as [m IH|m IH|]; simpl; now rewrite ?IH. Qed.

Lemma digits2_bounds (m : positive) :
  2 ^ (Zpos (digits2_pos m) - 1) <= Zpos m < 2 ^ Zpos (digits2_pos m).
Proof.
  rewrite digits2_size.
  pose proof (Pos.size_gt m) as Hg. pose proof (Pos.size_le m) as Hl.
  split.
  - apply Pos2Z.pos_le_pos in Hl. rewrite Pos2Z.inj_pow in Hl.
    change (Z.pos 2) with 2 in Hl.
    replace (Zpos (Pos.size m)) with (Z.succ (Zpos (Pos.size m) - 1)) in Hl at 1 by lia.
    rewrite Z.pow_succ_r in Hl by lia. lia.
  - apply Pos2Z.pos_lt_pos in Hg. now rewrite Pos2Z.inj_pow in Hg.
Qed.

Lemma digits2_unique (m : positive) (d : Z) :
  2 ^ (d - 1) <= Zpos m < 2 ^ d -> Zpos (digits2_pos m) = d.
Proof.
  intros [Hl Hu]. pose proof (digits2_bounds m) as [Bl Bu].
  set (s := Zpos (digits2_pos m)) in *.
  assert (Hs : 1 <= s) by (unfold s; lia).
  assert (Hd : 1 <= d).
  { destruct (Z_lt_le_dec d 1) as [H|H]; [|exact H].
    assert (2 ^ d <= 2 ^ 0) by (destruct (Z_lt_le_dec d 0);
      [rewrite Z.pow_neg_r by lia; simpl; lia | apply Z.pow_le_mono_r; lia]).
    simpl in *. lia. }
  destruct (Z.lt_trichotomy s d) as [H|[H|H]]; [|exact H|].
  - assert (2 ^ s <= 2 ^ (d - 1)) by (apply Z.pow_le_mono_r; lia). lia.
  - assert (2 ^ d <= 2 ^ (s - 1)) by (apply Z.pow_le_mono_r; lia). lia.
Qed.

Lemma digits2_shift (m : positive) (k : Z) :
  0 <= k -> Zpos (digits2_pos (Z.to_pos (Zpos m * 2 ^ k))) = Zpos (digits2_pos m) + k.
Proof.
  intro Hk. pose proof (digits2_bounds m) as [Bl Bu].
  assert (Hp : 0 < 2 ^ k) by (apply Z.pow_pos_nonneg; lia).
  apply digits2_unique. rewrite Z2Pos.id by nia.
  split.
  - replace (Zpos (digits2_pos m) + k - 1) with (Zpos (digits2_pos m) - 1 + k) by lia.
    rewrite Z.pow_add_r by lia. apply Z.mul_le_mono_nonneg_r; lia.
  - rewrite Z.pow_add_r by lia. apply Z.mul_lt_mono_pos_r; lia.
Qed.

Lemma iter_xO_value (m k : positive) : Zpos (Pos.iter xO m k) = Zpos m * 2 ^ Zpos k.
Proof.
  change (Pos.iter xO m k) with (shift_pos k m).
  rewrite shift_pos_correct, Zpower_pos_nat, Zpower_nat_Z, positive_nat_Z. lia.
Qed.

(** The alignment of a mantissa to a lower exponent. *)
Lemma shl_align_value (m : positive) (e e' : Z) :
  e' <= e -> shl_align m e e' = (Z.to_pos (Zpos m * 2 ^ (e - e')), e').
Proof.
  intro H. unfold shl_align.
  destruct (Z.eq_dec e' e) as [->|Hne].
  - rewrite Z.sub_diag. rewrite Z.mul_1_r. reflexivity.
  - remember (e' - e) as d eqn:Ed. destruct d as [|p|p]; try lia.
    replace (e - e') with (Zpos p) by lia.
    rewrite <- iter_xO_value. reflexivity.
Qed.

Lemma shl_align_above (m : positive) (e e' : Z) :
  e <= e' -> shl_align m e e' = (m, e).
Proof.
  intro H. unfold shl_align.
  remember (e' - e) as d eqn:Ed. destruct d as [|p|p]; try lia; reflexivity.
Qed.

(** One step of the right shift: the mantissa is halved, the bit that falls
    off is the round bit and the sticky bit gathers the ones before it. *)
Lemma shr_1_spec (x : shr_record) :
  0 <= shr_m x ->
  shr_m (shr_1 x) = shr_m x / 2
  /\ shr_r (shr_1 x) = Z.odd (shr_m x)
  /\ shr_s (shr_1 x) = shr_r x || shr_s x.
Proof.
  destruct x as [m r s]. cbn [shr_m shr_r shr_s]. intro Hm.
  rewrite <- Z.div2_div.
  destruct m as [|[p|p|]|]; try lia; repeat split; reflexivity.
Qed.

Lemma shr_iter (n : positive) :
  forall x : shr_record, 0 <= shr_m x ->
    shr_m (iter_pos shr_1 n x) = shr_m x / 2 ^ Zpos n
    /\ (shr_r x = false -> shr_s x = false -> shr_m x mod 2 ^ Zpos n = 0 ->
        shr_r (iter_pos shr_1 n x) = false /\ shr_s (iter_pos shr_1 n x) = false).
Proof.
  assert (Hhalf : forall m k, 0 <= m -> 0 < k -> m mod (k * k) = 0 ->
                    m mod k = 0 /\ (m / k) mod k = 0).
  { intros m k Hm Hk H. apply Z.mod_divide in H; [|lia]. destruct H as [c ->].
    split.
    - replace (c * (k * k)) with (c * k * k) by lia. apply Z.mod_mul. lia.
    - replace (c * (k * k)) with (c * k * k) by lia. rewrite Z.div_mul by lia.
      apply Z.mod_mul. lia. }
  assert (Hodd : forall m, 0 <= m -> m mod 2 = 0 -> Z.odd m = false).
  { intros m _ H. rewrite Zodd_mod. rewrite H. reflexivity. }
  induction n as [n IH|n IH|]; intros x Hx.
  - cbn [iter_pos].
    destruct (shr_1_spec x Hx) as (E1 & R1 & S1).
    assert (H1 : 0 <= shr_m (shr_1 x)) by (rewrite E1; apply Z.div_pos; lia).
    destruct (IH (shr_1 x) H1) as (E2 & X2).
    assert (H2 : 0 <= shr_m (iter_pos shr_1 n (shr_1 x)))
      by (rewrite E2; apply Z.div_pos; [lia | apply Z.pow_pos_nonneg; lia]).
    destruct (IH _ H2) as (E3 & X3).
    assert (P : 2 ^ Zpos n~1 = 2 * (2 ^ Zpos n * 2 ^ Zpos n)).
    { replace (Zpos n~1) with (1 + (Zpos n + Zpos n)) by lia.
      rewrite !Z.pow_add_r by lia. reflexivity. }
    assert (Hp : 0 < 2 ^ Zpos n) by (apply Z.pow_pos_nonneg; lia).
    split.
    + rewrite E3, E2, E1, P. rewrite !Z.div_div by lia. reflexivity.
    + intros Hr Hs Hmod. rewrite P in Hmod.
      assert (Hm2 : shr_m x mod 2 = 0 /\ (shr_m x / 2) mod (2 ^ Zpos n * 2 ^ Zpos n) = 0).
      { apply Z.mod_divide in Hmod; [|lia]. destruct Hmod as [c Hc]. rewrite Hc.
        split.
        - replace (c * (2 * (2 ^ Zpos n * 2 ^ Zpos n)))
            with (c * (2 ^ Zpos n * 2 ^ Zpos n) * 2) by lia. apply Z.mod_mul. lia.
        - replace (c * (2 * (2 ^ Zpos n * 2 ^ Zpos n)))
            with (c * (2 ^ Zpos n * 2 ^ Zpos n) * 2) by lia. rewrite Z.div_mul by lia.
          apply Z.mod_mul. lia. }
      destruct Hm2 as [Hm2 Hm3].
      destruct (Hhalf (shr_m x / 2) (2 ^ Zpos n) ltac:(apply Z.div_pos; lia) Hp Hm3)
        as [Ha Hb].
      assert (R1' : shr_r (shr_1 x) = false) by (rewrite R1; apply Hodd; assumption).
      assert (S1' : shr_s (shr_1 x) = false) by (rewrite S1, Hr, Hs; reflexivity).
      destruct (X2 R1' S1' ltac:(rewrite E1; exact Ha)) as [R2 S2].
      apply (X3 R2 S2). rewrite E2, E1. exact Hb.
  - cbn [iter_pos].
    destruct (IH x Hx) as (E2 & X2).
    assert (Hp : 0 < 2 ^ Zpos n) by (apply Z.pow_pos_nonneg; lia).
    assert (H2 : 0 <= shr_m (iter_pos shr_1 n x)) by (rewrite E2; apply Z.div_pos; lia).
    destruct (IH _ H2) as (E3 & X3).
    assert (P : 2 ^ Zpos n~0 = 2 ^ Zpos n * 2 ^ Zpos n).
    { replace (Zpos n~0) with (Zpos n + Zpos n) by lia. apply Z.pow_add_r; lia. }
    split.
    + rewrite E3, E2, P. rewrite Z.div_div by lia. reflexivity.
    + intros Hr Hs Hmod. rewrite P in Hmod.
      destruct (Hhalf (shr_m x) (2 ^ Zpos n) Hx Hp Hmod) as [Ha Hb].
      destruct (X2 Hr Hs Ha) as [R2 S2].
      apply (X3 R2 S2). rewrite E2. exact Hb.
  - cbn [iter_pos]. destruct (shr_1_spec x Hx) as (E1 & R1 & S1).
    change (2 ^ 1) with 2. split; [exact E1|].
    intros Hr Hs Hmod. rewrite R1, S1, Hr, Hs. split; [apply Hodd; assumption|reflexivity].
Qed.

(** Rounding to nearest keeps the mantissa or adds one to it, and keeps it
    when nothing was shifted out. *)
Lemma round_nearest_even_cases (x : shr_record) :
  (round_nearest_even (shr_m x) (loc_of_shr_record x) = shr_m x
   \/ round_nearest_even (shr_m x) (loc_of_shr_record x) = shr_m x + 1)
  /\ (shr_r x = false -> shr_s x = false ->
      round_nearest_even (shr_m x) (loc_of_shr_record x) = shr_m x).
Proof.
  destruct x as [m [|] [|]]; cbn [shr_m shr_r shr_s loc_of_shr_record round_nearest_even];
    split; try (intros; discriminate); try (intros; reflexivity); auto.
  destruct (Z.even m); auto.
Qed.

Section Rounding.
Variables prec emax : Z.
Hypothesis Hprec : 1 < prec.
Hypothesis Hemax : prec < emax.

Lemma canonical_valid (s : bool) (m : positive) (e : Z) :
  valid_binary prec emax (S754_finite s m e) = true
  <-> canonical prec emax m e /\ e <= emax - prec.
Proof.
  unfold valid_binary, bounded, canonical_mantissa, canonical.
  rewrite andb_true_iff, Z.eqb_eq, Z.leb_le. reflexivity.
Qed.

Lemma canonical_emin (m : positive) (e : Z) : canonical prec emax m e -> 3 - emax - prec <= e.
Proof. unfold canonical, fexp, emin. lia. Qed.

(** A canonical mantissa above the least exponent has [prec] bits. *)
Lemma canonical_normal (m : positive) (e : Z) :
  canonical prec emax m e -> 3 - emax - prec < e -> 2 ^ (prec - 1) <= Zpos m < 2 ^ prec.
Proof.
  unfold canonical, fexp, emin. intros H He.
  assert (Hd : Zpos (digits2_pos m) = prec) by lia.
  pose proof (digits2_bounds m) as B. rewrite Hd in B. exact B.
Qed.

Lemma normal_canonical (m : positive) (e : Z) :
  2 ^ (prec - 1) <= Zpos m < 2 ^ prec -> 3 - emax - prec <= e -> canonical prec emax m e.
Proof.
  intros Hm He. unfold canonical. rewrite (digits2_unique m prec Hm).
  unfold fexp, emin. lia.
Qed.

(** A canonical mantissa with an exponent in range is a float as it is. *)
Lemma round_canonical (s : bool) (m : positive) (e : Z) :
  canonical prec emax m e -> e <= emax - prec ->
  binary_round_aux prec emax s (Zpos m) e loc_Exact = S754_finite s m e.
Proof.
  unfold canonical. intros Hc He.
  unfold binary_round_aux, shr_fexp.
  cbn [Zdigits2 shr_record_of_loc]. rewrite Hc, Z.sub_diag.
  cbn [shr shr_m loc_of_shr_record round_nearest_even].
  cbn [Zdigits2]. rewrite Hc, Z.sub_diag. cbn [shr shr_m].
  replace (e <=? emax - prec) with true by (symmetry; apply Z.leb_le; lia).
  reflexivity.
Qed.

(** Rounding is exact on a mantissa of at most [prec] bits. *)
Lemma round_exact (s : bool) (m : positive) (e : Z) :
  Zpos m < 2 ^ prec -> 3 - emax - prec <= e <= emax - prec ->
  exists (m' : positive) (k : Z),
    binary_round prec emax s m e = S754_finite s m' (e - k)
    /\ 0 <= k /\ Zpos m' = Zpos m * 2 ^ k /\ canonical prec emax m' (e - k).
Proof.
  intros Hm He.
  pose proof (digits2_bounds m) as [Bl Bu].
  set (d := Zpos (digits2_pos m)) in *.
  assert (Hd1 : 1 <= d) by (unfold d; lia).
  assert (Hd : d <= prec).
  { destruct (Z_le_gt_dec d prec) as [H|H]; [exact H|].
    assert (2 ^ prec <= 2 ^ (d - 1)) by (apply Z.pow_le_mono_r; lia). lia. }
  set (k := e - fexp prec emax (d + e)).
  assert (Hk : 0 <= k) by (unfold k, fexp, emin; lia).
  assert (Hp : 0 < 2 ^ k) by (apply Z.pow_pos_nonneg; lia).
  exists (Z.to_pos (Zpos m * 2 ^ k)), k.
  assert (Hc : canonical prec emax (Z.to_pos (Zpos m * 2 ^ k)) (e - k)).
  { unfold canonical. rewrite digits2_shift by exact Hk. fold d.
    replace (d + k + (e - k)) with (d + e) by lia. unfold k. lia. }
  unfold binary_round. fold d.
  replace (fexp prec emax (d + e)) with (e - k) by (unfold k; lia).
  rewrite shl_align_value by lia.
  replace (e - (e - k)) with k by lia.
  rewrite round_canonical by (try exact Hc; lia).
  repeat split; try assumption. rewrite Z2Pos.id by nia. reflexivity.
Qed.

Lemma normalize_exact (M ez : Z) :
  M <> 0 -> Z.abs M < 2 ^ prec -> 3 - emax - prec <= ez <= emax - prec ->
  exists (m' : positive) (k : Z),
    binary_normalize prec emax M ez false = S754_finite (M <? 0) m' (ez - k)
    /\ 0 <= k /\ Zpos m' = Z.abs M * 2 ^ k /\ canonical prec emax m' (ez - k).
Proof.
  intros H0 Hm He. destruct M as [|p|p]; [congruence | |].
  - apply (round_exact false p ez); [exact Hm|exact He].
  - apply (round_exact true p ez); [exact Hm|exact He].
Qed.

(** The same, with the size of the result, when the exponent is not among
    the lowest. *)
Lemma normalize_exact_normal (M ez : Z) :
  M <> 0 -> Z.abs M < 2 ^ prec -> 3 - emax <= ez <= emax - prec ->
  exists (m' : positive) (k : Z),
    binary_normalize prec emax M ez false = S754_finite (M <? 0) m' (ez - k)
    /\ 0 <= k /\ Zpos m' = Z.abs M * 2 ^ k /\ 2 ^ (prec - 1) <= Zpos m' < 2 ^ prec
    /\ canonical prec emax m' (ez - k).
Proof.
  intros H0 Hm He.
  destruct (normalize_exact M ez H0 Hm ltac:(lia)) as (m' & k & Er & Hk & Hv & Hc).
  exists m', k. repeat split; try assumption.
  - apply (canonical_normal m' (ez - k) Hc).
    destruct (Z_lt_le_dec k prec) as [H|H]; [lia|].
    exfalso.
    assert (Hs : Zpos m' < 2 ^ prec).
    { unfold canonical, fexp, emin in Hc. pose proof (digits2_bounds m') as [_ Bu].
      assert (2 ^ Zpos (digits2_pos m') <= 2 ^ prec) by (apply Z.pow_le_mono_r; lia). lia. }
    assert (2 ^ prec <= 2 ^ k) by (apply Z.pow_le_mono_r; lia).
    assert (0 < 2 ^ k) by (apply Z.pow_pos_nonneg; lia). nia.
  - apply (canonical_normal m' (ez - k) Hc).
    destruct (Z_lt_le_dec k prec) as [H|H]; [lia|].
    exfalso.
    assert (Hs : Zpos m' < 2 ^ prec).
    { unfold canonical, fexp, emin in Hc. pose proof (digits2_bounds m') as [_ Bu].
      assert (2 ^ Zpos (digits2_pos m') <= 2 ^ prec) by (apply Z.pow_le_mono_r; lia). lia. }
    assert (2 ^ prec <= 2 ^ k) by (apply Z.pow_le_mono_r; lia).
    assert (0 < 2 ^ k) by (apply Z.pow_pos_nonneg; lia). nia.
Qed.

(** Rounding a mantissa of more than [prec] bits does not pass a float that
    lies above it. *)
Lemma round_aux_upper (s : bool) (M : positive) (e : Z) (mB : positive) (eB : Z) :
  2 ^ prec <= Zpos M ->
  3 - emax - prec <= e ->
  2 ^ (prec - 1) <= Zpos mB < 2 ^ prec -> eB <= emax - prec ->
  e <= eB -> Zpos M <= Zpos mB * 2 ^ (eB - e) ->
  exists (m' : positive) (e' : Z),
    binary_round_aux prec emax s (Zpos M) e loc_Exact = S754_finite s m' e'
    /\ 2 ^ (prec - 1) <= Zpos m' < 2 ^ prec /\ 3 - emax - prec < e' <= emax - prec
    /\ (e' < eB \/ (e' = eB /\ Zpos m' <= Zpos mB)).
Proof.
  intros HM He HmB HeB Hee Hle.
  pose proof (digits2_bounds M) as [Bl Bu].
  set (d := Zpos (digits2_pos M)) in *.
  assert (Hd : prec < d).
  { destruct (Z_lt_le_dec prec d) as [H|H]; [exact H|].
    assert (2 ^ d <= 2 ^ prec) by (apply Z.pow_le_mono_r; lia). lia. }
  set (n := d - prec).
  assert (Hn : 1 <= n) by (unfold n; lia).
  assert (Hf : fexp prec emax (d + e) - e = n) by (unfold fexp, emin, n; lia).
  assert (Hpe : 0 < 2 ^ (eB - e)) by (apply Z.pow_pos_nonneg; lia).
  assert (Hne : n <= eB - e).
  { assert (H : 2 ^ (d - 1) < 2 ^ (prec + (eB - e))).
    { rewrite Z.pow_add_r by lia. nia. }
    apply Z.pow_lt_mono_r_iff in H; lia. }
  assert (Hpn : 0 < 2 ^ n) by (apply Z.pow_pos_nonneg; lia).
  set (K := Zpos mB * 2 ^ (eB - e - n)).
  assert (HK : Zpos mB * 2 ^ (eB - e) = K * 2 ^ n).
  { unfold K. rewrite <- Z.mul_assoc, <- Z.pow_add_r by lia.
    replace (eB - e - n + n) with (eB - e) by lia. reflexivity. }
  rewrite HK in Hle.
  (* the first shift *)
  remember (Z.to_pos n) as p eqn:Ep.
  assert (Hp : Zpos p = n) by (subst p; rewrite Z2Pos.id; lia).
  set (y := iter_pos shr_1 p (Build_shr_record (Zpos M) false false)).
  assert (E1 : shr_fexp prec emax (Zpos M) e loc_Exact = (y, e + n)).
  { unfold shr_fexp. cbn [Zdigits2 shr_record_of_loc]. fold d. rewrite Hf, <- Hp.
    reflexivity. }
  destruct (shr_iter p (Build_shr_record (Zpos M) false false) ltac:(cbn; lia))
    as [Hy Hexact]. fold y in Hy, Hexact. cbn [shr_m shr_r shr_s] in Hy, Hexact.
  rewrite Hp in Hy, Hexact.
  assert (Hm1 : 2 ^ (prec - 1) <= shr_m y < 2 ^ prec).
  { rewrite Hy. split.
    - apply Z.div_le_lower_bound; [lia|]. rewrite <- Z.pow_add_r by lia.
      replace (n + (prec - 1)) with (d - 1) by (unfold n; lia). exact Bl.
    - apply Z.div_lt_upper_bound; [lia|]. rewrite <- Z.pow_add_r by lia.
      replace (n + prec) with d by (unfold n; lia). exact Bu. }
  destruct (round_nearest_even_cases y) as [Hcase Hsame].
  set (m2 := round_nearest_even (shr_m y) (loc_of_shr_record y)) in *.
  assert (Hm2K : m2 <= K).
  { destruct (Z.eq_dec (Zpos M mod 2 ^ n) 0) as [Hz|Hz].
    - destruct (Hexact eq_refl eq_refl Hz) as [Hr Hs].
      rewrite (Hsame Hr Hs), Hy. apply Z.div_le_upper_bound; lia.
    - assert (Hlt : Zpos M < K * 2 ^ n).
      { destruct (Z.eq_dec (Zpos M) (K * 2 ^ n)) as [E|E]; [|lia].
        exfalso. apply Hz. rewrite E. apply Z.mod_mul. lia. }
      assert (shr_m y < K) by (rewrite Hy; apply Z.div_lt_upper_bound; lia).
      lia. }
  assert (Hm2 : 2 ^ (prec - 1) <= m2 <= 2 ^ prec) by lia.
  assert (Hpp : 0 < 2 ^ (prec - 1)) by (apply Z.pow_pos_nonneg; lia).
  assert (Hpow : 2 ^ prec = 2 * 2 ^ (prec - 1)).
  { replace prec with (1 + (prec - 1)) at 1 by lia. rewrite Z.pow_add_r by lia.
    reflexivity. }
  unfold binary_round_aux. rewrite E1. fold m2.
  destruct (Z.eq_dec m2 (2 ^ prec)) as [Hover|Hin].
  - (* the carry: one more shift *)
    assert (HK1 : 1 <= eB - e - n).
    { destruct (Z_le_gt_dec 1 (eB - e - n)) as [H|H]; [exact H|].
      assert (eB - e - n = 0) by lia.
      unfold K in Hm2K. replace (eB - e - n) with 0 in Hm2K by lia. lia. }
    set (z := shr_1 (Build_shr_record m2 false false)).
    assert (E2 : shr_fexp prec emax m2 (e + n) loc_Exact = (z, e + n + 1)).
    { unfold shr_fexp.
      assert (Hdig : Zdigits2 m2 = prec + 1).
      { rewrite Hover. destruct (2 ^ prec) as [|q|q] eqn:Eq; try lia.
        cbn [Zdigits2]. apply digits2_unique. rewrite <- Eq.
        replace (prec + 1 - 1) with prec by lia. split; [lia|].
        rewrite Z.pow_add_r by lia. change (2 ^ 1) with 2. lia. }
      rewrite Hdig.
      replace (fexp prec emax (prec + 1 + (e + n)) - (e + n)) with 1
        by (unfold fexp, emin; lia).
      reflexivity. }
    rewrite E2.
    destruct (shr_1_spec (Build_shr_record m2 false false) ltac:(cbn; lia)) as [Hz _].
    fold z in Hz. cbn [shr_m] in Hz.
    assert (Hz' : shr_m z = 2 ^ (prec - 1)).
    { rewrite Hz, Hover, Hpow. rewrite Z.mul_comm. apply Z.div_mul. lia. }
    destruct (shr_m z) as [|q|q] eqn:Eq; try lia.
    replace (e + n + 1 <=? emax - prec) with true by (symmetry; apply Z.leb_le; lia).
    exists q, (e + n + 1). split; [reflexivity|].
    split; [lia|]. split; [lia|].
    destruct (Z.eq_dec (e + n + 1) eB) as [E|E]; [right|left; lia].
    split; [exact E|]. lia.
  - (* no carry *)
    assert (E2 : shr_fexp prec emax m2 (e + n) loc_Exact
                 = (Build_shr_record m2 false false, e + n)).
    { unfold shr_fexp.
      assert (Hdig : Zdigits2 m2 = prec).
      { destruct m2 as [|q|q] eqn:Eq; try lia.
        cbn [Zdigits2]. apply digits2_unique. lia. }
      rewrite Hdig.
      replace (fexp prec emax (prec + (e + n)) - (e + n)) with 0
        by (unfold fexp, emin; lia).
      reflexivity. }
    rewrite E2. cbn [shr_m].
    destruct m2 as [|q|q] eqn:Eq; try lia.
    replace (e + n <=? emax - prec) with true by (symmetry; apply Z.leb_le; lia).
    exists q, (e + n). split; [reflexivity|].
    split; [lia|]. split; [lia|].
    destruct (Z.eq_dec (e + n) eB) as [E|E]; [right|left; lia].
    split; [exact E|].
    unfold K in Hm2K. replace (eB - e - n) with 0 in Hm2K by lia.
    change (2 ^ 0) with 1 in Hm2K. lia.
Qed.

Lemma canonical_size (m : positive) (e : Z) :
  canonical prec emax m e -> Zpos m < 2 ^ prec.
Proof.
  unfold canonical, fexp, emin. intro H.
  pose proof (digits2_bounds m) as [_ Bu].
  assert (2 ^ Zpos (digits2_pos m) <= 2 ^ prec) by (apply Z.pow_le_mono_r; lia). lia.
Qed.

(** A float at most half the bound, aligned to a lower exponent. *)
Lemma aligned_below (m : positive) (e ez : Z) (mB : positive) (eB : Z) :
  canonical prec emax m e -> 2 ^ (prec - 1) <= Zpos mB ->
  ez <= e -> (e < eB - 1 \/ (e = eB - 1 /\ Zpos m <= Zpos mB)) ->
  2 * (Zpos m * 2 ^ (e - ez)) <= Zpos mB * 2 ^ (eB - ez).
Proof.
  intros Hc HmB Hez Hle.
  pose proof (canonical_size m e Hc) as Hm.
  assert (Hp : 0 < 2 ^ (e - ez)) by (apply Z.pow_pos_nonneg; lia).
  assert (Hpow : 2 ^ prec = 2 * 2 ^ (prec - 1)).
  { replace prec with (1 + (prec - 1)) at 1 by lia. rewrite Z.pow_add_r by lia.
    reflexivity. }
  destruct Hle as [Hlt|[-> Hle]].
  - replace (eB - ez) with ((eB - e) + (e - ez)) by lia.
    rewrite Z.pow_add_r by lia.
    assert (H4 : 2 ^ 2 <= 2 ^ (eB - e)) by (apply Z.pow_le_mono_r; lia).
    change (2 ^ 2) with 4 in H4.
    assert (2 * Zpos m <= Zpos mB * 2 ^ (eB - e)) by nia.
    nia.
  - replace (eB - ez) with (1 + (eB - 1 - ez)) by lia.
    rewrite Z.pow_add_r by lia. change (2 ^ 1) with 2. nia.
Qed.

(** The sum of two floats, each at most half a bound in magnitude, is a
    float, at most the bound in magnitude. *)
Lemma add_upper (x y : spec_float) (mB : positive) (eB : Z) :
  valid_binary prec emax x = true -> valid_binary prec emax y = true ->
  2 ^ (prec - 1) <= Zpos mB < 2 ^ prec -> eB <= emax - prec ->
  mag_le x mB (eB - 1) -> mag_le y mB (eB - 1) ->
  valid_binary prec emax (SFadd prec emax x y) = true
  /\ mag_le (SFadd prec emax x y) mB eB.
Proof.
  intros Vx Vy HmB HeB Mx My.
  assert (Hweak : forall z, mag_le z mB (eB - 1) -> mag_le z mB eB).
  { intros [s| | |s m e]; cbn; try tauto. lia. }
  destruct x as [sx|sx| |sx mx ex]; try (cbn in Mx; contradiction);
    destruct y as [sy|sy| |sy my ey]; try (cbn in My; contradiction).
  - destruct sx, sy; split; reflexivity || exact I.
  - split; [exact Vy | apply Hweak; exact My].
  - split; [exact Vx | apply Hweak; exact Mx].
  - apply canonical_valid in Vx, Vy. destruct Vx as [Cx Ex], Vy as [Cy Ey].
    cbn [mag_le] in Mx, My.
    set (ez := Z.min ex ey).
    assert (Hez : 3 - emax - prec <= ez).
    { pose proof (canonical_emin mx ex Cx).
      pose proof (canonical_emin my ey Cy). unfold ez. lia. }
    pose proof (aligned_below mx ex ez mB eB Cx ltac:(lia) ltac:(unfold ez; lia) Mx) as Ax.
    pose proof (aligned_below my ey ez mB eB Cy ltac:(lia) ltac:(unfold ez; lia) My) as Ay.
    assert (Px : 0 < Zpos mx * 2 ^ (ex - ez))
      by (apply Z.mul_pos_pos; [lia | apply Z.pow_pos_nonneg; unfold ez; lia]).
    assert (Py : 0 < Zpos my * 2 ^ (ey - ez))
      by (apply Z.mul_pos_pos; [lia | apply Z.pow_pos_nonneg; unfold ez; lia]).
    cbn [SFadd]. fold ez.
    rewrite !shl_align_value by (unfold ez; lia). cbn [fst].
    rewrite !Z2Pos.id by lia.
    set (M := cond_Zopp sx (Zpos mx * 2 ^ (ex - ez)) + cond_Zopp sy (Zpos my * 2 ^ (ey - ez))).
    assert (HM : Z.abs M <= Zpos mB * 2 ^ (eB - ez)).
    { unfold M. destruct sx, sy; cbn [cond_Zopp]; lia. }
    assert (Hzb : ez < eB) by (unfold ez; lia).
    destruct (Z.eq_dec M 0) as [E0|E0]; [rewrite E0; split; reflexivity || exact I|].
    destruct (Z_lt_le_dec (Z.abs M) (2 ^ prec)) as [Hsmall|Hbig].
    + destruct (normalize_exact M ez E0 Hsmall ltac:(lia))
        as (m' & k & Er & Hk & Hv & Hc).
      rewrite Er. split.
      * apply canonical_valid. split; [exact Hc | lia].
      * cbn [mag_le]. left. lia.
    + assert (Hr : exists s (P : positive),
                 binary_normalize prec emax M ez false
                 = binary_round_aux prec emax s (Zpos P) ez loc_Exact
                 /\ Zpos P = Z.abs M).
      { pose proof (digits2_bounds) as B.
        destruct M as [|P|P]; [congruence| |].
        - exists false, P. split; [|reflexivity].
          cbn [binary_normalize]. unfold binary_round.
          rewrite shl_align_above; [reflexivity|].
          destruct (B P) as [_ Bu]. cbn [Z.abs] in Hbig.
          assert (prec < Zpos (digits2_pos P)).
          { destruct (Z_lt_le_dec prec (Zpos (digits2_pos P))) as [H|H]; [exact H|].
            assert (2 ^ Zpos (digits2_pos P) <= 2 ^ prec) by (apply Z.pow_le_mono_r; lia).
            lia. }
          unfold fexp, emin. lia.
        - exists true, P. split; [|reflexivity].
          cbn [binary_normalize]. unfold binary_round.
          rewrite shl_align_above; [reflexivity|].
          destruct (B P) as [_ Bu]. cbn [Z.abs] in Hbig.
          assert (prec < Zpos (digits2_pos P)).
          { destruct (Z_lt_le_dec prec (Zpos (digits2_pos P))) as [H|H]; [exact H|].
            assert (2 ^ Zpos (digits2_pos P) <= 2 ^ prec) by (apply Z.pow_le_mono_r; lia).
            lia. }
          unfold fexp, emin. lia. }
      destruct Hr as (s & P & Er & HP). rewrite Er.
      destruct (round_aux_upper s P ez mB eB
                  ltac:(lia) Hez HmB HeB ltac:(lia) ltac:(lia))
        as (m' & e' & Era & Hm' & He' & Hb).
      rewrite Era. split.
      * apply canonical_valid. split; [|lia].
        apply normal_canonical; [exact Hm' | lia].
      * exact Hb.
Qed.

(** A product with a power of two, the other factor canonical, is exact. *)
Lemma round_aux_shifted (s : bool) (m : positive) (e : Z) (k : positive) :
  canonical prec emax m e -> e <= emax - prec ->
  binary_round_aux prec emax s (Zpos (m * Pos.pow 2 k)) (e - Zpos k) loc_Exact
  = S754_finite s m e.
Proof.
  intros Hc He.
  assert (Hv : Zpos (m * Pos.pow 2 k) = Zpos m * 2 ^ Zpos k).
  { rewrite Pos2Z.inj_mul, Pos2Z.inj_pow. reflexivity. }
  assert (Hpk : 0 < 2 ^ Zpos k) by (apply Z.pow_pos_nonneg; lia).
  assert (Hd : Zpos (digits2_pos (m * Pos.pow 2 k)) = Zpos (digits2_pos m) + Zpos k).
  { rewrite <- (digits2_shift m (Zpos k)) by lia. rewrite <- Hv. reflexivity. }
  set (y := iter_pos shr_1 k (Build_shr_record (Zpos (m * Pos.pow 2 k)) false false)).
  assert (E1 : shr_fexp prec emax (Zpos (m * Pos.pow 2 k)) (e - Zpos k) loc_Exact = (y, e)).
  { unfold shr_fexp. cbn [Zdigits2 shr_record_of_loc]. rewrite Hd.
    replace (Zpos (digits2_pos m) + Zpos k + (e - Zpos k)) with (Zpos (digits2_pos m) + e)
      by lia.
    unfold canonical in Hc. rewrite Hc.
    replace (e - (e - Zpos k)) with (Zpos k) by lia. cbn [shr].
    replace (e - Zpos k + Zpos k) with e by lia. reflexivity. }
  destruct (shr_iter k (Build_shr_record (Zpos (m * Pos.pow 2 k)) false false)
              ltac:(cbn; lia)) as [Hy Hexact].
  fold y in Hy, Hexact. cbn [shr_m shr_r shr_s] in Hy, Hexact.
  rewrite Hv in Hy, Hexact. rewrite Z.div_mul in Hy by lia.
  destruct (Hexact eq_refl eq_refl ltac:(apply Z.mod_mul; lia)) as [Hr Hs].
  assert (Ey : y = Build_shr_record (Zpos m) false false).
  { destruct y as [ym yr ys]. cbn in Hy, Hr, Hs. subst. reflexivity. }
  unfold binary_round_aux. rewrite E1, Ey.
  cbn [shr_m loc_of_shr_record round_nearest_even].
  unfold shr_fexp. cbn [Zdigits2 shr_record_of_loc].
  unfold canonical in Hc. rewrite Hc, Z.sub_diag. cbn [shr shr_m].
  replace (e <=? emax - prec) with true by (symmetry; apply Z.leb_le; lia).
  reflexivity.
Qed.

End Rounding.

(** ** Longitudes of the map projections *)

Section Longitude.
Import Proj.

(** The comparisons of two finite floats of one sign. *)
Lemma ltb_pos (m1 m2 : positive) (e1 e2 : Z) :
  SFltb (S754_finite false m1 e1) (S754_finite false m2 e2) = true
  <-> e1 < e2 \/ (e1 = e2 /\ Zpos m1 < Zpos m2).
Proof.
  unfold SFltb, SFcompare. fold (Pos.compare m1 m2).
  destruct (Z.compare_spec e1 e2); destruct (Pos.compare_spec m1 m2);
    split; intro H'; try discriminate; try reflexivity; lia.
Qed.

Lemma leb_pos (m1 m2 : positive) (e1 e2 : Z) :
  SFleb (S754_finite false m1 e1) (S754_finite false m2 e2) = true
  <-> e1 < e2 \/ (e1 = e2 /\ Zpos m1 <= Zpos m2).
Proof.
  unfold SFleb, SFcompare. fold (Pos.compare m1 m2).
  destruct (Z.compare_spec e1 e2); destruct (Pos.compare_spec m1 m2);
    split; intro H'; try discriminate; try reflexivity; lia.
Qed.

Lemma ltb_neg (m1 m2 : positive) (e1 e2 : Z) :
  SFltb (S754_finite true m1 e1) (S754_finite true m2 e2) = true
  <-> e2 < e1 \/ (e1 = e2 /\ Zpos m2 < Zpos m1).
Proof.
  unfold SFltb, SFcompare. fold (Pos.compare m1 m2).
  destruct (Z.compare_spec e1 e2); destruct (Pos.compare_spec m1 m2);
    split; intro H'; try discriminate; try reflexivity; simpl in *; lia.
Qed.

Lemma leb_neg (m1 m2 : positive) (e1 e2 : Z) :
  SFleb (S754_finite true m1 e1) (S754_finite true m2 e2) = true
  <-> e2 < e1 \/ (e1 = e2 /\ Zpos m2 <= Zpos m1).
Proof.
  unfold SFleb, SFcompare. fold (Pos.compare m1 m2).
  destruct (Z.compare_spec e1 e2); destruct (Pos.compare_spec m1 m2);
    split; intro H'; try discriminate; try reflexivity; simpl in *; lia.
Qed.

(** A normal double has a mantissa of 53 bits, a normal float one of 24. *)
Lemma valid_mantissa (s : bool) (m : positive) (e : Z) :
  valid_binary 53 1024 (S754_finite s m e) = true -> -1074 < e ->
  2 ^ 52 <= Zpos m < 2 ^ 53.
Proof.
  intros H He. apply canonical_valid in H. destruct H as [H _].
  apply (canonical_normal 53 1024 m e H). lia.
Qed.

Lemma valid_mantissa_float (s : bool) (m : positive) (e : Z) :
  valid_binary 24 128 (S754_finite s m e) = true -> -149 < e ->
  2 ^ 23 <= Zpos m < 2 ^ 24.
Proof.
  intros H He. apply canonical_valid in H. destruct H as [H _].
  apply (canonical_normal 24 128 m e H). lia.
Qed.

(** The half turn, the turn and the turn and a half, as doubles and as
    floats. *)
Lemma c180_eq : d_of_Z 180 = S754_finite false 6333186975989760 (-45).
Proof. reflexivity. Qed.
Lemma cm180_eq : d_of_Z (-180) = S754_finite true 6333186975989760 (-45).
Proof. reflexivity. Qed.
Lemma c360_eq : d_of_Z 360 = S754_finite false 6333186975989760 (-44).
Proof. reflexivity. Qed.
Lemma c540_eq : d_of_Z 540 = S754_finite false 4749890231992320 (-43).
Proof. reflexivity. Qed.
Lemma cm540_eq : d_of_Z (-540) = S754_finite true 4749890231992320 (-43).
Proof. reflexivity. Qed.
Lemma f180_eq : f32_of_Z 180 = S754_finite false 11796480 (-16).
Proof. reflexivity. Qed.
Lemma fm180_eq : f32_of_Z (-180) = S754_finite true 11796480 (-16).
Proof. reflexivity. Qed.
Lemma f360_eq : f32_of_Z 360 = S754_finite false 11796480 (-15).
Proof. reflexivity. Qed.
Lemma f540_eq : f32_of_Z 540 = S754_finite false 8847360 (-14).
Proof. reflexivity. Qed.
Lemma fm540_eq : f32_of_Z (-540) = S754_finite true 8847360 (-14).
Proof. reflexivity. Qed.

(** An integer multiple of 2^-45 or 2^-44 between -180 and 180 is
    represented as it is, and compares as it should. *)
Lemma normalised_of_exact (M ez : Z) :
  (ez = -45 /\ -6333186975989760 <= M < 6333186975989760)
  \/ (ez = -44 /\ -6333186975989760 <= 2 * M < 6333186975989760) ->
  lon_normalised (binary_normalize 53 1024 M ez false).
Proof.
  intro H. unfold lon_normalised. rewrite c180_eq, cm180_eq.
  destruct (Z.eq_dec M 0) as [E|E]; [subst M; split; reflexivity|].
  destruct (normalize_exact_normal 53 1024 ltac:(lia) M ez E)
    as (m' & k & Er & Hk & Hv & Hb & _);
    [change (2 ^ 53) with 9007199254740992; lia | lia |].
  rewrite Er.
  change (2 ^ (53 - 1)) with 4503599627370496 in Hb.
  change (2 ^ 53) with 9007199254740992 in Hb.
  assert (Hk' : k = 0 \/ k = 1 \/ 2 <= k) by lia.
  assert (H2 : 2 <= k -> 4 * Z.abs M <= Zpos m').
  { intro Hk2. rewrite Hv.
    assert (2 ^ 2 <= 2 ^ k) by (apply Z.pow_le_mono_r; lia).
    change (2 ^ 2) with 4 in *. nia. }
  assert (H01 : k = 0 -> Zpos m' = Z.abs M) by (intro; subst k; lia).
  assert (H11 : k = 1 -> Zpos m' = 2 * Z.abs M) by (intro; subst k; lia).
  clear Hv Er.
  destruct (Z.ltb_spec M 0) as [Hneg|Hpos].
  - split; [apply leb_neg | reflexivity]. lia.
  - split; [reflexivity | apply ltb_pos]. lia.
Qed.

(** From 180 to 540 the difference with 360 is exact, and from -540 to -180
    the sum. *)
Lemma fold_down (m : positive) (e : Z) :
  2 ^ 52 <= Zpos m < 2 ^ 53 ->
  (e = -45 /\ 6333186975989760 <= Zpos m) \/ e = -44
  \/ (e = -43 /\ Zpos m < 4749890231992320) ->
  lon_normalised (d_sub (S754_finite false m e) (d_of_Z 360)).
Proof.
  change (2 ^ 52) with 4503599627370496. change (2 ^ 53) with 9007199254740992.
  intros Hm [[-> H]|[->|[-> H]]]; rewrite c360_eq.
  - change (d_sub (S754_finite false m (-45)) (S754_finite false 6333186975989760 (-44)))
      with (binary_normalize 53 1024 (Zpos m - 12666373951979520) (-45) false).
    apply normalised_of_exact. lia.
  - change (d_sub (S754_finite false m (-44)) (S754_finite false 6333186975989760 (-44)))
      with (binary_normalize 53 1024 (Zpos m - 6333186975989760) (-44) false).
    apply normalised_of_exact. lia.
  - change (d_sub (S754_finite false m (-43)) (S754_finite false 6333186975989760 (-44)))
      with (binary_normalize 53 1024 (Zpos m~0 - 6333186975989760) (-44) false).
    apply normalised_of_exact. rewrite Pos2Z.inj_xO. lia.
Qed.

Lemma fold_up (m : positive) (e : Z) :
  2 ^ 52 <= Zpos m < 2 ^ 53 ->
  (e = -45 /\ 6333186975989760 < Zpos m) \/ e = -44
  \/ (e = -43 /\ Zpos m <= 4749890231992320) ->
  lon_normalised (d_add (S754_finite true m e) (d_of_Z 360)).
Proof.
  change (2 ^ 52) with 4503599627370496. change (2 ^ 53) with 9007199254740992.
  intros Hm [[-> H]|[->|[-> H]]]; rewrite c360_eq.
  - change (d_add (S754_finite true m (-45)) (S754_finite false 6333186975989760 (-44)))
      with (binary_normalize 53 1024 (- Zpos m + 12666373951979520) (-45) false).
    apply normalised_of_exact. lia.
  - change (d_add (S754_finite true m (-44)) (S754_finite false 6333186975989760 (-44)))
      with (binary_normalize 53 1024 (- Zpos m + 6333186975989760) (-44) false).
    apply normalised_of_exact. lia.
  - change (d_add (S754_finite true m (-43)) (S754_finite false 6333186975989760 (-44)))
      with (binary_normalize 53 1024 (- Zpos m~0 + 6333186975989760) (-44) false).
    apply normalised_of_exact. rewrite Pos2Z.inj_xO. lia.
Qed.

(** [LONR] folds by one turn: a double from -540 to 540 comes out between
    -180 and 180. *)
Lemma LONR_one_turn (a : double) :
  valid_binary 53 1024 a = true ->
  SFleb (d_of_Z (-540)) a = true -> SFltb a (d_of_Z 540) = true ->
  lon_normalised (LONR a).
Proof.
  intros Hv Hl Hu. destruct a as [s|s| |s m e].
  - destruct s; split; reflexivity.
  - destruct s; discriminate.
  - discriminate.
  - unfold LONR. rewrite cm540_eq in Hl. rewrite c540_eq in Hu.
    destruct s.
    + apply leb_neg in Hl.
      replace (SFleb (d_of_Z 180) (S754_finite true m e)) with false
        by (rewrite c180_eq; reflexivity).
      destruct (SFltb (S754_finite true m e) (d_of_Z (-180))) eqn:El.
      * rewrite cm180_eq in El. apply ltb_neg in El.
        apply fold_up; [apply (valid_mantissa true m e Hv); lia | lia].
      * split; [|rewrite c180_eq; reflexivity].
        rewrite cm180_eq in *. apply leb_neg.
        destruct (Z.lt_trichotomy e (-45)) as [H|[H|H]]; [lia| |].
        -- destruct (Z_lt_le_dec 6333186975989760 (Zpos m)) as [H'|H']; [|lia].
           assert (SFltb (S754_finite true m e) (S754_finite true 6333186975989760 (-45)) = true)
             by (apply ltb_neg; lia). congruence.
        -- assert (SFltb (S754_finite true m e) (S754_finite true 6333186975989760 (-45)) = true)
             by (apply ltb_neg; lia). congruence.
    + apply ltb_pos in Hu.
      destruct (SFleb (d_of_Z 180) (S754_finite false m e)) eqn:El.
      * rewrite c180_eq in El. apply leb_pos in El.
        apply fold_down; [apply (valid_mantissa false m e Hv); lia | lia].
      * replace (SFltb (S754_finite false m e) (d_of_Z (-180))) with false
          by (rewrite cm180_eq; reflexivity).
        split; [rewrite cm180_eq; reflexivity|].
        rewrite c180_eq in *. apply ltb_pos.
        destruct (Z.lt_trichotomy e (-45)) as [H|[H|H]]; [lia| |].
        -- destruct (Z_lt_le_dec (Zpos m) 6333186975989760) as [H'|H']; [lia|].
           assert (SFleb (S754_finite false 6333186975989760 (-45)) (S754_finite false m e) = true)
             by (apply leb_pos; lia). congruence.
        -- assert (SFleb (S754_finite false 6333186975989760 (-45)) (S754_finite false m e) = true)
             by (apply leb_pos; lia). congruence.
Qed.

(** The same fold on the float [plon]: the result is a float of at most 180
    in magnitude. *)
Lemma folded_float_exact (M ez : Z) :
  (ez = -16 /\ -11796480 <= M <= 11796480)
  \/ (ez = -15 /\ -11796480 <= 2 * M <= 11796480) ->
  valid_binary 24 128 (binary_normalize 24 128 M ez false) = true
  /\ mag_le (binary_normalize 24 128 M ez false) 11796480 (-16).
Proof.
  intro H.
  destruct (Z.eq_dec M 0) as [E|E]; [subst M; split; reflexivity || exact I|].
  destruct (normalize_exact_normal 24 128 ltac:(lia) M ez E)
    as (m' & k & Er & Hk & Hv & Hb & Hc);
    [change (2 ^ 24) with 16777216; lia | lia |].
  rewrite Er.
  change (2 ^ (24 - 1)) with 8388608 in Hb.
  change (2 ^ 24) with 16777216 in Hb.
  assert (Hk' : k = 0 \/ k = 1 \/ 2 <= k) by lia.
  assert (H01 : k = 0 -> Zpos m' = Z.abs M) by (intro; subst k; lia).
  assert (H11 : k = 1 -> Zpos m' = 2 * Z.abs M) by (intro; subst k; lia).
  split.
  - apply canonical_valid. split; [exact Hc | lia].
  - cbn [mag_le]. clear Hv Er Hc. lia.
Qed.

Lemma fold_down_float (m : positive) (e : Z) :
  2 ^ 23 <= Zpos m < 2 ^ 24 ->
  (e = -16 /\ 11796480 <= Zpos m) \/ e = -15 \/ (e = -14 /\ Zpos m < 8847360) ->
  valid_binary 24 128 (f32_sub (S754_finite false m e) (f32_of_Z 360)) = true
  /\ mag_le (f32_sub (S754_finite false m e) (f32_of_Z 360)) 11796480 (-16).
Proof.
  change (2 ^ 23) with 8388608. change (2 ^ 24) with 16777216.
  intros Hm [[-> H]|[->|[-> H]]]; rewrite f360_eq.
  - change (f32_sub (S754_finite false m (-16)) (S754_finite false 11796480 (-15)))
      with (binary_normalize 24 128 (Zpos m - 23592960) (-16) false).
    apply folded_float_exact. lia.
  - change (f32_sub (S754_finite false m (-15)) (S754_finite false 11796480 (-15)))
      with (binary_normalize 24 128 (Zpos m - 11796480) (-15) false).
    apply folded_float_exact. lia.
  - change (f32_sub (S754_finite false m (-14)) (S754_finite false 11796480 (-15)))
      with (binary_normalize 24 128 (Zpos m~0 - 11796480) (-15) false).
    apply folded_float_exact. rewrite Pos2Z.inj_xO. lia.
Qed.

Lemma fold_up_float (m : positive) (e : Z) :
  2 ^ 23 <= Zpos m < 2 ^ 24 ->
  (e = -16 /\ 11796480 < Zpos m) \/ e = -15 \/ (e = -14 /\ Zpos m <= 8847360) ->
  valid_binary 24 128 (f32_add (S754_finite true m e) (f32_of_Z 360)) = true
  /\ mag_le (f32_add (S754_finite true m e) (f32_of_Z 360)) 11796480 (-16).
Proof.
  change (2 ^ 23) with 8388608. change (2 ^ 24) with 16777216.
  intros Hm [[-> H]|[->|[-> H]]]; rewrite f360_eq.
  - change (f32_add (S754_finite true m (-16)) (S754_finite false 11796480 (-15)))
      with (binary_normalize 24 128 (- Zpos m + 23592960) (-16) false).
    apply folded_float_exact. lia.
  - change (f32_add (S754_finite true m (-15)) (S754_finite false 11796480 (-15)))
      with (binary_normalize 24 128 (- Zpos m + 11796480) (-15) false).
    apply folded_float_exact. lia.
  - change (f32_add (S754_finite true m (-14)) (S754_finite false 11796480 (-15)))
      with (binary_normalize 24 128 (- Zpos m~0 + 11796480) (-15) false).
    apply folded_float_exact. rewrite Pos2Z.inj_xO. lia.
Qed.

Lemma LONR_float_bound (a : float32) :
  valid_binary 24 128 a = true ->
  SFleb (f32_of_Z (-540)) a = true -> SFltb a (f32_of_Z 540) = true ->
  valid_binary 24 128 (LONR_float a) = true
  /\ mag_le (LONR_float a) 11796480 (-16).
Proof.
  intros Hv Hl Hu. destruct a as [s|s| |s m e].
  - destruct s; split; reflexivity || exact I.
  - destruct s; discriminate.
  - discriminate.
  - unfold LONR_float. rewrite fm540_eq in Hl. rewrite f540_eq in Hu.
    destruct s.
    + apply leb_neg in Hl.
      replace (SFleb (f32_of_Z 180) (S754_finite true m e)) with false
        by (rewrite f180_eq; reflexivity).
      destruct (SFltb (S754_finite true m e) (f32_of_Z (-180))) eqn:El.
      * rewrite fm180_eq in El. apply ltb_neg in El.
        apply fold_up_float; [apply (valid_mantissa_float true m e Hv); lia | lia].
      * split; [exact Hv|]. cbn [mag_le].
        rewrite fm180_eq in El.
        destruct (Z.lt_trichotomy e (-16)) as [H|[H|H]]; [lia| |].
        -- destruct (Z_lt_le_dec 11796480 (Zpos m)) as [H'|H']; [|lia].
           assert (SFltb (S754_finite true m e) (S754_finite true 11796480 (-16)) = true)
             by (apply ltb_neg; lia). congruence.
        -- assert (SFltb (S754_finite true m e) (S754_finite true 11796480 (-16)) = true)
             by (apply ltb_neg; lia). congruence.
    + apply ltb_pos in Hu.
      destruct (SFleb (f32_of_Z 180) (S754_finite false m e)) eqn:El.
      * rewrite f180_eq in El. apply leb_pos in El.
        apply fold_down_float; [apply (valid_mantissa_float false m e Hv); lia | lia].
      * replace (SFltb (S754_finite false m e) (f32_of_Z (-180))) with false
          by (rewrite fm180_eq; reflexivity).
        split; [exact Hv|]. cbn [mag_le].
        rewrite f180_eq in El.
        destruct (Z.lt_trichotomy e (-16)) as [H|[H|H]]; [lia| |].
        -- destruct (Z_lt_le_dec (Zpos m) 11796480) as [H'|H']; [lia|].
           assert (SFleb (S754_finite false 11796480 (-16)) (S754_finite false m e) = true)
             by (apply leb_pos; lia). congruence.
        -- assert (SFleb (S754_finite false 11796480 (-16)) (S754_finite false m e) = true)
             by (apply leb_pos; lia). congruence.
Qed.

(** The promotion of a float to double keeps its value. *)
Lemma promoted_bound (p : float32) :
  valid_binary 24 128 p = true -> mag_le p 11796480 (-16) ->
  valid_binary 53 1024 (f64_of_f32 p) = true
  /\ mag_le (f64_of_f32 p) 6333186975989760 (-45).
Proof.
  intros Hv Hm. destruct p as [s|s| |s m e]; try (cbn in Hm; contradiction).
  - split; reflexivity || exact I.
  - apply canonical_valid in Hv. destruct Hv as [Hc He].
    pose proof (canonical_emin 24 128 m e Hc) as Hemin.
    assert (Hs : Zpos m < 2 ^ 24).
    { unfold canonical, fexp, emin in Hc. pose proof (digits2_bounds m) as [_ Bu].
      assert (2 ^ Zpos (digits2_pos m) <= 2 ^ 24) by (apply Z.pow_le_mono_r; lia). lia. }
    cbn [mag_le] in Hm. cbn [f64_of_f32].
    destruct (normalize_exact_normal 53 1024 ltac:(lia) (cond_Zopp s (Zpos m)) e)
      as (m' & k & Er & Hk & Hval & Hb & Hc').
    { destruct s; cbn; lia. }
    { replace (Z.abs (cond_Zopp s (Zpos m))) with (Zpos m) by (destruct s; cbn; lia).
      assert (2 ^ 24 <= 2 ^ 53) by (apply Z.pow_le_mono_r; lia). lia. }
    { lia. }
    replace (Z.abs (cond_Zopp s (Zpos m))) with (Zpos m) in Hval by (destruct s; cbn; lia).
    assert (Er' : binary_normalize 53 1024 (cond_Zopp s (Zpos m)) e s
                  = binary_normalize 53 1024 (cond_Zopp s (Zpos m)) e false).
    { destruct s; reflexivity. }
    rewrite Er', Er. split.
    + apply canonical_valid. split; [exact Hc' | lia].
    + cbn [mag_le].
      (* the mantissa grows by 29 bits at least *)
      assert (Hk29 : 29 <= k).
      { destruct (Z_le_gt_dec 29 k) as [H|H]; [exact H|]. exfalso.
        assert (2 ^ k <= 2 ^ 28) by (apply Z.pow_le_mono_r; lia).
        change (2 ^ (53 - 1)) with (2 ^ 24 * 2 ^ 28) in Hb.
        assert (0 < 2 ^ k) by (apply Z.pow_pos_nonneg; lia). nia. }
      destruct (Z.eq_dec (e - k) (-45)) as [E45|N45]; [right|left; lia].
      split; [exact E45|].
      assert (k = 29 /\ e = -16) as [-> ->] by lia.
      rewrite Hval. change (2 ^ 29) with 536870912. lia.
Qed.

(** A product with 1 or -1 has the magnitude of its other factor. *)
Lemma times_sign (x : double) (sg : Z) (mB : positive) (eB : Z) :
  valid_binary 53 1024 x = true -> mag_le x mB eB -> sg = 1 \/ sg = -1 ->
  valid_binary 53 1024 (d_mul x (d_of_Z sg)) = true /\ mag_le (d_mul x (d_of_Z sg)) mB eB.
Proof.
  intros Hv Hm Hsg.
  assert (E : exists s1, d_of_Z sg = S754_finite s1 (1 * Pos.pow 2 52) (0 - 52)).
  { destruct Hsg as [-> | ->]; [exists false | exists true]; reflexivity. }
  destruct E as [s1 E]. rewrite E.
  destruct x as [s|s| |s m e]; try (cbn in Hm; contradiction).
  - split; reflexivity || exact I.
  - apply canonical_valid in Hv. destruct Hv as [Hc He].
    assert (Ex : d_mul (S754_finite s m e) (S754_finite s1 (1 * Pos.pow 2 52) (0 - 52))
                 = binary_round_aux 53 1024 (xorb s s1) (Zpos (m * Pos.pow 2 52))
                     (e - 52) loc_Exact).
    { reflexivity. }
    rewrite Ex. rewrite (round_aux_shifted 53 1024 (xorb s s1) m e 52 Hc He).
    split; [apply canonical_valid; split; assumption | exact Hm].
Qed.

(** A double of at most 360 in magnitude lies between -540 and 540. *)
Lemma within_a_turn (x : double) :
  mag_le x 6333186975989760 (-44) ->
  SFleb (d_of_Z (-540)) x = true /\ SFltb x (d_of_Z 540) = true.
Proof.
  intro H. rewrite cm540_eq, c540_eq.
  destruct x as [s|s| |s m e]; try (cbn in H; contradiction).
  - destruct s; split; reflexivity.
  - cbn [mag_le] in H. destruct s.
    + split; [apply leb_neg; lia | reflexivity].
    + split; [reflexivity | apply ltb_pos; lia].
Qed.

(** An angle from 0 to 180 is at most 180 in magnitude. *)
Lemma angle_bound (a : double) :
  SFleb (S754_zero false) a = true -> SFleb a (d_of_Z 180) = true ->
  mag_le a 6333186975989760 (-45).
Proof.
  rewrite c180_eq. intros H0 H1.
  destruct a as [s|s| |s m e]; try discriminate.
  - exact I.
  - destruct s; discriminate.
  - destruct s; [discriminate|]. apply leb_pos in H1. exact H1.
Qed.

(** The polar longitude is the sum of line 310, folded. *)
Lemma polar_lon_folded (L : libm) (i j : double) (hem : Z) (plon res : float32)
    (ioff joff : Z) :
  snd (cw_polar_ijll L i j hem plon res ioff joff)
  = LONR (polar_lon_unfolded L i j hem plon res ioff joff).
Proof.
  unfold cw_polar_ijll, polar_lon_unfolded.
  destruct (polar_xy i j hem res ioff joff) as [x y]. reflexivity.
Qed.

Lemma get_ll_polar (L : libm) (st : proj_state) (i j : double) (latlon : double * double) :
  ptype st = POLAR ->
  snd (cw_get_ll L st i j latlon)
  = LONR (polar_lon_unfolded L i j (hem st) (plon st) (res st) (ioff st) (joff st)).
Proof.
  intro Hp. unfold cw_get_ll. rewrite Hp.
  change (POLAR =? UNMAPPED) with false. change (POLAR =? MERCATOR) with false.
  change (POLAR =? POLAR) with true. cbn iota. apply polar_lon_folded.
Qed.

(** The sum of line 310 is no number, or a double of at most 360 in
    magnitude. *)
Lemma polar_sum_bound (L : libm) (i j : double) (hem : Z) (plon res : float32)
    (ioff joff : Z) :
  acos_in_degrees L ->
  valid_binary 24 128 plon = true ->
  SFleb (f32_of_Z (-540)) plon = true -> SFltb plon (f32_of_Z 540) = true ->
  polar_lon_unfolded L i j hem plon res ioff joff = S754_nan
  \/ (valid_binary 53 1024 (polar_lon_unfolded L i j hem plon res ioff joff) = true
      /\ mag_le (polar_lon_unfolded L i j hem plon res ioff joff) 6333186975989760 (-44)).
Proof.
  intros Hacos Hv Hl Hu. unfold polar_lon_unfolded.
  destruct (polar_xy i j hem res ioff joff) as [x y].
  set (q := d_div (d_sub y (d_of_Z ICEN))
                  (m_sqrt L (d_add (m_pow L (d_sub x (d_of_Z ICEN)) (d_of_Z 2))
                                   (m_pow L (d_sub y (d_of_Z ICEN)) (d_of_Z 2))))).
  set (sg := if SFltb (d_sub x (d_of_Z ICEN)) (d_of_Z 0) then -1 else 1).
  assert (Hsg : sg = 1 \/ sg = -1)
    by (unfold sg; destruct (SFltb (d_sub x (d_of_Z ICEN)) (d_of_Z 0)); auto).
  destruct (Hacos q) as [Hnan|(Va & H0 & H1)].
  - left. rewrite Hnan. destruct Hsg as [-> | ->]; reflexivity.
  - right.
    pose proof (angle_bound _ H0 H1) as Ma.
    destruct (times_sign _ sg _ _ Va Ma Hsg) as [Vs Ms].
    destruct (LONR_float_bound plon Hv Hl Hu) as [Vp Mp].
    destruct (promoted_bound _ Vp Mp) as [Vd Md].
    apply (add_upper 53 1024 ltac:(lia) ltac:(lia)); try assumption.
    + change (2 ^ (53 - 1)) with 4503599627370496.
      change (2 ^ 53) with 9007199254740992. lia.
    + lia.
Qed.

(** The C library of the examples gives its angles between 0 and 180. *)
Lemma sample_libm_angles : acos_in_degrees sample_libm.
Proof.
  intro q. unfold sample_libm. cbn [m_acos].
  destruct (SFeqb q (d_of_Z 1)); [right; vm_compute; auto|].
  destruct (SFeqb q (d_of_Z 0)); [right; vm_compute; auto|].
  left. reflexivity.
Qed.

(** C3, as the code has it, for the three projections.  The polar
    stereographic conversion alone folds its longitude, and by one turn.
    When the prime longitude is a float from -540 to 540, and the C library
    gives an angle RTOD (acos (q)) between 0 and 180 or no number at all,
    the longitude of every pixel lies in [-180, 180) or is no number (the
    centre of the grid, where dist = 0).  The Mercator conversion returns
    RTOD (x/R) and the linear conversion x itself, as they are. *)
Theorem C3_polar_longitude_normalised (L : libm) (st : proj_state) (i j : double)
    (latlon : double * double) :
  (ptype st = POLAR ->
   acos_in_degrees L ->
   valid_binary 24 128 (plon st) = true ->
   SFleb (f32_of_Z (-540)) (plon st) = true ->
   SFltb (plon st) (f32_of_Z 540) = true ->
   snd (cw_get_ll L st i j latlon) = S754_nan
   \/ lon_normalised (snd (cw_get_ll L st i j latlon)))
  /\ (ptype st = MERCATOR ->
      snd (cw_get_ll L st i j latlon)
      = RTOD (d_div (fst (ijxy i j (res st) (ioff st) (joff st))) R_c))
  /\ (ptype st = LINEAR ->
      snd (cw_get_ll L st i j latlon) = fst (ijxy i j (res st) (ioff st) (joff st))).
Proof.
  split; [|split].
  - intros Hp Hacos Hv Hl Hu. rewrite (get_ll_polar L st i j latlon Hp).
    destruct (polar_sum_bound L i j (hem st) (plon st) (res st) (ioff st) (joff st)
                Hacos Hv Hl Hu) as [Hnan|[Vs Ms]].
    + left. rewrite Hnan. reflexivity.
    + right. destruct (within_a_turn _ Ms) as [Hlo Hhi].
      apply LONR_one_turn; assumption.
  - intro Hp. unfold cw_get_ll. rewrite Hp. reflexivity.
  - intro Hp. unfold cw_get_ll. rewrite Hp. reflexivity.
Qed.

Lemma C3_polar_longitude_witness :
  lon_normalised
    (snd (cw_get_ll sample_libm P_alaska (d_of_Z 12094) (d_of_Z 12194) (d_of_Z 0, d_of_Z 0)))
  /\ snd (cw_get_ll sample_libm P_mercator (d_of_Z 30001) (d_of_Z 1) (d_of_Z 0, d_of_Z 0))
     = RTOD (d_div (d_of_Z 30000) R_c)
  /\ snd (cw_get_ll sample_libm P_linear (d_of_Z 500) (d_of_Z 1) (d_of_Z 0, d_of_Z 0))
     = d_of_Z 504.
Proof.
  split; [|split].
  - destruct (proj1 (C3_polar_longitude_normalised sample_libm P_alaska
                       (d_of_Z 12094) (d_of_Z 12194) (d_of_Z 0, d_of_Z 0))
                eq_refl sample_libm_angles eq_refl eq_refl eq_refl) as [H|H].
    + vm_compute in H. discriminate H.
    + exact H.
  - apply (C3_polar_longitude_normalised sample_libm P_mercator (d_of_Z 30001) (d_of_Z 1)).
    reflexivity.
  - apply (C3_polar_longitude_normalised sample_libm P_linear (d_of_Z 500) (d_of_Z 1)).
    reflexivity.
Defined.

(** C3 as stated fails on the linear projection, whose longitude is the grid
    abscissa itself: with one degree per pixel and offsets of 5, the pixel of
    column 500 has the longitude 504.  It fails on the Mercator projection
    as well: on a grid of one kilometre to the pixel the pixel of column
    30001 lies 269.79 degrees east. *)
Lemma C3_linear_counterexample :
  (snd (cw_get_ll sample_libm P_linear (d_of_Z 500) (d_of_Z 1) (d_of_Z 0, d_of_Z 0))
   = d_of_Z 504
   /\ ~ lon_normalised
        (snd (cw_get_ll sample_libm P_linear (d_of_Z 500) (d_of_Z 1) (d_of_Z 0, d_of_Z 0))))
  /\ SFltb (d_of_Z 269)
       (snd (cw_get_ll sample_libm P_mercator (d_of_Z 30001) (d_of_Z 1) (d_of_Z 0, d_of_Z 0)))
     = true
  /\ ~ lon_normalised
       (snd (cw_get_ll sample_libm P_mercator (d_of_Z 30001) (d_of_Z 1) (d_of_Z 0, d_of_Z 0))).
Proof.
  split; [split|split].
  - vm_compute. reflexivity.
  - intros [_ H]. vm_compute in H. discriminate H.
  - vm_compute. reflexivity.
  - intros [_ H]. vm_compute in H. discriminate H.
Qed.

End Longitude.

(** * Further properties of the library *)

(** ** Header attributes on the stream *)

Lemma nth_upd_same {A : Type} (l : list A) (d : A) :
  forall n x, (n < List.length l)%nat -> nth n (upd n x l) d = x.
Proof.
  induction l as [|a t IH]; intros n x Hn; [simpl in Hn; lia|].
  destruct n; [reflexivity|]. simpl. apply IH. simpl in Hn. lia.
Qed.

Lemma write_at_length (c b : list Z) (pos : nat) :
  List.length (write_at c pos b) = Nat.max (pos + List.length b) (List.length c).
Proof.
  unfold write_at. rewrite !length_app, length_firstn, repeat_length, length_skipn. lia.
Qed.

Lemma nth_write_at (c b : list Z) (pos i : nat) (d : Z) :
  (pos + List.length b <= List.length c)%nat ->
  nth i (write_at c pos b) d
  = if (pos <=? i)%nat && (i <? pos + List.length b)%nat then nth (i - pos) b d
    else nth i c d.
Proof.
  intro Hlen. unfold write_at.
  replace (pos - List.length c)%nat with O by lia. cbn [repeat app].
  assert (Hf : List.length (firstn pos c) = pos) by (rewrite length_firstn; lia).
  destruct (Nat.leb_spec pos i) as [Hpi|Hpi]; cbn [andb].
  - rewrite app_nth2 by lia. rewrite Hf.
    destruct (Nat.ltb_spec i (pos + List.length b)) as [Hib|Hib].
    + rewrite app_nth1 by lia. reflexivity.
    + rewrite app_nth2 by lia. rewrite nth_skipn. f_equal. lia.
  - rewrite app_nth1 by lia. rewrite nth_firstn.
    destruct (Nat.ltb_spec i pos); [reflexivity | lia].
Qed.

Lemma firstn2_skipn (c : list Z) :
  forall k, (k + 2 <= List.length c)%nat ->
  firstn 2 (skipn k c) = [nth k c 0; nth (S k) c 0].
Proof.
  induction c as [|a t IH]; intros k Hk; [simpl in Hk; lia|].
  destruct k as [|k].
  - destruct t as [|b t']; [simpl in Hk; lia | reflexivity].
  - simpl skipn. rewrite IH by (simpl in Hk; lia). reflexivity.
Qed.

Lemma get_stream_set_pos (s : filesys) (f : nat) (st : stream) (p : Z) :
  get_stream s f = Some st ->
  get_stream (set_pos s f st p) f = Some (mkStream (s_file st) p (s_read st) (s_write st)).
Proof.
  intro Hg. pose proof (get_stream_lt _ _ _ Hg) as Hlt.
  unfold get_stream, set_pos. cbn [streams set_streams].
  rewrite nth_error_upd_same by exact Hlt. reflexivity.
Qed.

Lemma get_stream_set_pos_other (s : filesys) (f g : nat) (st : stream) (p : Z) :
  f <> g -> get_stream (set_pos s f st p) g = get_stream s g.
Proof.
  intro Hne. unfold get_stream, set_pos. cbn [streams set_streams].
  rewrite nth_error_upd_other by exact Hne. reflexivity.
Qed.

Lemma att_bytes_length (h : host) (code : Z) : List.length (att_bytes h code) = 2%nat.
Proof.
  unfold att_bytes, ushort_mem.
  destruct (cw_byteswap h =? 0); destruct (host_little h); reflexivity.
Qed.

(** What [cw_put_att] does on a writable stream. *)
Lemma cw_put_att_spec (h : host) (s : filesys) (f : nat) (st : stream) (code off : Z) :
  get_stream s f = Some st -> s_write st = true -> 0 <= off ->
  exists s1,
    cw_put_att h s f code off = (s1, 0)
    /\ get_stream s1 f = Some (mkStream (s_file st) (off + 2) (s_read st) (s_write st))
    /\ files s1 = upd (s_file st)
                      (write_at (file_bytes s (s_file st)) (Z.to_nat off) (att_bytes h code))
                      (files s)
    /\ (forall g, g <> f -> get_stream s1 g = get_stream s g).
Proof.
  intros Hg Hw Hoff. destruct st as [sf sp sr sw]. cbn [s_write] in Hw. subst sw.
  unfold cw_put_att. fold (att_bytes h code).
  unfold fseek_set. rewrite Hg.
  replace (off <? 0) with false by (symmetry; apply Z.ltb_ge; exact Hoff).
  cbn [negb]. unfold fwrite.
  rewrite (get_stream_set_pos s f _ off Hg). cbn [s_write s_file s_pos s_read].
  cbn [negb]. rewrite att_bytes_length.
  eexists. split; [reflexivity|]. split; [|split].
  - change (Z.of_nat 2) with 2.
    match goal with |- get_stream (set_pos ?w f ?x ?p) f = _ =>
      assert (Hx : get_stream w f = Some x)
    end.
    { unfold get_stream, set_files_of. cbn [streams].
      exact (get_stream_set_pos s f _ off Hg). }
    rewrite (get_stream_set_pos _ f _ _ Hx). reflexivity.
  - reflexivity.
  - intros g Hne. rewrite get_stream_set_pos_other by congruence.
    unfold get_stream, set_files_of. cbn [streams].
    apply (get_stream_set_pos_other s f g). congruence.
Qed.

(** What [cw_get_att] does on a readable stream that holds the two bytes. *)
Lemma cw_get_att_spec (h : host) (s : filesys) (f : nat) (st : stream) (off : Z) :
  get_stream s f = Some st -> s_read st = true -> 0 <= off ->
  off + 2 <= Z.of_nat (List.length (file_bytes s (s_file st))) ->
  exists s1,
    cw_get_att h s f off
    = (s1, 0,
       to_short (nth 0 (ushorts_of_bytes (host_little h)
                   (if cw_byteswap h =? 0
                    then [nth (Z.to_nat off) (file_bytes s (s_file st)) 0;
                          nth (S (Z.to_nat off)) (file_bytes s (s_file st)) 0]
                    else [nth (S (Z.to_nat off)) (file_bytes s (s_file st)) 0;
                          nth (Z.to_nat off) (file_bytes s (s_file st)) 0])) 0))
    /\ get_stream s1 f = Some (mkStream (s_file st) (off + 2) (s_read st) (s_write st))
    /\ files s1 = files s
    /\ (forall g, g <> f -> get_stream s1 g = get_stream s g).
Proof.
  intros Hg Hr Hoff Hlen. destruct st as [sf sp sr sw]. cbn [s_read] in Hr. subst sr.
  cbn [s_file s_read s_write] in *. unfold cw_get_att.
  unfold fseek_set. rewrite Hg.
  replace (off <? 0) with false by (symmetry; apply Z.ltb_ge; exact Hoff).
  cbn [negb]. unfold fread.
  rewrite (get_stream_set_pos s f _ off Hg). cbn [s_write s_file s_pos s_read].
  cbn [negb orb].
  replace (2 <=? 0) with false by reflexivity.
  replace (1 <=? 0) with false by reflexivity. cbn [orb].
  change (file_bytes (set_pos s f (mkStream sf sp true sw) off) sf) with (file_bytes s sf).
  set (c := file_bytes s sf) in *.
  assert (Hitems : Z.min 1 (Z.max 0 (Z.of_nat (List.length c) - off) / 2) = 1).
  { apply Z.min_l. apply Z.div_le_lower_bound; lia. }
  rewrite Hitems. change (1 * 2) with 2. change (1 <? 1) with false. cbn iota.
  change (Z.to_nat 2) with 2%nat.
  rewrite firstn2_skipn by lia.
  eexists. split; [|split; [|split]].
  - destruct (cw_byteswap h =? 0); reflexivity.
  - rewrite (get_stream_set_pos _ f _ _ (get_stream_set_pos s f _ off Hg)). reflexivity.
  - reflexivity.
  - intros g Hne. rewrite !get_stream_set_pos_other by congruence. reflexivity.
Qed.

Lemma to_short_ushort (z : Z) : to_short (to_ushort z) = to_short z.
Proof.
  unfold to_short, to_ushort.
  rewrite <- (Zplus_mod_idemp_l z 32768 65536). reflexivity.
Qed.

Lemma ushort_split (v : Z) : v mod 256 + 256 * (v / 256) = v.
Proof. pose proof (Z.div_mod v 256). lia. Qed.

(** The code that a read decodes from the two bytes a write has stored. *)
Lemma att_bytes_decode (h : host) (code : Z) :
  to_short (nth 0 (ushorts_of_bytes (host_little h)
              (if cw_byteswap h =? 0
               then [nth 0 (att_bytes h code) 0; nth 1 (att_bytes h code) 0]
               else [nth 1 (att_bytes h code) 0; nth 0 (att_bytes h code) 0])) 0)
  = to_short code.
Proof.
  unfold att_bytes, ushort_mem.
  destruct (cw_byteswap h =? 0); destruct (host_little h);
    cbn [byte_swap nth ushorts_of_bytes mem_ushort];
    rewrite <- (to_short_ushort code); f_equal;
    pose proof (ushort_split (to_ushort code)); lia.
Qed.

(** X1: a code stored with cw_put_att is what cw_get_att reads at the same
    offset, as a short, whatever the byte order of the host and the state of
    the byte-swap flag. *)
Theorem put_att_get_att (h : host) (s : filesys) (f : nat) (st : stream) (code off : Z) :
  rw_stream s f st -> 0 <= off ->
  exists s1 s2,
    cw_put_att h s f code off = (s1, 0)
    /\ cw_get_att h s1 f off = (s2, 0, to_short code).
Proof.
  intros [Hg [Hr [Hw Hn]]] Hoff.
  destruct (cw_put_att_spec h s f st code off Hg Hw Hoff) as [s1 [Hput [Hg1 [Hf1 _]]]].
  assert (Hc1 : file_bytes s1 (s_file st)
                = write_at (file_bytes s (s_file st)) (Z.to_nat off) (att_bytes h code)).
  { unfold file_bytes at 1. rewrite Hf1. apply nth_upd_same. exact Hn. }
  assert (Hlen1 : off + 2 <= Z.of_nat (List.length (file_bytes s1 (s_file st)))).
  { rewrite Hc1, write_at_length, att_bytes_length. lia. }
  destruct (cw_get_att_spec h s1 f _ off Hg1 Hr Hoff Hlen1) as [s2 [Hget _]].
  exists s1, s2. split; [exact Hput|].
  rewrite Hget. cbn [s_file]. rewrite Hc1.
  f_equal. rewrite <- (att_bytes_decode h code).
  pose proof (att_bytes_length h code) as Hl.
  assert (Hwa : forall k, (k < 2)%nat ->
            nth (Z.to_nat off + k)
                (write_at (file_bytes s (s_file st)) (Z.to_nat off) (att_bytes h code)) 0
            = nth k (att_bytes h code) 0).
  { intros k Hk. unfold write_at.
    set (c := file_bytes s (s_file st)).
    rewrite app_assoc.
    rewrite app_nth2 by (rewrite length_app, length_firstn, repeat_length; lia).
    rewrite length_app, length_firstn, repeat_length.
    replace (Z.to_nat off + k - (Nat.min (Z.to_nat off) (List.length c)
                                 + (Z.to_nat off - List.length c)))%nat with k by lia.
    rewrite app_nth1 by lia. reflexivity. }
  pose proof (Hwa 0%nat ltac:(lia)) as H0. rewrite Nat.add_0_r in H0.
  pose proof (Hwa 1%nat ltac:(lia)) as H1. rewrite Nat.add_1_r in H1.
  rewrite H0, H1. reflexivity.
Qed.

Lemma put_att_get_att_witness :
  exists s1 s2,
    cw_put_att (granting_host 1 true) (mkFS [Some (mkStream 0 0 true true)] [[213; 0]] []) 0
               (-3) 4 = (s1, 0)
    /\ cw_get_att (granting_host 1 true) s1 0 4 = (s2, 0, to_short (-3)).
Proof.
  apply (put_att_get_att (granting_host 1 true) (mkFS [Some (mkStream 0 0 true true)] [[213; 0]] [])
                         0 (mkStream 0 0 true true) (-3) 4).
  - unfold rw_stream. repeat split. simpl. lia.
  - lia.
Defined.

Lemma rw_stream_on_file (s : filesys) (f : nat) (st : stream) :
  rw_stream s f st -> on_file s f (s_file st) (file_bytes s (s_file st)).
Proof.
  intros [Hg [Hr [Hw Hn]]]. destruct st as [sf sp sr sw]. cbn [s_read s_write s_file] in *.
  subst sr sw. exists sp. auto.
Qed.

Lemma put_on_file (h : host) (s : filesys) (f n : nat) (c : list Z) (code off : Z) :
  on_file s f n c -> 0 <= off ->
  exists s1, cw_put_att h s f code off = (s1, 0)
             /\ on_file s1 f n (write_at c (Z.to_nat off) (att_bytes h code))
             /\ (forall g, g <> f -> get_stream s1 g = get_stream s g)
             /\ (forall m, m <> n -> file_bytes s1 m = file_bytes s m)
             /\ List.length (files s1) = List.length (files s)
             /\ names s1 = names s.
Proof.
  intros [p [Hg [Hn Hc]]] Hoff.
  destruct (cw_put_att_spec h s f _ code off Hg eq_refl Hoff) as [s1 [Hput [Hg1 [Hf1 Ho]]]].
  cbn [s_file s_read s_write] in *.
  exists s1. split; [exact Hput|]. split; [|split; [exact Ho|split; [|split]]].
  - exists (off + 2). split; [exact Hg1|]. rewrite Hf1, upd_length. split; [exact Hn|].
    unfold file_bytes at 1. rewrite Hf1, nth_upd_same by exact Hn.
    rewrite Hc. reflexivity.
  - intros m Hm. unfold file_bytes. rewrite Hf1. apply nth_upd_other. congruence.
  - rewrite Hf1. apply upd_length.
  - unfold cw_put_att, fseek_set, fwrite in Hput. rewrite Hg in Hput.
    replace (off <? 0) with false in Hput by (symmetry; apply Z.ltb_ge; exact Hoff).
    cbn [negb] in Hput. rewrite (get_stream_set_pos s f _ off Hg) in Hput.
    cbn [s_write negb] in Hput. injection Hput as <-. reflexivity.
Qed.

Lemma get_on_file (h : host) (s : filesys) (f n : nat) (c : list Z) (off : Z) :
  on_file s f n c -> 0 <= off -> off + 2 <= Z.of_nat (List.length c) ->
  exists s1, cw_get_att h s f off = (s1, 0, att_code_at h c off)
             /\ on_file s1 f n c
             /\ (forall g, g <> f -> get_stream s1 g = get_stream s g)
             /\ files s1 = files s /\ names s1 = names s.
Proof.
  intros [p [Hg [Hn Hc]]] Hoff Hlen.
  assert (Hlen' : off + 2 <= Z.of_nat (List.length (file_bytes s n))) by (rewrite Hc; exact Hlen).
  destruct (cw_get_att_spec h s f _ off Hg eq_refl Hoff Hlen') as [s1 [Hget [Hg1 [Hf1 Ho]]]].
  cbn [s_file s_read s_write] in *.
  exists s1. split; [|split; [|split; [exact Ho|split; [exact Hf1|]]]].
  - rewrite Hget, Hc. reflexivity.
  - exists (off + 2). split; [exact Hg1|]. rewrite Hf1. split; [exact Hn|].
    unfold file_bytes. rewrite Hf1. exact Hc.
  - unfold cw_get_att, fseek_set, fread in Hget. rewrite Hg in Hget.
    replace (off <? 0) with false in Hget by (symmetry; apply Z.ltb_ge; exact Hoff).
    cbn [negb] in Hget. rewrite (get_stream_set_pos s f _ off Hg) in Hget.
    cbn [s_read s_file s_pos negb orb] in Hget.
    replace (2 <=? 0) with false in Hget by reflexivity.
    replace (1 <=? 0) with false in Hget by reflexivity. cbn [orb] in Hget.
    match type of Hget with
    | (if ?b then _ else _) = _ => destruct b; [discriminate Hget|]
    end.
    injection Hget as <- _. reflexivity.
Qed.

Lemma write_at_nth_in (c b : list Z) (pos k : nat) :
  (k < List.length b)%nat -> nth (pos + k) (write_at c pos b) 0 = nth k b 0.
Proof.
  intro Hk. unfold write_at. rewrite app_assoc.
  rewrite app_nth2 by (rewrite length_app, length_firstn, repeat_length; lia).
  rewrite length_app, length_firstn, repeat_length.
  replace (pos + k - (Nat.min pos (List.length c) + (pos - List.length c)))%nat
    with k by lia.
  rewrite app_nth1 by lia. reflexivity.
Qed.

Lemma att_code_at_written (h : host) (c : list Z) (code off : Z) :
  att_code_at h (write_at c (Z.to_nat off) (att_bytes h code)) off = to_short code.
Proof.
  unfold att_code_at. rewrite <- (att_bytes_decode h code).
  pose proof (att_bytes_length h code) as Hl.
  pose proof (write_at_nth_in c (att_bytes h code) (Z.to_nat off) 0 ltac:(lia)) as H0.
  pose proof (write_at_nth_in c (att_bytes h code) (Z.to_nat off) 1 ltac:(lia)) as H1.
  rewrite Nat.add_0_r in H0. rewrite Nat.add_1_r in H1. rewrite H0, H1. reflexivity.
Qed.

Lemma att_code_at_other (h : host) (c b : list Z) (off off' : Z) :
  List.length b = 2%nat -> 0 <= off -> 0 <= off' ->
  off + 2 <= Z.of_nat (List.length c) ->
  off' + 2 <= off \/ off + 2 <= off' ->
  att_code_at h (write_at c (Z.to_nat off) b) off' = att_code_at h c off'.
Proof.
  intros Hb Hoff Hoff' Hlen Hdis. unfold att_code_at.
  rewrite !nth_write_at by lia. rewrite Hb.
  replace ((Z.to_nat off <=? Z.to_nat off')%nat
           && (Z.to_nat off' <? Z.to_nat off + 2)%nat) with false.
  2:{ symmetry. apply andb_false_iff.
      destruct Hdis; [left; apply Nat.leb_gt | right; apply Nat.ltb_ge]; lia. }
  replace ((Z.to_nat off <=? S (Z.to_nat off'))%nat
           && (S (Z.to_nat off') <? Z.to_nat off + 2)%nat) with false.
  2:{ symmetry. apply andb_false_iff.
      destruct Hdis; [left; apply Nat.leb_gt | right; apply Nat.ltb_ge]; lia. }
  reflexivity.
Qed.

Lemma write_at_same_length (c b : list Z) (pos : nat) :
  (pos + List.length b <= List.length c)%nat ->
  List.length (write_at c pos b) = List.length c.
Proof. intro H. rewrite write_at_length. lia. Qed.

(** X2: once the byte-order flag is set as cw_create and cw_open set it, the
    two bytes cw_put_att stores are the high byte and then the low byte of the
    code, on a little-endian and on a big-endian host alike. *)
Theorem put_att_high_byte_first (h : host) (s : filesys) (f : nat) (st : stream)
    (code off : Z) :
  rw_stream s f st -> 0 <= off -> byteswap_set h ->
  exists s1,
    cw_put_att h s f code off = (s1, 0)
    /\ nth (Z.to_nat off) (file_bytes s1 (s_file st)) 0 = to_ushort code / 256
    /\ nth (S (Z.to_nat off)) (file_bytes s1 (s_file st)) 0 = to_ushort code mod 256.
Proof.
  intros Hrw Hoff Hbs.
  destruct (put_on_file h s f _ _ code off (rw_stream_on_file s f st Hrw) Hoff)
    as [s1 [Hput [[p [_ [_ Hc]]] _]]].
  exists s1. split; [exact Hput|]. rewrite Hc.
  pose proof (att_bytes_length h code) as Hl.
  pose proof (write_at_nth_in (file_bytes s (s_file st)) (att_bytes h code)
                              (Z.to_nat off) 0 ltac:(lia)) as H0.
  pose proof (write_at_nth_in (file_bytes s (s_file st)) (att_bytes h code)
                              (Z.to_nat off) 1 ltac:(lia)) as H1.
  rewrite Nat.add_0_r in H0. rewrite Nat.add_1_r in H1. rewrite H0, H1.
  unfold att_bytes, ushort_mem. unfold byteswap_set in Hbs. rewrite Hbs.
  destruct (host_little h); split; reflexivity.
Qed.

Lemma put_att_high_byte_first_witness :
  exists s1,
    cw_put_att (granting_host 1 true) (mkFS [Some (mkStream 0 0 true true)] [[213; 0]] []) 0
               258 4 = (s1, 0)
    /\ nth (Z.to_nat 4) (file_bytes s1 0) 0 = to_ushort 258 / 256
    /\ nth (S (Z.to_nat 4)) (file_bytes s1 0) 0 = to_ushort 258 mod 256.
Proof.
  apply (put_att_high_byte_first (granting_host 1 true)
           (mkFS [Some (mkStream 0 0 true true)] [[213; 0]] []) 0
           (mkStream 0 0 true true) 258 4).
  - unfold rw_stream. repeat split. simpl. lia.
  - lia.
  - reflexivity.
Defined.

(** X3: cw_put_att changes two bytes only: an attribute read at another
    offset of the header, two bytes or more away, gives the code it gave
    before the write. *)
Theorem put_att_keeps_other_offsets (h : host) (s : filesys) (f : nat) (st : stream)
    (code off off' : Z) :
  rw_stream s f st -> 0 <= off -> 0 <= off' ->
  off + 2 <= Z.of_nat (List.length (file_bytes s (s_file st))) ->
  off' + 2 <= Z.of_nat (List.length (file_bytes s (s_file st))) ->
  off' + 2 <= off \/ off + 2 <= off' ->
  exists s1 s2 s3 v,
    cw_put_att h s f code off = (s1, 0)
    /\ cw_get_att h s1 f off' = (s2, 0, v)
    /\ cw_get_att h s f off' = (s3, 0, v).
Proof.
  intros Hrw Hoff Hoff' Hlen Hlen' Hdis.
  pose proof (rw_stream_on_file s f st Hrw) as Hon.
  destruct (put_on_file h s f _ _ code off Hon Hoff) as [s1 [Hput [Hon1 _]]].
  pose proof (att_bytes_length h code) as Hl.
  assert (Hl1 : off' + 2 <= Z.of_nat (List.length
            (write_at (file_bytes s (s_file st)) (Z.to_nat off) (att_bytes h code)))).
  { rewrite write_at_same_length by lia. exact Hlen'. }
  destruct (get_on_file h s1 f _ _ off' Hon1 Hoff' Hl1) as [s2 [Hget1 _]].
  destruct (get_on_file h s f _ _ off' Hon Hoff' Hlen') as [s3 [Hget0 _]].
  exists s1, s2, s3, (att_code_at h (file_bytes s (s_file st)) off').
  split; [exact Hput|]. split; [|exact Hget0].
  rewrite Hget1. rewrite att_code_at_other by (try exact Hl; lia). reflexivity.
Qed.

Lemma put_att_keeps_other_offsets_witness :
  exists s1 s2 s3 v,
    cw_put_att (granting_host 1 true)
               (mkFS [Some (mkStream 0 0 true true)] [[213; 0; 1; 2; 3; 4]] []) 0 7 4
    = (s1, 0)
    /\ cw_get_att (granting_host 1 true) s1 0 2 = (s2, 0, v)
    /\ cw_get_att (granting_host 1 true)
                  (mkFS [Some (mkStream 0 0 true true)] [[213; 0; 1; 2; 3; 4]] []) 0 2
       = (s3, 0, v).
Proof.
  apply (put_att_keeps_other_offsets (granting_host 1 true)
           (mkFS [Some (mkStream 0 0 true true)] [[213; 0; 1; 2; 3; 4]] []) 0
           (mkStream 0 0 true true) 7 4 2).
  - unfold rw_stream. repeat split. simpl. lia.
  - lia.
  - lia.
  - simpl. lia.
  - simpl. lia.
  - left. lia.
Defined.

(** ** The attribute schema and the attribute functions *)

Lemma scan_sound {A : Type} (test : A -> bool) (d : A) :
  forall l n i0 i, scan test l n i0 = Some i ->
  i0 <= i < i0 + Z.of_nat (Nat.min n (List.length l))
  /\ test (nth (Z.to_nat (i - i0)) l d) = true.
Proof.
  induction l as [|a t IH]; intros n i0 i H.
  - destruct n; discriminate H.
  - destruct n as [|k]; [discriminate H|]. cbn [scan] in H.
    destruct (test a) eqn:Ht.
    + injection H as <-. rewrite Z.sub_diag. cbn [List.length]. split; [lia | exact Ht].
    + apply IH in H. destruct H as [Hr Hn]. cbn [List.length]. split; [lia|].
      replace (Z.to_nat (i - i0)) with (S (Z.to_nat (i - (i0 + 1)))) by lia. exact Hn.
Qed.

Lemma lookup_attid_complete (attid : Z) :
  0 <= attid < CW_ATT_NUM -> cw_lookup_attid (att_name (att_at attid)) = Some attid.
Proof.
  intro H.
  assert (Hall : forallb (fun i => match cw_lookup_attid (att_name (att_at (Z.of_nat i))) with
                                   | Some j => j =? Z.of_nat i
                                   | None => false
                                   end) (seq 0 57) = true) by (vm_compute; reflexivity).
  rewrite forallb_forall in Hall. specialize (Hall (Z.to_nat attid)).
  rewrite Z2Nat.id in Hall by lia.
  assert (Hin : In (Z.to_nat attid) (seq 0 57))
    by (apply in_seq; unfold CW_ATT_NUM in H; lia).
  specialize (Hall Hin).
  destruct (cw_lookup_attid (att_name (att_at attid))) as [j|]; [|discriminate Hall].
  apply Z.eqb_eq in Hall. congruence.
Qed.

Lemma att_code_tables_ok (attid : Z) (tp : string) (code : Z) :
  0 <= attid < CW_ATT_NUM -> In (tp, code) (att_code (att_at attid)) ->
  cw_lookup_att_code tp attid = Some code
  /\ cw_lookup_att_code_name (to_short code) attid = Some tp.
Proof.
  intros H Hin.
  assert (Hall : forallb (fun i =>
             forallb (fun e =>
               match cw_lookup_att_code (fst e) (Z.of_nat i),
                     cw_lookup_att_code_name (to_short (snd e)) (Z.of_nat i) with
               | Some c, Some nm => (c =? snd e) && String.eqb nm (fst e)
               | _, _ => false
               end) (att_code (att_at (Z.of_nat i)))) (seq 0 57) = true)
    by (vm_compute; reflexivity).
  rewrite forallb_forall in Hall. specialize (Hall (Z.to_nat attid)).
  rewrite Z2Nat.id in Hall by lia.
  assert (Hi : In (Z.to_nat attid) (seq 0 57))
    by (apply in_seq; unfold CW_ATT_NUM in H; lia).
  specialize (Hall Hi). rewrite forallb_forall in Hall. specialize (Hall _ Hin).
  cbn [fst snd] in Hall.
  destruct (cw_lookup_att_code tp attid) as [c|]; [|discriminate Hall].
  destruct (cw_lookup_att_code_name (to_short code) attid) as [nm|]; [|discriminate Hall].
  apply andb_true_iff in Hall. destruct Hall as [Hc Hn].
  apply Z.eqb_eq in Hc. apply String.eqb_eq in Hn. subst. split; reflexivity.
Qed.

Lemma att_offset_range (attid : Z) :
  0 <= attid < CW_ATT_NUM ->
  0 <= att_offset (att_at attid) /\ att_offset (att_at attid) + 2 <= CW_HEAD_MIN.
Proof.
  intro H.
  assert (Hall : forallb (fun i => (0 <=? att_offset (att_at (Z.of_nat i)))
                                   && (att_offset (att_at (Z.of_nat i)) + 2 <=? CW_HEAD_MIN))
                         (seq 0 57) = true) by (vm_compute; reflexivity).
  rewrite forallb_forall in Hall. specialize (Hall (Z.to_nat attid)).
  rewrite Z2Nat.id in Hall by lia.
  assert (Hi : In (Z.to_nat attid) (seq 0 57))
    by (apply in_seq; unfold CW_ATT_NUM in H; lia).
  specialize (Hall Hi). apply andb_true_iff in Hall. destruct Hall as [H0 H1].
  apply Z.leb_le in H0. apply Z.leb_le in H1. split; assumption.
Qed.

Lemma att_checks_data (cf : cw_file_type) (attid : Z) :
  data_id cf <> -1 -> 0 <= attid < CW_ATT_NUM ->
  att_checks cf CW_DATA (att_name (att_at attid)) = inr attid.
Proof.
  intros Hd Hi. unfold att_checks.
  change (CW_DATA =? CW_GRAPHICS) with false. change (negb (CW_DATA =? CW_DATA)) with false.
  cbv beta iota. rewrite (proj2 (Z.eqb_neq _ _) Hd), (lookup_attid_complete attid Hi).
  reflexivity.
Qed.

(** X4: the attributes of the schema and the two dimensions are fields of
    two bytes inside the 136 bytes of the header, and no two of them overlap:
    attributes of different names lie two bytes or more apart, and so do an
    attribute and a dimension. *)
Theorem schema_fields_disjoint (a b : cw_att_type) (d : string * Z) :
  In a cw_attributes -> In b cw_attributes -> In d cw_dimensions ->
  (0 <= att_offset a /\ att_offset a + 2 <= CW_HEAD_MIN)
  /\ (0 <= snd d /\ snd d + 2 <= CW_HEAD_MIN)
  /\ (att_offset a + 2 <= snd d \/ snd d + 2 <= att_offset a)
  /\ (att_name a <> att_name b ->
      att_offset a + 2 <= att_offset b \/ att_offset b + 2 <= att_offset a).
Proof.
  intros Ha Hb Hd.
  assert (Hall : forallb (fun a =>
            (0 <=? att_offset a) && (att_offset a + 2 <=? CW_HEAD_MIN)
            && forallb (fun d => (0 <=? snd d) && (snd d + 2 <=? CW_HEAD_MIN)
                                 && ((att_offset a + 2 <=? snd d)
                                     || (snd d + 2 <=? att_offset a))) cw_dimensions
            && forallb (fun b => String.eqb (att_name a) (att_name b)
                                 || (att_offset a + 2 <=? att_offset b)
                                 || (att_offset b + 2 <=? att_offset a)) cw_attributes)
            cw_attributes = true) by (vm_compute; reflexivity).
  rewrite forallb_forall in Hall. specialize (Hall a Ha).
  apply andb_true_iff in Hall. destruct Hall as [Hall Hab].
  apply andb_true_iff in Hall. destruct Hall as [Hr Had].
  apply andb_true_iff in Hr. destruct Hr as [H0 H1].
  apply Z.leb_le in H0. apply Z.leb_le in H1.
  rewrite forallb_forall in Had. specialize (Had d Hd).
  apply andb_true_iff in Had. destruct Had as [Hdr Hdd].
  apply andb_true_iff in Hdr. destruct Hdr as [Hd0 Hd1].
  apply Z.leb_le in Hd0. apply Z.leb_le in Hd1.
  rewrite forallb_forall in Hab. specialize (Hab b Hb).
  split; [split; assumption|]. split; [split; assumption|]. split.
  - apply orb_true_iff in Hdd. destruct Hdd as [H|H]; apply Z.leb_le in H; auto.
  - intro Hne. apply orb_true_iff in Hab. destruct Hab as [Hab|Hab].
    + apply orb_true_iff in Hab. destruct Hab as [Hab|Hab].
      * apply String.eqb_eq in Hab. contradiction.
      * apply Z.leb_le in Hab. auto.
    + apply Z.leb_le in Hab. auto.
Qed.

Lemma schema_fields_disjoint_witness :
  (0 <= att_offset (att_at 35) /\ att_offset (att_at 35) + 2 <= CW_HEAD_MIN)
  /\ (0 <= snd ("rows"%string, CW_O_ROWS) /\ snd ("rows"%string, CW_O_ROWS) + 2 <= CW_HEAD_MIN)
  /\ (att_offset (att_at 35) + 2 <= snd ("rows"%string, CW_O_ROWS)
      \/ snd ("rows"%string, CW_O_ROWS) + 2 <= att_offset (att_at 35))
  /\ (att_name (att_at 35) <> att_name (att_at 36) ->
      att_offset (att_at 35) + 2 <= att_offset (att_at 36)
      \/ att_offset (att_at 36) + 2 <= att_offset (att_at 35)).
Proof.
  apply (schema_fields_disjoint (att_at 35) (att_at 36) ("rows"%string, CW_O_ROWS)).
  - vm_compute. do 35 right. left. reflexivity.
  - vm_compute. do 36 right. left. reflexivity.
  - left. reflexivity.
Defined.

(** X5: a text attribute that can be written reads back as the name that
    was stored: for every attribute of type CW_CHAR and mode read-write, and
    every name of its table of codes, cw_put_att_text and then
    cw_get_att_text both succeed and the second gives that name. *)
Theorem att_text_round_trip (w : world) (cwid : Z) (cf : cw_file_type) (n : nat)
    (c : list Z) (attid : Z) (tp : string) (code : Z) :
  slot_at w cwid = Some cf -> wmode cf <> CW_NOWRITE -> data_id cf <> -1 ->
  on_file (fs w) (fp cf) n c ->
  0 <= attid < CW_ATT_NUM ->
  att_mode (att_at attid) = CW_ATT_RW -> att_type (att_at attid) = CW_CHAR ->
  In (tp, code) (att_code (att_at attid)) ->
  exists w1 w2,
    cw_put_att_text w cwid CW_DATA (att_name (att_at attid)) tp = (w1, CW_NOERR)
    /\ cw_get_att_text w1 cwid CW_DATA (att_name (att_at attid)) = (w2, CW_NOERR, Some tp).
Proof.
  intros Hslot Hwm Hdid Hon Hid Hmode Htype Hin.
  destruct (att_code_tables_ok attid tp code Hid Hin) as [Hlc Hln].
  destruct (att_offset_range attid Hid) as [Hoff _].
  destruct (put_on_file (hst w) (fs w) (fp cf) n c code _ Hon Hoff) as [s1 [Hput [Hon1 _]]].
  assert (Hlen1 : att_offset (att_at attid) + 2
                  <= Z.of_nat (List.length (write_at c (Z.to_nat (att_offset (att_at attid)))
                                                     (att_bytes (hst w) code)))).
  { rewrite write_at_length, att_bytes_length. lia. }
  destruct (get_on_file (hst w) s1 (fp cf) n _ _ Hon1 Hoff Hlen1) as [s2 [Hget _]].
  exists (with_fs (log_index w cwid) s1),
         (with_fs (log_index (with_fs (log_index w cwid) s1) cwid) s2).
  split.
  - unfold cw_put_att_text. rewrite slot_at_log, Hslot.
    rewrite (proj2 (Z.eqb_neq _ _) Hwm), (att_checks_data cf attid Hdid Hid).
    rewrite Hmode, Htype.
    change (CW_ATT_RW =? CW_ATT_RO) with false.
    change (negb (CW_CHAR =? CW_CHAR)) with false. cbv beta iota.
    rewrite Hlc. cbn [hst fs log_index]. rewrite Hput. reflexivity.
  - unfold cw_get_att_text. rewrite slot_at_log.
    change (slot_at (with_fs (log_index w cwid) s1) cwid) with (slot_at w cwid).
    rewrite Hslot, (att_checks_data cf attid Hdid Hid), Htype.
    change (negb (CW_CHAR =? CW_CHAR)) with false. cbv beta iota.
    cbn [hst fs log_index with_fs]. rewrite Hget.
    change (negb (0 =? 0)) with false. cbv beta iota.
    rewrite att_code_at_written, Hln. reflexivity.
Qed.

Lemma att_text_round_trip_witness :
  exists w1 w2,
    cw_put_att_text W_shifted 0 CW_DATA (att_name (att_at 3)) "polar" = (w1, CW_NOERR)
    /\ cw_get_att_text w1 0 CW_DATA (att_name (att_at 3)) = (w2, CW_NOERR, Some "polar"%string).
Proof.
  apply (att_text_round_trip W_shifted 0 (sample_cloud 4 5 false) 0
           (sample_header 4 5 CW_DATA_ID_CLOUD 2 0) 3 "polar" 2).
  - reflexivity.
  - discriminate.
  - discriminate.
  - exists 0. repeat split. simpl. lia.
  - vm_compute. split; [discriminate | reflexivity].
  - reflexivity.
  - reflexivity.
  - vm_compute. right. right. left. reflexivity.
Defined.

Lemma lookup_att_code_sound (tp : string) (attid code : Z) :
  cw_lookup_att_code tp attid = Some code -> In (tp, code) (att_code (att_at attid)).
Proof.
  unfold cw_lookup_att_code. intro H.
  destruct (scan (fun e => String.eqb tp (fst e)) (att_code (att_at attid))
                 (Z.to_nat (att_code_num (att_at attid))) 0) as [i|] eqn:Hs;
    [|discriminate H].
  injection H as <-.
  apply (scan_sound _ (EmptyString, 0)) in Hs. destruct Hs as [Hr Ht].
  rewrite Z.sub_0_r in Ht. apply String.eqb_eq in Ht.
  rewrite Ht at 1. rewrite <- surjective_pairing. apply nth_In. lia.
Qed.

(** X6: the attributes the schema marks read-only (the data id, the channel,
    the calibration, the compression, the pixel sizes and the counts of
    channels) cannot be written through the attribute functions: the calls
    return CW_ERR_ATT_RO before any file access. *)
Theorem read_only_attribute_refused (w : world) (cwid : Z) (cf : cw_file_type)
    (attid : Z) (tp : string) (xtype sp : Z) :
  slot_at w cwid = Some cf -> wmode cf <> CW_NOWRITE -> data_id cf <> -1 ->
  0 <= attid < CW_ATT_NUM -> att_mode (att_at attid) = CW_ATT_RO ->
  cw_put_att_text w cwid CW_DATA (att_name (att_at attid)) tp
    = (log_index w cwid, CW_ERR_ATT_RO)
  /\ cw_put_att_short w cwid CW_DATA (att_name (att_at attid)) xtype 1 sp
    = (log_index w cwid, CW_ERR_ATT_RO).
Proof.
  intros Hslot Hwm Hdid Hid Hmode.
  unfold cw_put_att_text, cw_put_att_short. rewrite slot_at_log, Hslot.
  change (negb (1 =? 1)) with false. cbv beta iota.
  rewrite (proj2 (Z.eqb_neq _ _) Hwm), (att_checks_data cf attid Hdid Hid).
  cbv beta iota zeta. rewrite Hmode. change (CW_ATT_RO =? CW_ATT_RO) with true.
  split; reflexivity.
Qed.

Lemma read_only_attribute_refused_witness :
  cw_put_att_text W_shifted 0 CW_DATA (att_name (att_at 33)) "flat"
    = (log_index W_shifted 0, CW_ERR_ATT_RO)
  /\ cw_put_att_short W_shifted 0 CW_DATA (att_name (att_at 33)) CW_SHORT 1 0
    = (log_index W_shifted 0, CW_ERR_ATT_RO).
Proof.
  apply (read_only_attribute_refused W_shifted 0 (sample_cloud 4 5 false) 33 "flat"
           CW_SHORT 0).
  - reflexivity.
  - discriminate.
  - discriminate.
  - vm_compute. split; [discriminate | reflexivity].
  - reflexivity.
Defined.

(** X7: writing the satellite id keeps the file a CoastWatch file.  The
    attribute lies at offset 0, where cw_open looks for the magic number, and
    every code of its table has the magic number as its high byte: after a
    successful cw_put_att_text on satellite_id the first byte of the file is
    still CW_MAGIC_NUM. *)
Theorem satellite_id_keeps_magic (w w1 : world) (cwid : Z) (cf : cw_file_type) (n : nat)
    (c : list Z) (tp : string) :
  slot_at w cwid = Some cf -> on_file (fs w) (fp cf) n c -> byteswap_set (hst w) ->
  cw_put_att_text w cwid CW_DATA "satellite_id" tp = (w1, CW_NOERR) ->
  nth 0 (file_bytes (fs w1) n) 0 = CW_MAGIC_NUM.
Proof.
  intros Hslot Hon Hbs H.
  unfold cw_put_att_text in H. rewrite slot_at_log, Hslot in H.
  destruct (wmode cf =? CW_NOWRITE); [discriminate H|].
  unfold att_checks in H.
  change (CW_DATA =? CW_GRAPHICS) with false in H.
  change (negb (CW_DATA =? CW_DATA)) with false in H. cbv beta iota in H.
  destruct (data_id cf =? -1); [discriminate H|].
  change (cw_lookup_attid "satellite_id") with (Some 0) in H. cbv beta iota in H.
  change (att_mode (att_at 0) =? CW_ATT_RO) with false in H.
  change (negb (att_type (att_at 0) =? CW_CHAR)) with false in H. cbv beta iota in H.
  destruct (cw_lookup_att_code tp 0) as [code|] eqn:Hl; [|discriminate H].
  apply lookup_att_code_sound in Hl.
  assert (Hall : forallb (fun e => to_ushort (snd e) / 256 =? CW_MAGIC_NUM)
                         (att_code (att_at 0)) = true) by (vm_compute; reflexivity).
  rewrite forallb_forall in Hall. specialize (Hall _ Hl). cbn [snd] in Hall.
  apply Z.eqb_eq in Hall.
  change (att_offset (att_at 0)) with 0 in H.
  destruct (put_on_file (hst w) (fs w) (fp cf) n c code 0 Hon ltac:(lia))
    as [s1 [Hput [[p [_ [_ Hc]]] _]]].
  cbn [hst fs log_index] in H. rewrite Hput in H.
  change (negb (0 =? 0)) with false in H. cbv beta iota in H.
  injection H as <-. cbn [fs with_fs]. rewrite Hc.
  pose proof (att_bytes_length (hst w) code) as Hlen.
  pose proof (write_at_nth_in c (att_bytes (hst w) code) (Z.to_nat 0) 0 ltac:(lia)) as H0.
  change (Z.to_nat 0 + 0)%nat with 0%nat in H0. rewrite H0.
  unfold att_bytes, ushort_mem. unfold byteswap_set in Hbs. rewrite Hbs.
  destruct (host_little (hst w)); exact Hall.
Qed.

Lemma satellite_id_keeps_magic_witness :
  nth 0 (file_bytes (fs (fst (cw_put_att_text W_shifted 0 CW_DATA "satellite_id" "noaa-14")))
                    0) 0 = CW_MAGIC_NUM.
Proof.
  apply (satellite_id_keeps_magic W_shifted _ 0 (sample_cloud 4 5 false) 0
           (sample_header 4 5 CW_DATA_ID_CLOUD 2 0) "noaa-14").
  - reflexivity.
  - exists 0. repeat split. simpl. lia.
  - reflexivity.
  - vm_compute. reflexivity.
Defined.

(** X8: an integer attribute that can be written reads back as the value
    stored: for every attribute of type CW_SHORT and mode read-write and every
    short value, cw_put_att_short and then cw_get_att_short both succeed and
    the second gives the value. *)
Theorem att_short_round_trip (w : world) (cwid : Z) (cf : cw_file_type) (n : nat)
    (c : list Z) (attid sp : Z) :
  slot_at w cwid = Some cf -> wmode cf <> CW_NOWRITE -> data_id cf <> -1 ->
  on_file (fs w) (fp cf) n c ->
  0 <= attid < CW_ATT_NUM ->
  att_mode (att_at attid) = CW_ATT_RW -> att_type (att_at attid) = CW_SHORT ->
  -32768 <= sp <= 32767 ->
  exists w1 w2,
    cw_put_att_short w cwid CW_DATA (att_name (att_at attid)) CW_SHORT 1 sp = (w1, CW_NOERR)
    /\ cw_get_att_short w1 cwid CW_DATA (att_name (att_at attid)) = (w2, CW_NOERR, Some sp).
Proof.
  intros Hslot Hwm Hdid Hon Hid Hmode Htype Hsp.
  destruct (att_offset_range attid Hid) as [Hoff _].
  destruct (put_on_file (hst w) (fs w) (fp cf) n c sp _ Hon Hoff) as [s1 [Hput [Hon1 _]]].
  assert (Hlen1 : att_offset (att_at attid) + 2
                  <= Z.of_nat (List.length (write_at c (Z.to_nat (att_offset (att_at attid)))
                                                     (att_bytes (hst w) sp)))).
  { rewrite write_at_length, att_bytes_length. lia. }
  destruct (get_on_file (hst w) s1 (fp cf) n _ _ Hon1 Hoff Hlen1) as [s2 [Hget _]].
  exists (with_fs (log_index w cwid) s1),
         (with_fs (log_index (with_fs (log_index w cwid) s1) cwid) s2).
  split.
  - unfold cw_put_att_short. rewrite slot_at_log, Hslot.
    change (negb (1 =? 1)) with false. cbv beta iota.
    rewrite (proj2 (Z.eqb_neq _ _) Hwm), (att_checks_data cf attid Hdid Hid).
    cbv beta iota zeta. rewrite Hmode, Htype.
    change (CW_ATT_RW =? CW_ATT_RO) with false.
    change (negb (CW_SHORT =? CW_SHORT)) with false.
    change (CW_SHORT =? CW_SHORT) with true. cbv beta iota. cbn [orb].
    cbn [hst fs log_index]. rewrite Hput. reflexivity.
  - unfold cw_get_att_short. rewrite slot_at_log.
    change (slot_at (with_fs (log_index w cwid) s1) cwid) with (slot_at w cwid).
    rewrite Hslot, (att_checks_data cf attid Hdid Hid).
    cbv beta iota zeta. cbn [hst fs log_index with_fs]. rewrite Hget.
    change (negb (0 =? 0)) with false. cbv beta iota. rewrite Htype.
    change (CW_SHORT =? CW_SHORT) with true. cbv beta iota.
    rewrite att_code_at_written.
    replace (to_short sp) with sp; [reflexivity|].
    unfold to_short. rewrite Z.mod_small by lia. lia.
Qed.

Lemma att_short_round_trip_witness :
  exists w1 w2,
    cw_put_att_short W_shifted 0 CW_DATA (att_name (att_at 35)) CW_SHORT 1 (-7)
      = (w1, CW_NOERR)
    /\ cw_get_att_short w1 0 CW_DATA (att_name (att_at 35)) = (w2, CW_NOERR, Some (-7)).
Proof.
  apply (att_short_round_trip W_shifted 0 (sample_cloud 4 5 false) 0
           (sample_header 4 5 CW_DATA_ID_CLOUD 2 0) 35 (-7)).
  - reflexivity.
  - discriminate.
  - discriminate.
  - exists 0. repeat split. simpl. lia.
  - vm_compute. split; [discriminate | reflexivity].
  - reflexivity.
  - reflexivity.
  - lia.
Defined.

(** ** Dimensions *)

Lemma lookup_dimid_cases (name : string) (dimid : Z) :
  cw_lookup_dimid name = Some dimid ->
  (dimid = 0 /\ name = "rows"%string) \/ (dimid = 1 /\ name = "columns"%string).
Proof.
  unfold cw_lookup_dimid, cw_dimensions. change (Z.to_nat CW_DIM_NUM) with 2%nat.
  cbn [scan fst]. intro H.
  destruct (String.eqb name "rows") eqn:Hr.
  - injection H as <-. apply String.eqb_eq in Hr. left. split; [reflexivity | exact Hr].
  - destruct (String.eqb name "columns") eqn:Hc; [|discriminate H].
    injection H as <-. apply String.eqb_eq in Hc. right. split; [reflexivity | exact Hc].
Qed.

Lemma slot_at_set_slot (w : world) (cwid : Z) (c : option cw_file_type)
    (cf : cw_file_type) :
  in_table cwid = true -> slot_at w cwid = Some cf -> slot_at (set_slot w cwid c) cwid = c.
Proof.
  unfold slot_at, set_slot. intros Hin Hs. rewrite Hin in *.
  cbn [cw_files set_cw_files]. apply nth_upd_same.
  destruct (Nat.lt_ge_cases (Z.to_nat cwid) (List.length (cw_files w))) as [H|H];
    [exact H|].
  rewrite nth_overflow in Hs by exact H. discriminate Hs.
Qed.

Lemma get_set_dim (d : Z * Z) (dimid v : Z) : get_dim (set_dim d dimid v) dimid = v.
Proof. unfold get_dim, set_dim. destruct (dimid =? CW_ROWS); reflexivity. Qed.

Lemma to_short_small (v : Z) : -32768 <= v <= 32767 -> to_short v = v.
Proof. intro H. unfold to_short. rewrite Z.mod_small by lia. lia. Qed.

(** What a call of cw_def_dim does on a dimension that is not yet defined. *)
Lemma cw_def_dim_new (w : world) (cwid : Z) (cf : cw_file_type) (n : nat) (c : list Z)
    (name : string) (dimid len : Z) :
  in_table cwid = true -> slot_at w cwid = Some cf -> defmode cf = true ->
  on_file (fs w) (fp cf) n c ->
  cw_lookup_dimid name = Some dimid -> get_dim (dims cf) dimid = -1 ->
  exists w1,
    cw_def_dim w cwid name len = (w1, CW_NOERR, Some dimid)
    /\ slot_at w1 cwid = Some (with_dims cf (set_dim (dims cf) dimid (to_short len)))
    /\ on_file (fs w1) (fp cf) n
               (write_at c (Z.to_nat (dim_offset dimid)) (att_bytes (hst w) (to_short len)))
    /\ hst w1 = hst w.
Proof.
  intros Hin Hslot Hdef Hon Hlk Hun.
  assert (Hoff : 0 <= dim_offset dimid).
  { destruct (lookup_dimid_cases name dimid Hlk) as [[-> _]|[-> _]]; vm_compute; discriminate. }
  destruct (put_on_file (hst w) (fs w) (fp cf) n c (to_short len) _ Hon Hoff)
    as [s1 [Hput [Hon1 _]]].
  eexists. split; [|split; [|split]].
  - unfold cw_def_dim. rewrite slot_at_log, Hslot, Hdef, Hlk, Hun.
    change (negb true) with false. change (negb (-1 =? -1)) with false. cbv beta iota.
    cbn [hst fs log_index]. rewrite Hput.
    change (negb (0 =? 0)) with false. cbv beta iota. reflexivity.
  - change (slot_at (with_fs ?a ?b) cwid) with (slot_at a cwid).
    apply (slot_at_set_slot _ cwid _ cf Hin). exact Hslot.
  - cbn [fs with_fs]. exact Hon1.
  - unfold set_slot. rewrite Hin. reflexivity.
Qed.

(** X9: a dimension defined with cw_def_dim is what cw_inq_dim reports: for a
    length that fits a short, the inquiry gives the name and the length, and a
    second cw_def_dim of the dimension is refused with CW_ERR_DIM_DEFINED. *)
Theorem def_dim_then_inq_dim (w : world) (cwid : Z) (cf : cw_file_type) (n : nat)
    (c : list Z) (name : string) (dimid len len2 : Z) :
  in_table cwid = true -> slot_at w cwid = Some cf -> defmode cf = true ->
  on_file (fs w) (fp cf) n c ->
  cw_lookup_dimid name = Some dimid -> get_dim (dims cf) dimid = -1 ->
  0 <= len <= 32767 ->
  exists w1 w2,
    cw_def_dim w cwid name len = (w1, CW_NOERR, Some dimid)
    /\ cw_inq_dim w1 cwid dimid = (w2, CW_NOERR, Some name, Some len)
    /\ cw_def_dim w1 cwid name len2 = (log_index w1 cwid, CW_ERR_DIM_DEFINED, Some dimid).
Proof.
  intros Hin Hslot Hdef Hon Hlk Hun Hlen.
  destruct (cw_def_dim_new w cwid cf n c name dimid len Hin Hslot Hdef Hon Hlk Hun)
    as [w1 [Hd [Hs1 [Hon1 Hh]]]].
  rewrite (to_short_small len) in * by lia.
  assert (Hoff : 0 <= dim_offset dimid).
  { destruct (lookup_dimid_cases name dimid Hlk) as [[-> _]|[-> _]]; vm_compute; discriminate. }
  assert (Hl1 : dim_offset dimid + 2
                <= Z.of_nat (List.length (write_at c (Z.to_nat (dim_offset dimid))
                                                   (att_bytes (hst w) len)))).
  { rewrite write_at_length, att_bytes_length. lia. }
  destruct (get_on_file (hst w1) (fs w1) (fp cf) n _ _ Hon1 Hoff Hl1) as [s2 [Hget _]].
  exists w1. eexists. split; [exact Hd|]. split.
  - unfold cw_inq_dim. rewrite slot_at_log, Hs1.
    cbn [dims with_dims fp]. rewrite get_set_dim.
    replace ((dimid <? 0) || (CW_DIM_NUM - 1 <? dimid)) with false
      by (destruct (lookup_dimid_cases name dimid Hlk) as [[-> _]|[-> _]]; reflexivity).
    replace (len =? -1) with false by (symmetry; apply Z.eqb_neq; lia).
    cbv beta iota. cbn [hst fs log_index]. rewrite Hget.
    change (negb (0 =? 0)) with false. cbv beta iota.
    rewrite Hh, att_code_at_written, (to_short_small len) by lia.
    replace (to_size_t len) with len
      by (unfold to_size_t, SIZE_MOD; rewrite Z.mod_small;
          [reflexivity | change (2 ^ 64) with 18446744073709551616; lia]).
    replace (dim_name dimid) with name
      by (destruct (lookup_dimid_cases name dimid Hlk) as [[-> ->]|[-> ->]]; reflexivity).
    reflexivity.
  - unfold cw_def_dim. rewrite slot_at_log, Hs1.
    cbn [defmode dims with_dims]. rewrite Hdef, Hlk, get_set_dim.
    change (negb true) with false. cbv beta iota.
    replace (len =? -1) with false by (symmetry; apply Z.eqb_neq; lia).
    reflexivity.
Qed.

Lemma def_dim_then_inq_dim_witness :
  exists w1 w2,
    cw_def_dim (sample_world (one_open (mkFile 0 None "a.cwf" true CW_WRITE (-1) (-1)
                                               (-1, -1) (-1)))
                             (CW_MAGIC_NUM :: repeat 0 135)) 0 "rows" 300
      = (w1, CW_NOERR, Some 0)
    /\ cw_inq_dim w1 0 0 = (w2, CW_NOERR, Some "rows"%string, Some 300)
    /\ cw_def_dim w1 0 "rows" 5 = (log_index w1 0, CW_ERR_DIM_DEFINED, Some 0).
Proof.
  apply (def_dim_then_inq_dim
           (sample_world (one_open (mkFile 0 None "a.cwf" true CW_WRITE (-1) (-1)
                                           (-1, -1) (-1)))
                         (CW_MAGIC_NUM :: repeat 0 135)) 0
           (mkFile 0 None "a.cwf" true CW_WRITE (-1) (-1) (-1, -1) (-1)) 0
           (CW_MAGIC_NUM :: repeat 0 135) "rows" 0 300 5).
  - reflexivity.
  - reflexivity.
  - reflexivity.
  - exists 0. repeat split. simpl. lia.
  - reflexivity.
  - reflexivity.
  - lia.
Defined.

(** X10: cw_def_dim takes any length.  One that is -1 as a short (65535, or
    the size_t value of -1) is stored and reported as success, yet the
    dimension then counts as undefined: cw_inq_dimid fails with CW_ERR_DIM. *)
Theorem def_dim_length_minus_one (w : world) (cwid : Z) (cf : cw_file_type) (n : nat)
    (c : list Z) (name : string) (dimid len : Z) :
  in_table cwid = true -> slot_at w cwid = Some cf -> defmode cf = true ->
  on_file (fs w) (fp cf) n c ->
  cw_lookup_dimid name = Some dimid -> get_dim (dims cf) dimid = -1 ->
  to_short len = -1 ->
  exists w1,
    cw_def_dim w cwid name len = (w1, CW_NOERR, Some dimid)
    /\ cw_inq_dimid w1 cwid name = (log_index w1 cwid, CW_ERR_DIM, Some dimid).
Proof.
  intros Hin Hslot Hdef Hon Hlk Hun Hlen.
  destruct (cw_def_dim_new w cwid cf n c name dimid len Hin Hslot Hdef Hon Hlk Hun)
    as [w1 [Hd [Hs1 _]]].
  exists w1. split; [exact Hd|].
  unfold cw_inq_dimid. rewrite slot_at_log, Hs1, Hlk.
  cbn [dims with_dims]. rewrite get_set_dim, Hlen. reflexivity.
Qed.

Lemma def_dim_length_minus_one_witness :
  exists w1,
    cw_def_dim (sample_world (one_open (mkFile 0 None "a.cwf" true CW_WRITE (-1) (-1)
                                               (-1, -1) (-1)))
                             (CW_MAGIC_NUM :: repeat 0 135)) 0 "columns" 65535
      = (w1, CW_NOERR, Some 1)
    /\ cw_inq_dimid w1 0 "columns" = (log_index w1 0, CW_ERR_DIM, Some 1).
Proof.
  apply (def_dim_length_minus_one
           (sample_world (one_open (mkFile 0 None "a.cwf" true CW_WRITE (-1) (-1)
                                           (-1, -1) (-1)))
                         (CW_MAGIC_NUM :: repeat 0 135)) 0
           (mkFile 0 None "a.cwf" true CW_WRITE (-1) (-1) (-1, -1) (-1)) 0
           (CW_MAGIC_NUM :: repeat 0 135) "columns" 1 65535).
  - reflexivity.
  - reflexivity.
  - reflexivity.
  - exists 0. repeat split. simpl. lia.
  - reflexivity.
  - reflexivity.
  - reflexivity.
Defined.

(** ** Variables *)

Ltac offs :=
  unfold CW_HEAD_MIN, CW_O_DATA_ID, CW_O_CHANNEL_NUMBER, CW_O_CHANNEL_PIXEL_SIZE,
    CW_O_CALIBRATION_TYPE, CW_O_CHANNELS_PRODUCED, CW_O_COMPRESSION_TYPE,
    CW_O_ANCILLARY_PIXEL_SIZE, CW_O_ANCILLARIES_PRODUCED, CW_O_ROWS, CW_O_COLUMNS in *;
  lia.

Lemma header_write_length (h : host) (c : list Z) (code off : Z) :
  CW_HEAD_MIN <= Z.of_nat (List.length c) -> 0 <= off -> off + 2 <= CW_HEAD_MIN ->
  CW_HEAD_MIN <= Z.of_nat (List.length (write_at c (Z.to_nat off) (att_bytes h code))).
Proof.
  intros Hc H0 H1. rewrite write_at_same_length; [exact Hc|].
  rewrite att_bytes_length. lia.
Qed.

Lemma header_write_frame (h : host) (c : list Z) (code off off' : Z) :
  CW_HEAD_MIN <= Z.of_nat (List.length c) -> 0 <= off -> off + 2 <= CW_HEAD_MIN ->
  0 <= off' -> off' + 2 <= off \/ off + 2 <= off' ->
  att_code_at h (write_at c (Z.to_nat off) (att_bytes h code)) off' = att_code_at h c off'.
Proof.
  intros Hc H0 H1 H0' Hd. apply att_code_at_other; try assumption; try lia.
  apply att_bytes_length.
Qed.

Ltac put_step Hon s' Hon' :=
  match goal with
  | |- context [cw_put_att ?h ?s ?f ?code ?off] =>
      let Hp := fresh "Hp" in
      destruct (put_on_file h s f _ _ code off Hon ltac:(offs)) as [s' [Hp [Hon' _]]];
      rewrite Hp; change (negb (0 =? 0)) with false; change (0 =? 0) with true;
      cbv beta iota
  end.

Lemma channel_class_cases (code did xt : Z) :
  channel_class code = Some (did, xt) ->
  (did = CW_DATA_ID_VISIBLE \/ did = CW_DATA_ID_IR \/ did = CW_DATA_ID_ANCILLARY
   \/ did = CW_DATA_ID_CLOUD)
  /\ xt = (if did =? CW_DATA_ID_CLOUD then CW_BYTE else CW_FLOAT).
Proof.
  unfold channel_class. intro H.
  repeat match type of H with
         | (if ?b then _ else _) = _ => destruct b
         end; inversion H; subst; split; auto.
Qed.

(** The attributes of the data class are all written on a stream that can be
    written, and the channel number stays as it was. *)
Lemma def_var_class_ok (h : host) (s : filesys) (f n : nat) (c : list Z) (did : Z) :
  on_file s f n c -> CW_HEAD_MIN <= Z.of_nat (List.length c) ->
  did = CW_DATA_ID_VISIBLE \/ did = CW_DATA_ID_IR \/ did = CW_DATA_ID_ANCILLARY
  \/ did = CW_DATA_ID_CLOUD ->
  exists s1 c1,
    def_var_class h s f did
    = (s1, CW_NOERR, Some (if did =? CW_DATA_ID_CLOUD then 1 else 2))
    /\ on_file s1 f n c1
    /\ CW_HEAD_MIN <= Z.of_nat (List.length c1)
    /\ att_code_at h c1 CW_O_CHANNEL_NUMBER = att_code_at h c CW_O_CHANNEL_NUMBER.
Proof.
  intros Hon Hc Hd.
  assert (Hv : forall s0 c0, on_file s0 f n c0 -> CW_HEAD_MIN <= Z.of_nat (List.length c0) ->
            exists s1 c1,
              (let (s1, st1) := cw_put_att h s0 f 2 CW_O_CHANNEL_PIXEL_SIZE in
               if negb (st1 =? 0) then (s1, CW_ERR_WRITE_ATT, None)
               else
                 let (s2, ok) :=
                   put_atts h s1 f
                     [(CW_CALIBRATION_TYPE_ALBEDO_TEMPERATURE, CW_O_CALIBRATION_TYPE);
                      (1, CW_O_CHANNELS_PRODUCED);
                      (CW_COMPRESSION_TYPE_1B, CW_O_COMPRESSION_TYPE)] in
                 (s2, if ok then CW_NOERR else CW_ERR_WRITE_ATT, Some 2))
              = (s1, CW_NOERR, Some 2)
              /\ on_file s1 f n c1
              /\ CW_HEAD_MIN <= Z.of_nat (List.length c1)
              /\ att_code_at h c1 CW_O_CHANNEL_NUMBER = att_code_at h c0 CW_O_CHANNEL_NUMBER).
  { intros s0 c0 Hon0 Hc0. cbn [put_atts].
    put_step Hon0 s1 Hon1. put_step Hon1 s2 Hon2. put_step Hon2 s3 Hon3.
    put_step Hon3 s4 Hon4.
    eexists. eexists. split; [reflexivity|]. split; [exact Hon4|]. split.
    - repeat (first [apply header_write_length | offs]).
    - rewrite !header_write_frame;
        repeat (first [reflexivity | apply header_write_length | offs]). }
  destruct Hd as [-> | [-> | [-> | ->]]].
  - unfold def_var_class. change (CW_DATA_ID_VISIBLE =? CW_DATA_ID_CLOUD) with false.
    change ((CW_DATA_ID_VISIBLE =? CW_DATA_ID_VISIBLE)
            || (CW_DATA_ID_VISIBLE =? CW_DATA_ID_IR)) with true.
    cbv beta iota. apply Hv; assumption.
  - unfold def_var_class. change (CW_DATA_ID_IR =? CW_DATA_ID_CLOUD) with false.
    change ((CW_DATA_ID_IR =? CW_DATA_ID_VISIBLE) || (CW_DATA_ID_IR =? CW_DATA_ID_IR))
      with true.
    cbv beta iota. apply Hv; assumption.
  - unfold def_var_class. change (CW_DATA_ID_ANCILLARY =? CW_DATA_ID_CLOUD) with false.
    change ((CW_DATA_ID_ANCILLARY =? CW_DATA_ID_VISIBLE)
            || (CW_DATA_ID_ANCILLARY =? CW_DATA_ID_IR)) with false.
    change (CW_DATA_ID_ANCILLARY =? CW_DATA_ID_ANCILLARY) with true.
    cbv beta iota.
    put_step Hon s1 Hon1. put_step Hon1 s2 Hon2.
    eexists. eexists. split; [reflexivity|]. split; [exact Hon2|]. split.
    + repeat (first [apply header_write_length | offs]).
    + rewrite !header_write_frame;
        repeat (first [reflexivity | apply header_write_length | offs]).
  - exists s, c. split; [reflexivity|]. split; [exact Hon|]. split; [exact Hc | reflexivity].
Qed.

Lemma channel_names_ok (name : string) (code : Z) :
  In (name, code) channel_number ->
  String.eqb name "graphics" = false
  /\ cw_lookup_att_code name CW_CHANNEL_NUMBER = Some code
  /\ to_short code = code.
Proof.
  intro Hin.
  assert (Hall : forallb (fun e =>
            negb (String.eqb (fst e) "graphics")
            && match cw_lookup_att_code (fst e) CW_CHANNEL_NUMBER with
               | Some c => c =? snd e
               | None => false
               end
            && (to_short (snd e) =? snd e)) channel_number = true)
    by (vm_compute; reflexivity).
  rewrite forallb_forall in Hall. specialize (Hall _ Hin). cbn [fst snd] in Hall.
  apply andb_true_iff in Hall. destruct Hall as [Hall Hs].
  apply andb_true_iff in Hall. destruct Hall as [Hg Hl].
  apply negb_true_iff in Hg. apply Z.eqb_eq in Hs.
  destruct (cw_lookup_att_code name CW_CHANNEL_NUMBER) as [c|]; [|discriminate Hl].
  apply Z.eqb_eq in Hl. subst c. auto.
Qed.

(** X11: the channel name sst_multi is in the table of channel names, yet
    the switch of cw_def_var has no case for its code: on a dataset in define
    mode whose dimensions are set and that has no variable, the call fails
    with CW_ERR_INTERNAL whatever type is asked, and nothing is written. *)
Theorem def_var_sst_multi_internal (w : world) (cwid : Z) (cf : cw_file_type) (xtype : Z) :
  slot_at w cwid = Some cf -> defmode cf = true ->
  fst (dims cf) <> -1 -> snd (dims cf) <> -1 -> data_id cf = -1 ->
  In "sst_multi"%string (map fst channel_number)
  /\ cw_def_var w cwid "sst_multi" xtype CW_DIM_NUM (CW_ROWS, CW_COLUMNS)
     = (log_index w cwid, CW_ERR_INTERNAL, None).
Proof.
  intros Hslot Hdef Hr Hc Hd. split.
  - vm_compute. do 20 right. left. reflexivity.
  - unfold cw_def_var. rewrite slot_at_log, Hslot, Hdef, Hd.
    rewrite (proj2 (Z.eqb_neq _ _) Hr), (proj2 (Z.eqb_neq _ _) Hc).
    reflexivity.
Qed.

Lemma def_var_sst_multi_internal_witness :
  In "sst_multi"%string (map fst channel_number)
  /\ cw_def_var (sample_world (one_open (mkFile 0 None "a.cwf" true CW_WRITE (-1) (-1)
                                                (4, 5) (-1)))
                              (sample_header 4 5 0 0 0)) 0 "sst_multi" CW_FLOAT
                CW_DIM_NUM (CW_ROWS, CW_COLUMNS)
     = (log_index (sample_world (one_open (mkFile 0 None "a.cwf" true CW_WRITE (-1) (-1)
                                                  (4, 5) (-1)))
                                (sample_header 4 5 0 0 0)) 0, CW_ERR_INTERNAL, None).
Proof.
  apply (def_var_sst_multi_internal
           (sample_world (one_open (mkFile 0 None "a.cwf" true CW_WRITE (-1) (-1)
                                           (4, 5) (-1)))
                         (sample_header 4 5 0 0 0)) 0
           (mkFile 0 None "a.cwf" true CW_WRITE (-1) (-1) (4, 5) (-1)) CW_FLOAT).
  - reflexivity.
  - reflexivity.
  - discriminate.
  - discriminate.
  - reflexivity.
Defined.

(** X12: every other channel name of the table defines the variable.  With
    the type of its data class (CW_BYTE for cloud, CW_FLOAT for the others)
    cw_def_var succeeds on a dataset in define mode with both dimensions set
    and a full header; the dataset then has the data id of the class, a pixel
    size of 1 for cloud and 2 otherwise, and cw_inq_varid finds the variable
    under the same name. *)
Theorem def_var_then_inq_varid (w : world) (cwid : Z) (cf : cw_file_type) (n : nat)
    (c : list Z) (name : string) (code did xt : Z) :
  in_table cwid = true -> slot_at w cwid = Some cf -> defmode cf = true ->
  fst (dims cf) <> -1 -> snd (dims cf) <> -1 -> data_id cf = -1 ->
  on_file (fs w) (fp cf) n c -> CW_HEAD_MIN <= Z.of_nat (List.length c) ->
  In (name, code) channel_number -> channel_class code = Some (did, xt) ->
  exists w1 w2 cf1,
    cw_def_var w cwid name xt CW_DIM_NUM (CW_ROWS, CW_COLUMNS) = (w1, CW_NOERR, Some CW_DATA)
    /\ slot_at w1 cwid = Some cf1
    /\ data_id cf1 = did
    /\ pixel_size cf1 = (if did =? CW_DATA_ID_CLOUD then 1 else 2)
    /\ cw_inq_varid w1 cwid name = (w2, CW_NOERR, Some CW_DATA).
Proof.
  intros Hin Hslot Hdef Hr Hc Hd Hon Hlen Hname Hclass.
  destruct (channel_names_ok name code Hname) as [Hg [Hlk Hsh]].
  destruct (channel_class_cases code did xt Hclass) as [Hdid Hxt].
  assert (Hdne : did <> -1) by (destruct Hdid as [-> | [-> | [-> | ->]]]; discriminate).
  destruct (put_on_file (hst w) (fs w) (fp cf) n c did CW_O_DATA_ID Hon ltac:(offs))
    as [s1 [Hp1 [Hon1 _]]].
  destruct (put_on_file (hst w) s1 (fp cf) n _ code CW_O_CHANNEL_NUMBER Hon1 ltac:(offs))
    as [s2 [Hp2 [Hon2 _]]].
  assert (Hlen2 : CW_HEAD_MIN <= Z.of_nat (List.length
            (write_at (write_at c (Z.to_nat CW_O_DATA_ID) (att_bytes (hst w) did))
                      (Z.to_nat CW_O_CHANNEL_NUMBER) (att_bytes (hst w) code)))).
  { repeat (first [apply header_write_length | offs]). }
  destruct (def_var_class_ok (hst w) s2 (fp cf) n _ did Hon2 Hlen2 Hdid)
    as [s3 [c3 [Hcl [Hon3 [Hlen3 Hch]]]]].
  rewrite att_code_at_written, Hsh in Hch.
  set (cf1 := with_var cf did (graphics cf) (if did =? CW_DATA_ID_CLOUD then 1 else 2)).
  set (w1 := with_fs (set_slot (log_index w cwid) cwid (Some cf1)) s3).
  assert (Hs1 : slot_at w1 cwid = Some cf1).
  { unfold w1. change (slot_at (with_fs ?a ?b) cwid) with (slot_at a cwid).
    apply (slot_at_set_slot _ cwid _ cf Hin). exact Hslot. }
  assert (Hh1 : hst w1 = hst w).
  { unfold w1, set_slot. rewrite Hin. reflexivity. }
  destruct (get_on_file (hst w1) (fs w1) (fp cf) n c3 CW_O_CHANNEL_NUMBER Hon3 ltac:(offs)
                        ltac:(offs)) as [s4 [Hget _]].
  exists w1. eexists. exists cf1.
  split; [|split; [exact Hs1|split; [reflexivity|split; [reflexivity|]]]].
  - unfold cw_def_var. rewrite slot_at_log, Hslot, Hdef. cbn [fst snd].
    change (negb true) with false.
    change (negb (CW_DIM_NUM =? CW_DIM_NUM)) with false.
    change (negb (CW_ROWS =? CW_ROWS) || negb (CW_COLUMNS =? CW_COLUMNS)) with false.
    rewrite (proj2 (Z.eqb_neq _ _) Hr), (proj2 (Z.eqb_neq _ _) Hc), Hg, Hd.
    change (negb (-1 =? -1)) with false. cbv beta iota. cbn [orb].
    rewrite Hlk, Hclass, Z.eqb_refl. cbn [negb]. cbn [hst fs log_index].
    rewrite Hp1. change (negb (0 =? 0)) with false. cbv beta iota.
    rewrite Hp2. change (negb (0 =? 0)) with false. cbv beta iota.
    rewrite Hcl. reflexivity.
  - unfold cw_inq_varid. rewrite slot_at_log, Hs1, Hg.
    cbn [data_id cf1 with_var fp]. rewrite (proj2 (Z.eqb_neq _ _) Hdne).
    cbn [hst fs log_index]. rewrite Hget.
    change (negb (0 =? 0)) with false. cbv beta iota.
    rewrite Hlk, Hh1, Hch, Z.eqb_refl. reflexivity.
Qed.

Lemma def_var_then_inq_varid_witness :
  exists w1 w2 cf1,
    cw_def_var (sample_world (one_open (mkFile 0 None "a.cwf" true CW_WRITE (-1) (-1)
                                               (4, 5) (-1)))
                             (sample_header 4 5 0 0 0)) 0 "avhrr_ch4" CW_FLOAT
               CW_DIM_NUM (CW_ROWS, CW_COLUMNS) = (w1, CW_NOERR, Some CW_DATA)
    /\ slot_at w1 0 = Some cf1
    /\ data_id cf1 = CW_DATA_ID_IR
    /\ pixel_size cf1 = (if CW_DATA_ID_IR =? CW_DATA_ID_CLOUD then 1 else 2)
    /\ cw_inq_varid w1 0 "avhrr_ch4" = (w2, CW_NOERR, Some CW_DATA).
Proof.
  apply (def_var_then_inq_varid
           (sample_world (one_open (mkFile 0 None "a.cwf" true CW_WRITE (-1) (-1)
                                           (4, 5) (-1)))
                         (sample_header 4 5 0 0 0)) 0
           (mkFile 0 None "a.cwf" true CW_WRITE (-1) (-1) (4, 5) (-1)) 0
           (sample_header 4 5 0 0 0) "avhrr_ch4" 4 CW_DATA_ID_IR CW_FLOAT).
  - reflexivity.
  - reflexivity.
  - reflexivity.
  - discriminate.
  - discriminate.
  - reflexivity.
  - exists 0. repeat split. simpl. lia.
  - vm_compute. discriminate.
  - vm_compute. do 3 right. left. reflexivity.
  - reflexivity.
Defined.

(** ** The registry: slots given and freed *)

Lemma find_slot_first_free (fuel : nat) :
  forall (w : world) (id k : Z),
  0 <= id <= k -> k <= CW_MAX_FILES -> k - id < Z.of_nat fuel ->
  (forall i, id <= i < k -> slot_at w i <> None) -> slot_at w k = None ->
  exists lg, find_slot fuel w id = (mkWorld (cw_files w) (hst w) (beyond w) lg (fs w), k).
Proof.
  induction fuel as [|n IH]; intros w id k Hid Hk Hfuel Hbusy Hfree.
  - change (Z.of_nat 0) with 0 in Hfuel. lia.
  - cbn [find_slot]. rewrite slot_at_log.
    destruct (Z.eq_dec id k) as [->|Hne].
    + rewrite Hfree. eexists. reflexivity.
    + pose proof (Hbusy id ltac:(lia)) as Hs.
      destruct (slot_at w id) as [c|]; [|contradiction].
      replace (id <? CW_MAX_FILES) with true by (symmetry; apply Z.ltb_lt; lia).
      destruct (IH (log_index w id) (id + 1) k ltac:(lia) Hk ltac:(lia)) as [lg E].
      * intros i Hi. rewrite slot_at_log. apply Hbusy. lia.
      * rewrite slot_at_log. exact Hfree.
      * exists lg. exact E.
Qed.

Lemma slot_at_set_slot_other (w : world) (cwid j : Z) (c : option cw_file_type) :
  j <> cwid -> slot_at (set_slot w cwid c) j = slot_at w j.
Proof.
  intro Hne. unfold slot_at, set_slot.
  destruct (in_table cwid) eqn:Hc; [|reflexivity].
  destruct (in_table j) eqn:Hj; [|reflexivity].
  cbn [cw_files set_cw_files]. apply nth_upd_other.
  unfold in_table in Hc, Hj. apply andb_true_iff in Hc, Hj.
  destruct Hc as [Hc _]. destruct Hj as [Hj _]. apply Z.leb_le in Hc, Hj. lia.
Qed.

Lemma nth_error_app_last {A : Type} (l : list A) (x : A) :
  nth_error (l ++ [x]) (List.length l) = Some x.
Proof. rewrite nth_error_app2 by lia. rewrite Nat.sub_diag. reflexivity. Qed.

(** A file created with fopen, where the host lets the path be created: the
    new stream stands at the start of an empty file that the directory knows
    under the path. *)
Lemma fopen_create_fresh (h : host) (s : filesys) (p : string) (rd : bool) :
  names_ok s -> can_create h p = true ->
  exists n s1,
    fopen_create h s p rd = (s1, Some (List.length (streams s)))
    /\ get_stream s1 (List.length (streams s)) = Some (mkStream n 0 rd true)
    /\ (n < List.length (files s1))%nat
    /\ file_bytes s1 n = []
    /\ lookup_name (names s1) p = Some n.
Proof.
  intros Hok Hcan. unfold fopen_create. rewrite Hcan. cbn [negb].
  destruct (lookup_name (names s) p) as [n|] eqn:Hl.
  - pose proof (Hok p n Hl) as Hn.
    exists n. eexists. split; [reflexivity|].
    unfold get_stream, file_bytes.
    cbn [streams files names set_streams set_files_of new_stream fst].
    rewrite nth_error_app_last, upd_length, nth_upd_same by exact Hn. auto.
  - exists (List.length (files s)). eexists. split; [reflexivity|].
    unfold get_stream, file_bytes.
    cbn [streams files names set_streams set_files_of set_names new_stream fst lookup_name].
    rewrite nth_error_app_last, length_app, String.eqb_refl.
    rewrite app_nth2 by lia. rewrite Nat.sub_diag. cbn [List.length nth].
    repeat split; try reflexivity. lia.
Qed.

(** X13: cw_create gives the lowest free id.  When the slots below k are
    taken and slot k is free, and the host lets the file be created and gives
    the memory for the struct and the path, a create with CW_CLOBBER returns k
    and registers there a dataset in define mode, open for writing, with no
    dimension and no variable; its file holds the magic number and 135 zero
    bytes and is known under the path; the other slots are as they were.
    Where the host refuses the file the call fails with CW_ERR_CREATE, and
    where it refuses the memory with CW_ERR_NOMEM. *)
Theorem create_takes_lowest_free_slot (w : world) (p : string) (k : Z) :
  in_table k = true -> (Z.to_nat k < List.length (cw_files w))%nat ->
  (forall i, 0 <= i < k -> slot_at w i <> None) -> slot_at w k = None ->
  names_ok (fs w) ->
  (can_create (hst w) p = true ->
   can_malloc (hst w) 0 = true -> can_malloc (hst w) 1 = true ->
   exists w1 cf n,
     cw_create w p CW_CLOBBER = (w1, CW_NOERR, Some k)
     /\ slot_at w1 k = Some cf
     /\ defmode cf = true /\ wmode cf = CW_WRITE /\ data_id cf = -1 /\ dims cf = (-1, -1)
     /\ on_file (fs w1) (fp cf) n (CW_MAGIC_NUM :: repeat 0 135)
     /\ lookup_name (names (fs w1)) p = Some n
     /\ (forall j, j <> k -> slot_at w1 j = slot_at w j))
  /\ (can_create (hst w) p = false ->
      snd (fst (cw_create w p CW_CLOBBER)) = CW_ERR_CREATE)
  /\ (can_create (hst w) p = true ->
      can_malloc (hst w) 0 && can_malloc (hst w) 1 = false ->
      snd (fst (cw_create w p CW_CLOBBER)) = CW_ERR_NOMEM).
Proof.
  intros Hin Hlen Hbusy Hfree Hok.
  assert (Hk : 0 <= k < CW_MAX_FILES).
  { unfold in_table in Hin. apply andb_true_iff in Hin. destruct Hin as [H0 H1].
    apply Z.leb_le in H0. apply Z.ltb_lt in H1. lia. }
  set (w0 := init_byteswap w).
  assert (Hw0 : cw_files w0 = cw_files w /\ beyond w0 = beyond w /\ fs w0 = fs w
                /\ can_create (hst w0) = can_create (hst w)
                /\ can_malloc (hst w0) = can_malloc (hst w)).
  { unfold w0, init_byteswap. destruct (cw_byteswap (hst w) =? -1); auto 6. }
  destruct Hw0 as [Hcf0 [Hb0 [Hfs0 [Hcc0 Hcm0]]]].
  assert (Hslot0 : forall i, slot_at w0 i = slot_at w i).
  { intro i. unfold slot_at. rewrite Hcf0, Hb0. reflexivity. }
  destruct (find_slot_first_free 101 w0 0 k ltac:(lia) ltac:(lia)
              ltac:(unfold CW_MAX_FILES in Hk; lia)) as [lg Hfind].
  { intros i Hi. rewrite Hslot0. apply Hbusy. lia. }
  { rewrite Hslot0. exact Hfree. }
  assert (Hstart :
             cw_create w p CW_CLOBBER
             = match fopen_create (hst w0) (fs w) p true with
               | (s3, None) =>
                   (with_fs (mkWorld (cw_files w0) (hst w0) (beyond w0) lg (fs w0)) s3,
                    CW_ERR_CREATE, None)
               | (s3, Some f) =>
                   if negb (can_malloc (hst w0) 0 && can_malloc (hst w0) 1)
                   then (with_fs (mkWorld (cw_files w0) (hst w0) (beyond w0) lg (fs w0))
                                 (remove (fclose s3 f) p), CW_ERR_NOMEM, None)
                   else
                     let cf := mkFile f None p true CW_WRITE (-1) (-1) (-1, -1) (-1) in
                     let (s4, ok) :=
                       fwrite s3 f (CW_MAGIC_NUM :: repeat 0 (Z.to_nat (CW_HEAD_MIN - 1))) in
                     if negb ok
                     then (with_fs (mkWorld (cw_files w0) (hst w0) (beyond w0) lg (fs w0))
                                   (remove (fclose s4 f) p), CW_ERR_CREATE_HEADER, None)
                     else (with_fs (set_slot (mkWorld (cw_files w0) (hst w0) (beyond w0) lg
                                                      (fs w0)) k (Some cf)) s4,
                           CW_NOERR, Some k)
               end).
  { unfold cw_create. fold w0.
    change (negb ((CW_CLOBBER =? CW_CLOBBER) || _)) with false.
    cbv beta iota. rewrite Hfind.
    replace (k =? CW_MAX_FILES) with false by (symmetry; apply Z.eqb_neq; lia).
    change (CW_CLOBBER =? CW_CLOBBER) with true. cbv beta iota. cbn [fs hst].
    rewrite Hfs0. reflexivity. }
  split; [|split].
  - intros Hcan Hm0 Hm1.
    destruct (fopen_create_fresh (hst w0) (fs w) p true Hok ltac:(rewrite Hcc0; exact Hcan))
      as [n [s3 [Hopen [Hg3 [Hn3 [Hc3 Hl3]]]]]].
    set (f := List.length (streams (fs w))) in *.
    set (hdr := CW_MAGIC_NUM :: repeat 0 (Z.to_nat (CW_HEAD_MIN - 1))).
    set (cf := mkFile f None p true CW_WRITE (-1) (-1) (-1, -1) (-1)).
    pose proof (get_stream_lt _ _ _ Hg3) as Hf3.
    eexists. exists cf, n.
    split; [|split; [|split; [|split; [|split; [|split; [|split; [|split]]]]]]].
    + rewrite Hstart, Hopen, Hcm0, Hm0, Hm1. cbn [andb negb]. cbv zeta.
      fold hdr. unfold fwrite. rewrite Hg3.
      cbn [s_write negb s_file s_pos]. reflexivity.
    + change (slot_at (with_fs ?a ?b) k) with (slot_at a k).
      unfold slot_at, set_slot. rewrite Hin. cbn [cw_files set_cw_files].
      rewrite Hcf0. apply nth_upd_same. exact Hlen.
    + reflexivity.
    + reflexivity.
    + reflexivity.
    + reflexivity.
    + cbn [fs with_fs fp cf]. exists (0 + Z.of_nat (List.length hdr)).
      unfold get_stream, file_bytes, set_pos, set_files_of.
      cbn [streams files set_streams].
      rewrite nth_error_upd_same by exact Hf3.
      rewrite upd_length, nth_upd_same by exact Hn3.
      split; [reflexivity|]. split; [exact Hn3|].
      unfold file_bytes in Hc3. rewrite Hc3. reflexivity.
    + cbn [fs with_fs]. exact Hl3.
    + intros j Hj. change (slot_at (with_fs ?a ?b) j) with (slot_at a j).
      rewrite slot_at_set_slot_other by exact Hj.
      unfold slot_at. cbn [cw_files beyond]. rewrite Hcf0, Hb0. reflexivity.
  - intro Hcan. rewrite Hstart. unfold fopen_create. rewrite Hcc0, Hcan. reflexivity.
  - intros Hcan Hm.
    destruct (fopen_create_fresh (hst w0) (fs w) p true Hok ltac:(rewrite Hcc0; exact Hcan))
      as [n [s3 [Hopen _]]].
    rewrite Hstart, Hopen, Hcm0, Hm. reflexivity.
Qed.

Lemma create_takes_lowest_free_slot_witness :
  (exists w1 cf n,
     cw_create W_shifted "b.cwf" CW_CLOBBER = (w1, CW_NOERR, Some 1)
     /\ slot_at w1 1 = Some cf
     /\ defmode cf = true /\ wmode cf = CW_WRITE /\ data_id cf = -1 /\ dims cf = (-1, -1)
     /\ on_file (fs w1) (fp cf) n (CW_MAGIC_NUM :: repeat 0 135)
     /\ lookup_name (names (fs w1)) "b.cwf" = Some n
     /\ (forall j, j <> 1 -> slot_at w1 j = slot_at W_shifted j))
  /\ snd (fst (cw_create W_no_room "b.cwf" CW_CLOBBER)) = CW_ERR_CREATE
  /\ snd (fst (cw_create W_no_memory "b.cwf" CW_CLOBBER)) = CW_ERR_NOMEM.
Proof.
  assert (Hn : names_ok (fs W_shifted)).
  { intros q m H. simpl in H. destruct (String.eqb q "a.cwf"); [|discriminate H].
    injection H as <-. simpl. lia. }
  assert (H0 : forall i, 0 <= i < 1 -> slot_at W_shifted i <> None).
  { intros i Hi. assert (i = 0) as -> by lia. discriminate. }
  split; [|split].
  - apply (create_takes_lowest_free_slot W_shifted "b.cwf" 1 eq_refl
             ltac:(simpl; lia) H0 eq_refl Hn); reflexivity.
  - apply (create_takes_lowest_free_slot W_no_room "b.cwf" 1 eq_refl
             ltac:(simpl; lia) H0 eq_refl Hn). reflexivity.
  - apply (create_takes_lowest_free_slot W_no_memory "b.cwf" 1 eq_refl
             ltac:(simpl; lia) H0 eq_refl Hn); reflexivity.
Defined.

(** X14: a create or an open that fails registers nothing: the table of
    datasets is as it was before the call, and no id is returned. *)
Theorem failed_create_or_open_registers_nothing (w w1 : world) (p : string)
    (mode rc : Z) (o : option Z) :
  cw_create w p mode = (w1, rc, o) \/ cw_open w p mode = (w1, rc, o) ->
  rc <> CW_NOERR ->
  cw_files w1 = cw_files w /\ o = None.
Proof.
  intros H Hrc.
  assert (Hi : cw_files (init_byteswap w) = cw_files w) by apply init_byteswap_cw_files.
  destruct H as [H|H].
  - unfold cw_create in H.
    destruct (negb ((mode =? CW_CLOBBER) || (mode =? CW_NOCLOBBER))).
    { injection H as <- _ <-. auto. }
    pose proof (find_slot_cw_files 101 (init_byteswap w) 0) as Hf.
    destruct (find_slot 101 (init_byteswap w) 0) as [w2 id]. cbn [fst] in Hf.
    destruct (id =? CW_MAX_FILES).
    { injection H as <- _ <-. rewrite Hf. auto. }
    destruct (if mode =? CW_CLOBBER then (fs w2, false)
              else match fopen_existing (fs w2) p false with
                   | (s, Some f) => (fclose s f, true)
                   | (s, None) => (s, false)
                   end) as [s2 found].
    destruct found.
    { injection H as <- _ <-. cbn [cw_files with_fs]. rewrite Hf. auto. }
    destruct (fopen_create (hst w2) s2 p true) as [s3 [f|]].
    2:{ injection H as <- _ <-. cbn [cw_files with_fs]. rewrite Hf. auto. }
    destruct (negb (can_malloc (hst w2) 0 && can_malloc (hst w2) 1)).
    { injection H as <- _ <-. cbn [cw_files with_fs]. rewrite Hf. auto. }
    destruct (fwrite s3 f _) as [s4 ok]. destruct ok; cbn [negb] in H.
    + injection H as _ Hr _. symmetry in Hr. contradiction.
    + injection H as <- _ <-. cbn [cw_files with_fs]. rewrite Hf. auto.
  - unfold cw_open in H.
    destruct (negb ((mode =? CW_NOWRITE) || (mode =? CW_WRITE))).
    { injection H as <- _ <-. auto. }
    pose proof (find_slot_cw_files 101 (init_byteswap w) 0) as Hf.
    destruct (find_slot 101 (init_byteswap w) 0) as [w2 id]. cbn [fst] in Hf.
    destruct (id =? CW_MAX_FILES).
    { injection H as <- _ <-. rewrite Hf. auto. }
    destruct (fopen_existing (fs w2) p (negb (mode =? CW_NOWRITE))) as [s2 [f|]].
    2:{ injection H as <- _ <-. cbn [cw_files with_fs]. rewrite Hf. auto. }
    destruct (fread s2 f 1 1) as [[s3 magic] items].
    destruct (items <? 1).
    { injection H as <- _ <-. cbn [cw_files with_fs]. rewrite Hf. auto. }
    destruct (negb (nth 0 magic 0 =? CW_MAGIC_NUM)).
    { injection H as <- _ <-. cbn [cw_files with_fs]. rewrite Hf. auto. }
    destruct (open_header (hst w2) s3 f) as [[s4 rc4] [[[did dm] psz] gr]].
    destruct (negb (rc4 =? CW_NOERR)).
    + injection H as <- _ <-. cbn [cw_files with_fs]. rewrite Hf. auto.
    + injection H as _ Hr _. symmetry in Hr. contradiction.
Qed.

Lemma failed_create_or_open_registers_nothing_witness :
  cw_files (fst (fst (cw_open W_shifted "none.cwf" CW_NOWRITE))) = cw_files W_shifted
  /\ snd (cw_open W_shifted "none.cwf" CW_NOWRITE) = None.
Proof.
  apply (failed_create_or_open_registers_nothing W_shifted _ "none.cwf" CW_NOWRITE
           (snd (fst (cw_open W_shifted "none.cwf" CW_NOWRITE)))).
  - right. vm_compute. reflexivity.
  - vm_compute. discriminate.
Defined.

(** X15: a successful cw_close frees the slot of the dataset and no other:
    the id is then unknown to the library, and a second cw_close, a read or a
    write on it fails with CW_ERR_DATASET_ID. *)
Theorem close_frees_the_slot (w w1 : world) (cwid varid : Z) (start count : Z * Z)
    (type : Z) (data : cw_data) :
  in_table cwid = true -> cw_close w cwid = (w1, CW_NOERR) ->
  slot_at w1 cwid = None
  /\ (forall j, j <> cwid -> slot_at w1 j = slot_at w j)
  /\ cw_close w1 cwid = (log_index w1 cwid, CW_ERR_DATASET_ID)
  /\ cw_get_vara w1 cwid varid start count type
     = (log_index w1 cwid, CW_ERR_DATASET_ID, None)
  /\ cw_put_vara w1 cwid varid start count data = (log_index w1 cwid, CW_ERR_DATASET_ID).
Proof.
  intros Hin H.
  assert (Hs : slot_at w1 cwid = None
               /\ (forall j, j <> cwid -> slot_at w1 j = slot_at w j)).
  { unfold cw_close in H. rewrite slot_at_log in H.
    destruct (slot_at w cwid) as [cf0|] eqn:Hslot; [|discriminate H].
    destruct (if defmode cf0 then enddef_body (hst (log_index w cwid)) (fs (log_index w cwid)) cf0
              else (fs (log_index w cwid), CW_NOERR, cf0)) as [[s1 rc] cf1].
    destruct (negb (rc =? CW_NOERR)); [discriminate H|].
    destruct (close_compress (hst (log_index w cwid)) s1 cf1) as [[s2 rc2] cf2].
    destruct (negb (rc2 =? CW_NOERR)) eqn:Hrc2.
    - injection H as _ Hr. apply negb_true_iff in Hrc2. apply Z.eqb_neq in Hrc2.
      contradiction.
    - injection H as <-. split.
      + change (slot_at (with_fs ?a ?b) cwid) with (slot_at a cwid).
        apply (slot_at_set_slot _ cwid None cf0 Hin). rewrite slot_at_log. exact Hslot.
      + intros j Hj. change (slot_at (with_fs ?a ?b) j) with (slot_at a j).
        rewrite slot_at_set_slot_other by exact Hj. apply slot_at_log. }
  destruct Hs as [Hnone Hother].
  split; [exact Hnone|]. split; [exact Hother|].
  unfold cw_close, cw_get_vara, cw_put_vara. rewrite !slot_at_log, Hnone.
  repeat split; reflexivity.
Qed.

Lemma close_frees_the_slot_witness :
  slot_at (fst (cw_close W_shifted 0)) 0 = None
  /\ (forall j, j <> 0 -> slot_at (fst (cw_close W_shifted 0)) j = slot_at W_shifted j)
  /\ cw_close (fst (cw_close W_shifted 0)) 0
     = (log_index (fst (cw_close W_shifted 0)) 0, CW_ERR_DATASET_ID)
  /\ cw_get_vara (fst (cw_close W_shifted 0)) 0 CW_DATA (0, 0) (1, 1) CW_BYTE
     = (log_index (fst (cw_close W_shifted 0)) 0, CW_ERR_DATASET_ID, None)
  /\ cw_put_vara (fst (cw_close W_shifted 0)) 0 CW_DATA (0, 0) (1, 1) (DataByte [1])
     = (log_index (fst (cw_close W_shifted 0)) 0, CW_ERR_DATASET_ID).
Proof.
  apply (close_frees_the_slot W_shifted _ 0 CW_DATA (0, 0) (1, 1) CW_BYTE (DataByte [1])).
  - reflexivity.
  - vm_compute. reflexivity.
Defined.

(** ** Windows of the grid: the index test and the shift *)

Lemma to_size_t_small (v : Z) : 0 <= v <= 65535 -> to_size_t v = v.
Proof.
  intro H. unfold to_size_t, SIZE_MOD. apply Z.mod_small.
  change (2 ^ 64) with 18446744073709551616. lia.
Qed.

(** X16: a window that the index test of cw_get_vara and cw_put_vara lets
    through lies inside the grid: for dimensions from 1 to 32767 and counts
    of one or more (start plus count below 2^64), the test fails only when
    start + count is within the dimension, on both axes. *)
Theorem accepted_window_inside_grid (dims start count : Z * Z) :
  1 <= fst dims <= 32767 -> 1 <= snd dims <= 32767 ->
  0 <= fst start -> 0 <= snd start -> 1 <= fst count -> 1 <= snd count ->
  fst start + fst count <= SIZE_MOD -> snd start + snd count <= SIZE_MOD ->
  index_out_of_range dims start count = false ->
  fst start + fst count <= fst dims /\ snd start + snd count <= snd dims.
Proof.
  unfold index_out_of_range, to_size_t, SIZE_MOD.
  intros Hr Hc Hsr Hsc Hcr Hcc Hwr Hwc H.
  rewrite !(Z.mod_small (_ - 1) (2 ^ 64)) in H
    by (change (2 ^ 64) with 18446744073709551616 in *; lia).
  rewrite !orb_false_iff, !Z.ltb_ge in H. lia.
Qed.

Lemma accepted_window_inside_grid_witness :
  fst (1, 2) + fst (3, 3) <= fst (4, 5) /\ snd (1, 2) + snd (3, 3) <= snd (4, 5).
Proof.
  apply (accepted_window_inside_grid (4, 5) (1, 2) (3, 3)); simpl; try lia.
  - unfold SIZE_MOD. change (2 ^ 64) with 18446744073709551616. lia.
  - unfold SIZE_MOD. change (2 ^ 64) with 18446744073709551616. lia.
  - reflexivity.
Defined.

(** X17: how cw_get_raw clips a shifted window on one axis.  For a request
    inside the grid and a shift that keeps the shifted corner within a short,
    the part read starts at grid index s, has c cells and goes to position u
    of the caller's buffer, where: the part lies in the grid and in the
    buffer, buffer cell b receives grid cell start + b - shift, and every
    requested cell whose grid cell exists is part of it. *)
Theorem shift_axis_clips_to_grid (start count shift dim u s c : Z) :
  1 <= dim <= 32767 -> 0 <= start -> 1 <= count -> start + count <= dim ->
  -32768 <= shift <= 32767 -> start + count - 1 - shift <= 32767 ->
  shift_axis start count shift dim = Some (u, s, c) ->
  0 <= u /\ 0 <= s /\ 1 <= c /\ s + c <= dim /\ u + c <= count
  /\ s = start + u - shift
  /\ (forall b, 0 <= b < count -> 0 <= start + b - shift < dim -> u <= b < u + c).
Proof.
  intros Hd Hs Hc Hin Hsh Hw. unfold shift_axis, shifted_end, shifted_start.
  rewrite (to_short_small start) by lia.
  rewrite (to_short_small (start - shift)) by lia.
  rewrite (to_short_small count) by lia.
  rewrite (to_short_small (start - shift + count - 1)) by lia.
  destruct ((dim - 1 <? start - shift) || (start - shift + count - 1 <? 0)) eqn:Ht;
    [discriminate|].
  apply orb_false_iff in Ht. destruct Ht as [Ht1 Ht2].
  apply Z.ltb_ge in Ht1, Ht2.
  rewrite (to_short_small (Z.max 0 (Z.min (start - shift) dim))) by lia.
  rewrite (to_short_small (Z.max 0 (Z.min (start - shift + count - 1) (dim - 1)))) by lia.
  rewrite !to_size_t_small by lia.
  intro H. injection H as <- <- <-.
  repeat split; try lia. 
Qed.

Lemma shift_axis_clips_to_grid_witness :
  0 <= 2 /\ 0 <= 0 /\ 1 <= 1 /\ 0 + 1 <= 5 /\ 2 + 1 <= 3
  /\ 0 = 0 + 2 - 2
  /\ (forall b, 0 <= b < 3 -> 0 <= 0 + b - 2 < 5 -> 2 <= b < 2 + 1).
Proof.
  apply (shift_axis_clips_to_grid 0 3 2 5 2 0 1); try lia.
  reflexivity.
Defined.

Lemma shift_axis_zero (start count dim : Z) :
  1 <= dim <= 32767 -> 0 <= start -> 1 <= count -> start + count <= dim ->
  shift_axis start count 0 dim = Some (0, start, count).
Proof.
  intros Hd Hs Hc Hin. unfold shift_axis, shifted_end, shifted_start.
  rewrite Z.sub_0_r.
  rewrite (to_short_small start) by lia.
  rewrite (to_short_small start) by lia.
  rewrite (to_short_small count) by lia.
  rewrite (to_short_small (start + count - 1)) by lia.
  replace ((dim - 1 <? start) || (start + count - 1 <? 0)) with false
    by (symmetry; apply orb_false_iff; split; apply Z.ltb_ge; lia).
  rewrite (to_short_small (Z.max 0 (Z.min start dim))) by lia.
  rewrite (to_short_small (Z.max 0 (Z.min (start + count - 1) (dim - 1)))) by lia.
  rewrite !to_size_t_small by lia.
  f_equal. f_equal; [f_equal|]; lia.
Qed.

(** X18: with both shift attributes zero, the shifted read of cw_get_raw is
    the plain read: for a window inside the grid the call with shifts (0, 0)
    gives the status, the bytes and the stream state of the call without
    shifts. *)
Theorem zero_shift_is_plain_read (h : host) (s : filesys) (f : nat) (psz : Z)
    (dims start count : Z * Z) :
  1 <= fst dims <= 32767 -> 1 <= snd dims <= 32767 ->
  0 <= fst start -> 0 <= snd start -> 1 <= fst count -> 1 <= snd count ->
  fst start + fst count <= fst dims -> snd start + snd count <= snd dims ->
  cw_get_raw h s f psz dims start count (Some (0, 0))
  = cw_get_raw h s f psz dims start count None.
Proof.
  intros Hr Hc Hsr Hsc Hcr Hcc Hir Hic. unfold cw_get_raw. cbn [fst snd].
  rewrite (shift_axis_zero (fst start) (fst count) (fst dims)) by assumption.
  rewrite (shift_axis_zero (snd start) (snd count) (snd dims)) by assumption.
  replace (to_size_t ((0 * snd count + 0) * psz)) with 0 by reflexivity.
  reflexivity.
Qed.

Lemma zero_shift_is_plain_read_witness :
  cw_get_raw (granting_host 1 true) (fs W_shifted) 0 1 (4, 5) (1, 2) (2, 2) (Some (0, 0))
  = cw_get_raw (granting_host 1 true) (fs W_shifted) 0 1 (4, 5) (1, 2) (2, 2) None.
Proof.
  apply (zero_shift_is_plain_read (granting_host 1 true) (fs W_shifted) 0 1 (4, 5) (1, 2) (2, 2));
    simpl; lia.
Defined.

(** ** Packing and the 1B codec, value by value and row by row *)

Lemma pack_unpack_value (a b : Z) :
  -2047 <= a <= 2047 -> 0 <= b <= 15 ->
  CW_UNC_RVAL (to_ushort (CW_UNC_W a b)) = a
  /\ CW_UNC_RGRA (to_ushort (CW_UNC_W a b)) = b.
Proof.
  intros Ha Hb.
  assert (H : all_from 4095 (-2047)
                (fun a => all_from 16 0
                   (fun b => (CW_UNC_RVAL (to_ushort (CW_UNC_W a b)) =? a)
                             && (CW_UNC_RGRA (to_ushort (CW_UNC_W a b)) =? b))) = true)
    by (vm_compute; reflexivity).
  pose proof (all_from_spec _ _ _ H a ltac:(lia)) as Hab. cbv beta in Hab.
  pose proof (all_from_spec _ _ _ Hab b ltac:(lia)) as Hv. cbv beta in Hv.
  apply andb_true_iff in Hv. destruct Hv as [H0 H1].
  apply Z.eqb_eq in H0. apply Z.eqb_eq in H1. auto.
Qed.

(** X19: channel data and graphics packed into 16-bit words come apart
    again unchanged: for data values from -2047 to 2047 and graphics values
    from 0 to 15, in arrays of one length, separating the words that
    cw_combine_channel builds gives back both arrays. *)
Theorem combine_then_separate (d g : list Z) :
  Forall (fun a => -2047 <= a <= 2047) d -> Forall (fun b => 0 <= b <= 15) g ->
  List.length d = List.length g ->
  separate_data (cw_combine_channel (Some d) (Some g)) = d
  /\ separate_graphics (cw_combine_channel (Some d) (Some g)) = g.
Proof.
  unfold separate_data, separate_graphics, cw_combine_channel.
  revert g. induction d as [|a d IH]; intros g Hd Hg Hl.
  - destruct g; [split; reflexivity | discriminate Hl].
  - destruct g as [|b g]; [discriminate Hl|].
    inversion Hd as [|? ? Ha Hd']. inversion Hg as [|? ? Hb Hg']. subst.
    injection Hl as Hl. destruct (IH g Hd' Hg' Hl) as [IH1 IH2].
    destruct (pack_unpack_value a b Ha Hb) as [H1 H2].
    cbn [combine map fst snd]. rewrite H1, H2, IH1, IH2. split; reflexivity.
Qed.

Lemma combine_then_separate_witness :
  separate_data (cw_combine_channel (Some [-2047; 0; 513]) (Some [15; 0; 7]))
    = [-2047; 0; 513]
  /\ separate_graphics (cw_combine_channel (Some [-2047; 0; 513]) (Some [15; 0; 7]))
    = [15; 0; 7].
Proof.
  apply (combine_then_separate [-2047; 0; 513] [15; 0; 7]).
  - repeat constructor; lia.
  - repeat constructor; lia.
  - reflexivity.
Defined.

Lemma absolute_code_decodes (d : Z) :
  0 <= d <= 2047 ->
  (CW_COM_ISMVAL (to_uchar (CW_COM_WVAL_B1 d)) =? 0) = false
  /\ to_short (CW_COM_RMVAL (to_uchar (CW_COM_WVAL_B1 d)) (to_uchar (CW_COM_WVAL_B2 d))) = d.
Proof.
  intro Hd.
  assert (H : all_from 2048 0
                (fun d => negb (CW_COM_ISMVAL (to_uchar (CW_COM_WVAL_B1 d)) =? 0)
                          && (to_short (CW_COM_RMVAL (to_uchar (CW_COM_WVAL_B1 d))
                                                     (to_uchar (CW_COM_WVAL_B2 d))) =? d))
              = true) by (vm_compute; reflexivity).
  pose proof (all_from_spec _ _ _ H d ltac:(lia)) as Hv. cbv beta in Hv.
  apply andb_true_iff in Hv. destruct Hv as [H0 H1].
  apply negb_true_iff in H0. apply Z.eqb_eq in H1. auto.
Qed.

Lemma delta_code_decodes (lastd d : Z) :
  -63 <= d - lastd <= 63 -> -32768 <= d <= 32767 ->
  (CW_COM_ISMVAL (to_uchar (CW_COM_WVAL (d - lastd))) =? 0) = true
  /\ to_short (CW_COM_RVAL lastd (to_uchar (CW_COM_WVAL (d - lastd)))) = d.
Proof.
  intros Hdl Hd.
  assert (H : all_from 127 (-63)
                (fun e => (CW_COM_ISMVAL (to_uchar (CW_COM_WVAL e)) =? 0)
                          && (to_short (Z.land (to_uchar (CW_COM_WVAL e)) 0x3F)
                              * sign_of (Z.land (to_uchar (CW_COM_WVAL e)) 0x40) =? e))
              = true) by (vm_compute; reflexivity).
  pose proof (all_from_spec _ _ _ H (d - lastd) ltac:(lia)) as Hv. cbv beta in Hv.
  apply andb_true_iff in Hv. destruct Hv as [H0 H1]. apply Z.eqb_eq in H1.
  split; [exact H0|]. unfold CW_COM_RVAL. rewrite H1.
  replace (lastd + (d - lastd)) with d by lia. apply to_short_small. exact Hd.
Qed.

(** X20: the codes of cw_compress are read back by the macros of
    cw_uncompress for the values from 0 to 2047: the two bytes of an absolute
    code carry the marker and decode to the value, and a one-byte delta
    carries no marker and decodes to the value from the one before.  An
    absolute code of a negative value decodes 2048 too low, for the sign bit
    is read as part of the magnitude too. *)
Theorem compressed_codes_decode (lastd d : Z) :
  0 <= d <= 2047 ->
  (CW_COM_ISMVAL (to_uchar (CW_COM_WVAL_B1 d)) <> 0
   /\ to_short (CW_COM_RMVAL (to_uchar (CW_COM_WVAL_B1 d)) (to_uchar (CW_COM_WVAL_B2 d))) = d)
  /\ (Z.abs (d - lastd) <= 63 ->
      CW_COM_ISMVAL (to_uchar (CW_COM_WVAL (d - lastd))) = 0
      /\ to_short (CW_COM_RVAL lastd (to_uchar (CW_COM_WVAL (d - lastd)))) = d)
  /\ (d <> 0 ->
      to_short (CW_COM_RMVAL (to_uchar (CW_COM_WVAL_B1 (- d)))
                             (to_uchar (CW_COM_WVAL_B2 (- d)))) = - d - 2048).
Proof.
  intro Hd. split; [|split].
  - destruct (absolute_code_decodes d Hd) as [H0 H1]. split; [|exact H1].
    apply Z.eqb_neq. exact H0.
  - intro Hl. destruct (delta_code_decodes lastd d ltac:(lia) ltac:(lia)) as [H0 H1].
    split; [apply Z.eqb_eq; exact H0 | exact H1].
  - intro Hne.
    assert (H : all_from 2047 1
                  (fun d => to_short (CW_COM_RMVAL (to_uchar (CW_COM_WVAL_B1 (- d)))
                                                   (to_uchar (CW_COM_WVAL_B2 (- d))))
                            =? - d - 2048) = true) by (vm_compute; reflexivity).
    pose proof (all_from_spec _ _ _ H d ltac:(lia)) as Hv. cbv beta in Hv.
    apply Z.eqb_eq in Hv. exact Hv.
Qed.

Lemma compressed_codes_decode_witness :
  (CW_COM_ISMVAL (to_uchar (CW_COM_WVAL_B1 700)) <> 0
   /\ to_short (CW_COM_RMVAL (to_uchar (CW_COM_WVAL_B1 700)) (to_uchar (CW_COM_WVAL_B2 700)))
      = 700)
  /\ (Z.abs (700 - 690) <= 63 ->
      CW_COM_ISMVAL (to_uchar (CW_COM_WVAL (700 - 690))) = 0
      /\ to_short (CW_COM_RVAL 690 (to_uchar (CW_COM_WVAL (700 - 690)))) = 700)
  /\ (700 <> 0 ->
      to_short (CW_COM_RMVAL (to_uchar (CW_COM_WVAL_B1 (- 700)))
                             (to_uchar (CW_COM_WVAL_B2 (- 700)))) = - 700 - 2048).
Proof.
  apply (compressed_codes_decode 690 700). lia.
Defined.

Lemma reads_fread (s : filesys) (f : nat) (pos k : Z) (bytes : list Z) :
  reads s f pos bytes -> 0 <= pos -> 0 < k ->
  pos + k <= Z.of_nat (List.length bytes) ->
  exists s', fread s f 1 k = (s', firstn (Z.to_nat k) (skipn (Z.to_nat pos) bytes), k)
             /\ reads s' f (pos + k) bytes.
Proof.
  intros [st [Hg [Hp [Hr Hb]]]] Hpos Hk Hlen.
  unfold fread. rewrite Hg, Hr, Hb, Hp.
  replace (1 <=? 0) with false by reflexivity.
  replace (k <=? 0) with false by (symmetry; apply Z.leb_gt; exact Hk).
  cbn [negb orb]. rewrite Z.div_1_r.
  replace (Z.min k (Z.max 0 (Z.of_nat (List.length bytes) - pos))) with k by lia.
  rewrite Z.mul_1_r.
  eexists. split; [reflexivity|].
  exists (mkStream (s_file st) (pos + k) (s_read st) (s_write st)).
  split; [apply get_stream_set_pos; exact Hg|].
  cbn [s_pos s_read s_file]. split; [reflexivity|]. split; [exact Hr|].
  exact Hb.
Qed.

Lemma skipn_middle (pre rest : list Z) :
  skipn (Z.to_nat (Z.of_nat (List.length pre))) (pre ++ rest) = rest.
Proof.
  rewrite Nat2Z.id, skipn_app, skipn_all, Nat.sub_diag. reflexivity.
Qed.

(** The decoder of a row reads back what the coder of a row wrote. *)
Lemma unc_row_com_row (data : list Z) :
  forall (first : bool) (lastd : Z) (pre post : list Z) (s : filesys) (f : nat)
         (acc : list Z),
  Forall (fun d => 0 <= d <= 2047) data ->
  reads s f (Z.of_nat (List.length pre)) (pre ++ fst (com_row first lastd data) ++ post) ->
  exists s',
    unc_row (List.length data) s f first lastd acc
    = (s', CW_NOERR, acc ++ data, snd (com_row first lastd data))
    /\ reads s' f (Z.of_nat (List.length (pre ++ fst (com_row first lastd data))))
             (pre ++ fst (com_row first lastd data) ++ post).
Proof.
  induction data as [|d t IH]; intros first lastd pre post s f acc Hall Hr.
  - cbn [com_row fst snd List.length unc_row]. exists s.
    rewrite !app_nil_r. split; [reflexivity|]. exact Hr.
  - inversion Hall as [|? ? Hd Ht]. subst.
    cbn [com_row] in *. destruct (com_row false d t) as [bs l] eqn:Hcr.
    cbn [fst snd] in *. cbn [List.length unc_row].
    unfold com_value in *.
    destruct (first || (63 <? Z.abs (d - lastd))) eqn:Habs.
    + destruct (absolute_code_decodes d Hd) as [Hm Hv].
      set (b1 := to_uchar (CW_COM_WVAL_B1 d)) in *.
      set (b2 := to_uchar (CW_COM_WVAL_B2 d)) in *.
      cbn [app] in Hr. cbn [app].
      destruct (reads_fread s f _ 1 _ Hr ltac:(lia) ltac:(lia)) as [s1 [Hf1 Hr1]].
      { rewrite !length_app. cbn [List.length]. lia. }
      rewrite Hf1. change (1 <? 1) with false. cbv beta iota.
      rewrite skipn_middle. cbn [firstn Z.to_nat Pos.to_nat Pos.iter_op Nat.add nth].
      change (firstn (Pos.to_nat 1) (b1 :: b2 :: bs ++ post)) with [b1].
      cbn [nth]. rewrite Hm. cbn [negb].
      destruct (reads_fread s1 f _ 1 _ Hr1 ltac:(lia) ltac:(lia)) as [s2 [Hf2 Hr2]].
      { rewrite !length_app. cbn [List.length]. lia. }
      rewrite Hf2. change (1 <? 1) with false. cbv beta iota.
      replace (Z.of_nat (List.length pre) + 1) with (Z.of_nat (List.length (pre ++ [b1])))
        by (rewrite length_app; cbn [List.length]; lia).
      replace (pre ++ b1 :: b2 :: bs ++ post) with ((pre ++ [b1]) ++ b2 :: bs ++ post)
        by (rewrite <- app_assoc; reflexivity).
      rewrite skipn_middle.
      change (firstn (Z.to_nat 1) (b2 :: bs ++ post)) with [b2]. cbn [nth].
      rewrite Hv.
      assert (Hr2' : reads s2 f (Z.of_nat (List.length (pre ++ [b1; b2])))
                           ((pre ++ [b1; b2]) ++ fst (com_row false d t) ++ post)).
      { rewrite Hcr. cbn [fst]. rewrite <- app_assoc. cbn [app].
        replace (Z.of_nat (List.length (pre ++ [b1; b2])))
          with (Z.of_nat (List.length pre) + 1 + 1)
          by (rewrite length_app; cbn [List.length]; lia).
        exact Hr2. }
      destruct (IH false d (pre ++ [b1; b2]) post s2 f (acc ++ [d]) Ht Hr2')
        as [s' [Hu Hr']].
      exists s'. rewrite Hu, Hcr. cbn [fst snd]. rewrite <- !app_assoc. cbn [app].
      split; [reflexivity|].
      rewrite Hcr in Hr'. cbn [fst] in Hr'. rewrite <- !app_assoc in Hr'. cbn [app] in Hr'.
      exact Hr'.
    + apply orb_false_iff in Habs. destruct Habs as [-> Hdl]. apply Z.ltb_ge in Hdl.
      destruct (delta_code_decodes lastd d ltac:(lia) ltac:(lia)) as [Hm Hv].
      set (a := to_uchar (CW_COM_WVAL (d - lastd))) in *.
      cbn [app] in Hr. cbn [app].
      destruct (reads_fread s f _ 1 _ Hr ltac:(lia) ltac:(lia)) as [s1 [Hf1 Hr1]].
      { rewrite !length_app. cbn [List.length]. lia. }
      rewrite Hf1. change (1 <? 1) with false. cbv beta iota.
      rewrite skipn_middle.
      change (firstn (Z.to_nat 1) (a :: bs ++ post)) with [a]. cbn [nth].
      rewrite Hm. cbn [negb]. rewrite Hv.
      assert (Hr1' : reads s1 f (Z.of_nat (List.length (pre ++ [a])))
                           ((pre ++ [a]) ++ fst (com_row false d t) ++ post)).
      { rewrite Hcr. cbn [fst]. rewrite <- app_assoc. cbn [app].
        replace (Z.of_nat (List.length (pre ++ [a]))) with (Z.of_nat (List.length pre) + 1)
          by (rewrite length_app; cbn [List.length]; lia).
        exact Hr1. }
      destruct (IH false d (pre ++ [a]) post s1 f (acc ++ [d]) Ht Hr1') as [s' [Hu Hr']].
      exists s'. rewrite Hu, Hcr. cbn [fst snd]. rewrite <- !app_assoc. cbn [app].
      split; [reflexivity|].
      rewrite Hcr in Hr'. cbn [fst] in Hr'. rewrite <- !app_assoc in Hr'. cbn [app] in Hr'.
      exact Hr'.
Qed.

(** X21: a row of channel values compressed by cw_compress is read back by
    cw_uncompress.  On a stream that stands at the bytes written for a row of
    values from 0 to 2047, the row decoder returns CW_NOERR, the same values
    and the same last value, and leaves the stream behind those bytes. *)
Theorem channel_row_round_trip (data : list Z) (first : bool) (lastd : Z)
    (pre post : list Z) (s : filesys) (f : nat) :
  Forall (fun d => 0 <= d <= 2047) data ->
  reads s f (Z.of_nat (List.length pre)) (pre ++ fst (com_row first lastd data) ++ post) ->
  exists s',
    unc_row (List.length data) s f first lastd []
    = (s', CW_NOERR, data, snd (com_row first lastd data))
    /\ reads s' f (Z.of_nat (List.length (pre ++ fst (com_row first lastd data))))
             (pre ++ fst (com_row first lastd data) ++ post).
Proof.
  intros Hall Hr.
  exact (unc_row_com_row data first lastd pre post s f [] Hall Hr).
Qed.

Lemma channel_row_round_trip_witness :
  exists s',
    unc_row (List.length [100; 110; 900]) 
            (mkFS [Some (mkStream 0 1 true false)]
                  [[7] ++ fst (com_row true 0 [100; 110; 900]) ++ [9]] []) 0 true 0 []
    = (s', CW_NOERR, [100; 110; 900], snd (com_row true 0 [100; 110; 900]))
    /\ reads s' 0 (Z.of_nat (List.length ([7] ++ fst (com_row true 0 [100; 110; 900]))))
             ([7] ++ fst (com_row true 0 [100; 110; 900]) ++ [9]).
Proof.
  apply (channel_row_round_trip [100; 110; 900] true 0 [7] [9]
           (mkFS [Some (mkStream 0 1 true false)]
                 [[7] ++ fst (com_row true 0 [100; 110; 900]) ++ [9]] []) 0).
  - repeat constructor; lia.
  - exists (mkStream 0 1 true false). repeat split.
Defined.

Lemma repeat_snoc_app (a : Z) (n : nat) (l : list Z) :
  repeat a (S n) ++ l = repeat a n ++ a :: l.
Proof.
  induction n as [|n IH]; [reflexivity|].
  change (repeat a (S (S n)) ++ l) with (a :: (repeat a (S n) ++ l)).
  rewrite IH. reflexivity.
Qed.

Lemma graphics_bytes (a k : Z) :
  0 <= a <= 255 -> 0 <= k <= 255 ->
  to_uchar (CW_COM_WGRA_B1 a) = a /\ CW_COM_WGRA_B2 k = k.
Proof.
  intros Ha Hk. unfold CW_COM_WGRA_B1, CW_COM_WGRA_B2, to_uchar.
  rewrite !Z.mod_small by lia. auto.
Qed.

(** The decoder of a row of graphics reads back the runs the coder wrote;
    [k] places of the first run are counted and not yet written. *)
Lemma unc_graphics_com_graphics (g : list Z) :
  forall (k : Z) (pre post : list Z) (s : filesys) (f : nat) (j columns : Z)
         (acc : list Z) (n : nat) (b1 kk : Z),
  g <> [] -> Forall (fun a => 0 <= a <= 255) g -> 0 <= k <= 255 -> 0 <= j ->
  columns = j + k + Z.of_nat (List.length g) -> (List.length g <= n)%nat ->
  reads s f (Z.of_nat (List.length pre)) (pre ++ com_graphics g k ++ post) ->
  exists s' b1' k',
    unc_graphics_row n s f j columns acc b1 kk
    = (s', true, columns, acc ++ repeat (hd 0 g) (Z.to_nat k) ++ g, b1', k')
    /\ b1' - k' + 1 = 0
    /\ reads s' f (Z.of_nat (List.length (pre ++ com_graphics g k)))
             (pre ++ com_graphics g k ++ post).
Proof.
  induction g as [|a t IH]; intros k pre post s f j columns acc n b1 kk
                                   Hne Hall Hk Hj Hcol Hn Hr; [contradiction|].
  pose proof (Forall_inv Hall) as Ha. pose proof (Forall_inv_tail Hall) as Ht.
  cbv beta in Ha.
  destruct (graphics_bytes a k Ha Hk) as [Hb1 Hb2].
  assert (Hstep : forall rest,
            reads s f (Z.of_nat (List.length pre)) (pre ++ (a :: k :: rest) ++ post) ->
            exists s1,
              fread s f 1 2 = (s1, [a; k], 2)
              /\ reads s1 f (Z.of_nat (List.length (pre ++ [a; k])))
                       ((pre ++ [a; k]) ++ rest ++ post)).
  { intros rest Hr0.
    destruct (reads_fread s f _ 2 _ Hr0 ltac:(lia) ltac:(lia)) as [s1 [Hf1 Hr1]].
    { rewrite !length_app. cbn [List.length]. lia. }
    rewrite skipn_middle in Hf1. exists s1. split; [exact Hf1|].
    rewrite <- app_assoc. cbn [app].
    replace (Z.of_nat (List.length (pre ++ [a; k]))) with (Z.of_nat (List.length pre) + 2)
      by (rewrite length_app; cbn [List.length]; lia).
    exact Hr1. }
  destruct t as [|b t'].
  - cbn [com_graphics] in *. rewrite Hb1, Hb2 in *.
    destruct n as [|m]; [cbn [List.length] in Hn; lia|].
    cbn [unc_graphics_row]. cbn [List.length] in Hcol.
    replace (columns <=? j) with false by (symmetry; apply Z.leb_gt; lia).
    destruct (Hstep [] Hr) as [s1 [Hf1 Hr1]].
    rewrite Hf1. change (2 <? 2) with false. cbv beta iota. cbn [nth].
    replace (Z.min (k + 1) (columns - j)) with (k + 1) by lia.
    unfold CW_COM_RGRA.
    replace (j + (k + 1)) with columns by lia.
    exists s1, k, (k + 1).
    split; [|split; [lia | rewrite <- app_assoc in Hr1; exact Hr1]].
    replace (Z.to_nat (k + 1)) with (S (Z.to_nat k)) by lia.
    cbn [hd]. rewrite <- repeat_snoc_app, app_nil_r.
    destruct m as [|m']; cbn [unc_graphics_row]; [reflexivity|].
    rewrite Z.leb_refl. reflexivity.
  - pose proof (Forall_inv Ht) as Hb. pose proof (Forall_inv_tail Ht) as Ht'.
    cbv beta in Hb.
    cbn [com_graphics] in Hr |- *.
    change (match t' with
            | [] => [to_uchar (CW_COM_WGRA_B1 b); CW_COM_WGRA_B2 (k + 1)]
            | b0 :: _ =>
                if (b =? b0) && (k + 1 <? 255) then com_graphics t' (k + 1 + 1)
                else to_uchar (CW_COM_WGRA_B1 b) :: CW_COM_WGRA_B2 (k + 1) :: com_graphics t' 0
            end) with (com_graphics (b :: t') (k + 1)) in *.
    change (match t' with
            | [] => [to_uchar (CW_COM_WGRA_B1 b); CW_COM_WGRA_B2 0]
            | b0 :: _ =>
                if (b =? b0) && (0 <? 255) then com_graphics t' (0 + 1)
                else to_uchar (CW_COM_WGRA_B1 b) :: CW_COM_WGRA_B2 0 :: com_graphics t' 0
            end) with (com_graphics (b :: t') 0) in *.
    cbn [List.length] in Hcol, Hn.
    destruct ((a =? b) && (k <? 255)) eqn:Hrun.
    + apply andb_true_iff in Hrun. destruct Hrun as [Hab Hk255].
      apply Z.eqb_eq in Hab. apply Z.ltb_lt in Hk255. subst b.
      destruct (IH (k + 1) pre post s f j columns acc n b1 kk ltac:(discriminate) Ht
                   ltac:(lia) Hj ltac:(cbn [List.length]; lia)
                   ltac:(cbn [List.length]; lia) Hr) as [s' [b1' [k' [Hu [Hsp Hr']]]]].
      exists s', b1', k'. split; [|split; [exact Hsp | exact Hr']].
      rewrite Hu. cbn [hd].
      replace (Z.to_nat (k + 1)) with (S (Z.to_nat k)) by lia.
      rewrite repeat_snoc_app. reflexivity.
    + rewrite Hb1, Hb2 in *.
      destruct n as [|m]; [lia|].
      cbn [unc_graphics_row].
      replace (columns <=? j) with false by (symmetry; apply Z.leb_gt; lia).
      destruct (Hstep (com_graphics (b :: t') 0) Hr) as [s1 [Hf1 Hr1]].
      rewrite Hf1. change (2 <? 2) with false. cbv beta iota. cbn [nth].
      replace (Z.min (k + 1) (columns - j)) with (k + 1) by lia.
      unfold CW_COM_RGRA.
      destruct (IH 0 (pre ++ [a; k]) post s1 f (j + (k + 1)) columns
                   (acc ++ repeat a (Z.to_nat (k + 1))) m k (k + 1)
                   ltac:(discriminate) Ht ltac:(lia) ltac:(lia)
                   ltac:(cbn [List.length]; lia) ltac:(cbn [List.length]; lia) Hr1)
        as [s' [b1' [k' [Hu [Hsp Hr']]]]].
      exists s', b1', k'. split; [|split; [exact Hsp|]].
      * rewrite Hu. cbn [hd Z.to_nat repeat app].
        replace (Z.to_nat (k + 1)) with (S (Z.to_nat k)) by lia.
        rewrite <- app_assoc. rewrite repeat_snoc_app. reflexivity.
      * rewrite <- !app_assoc in Hr'. cbn [app] in Hr'. cbn [app]. exact Hr'.
Qed.

(** X22: a row of graphics compressed by cw_compress is read back by
    cw_uncompress.  On a stream that stands at the run-length bytes written
    for a row of graphics values from 0 to 255, the row decoder gives back the
    row, with the stream left behind those bytes, and its last run ends with
    the row: nothing spills into the next row. *)
Theorem graphics_row_round_trip (g pre post : list Z) (s : filesys) (f : nat)
    (b1 kk : Z) :
  g <> [] -> Forall (fun a => 0 <= a <= 255) g ->
  reads s f (Z.of_nat (List.length pre)) (pre ++ com_graphics g 0 ++ post) ->
  exists s' b1' k',
    unc_graphics_row (List.length g) s f 0 (Z.of_nat (List.length g)) [] b1 kk
    = (s', true, Z.of_nat (List.length g), g, b1', k')
    /\ to_size_t (b1' - k' + 1) = 0
    /\ reads s' f (Z.of_nat (List.length (pre ++ com_graphics g 0)))
             (pre ++ com_graphics g 0 ++ post).
Proof.
  intros Hne Hall Hr.
  destruct (unc_graphics_com_graphics g 0 pre post s f 0 (Z.of_nat (List.length g)) []
              (List.length g) b1 kk Hne Hall ltac:(lia) ltac:(lia) ltac:(lia)
              ltac:(lia) Hr) as [s' [b1' [k' [Hu [Hsp Hr']]]]].
  exists s', b1', k'. split; [exact Hu|]. split; [|exact Hr'].
  rewrite Hsp. reflexivity.
Qed.

Lemma graphics_row_round_trip_witness :
  exists s' b1' k',
    unc_graphics_row (List.length [3; 3; 3; 0; 5])
      (mkFS [Some (mkStream 0 1 true false)] [[7] ++ com_graphics [3; 3; 3; 0; 5] 0 ++ [9]] [])
      0 0 (Z.of_nat (List.length [3; 3; 3; 0; 5])) [] 0 0
    = (s', true, Z.of_nat (List.length [3; 3; 3; 0; 5]), [3; 3; 3; 0; 5], b1', k')
    /\ to_size_t (b1' - k' + 1) = 0
    /\ reads s' 0 (Z.of_nat (List.length ([7] ++ com_graphics [3; 3; 3; 0; 5] 0)))
             ([7] ++ com_graphics [3; 3; 3; 0; 5] 0 ++ [9]).
Proof.
  apply (graphics_row_round_trip [3; 3; 3; 0; 5] [7] [9]
           (mkFS [Some (mkStream 0 1 true false)]
                 [[7] ++ com_graphics [3; 3; 3; 0; 5] 0 ++ [9]] []) 0 0 0).
  - discriminate.
  - repeat constructor; lia.
  - exists (mkStream 0 1 true false). repeat split.
Defined.

(** ** One row of raw pixels, written and read *)

Lemma to_size_t_id (v : Z) : 0 <= v < 2 ^ 63 -> to_size_t v = v.
Proof.
  intro H. unfold to_size_t, SIZE_MOD. apply Z.mod_small.
  change (2 ^ 63) with 9223372036854775808 in H.
  change (2 ^ 64) with 18446744073709551616. lia.
Qed.

Lemma to_long_id (v : Z) : 0 <= v < 2 ^ 63 -> to_long v = v.
Proof.
  intro H. unfold to_long, SIZE_MOD.
  change (2 ^ 63) with 9223372036854775808 in *.
  change (2 ^ 64) with 18446744073709551616.
  rewrite Z.mod_small by lia. lia.
Qed.

Lemma byte_swap_facts (n : nat) :
  forall l, (List.length l <= n)%nat ->
  List.length (byte_swap l) = List.length l /\ byte_swap (byte_swap l) = l.
Proof.
  induction n as [|n IH]; intros l Hl.
  - destruct l; [split; reflexivity | simpl in Hl; lia].
  - destruct l as [|a [|b t]]; try (split; reflexivity).
    cbn [byte_swap List.length]. cbn [List.length] in Hl.
    destruct (IH t ltac:(lia)) as [H1 H2]. rewrite H1, H2. split; reflexivity.
Qed.

Lemma byte_swap_length (l : list Z) : List.length (byte_swap l) = List.length l.
Proof. exact (proj1 (byte_swap_facts (List.length l) l (Nat.le_refl _))). Qed.

Lemma byte_swap_twice (l : list Z) : byte_swap (byte_swap l) = l.
Proof. exact (proj2 (byte_swap_facts (List.length l) l (Nat.le_refl _))). Qed.

Lemma write_at_read (c b : list Z) (pos : nat) :
  firstn (List.length b) (skipn pos (write_at c pos b)) = b.
Proof.
  unfold write_at. rewrite app_assoc, skipn_app.
  assert (Hl : List.length (firstn pos c ++ repeat 0 (pos - List.length c)) = pos)
    by (rewrite length_app, length_firstn, repeat_length; lia).
  rewrite Hl, Nat.sub_diag. rewrite skipn_all2 by lia. cbn [skipn app].
  rewrite firstn_app, Nat.sub_diag, firstn_all. cbn [firstn]. apply app_nil_r.
Qed.

(** The pixels of one row of a window, handed to cw_put_raw: where they go. *)
Lemma cw_put_raw_row (h : host) (s : filesys) (f n : nat) (c raw : list Z)
    (psz rows cols r col k : Z) :
  on_file s f n c -> psz = 1 \/ psz = 2 ->
  1 <= rows <= 32767 -> 1 <= cols <= 32767 ->
  0 <= r < rows -> 0 <= col -> 1 <= k -> col + k <= cols ->
  Z.of_nat (List.length raw) = k * psz ->
  exists s1,
    cw_put_raw h s f raw psz (rows, cols) (r, col) (1, k) = (s1, CW_NOERR)
    /\ on_file s1 f n
         (write_at c (Z.to_nat ((r + 1) * cols * psz + col * psz))
                   (if negb (cw_byteswap h =? 0) && (psz =? 2) then byte_swap raw else raw)).
Proof.
  intros [p [Hg [Hn Hc]]] Hpsz Hrows Hcols Hr Hcol Hk Hck Hlen.
  unfold cw_put_raw. cbn [fst snd].
  set (data := if negb (cw_byteswap h =? 0) && (psz =? 2) then byte_swap raw else raw).
  assert (Hdl : List.length data = List.length raw).
  { unfold data. destruct (negb (cw_byteswap h =? 0) && (psz =? 2));
      [apply byte_swap_length | reflexivity]. }
  assert (Hb : 0 <= cols * psz <= 65534) by (destruct Hpsz; subst psz; lia).
  rewrite (to_size_t_id cols) by lia.
  rewrite (to_long_id (cols * psz)) by lia.
  rewrite (to_size_t_id (cols * psz)) by lia.
  assert (Hoff : 0 <= cols * psz + r * (cols * psz) + col * psz < 2 ^ 63).
  { change (2 ^ 63) with 9223372036854775808. destruct Hpsz; subst psz; nia. }
  rewrite (to_long_id _ Hoff).
  unfold fseek_set. rewrite Hg.
  replace (cols * psz + r * (cols * psz) + col * psz <? 0) with false
    by (symmetry; apply Z.ltb_ge; lia).
  cbn [negb].
  rewrite (to_size_t_id (r + 1)) by lia.
  replace (Z.to_nat (r + 1 - r)) with 1%nat by lia.
  cbn [put_raw_rows]. cbn [Z.to_nat skipn].
  unfold fwrite. rewrite (get_stream_set_pos s f _ _ Hg).
  cbn [s_write negb s_file s_pos andb].
  eexists. split; [reflexivity|].
  exists (cols * psz + r * (cols * psz) + col * psz
          + Z.of_nat (List.length (firstn (Z.to_nat (k * psz)) data))).
  unfold get_stream, file_bytes, set_pos, set_files_of. cbn [streams files set_streams].
  pose proof (get_stream_lt _ _ _ Hg) as Hf.
  rewrite nth_error_upd_same by (rewrite upd_length; exact Hf).
  rewrite upd_length, nth_upd_same by exact Hn.
  split; [reflexivity|]. split; [exact Hn|].
  unfold file_bytes in Hc. rewrite Hc.
  rewrite firstn_all2 by lia.
  f_equal. f_equal. lia.
Qed.


(** The pixels of one row of a window, read by cw_get_raw without shift. *)
Lemma cw_get_raw_row (h : host) (s : filesys) (f n : nat) (c data : list Z)
    (psz rows cols r col k : Z) :
  on_file s f n c -> psz = 1 \/ psz = 2 ->
  1 <= rows <= 32767 -> 1 <= cols <= 32767 ->
  0 <= r < rows -> 0 <= col -> 1 <= k -> col + k <= cols ->
  Z.of_nat (List.length data) = k * psz ->
  (r + 1) * cols * psz + col * psz + k * psz <= Z.of_nat (List.length c) ->
  firstn (List.length data) (skipn (Z.to_nat ((r + 1) * cols * psz + col * psz)) c) = data ->
  exists s2,
    cw_get_raw h s f psz (rows, cols) (r, col) (1, k) None
    = (s2, CW_NOERR,
       if negb (cw_byteswap h =? 0) && (psz =? 2) then byte_swap data else data)
    /\ on_file s2 f n c.
Proof.
  intros [p [Hg [Hn Hc]]] Hpsz Hrows Hcols Hr Hcol Hk Hck Hlen Hcl Hdata.
  unfold cw_get_raw. cbn [fst snd].
  assert (Hb : 0 <= cols * psz <= 65534) by (destruct Hpsz; subst psz; lia).
  assert (Hkb : 0 <= k * psz <= 65534) by (destruct Hpsz; subst psz; lia).
  replace (1 * k * psz) with (k * psz) by lia.
  rewrite (to_size_t_id (k * psz)) by (change (2 ^ 63) with 9223372036854775808; lia).
  rewrite (to_size_t_id cols) by lia.
  rewrite (to_long_id (cols * psz)) by lia.
  rewrite (to_size_t_id (cols * psz)) by lia.
  assert (Hoff : 0 <= cols * psz + r * (cols * psz) + col * psz < 2 ^ 63).
  { change (2 ^ 63) with 9223372036854775808. destruct Hpsz; subst psz; nia. }
  rewrite (to_long_id _ Hoff).
  unfold fseek_set. rewrite Hg.
  replace (cols * psz + r * (cols * psz) + col * psz <? 0) with false
    by (symmetry; apply Z.ltb_ge; lia).
  cbn [negb].
  rewrite (to_size_t_id (r + 1)) by lia.
  replace (Z.to_nat (r + 1 - r)) with 1%nat by lia.
  cbn [get_raw_rows]. rewrite (to_size_t_id psz) by (destruct Hpsz; subst psz; lia).
  unfold fread. rewrite (get_stream_set_pos s f _ _ Hg).
  cbn [s_read negb s_file s_pos orb].
  replace (psz <=? 0) with false by (destruct Hpsz; subst psz; reflexivity).
  replace (k <=? 0) with false by (symmetry; apply Z.leb_gt; lia).
  cbn [orb].
  change (file_bytes (set_pos s f ?st ?q) n) with (file_bytes s n).
  rewrite Hc.
  set (off := cols * psz + r * (cols * psz) + col * psz) in *.
  replace ((r + 1) * cols * psz + col * psz) with off in * by (unfold off; lia).
  assert (Hitems : Z.min k (Z.max 0 (Z.of_nat (List.length c) - off) / psz) = k).
  { apply Z.min_l. apply Z.div_le_lower_bound; [destruct Hpsz; subst psz; lia|]. lia. }
  rewrite Hitems. rewrite Z.ltb_irrefl. cbv beta iota.
  replace (Z.to_nat (k * psz)) with (List.length data) by lia.
  rewrite Hdata.
  unfold blit. cbn [Z.to_nat firstn app Nat.add skipn].
  rewrite repeat_length, Nat.sub_0_r.
  rewrite firstn_all, skipn_all2 by (rewrite repeat_length; lia).
  rewrite app_nil_r.
  change (negb (CW_NOERR =? CW_NOERR)) with false. cbv beta iota.
  eexists. split.
  - destruct (negb (cw_byteswap h =? 0) && (psz =? 2)); reflexivity.
  - exists (off + k * psz).
    unfold get_stream, file_bytes, set_pos. cbn [streams files set_streams].
    pose proof (get_stream_lt _ _ _ Hg) as Hf.
    rewrite nth_error_upd_same by (rewrite upd_length; exact Hf).
    split; [reflexivity|]. split; [exact Hn|]. exact Hc.
Qed.

(** X23: the pixels cw_put_raw writes for one row of a window are the pixels
    cw_get_raw reads there, for pixels of one and of two bytes and whatever
    the byte-swap flag. *)
Theorem raw_row_round_trip (h : host) (s : filesys) (f n : nat) (c raw : list Z)
    (psz rows cols r col k : Z) :
  on_file s f n c -> psz = 1 \/ psz = 2 ->
  1 <= rows <= 32767 -> 1 <= cols <= 32767 ->
  0 <= r < rows -> 0 <= col -> 1 <= k -> col + k <= cols ->
  Z.of_nat (List.length raw) = k * psz ->
  exists s1 s2,
    cw_put_raw h s f raw psz (rows, cols) (r, col) (1, k) = (s1, CW_NOERR)
    /\ cw_get_raw h s1 f psz (rows, cols) (r, col) (1, k) None = (s2, CW_NOERR, raw).
Proof.
  intros Hon Hpsz Hrows Hcols Hr Hcol Hk Hck Hlen.
  destruct (cw_put_raw_row h s f n c raw psz rows cols r col k Hon Hpsz Hrows Hcols Hr
              Hcol Hk Hck Hlen) as [s1 [Hput Hon1]].
  set (data := if negb (cw_byteswap h =? 0) && (psz =? 2) then byte_swap raw else raw) in *.
  assert (Hdl : List.length data = List.length raw).
  { unfold data. destruct (negb (cw_byteswap h =? 0) && (psz =? 2));
      [apply byte_swap_length | reflexivity]. }
  destruct (cw_get_raw_row h s1 f n _ data psz rows cols r col k Hon1 Hpsz Hrows Hcols Hr
              Hcol Hk Hck ltac:(lia)) as [s2 [Hget _]].
  { rewrite write_at_length. destruct Hpsz; subst psz; nia. }
  { apply write_at_read. }
  exists s1, s2. split; [exact Hput|]. rewrite Hget. f_equal.
  unfold data. destruct (negb (cw_byteswap h =? 0) && (psz =? 2)).
  - apply byte_swap_twice.
  - reflexivity.
Qed.

Lemma raw_row_round_trip_witness :
  exists s1 s2,
    cw_put_raw (granting_host 1 true) (fs W_shifted) 0 [1; 2; 3; 4] 2 (4, 5) (1, 2) (1, 2)
      = (s1, CW_NOERR)
    /\ cw_get_raw (granting_host 1 true) s1 0 2 (4, 5) (1, 2) (1, 2) None
      = (s2, CW_NOERR, [1; 2; 3; 4]).
Proof.
  apply (raw_row_round_trip (granting_host 1 true) (fs W_shifted) 0 0
           (sample_header 4 5 CW_DATA_ID_CLOUD 2 0) [1; 2; 3; 4] 2 4 5 1 2 2).
  - exists 0. repeat split. simpl. lia.
  - right. reflexivity.
  - lia.
  - lia.
  - lia.
  - lia.
  - lia.
  - lia.
  - reflexivity.
Defined.

(** ** Cloud data through cw_put_vara and cw_get_vara *)

Lemma nth_write_at_before (c b : list Z) (pos i : nat) :
  (i < pos)%nat -> nth i (write_at c pos b) 0 = nth i c 0.
Proof.
  intro Hi. unfold write_at.
  destruct (Nat.lt_ge_cases i (List.length c)) as [Hc|Hc].
  - rewrite app_nth1 by (rewrite length_firstn; lia).
    rewrite nth_firstn. destruct (Nat.ltb_spec i pos); [reflexivity | lia].
  - rewrite app_nth2 by (rewrite length_firstn; lia).
    rewrite length_firstn.
    rewrite app_nth1 by (rewrite repeat_length; lia).
    rewrite nth_repeat. rewrite nth_overflow by lia. reflexivity.
Qed.

Lemma att_code_at_below (h : host) (c b : list Z) (pos : nat) (off : Z) :
  0 <= off -> off + 2 <= Z.of_nat pos ->
  att_code_at h (write_at c pos b) off = att_code_at h c off.
Proof.
  intros H0 H1. unfold att_code_at. rewrite !nth_write_at_before by lia. reflexivity.
Qed.

Lemma get_shifts_zero (h : host) (s : filesys) (f n : nat) (c : list Z) :
  on_file s f n c -> CW_HEAD_MIN <= Z.of_nat (List.length c) ->
  att_code_at h c CW_O_VERTICAL_SHIFT = 0 -> att_code_at h c CW_O_HORIZONTAL_SHIFT = 0 ->
  exists s2, get_shifts h s f = (s2, Some (0, 0)) /\ on_file s2 f n c.
Proof.
  intros Hon Hlen Hv Hh. unfold get_shifts.
  destruct (get_on_file h s f n c CW_O_VERTICAL_SHIFT Hon) as [s1 [Hg1 [Hon1 _]]];
    [unfold CW_O_VERTICAL_SHIFT; lia | unfold CW_O_VERTICAL_SHIFT, CW_HEAD_MIN in *; lia|].
  rewrite Hg1. change (negb (0 =? 0)) with false. cbv beta iota.
  destruct (get_on_file h s1 f n c CW_O_HORIZONTAL_SHIFT Hon1) as [s2 [Hg2 [Hon2 _]]];
    [unfold CW_O_HORIZONTAL_SHIFT; lia
    | unfold CW_O_HORIZONTAL_SHIFT, CW_HEAD_MIN in *; lia|].
  rewrite Hg2. change (negb (0 =? 0)) with false. cbv beta iota.
  rewrite Hv, Hh. exists s2. split; [reflexivity | exact Hon2].
Qed.

Lemma index_in_range (rows cols r col k : Z) :
  1 <= rows <= 32767 -> 1 <= cols <= 32767 ->
  0 <= r < rows -> 0 <= col -> 1 <= k -> col + k <= cols ->
  index_out_of_range (rows, cols) (r, col) (1, k) = false.
Proof.
  intros Hrows Hcols Hr Hcol Hk Hck. unfold index_out_of_range. cbn [fst snd].
  rewrite !to_size_t_id by (change (2 ^ 63) with 9223372036854775808; lia).
  rewrite !orb_false_iff, !Z.ltb_ge. lia.
Qed.

Lemma cw_get_raw_zero_shift (h : host) (s : filesys) (f : nat) (psz : Z)
    (dims start count : Z * Z) :
  1 <= fst dims <= 32767 -> 1 <= snd dims <= 32767 ->
  0 <= fst start -> 0 <= snd start -> 1 <= fst count -> 1 <= snd count ->
  fst start + fst count <= fst dims -> snd start + snd count <= snd dims ->
  cw_get_raw h s f psz dims start count (Some (0, 0))
  = cw_get_raw h s f psz dims start count None.
Proof.
  intros Hr Hc Hsr Hsc Hcr Hcc Hir Hic. unfold cw_get_raw. cbn [fst snd].
  rewrite (shift_axis_zero (fst start) (fst count) (fst dims)) by assumption.
  rewrite (shift_axis_zero (snd start) (snd count) (snd dims)) by assumption.
  replace (to_size_t ((0 * snd count + 0) * psz)) with 0 by reflexivity.
  reflexivity.
Qed.

(** X24: cloud data written with cw_put_vara is what cw_get_vara reads.  On a
    cloud dataset out of define mode, with zero shifts and rows of 136 bytes
    or more, a row of bytes written to a window inside the grid is returned by
    a read of the same window. *)
Theorem cloud_row_written_is_read (w : world) (cwid : Z) (cf : cw_file_type) (n : nat)
    (c l : list Z) (rows cols r col k : Z) :
  in_table cwid = true -> slot_at w cwid = Some cf -> defmode cf = false ->
  data_id cf = CW_DATA_ID_CLOUD -> pixel_size cf = 1 -> dims cf = (rows, cols) ->
  on_file (fs w) (fp cf) n c -> CW_HEAD_MIN <= Z.of_nat (List.length c) ->
  att_code_at (hst w) c CW_O_VERTICAL_SHIFT = 0 ->
  att_code_at (hst w) c CW_O_HORIZONTAL_SHIFT = 0 ->
  1 <= rows <= 32767 -> CW_HEAD_MIN <= cols <= 32767 ->
  0 <= r < rows -> 0 <= col -> 1 <= k -> col + k <= cols ->
  Z.of_nat (List.length l) = k ->
  exists w1 w2,
    cw_put_vara w cwid CW_DATA (r, col) (1, k) (DataByte l) = (w1, CW_NOERR)
    /\ cw_get_vara w1 cwid CW_DATA (r, col) (1, k) CW_BYTE = (w2, CW_NOERR, Some (DataByte l)).
Proof.
  intros Hin Hslot Hdef Hdid Hpsz Hdims Hon Hlen Hvs Hhs Hrows Hcols Hr Hcol Hk Hck Hl.
  assert (Hcols' : 1 <= cols <= 32767) by (unfold CW_HEAD_MIN in Hcols; lia).
  assert (Hcc : check_compression (hst w) (fs w) cf = (fs w, CW_NOERR, cf)).
  { apply check_compression_skips. right. rewrite Hdid. reflexivity. }
  destruct (get_shifts_zero (hst w) (fs w) (fp cf) n c Hon Hlen Hvs Hhs)
    as [s2 [Hgs Hon2]].
  destruct (cw_put_raw_row (hst w) s2 (fp cf) n c l 1 rows cols r col k Hon2
              ltac:(left; reflexivity) Hrows Hcols' Hr Hcol Hk Hck ltac:(lia))
    as [s4 [Hput Hon4]].
  rewrite andb_false_r in Hon4.
  set (off := (r + 1) * cols * 1 + col * 1) in *.
  set (c4 := write_at c (Z.to_nat off) l) in *.
  assert (Hoff : CW_HEAD_MIN <= off) by (unfold off; nia).
  set (w1 := with_fs (set_slot (log_index w cwid) cwid (Some cf)) s4).
  assert (Hs1 : slot_at w1 cwid = Some cf).
  { unfold w1. change (slot_at (with_fs ?a ?b) cwid) with (slot_at a cwid).
    apply (slot_at_set_slot _ cwid _ cf Hin). exact Hslot. }
  assert (Hh1 : hst w1 = hst w).
  { unfold w1, set_slot. rewrite Hin. reflexivity. }
  assert (Hlen4 : CW_HEAD_MIN <= Z.of_nat (List.length c4)).
  { unfold c4. rewrite write_at_length. lia. }
  destruct (get_shifts_zero (hst w) s4 (fp cf) n c4 Hon4 Hlen4) as [s5 [Hgs5 Hon5]].
  { unfold c4. rewrite att_code_at_below; [exact Hvs | |];
      unfold CW_O_VERTICAL_SHIFT, CW_HEAD_MIN in *; lia. }
  { unfold c4. rewrite att_code_at_below; [exact Hhs | |];
      unfold CW_O_HORIZONTAL_SHIFT, CW_HEAD_MIN in *; lia. }
  destruct (cw_get_raw_row (hst w) s5 (fp cf) n c4 l 1 rows cols r col k Hon5
              ltac:(left; reflexivity) Hrows Hcols' Hr Hcol Hk Hck ltac:(lia))
    as [s6 [Hget _]].
  { fold off. unfold c4. rewrite write_at_length. lia. }
  { fold off. unfold c4. apply write_at_read. }
  rewrite andb_false_r in Hget.
  assert (Hidx : index_out_of_range (dims cf) (r, col) (1, k) = false).
  { rewrite Hdims. apply index_in_range; assumption. }
  assert (Hfl : firstn (Z.to_nat (to_size_t (1 * k))) l = l).
  { rewrite to_size_t_id by (change (2 ^ 63) with 9223372036854775808; lia).
    apply firstn_all2. lia. }
  exists w1. eexists. split.
  - unfold cw_put_vara. rewrite slot_at_log, Hslot, Hdef, Hidx.
    cbn [hst fs log_index]. rewrite Hcc.
    change (negb (CW_NOERR =? CW_NOERR)) with false. cbv beta iota zeta.
    rewrite Hgs. change (negb (0 =? 0) || negb (0 =? 0)) with false. cbv beta iota.
    unfold put_vara_encode. change (CW_DATA =? CW_DATA) with true. cbv beta iota zeta.
    rewrite Hdid.
    change ((CW_DATA_ID_CLOUD =? CW_DATA_ID_VISIBLE) || (CW_DATA_ID_CLOUD =? CW_DATA_ID_IR))
      with false.
    change (CW_DATA_ID_CLOUD =? CW_DATA_ID_ANCILLARY) with false.
    change (CW_DATA_ID_CLOUD =? CW_DATA_ID_CLOUD) with true.
    cbn [type_of_data bytes_behind fst snd].
    change (negb (CW_BYTE =? CW_BYTE)) with false. cbv beta iota.
    change (CW_NOERR =? CW_NOERR) with true. cbv beta iota.
    rewrite Hfl, Hpsz, Hdims, Hput. reflexivity.
  - unfold cw_get_vara. rewrite slot_at_log, Hs1, Hdef, Hidx.
    cbn [hst fs log_index]. rewrite Hh1.
    assert (Hcc1 : check_compression (hst w) (fs w1) cf = (fs w1, CW_NOERR, cf)).
    { apply check_compression_skips. right. rewrite Hdid. reflexivity. }
    rewrite Hcc1.
    change (negb (CW_NOERR =? CW_NOERR)) with false. cbv beta iota zeta.
    unfold get_vara_body. change (CW_DATA =? CW_DATA) with true. cbv beta iota zeta.
    change (fs w1) with s4. rewrite Hgs5.
    rewrite Hpsz, Hdims.
    rewrite cw_get_raw_zero_shift by (cbn [fst snd]; lia).
    rewrite Hget.
    change (negb (CW_NOERR =? CW_NOERR)) with false. cbv beta iota.
    rewrite Hdid.
    change ((CW_DATA_ID_CLOUD =? CW_DATA_ID_VISIBLE) || (CW_DATA_ID_CLOUD =? CW_DATA_ID_IR))
      with false.
    change (CW_DATA_ID_CLOUD =? CW_DATA_ID_ANCILLARY) with false.
    change (CW_DATA_ID_CLOUD =? CW_DATA_ID_CLOUD) with true. cbv beta iota.
    cbn [fst snd]. rewrite Hfl. unfold cw_cast_frombyte.
    change (CW_BYTE =? CW_BYTE) with true. cbv beta iota. reflexivity.
Qed.

Lemma shift_code_nonzero (h : host) (c : list Z) (v : Z) :
  nth (Z.to_nat CW_O_HORIZONTAL_SHIFT) c 0 = 0 -> 1 <= v <= 255 ->
  att_code_at h (write_at c (Z.to_nat (CW_O_HORIZONTAL_SHIFT + 1)) [v]) CW_O_HORIZONTAL_SHIFT
  <> 0.
Proof.
  intros H0 Hv. unfold att_code_at.
  rewrite (nth_write_at_before c [v] _ (Z.to_nat CW_O_HORIZONTAL_SHIFT))
    by (unfold CW_O_HORIZONTAL_SHIFT; lia).
  rewrite H0.
  pose proof (write_at_nth_in c [v] (Z.to_nat (CW_O_HORIZONTAL_SHIFT + 1)) 0
                              ltac:(simpl; lia)) as H1.
  rewrite Nat.add_0_r in H1.
  replace (S (Z.to_nat CW_O_HORIZONTAL_SHIFT)) with (Z.to_nat (CW_O_HORIZONTAL_SHIFT + 1))
    by (unfold CW_O_HORIZONTAL_SHIFT; lia).
  rewrite H1. cbn [nth].
  unfold to_short.
  destruct (cw_byteswap h =? 0); destruct (host_little h);
    cbn [ushorts_of_bytes mem_ushort nth]; Z.div_mod_to_equations; lia.
Qed.

(** X25: on a grid whose rows are shorter than the 136 bytes of the header,
    pixels lie inside the header.  On such a cloud dataset a non-zero byte
    written with cw_put_vara to the pixel stored at offset 85, the low byte
    of the horizontal shift, is accepted; from then on every write to the
    dataset is refused with CW_ERR_WRITE_SHIFT. *)
Theorem narrow_grid_pixel_sets_shift (w : world) (cwid : Z) (cf : cw_file_type) (n : nat)
    (c : list Z) (rows cols r col v : Z) (start count : Z * Z) (data : cw_data) :
  in_table cwid = true -> slot_at w cwid = Some cf -> defmode cf = false ->
  data_id cf = CW_DATA_ID_CLOUD -> pixel_size cf = 1 -> dims cf = (rows, cols) ->
  on_file (fs w) (fp cf) n c -> CW_HEAD_MIN <= Z.of_nat (List.length c) ->
  att_code_at (hst w) c CW_O_VERTICAL_SHIFT = 0 ->
  att_code_at (hst w) c CW_O_HORIZONTAL_SHIFT = 0 ->
  nth (Z.to_nat CW_O_HORIZONTAL_SHIFT) c 0 = 0 ->
  1 <= rows <= 32767 -> 1 <= cols <= 32767 -> 0 <= r < rows -> 0 <= col < cols ->
  (r + 1) * cols + col = CW_O_HORIZONTAL_SHIFT + 1 -> 1 <= v <= 255 ->
  index_out_of_range (dims cf) start count = false ->
  exists w1 w2,
    cw_put_vara w cwid CW_DATA (r, col) (1, 1) (DataByte [v]) = (w1, CW_NOERR)
    /\ cw_put_vara w1 cwid CW_DATA start count data = (w2, CW_ERR_WRITE_SHIFT).
Proof.
  intros Hin Hslot Hdef Hdid Hpsz Hdims Hon Hlen Hvs Hhs Hb Hrows Hcols Hr Hcol Hpix Hv Hidx2.
  assert (Hcc : forall s, check_compression (hst w) s cf = (s, CW_NOERR, cf)).
  { intro s. apply check_compression_skips. right. rewrite Hdid. reflexivity. }
  destruct (get_shifts_zero (hst w) (fs w) (fp cf) n c Hon Hlen Hvs Hhs)
    as [s2 [Hgs Hon2]].
  destruct (cw_put_raw_row (hst w) s2 (fp cf) n c [v] 1 rows cols r col 1 Hon2
              ltac:(left; reflexivity) Hrows Hcols Hr ltac:(lia) ltac:(lia) ltac:(lia)
              ltac:(reflexivity)) as [s4 [Hput Hon4]].
  rewrite andb_false_r in Hon4.
  replace ((r + 1) * cols * 1 + col * 1) with (CW_O_HORIZONTAL_SHIFT + 1) in Hon4 by lia.
  set (c4 := write_at c (Z.to_nat (CW_O_HORIZONTAL_SHIFT + 1)) [v]) in *.
  set (w1 := with_fs (set_slot (log_index w cwid) cwid (Some cf)) s4).
  assert (Hs1 : slot_at w1 cwid = Some cf).
  { unfold w1. change (slot_at (with_fs ?a ?b) cwid) with (slot_at a cwid).
    apply (slot_at_set_slot _ cwid _ cf Hin). exact Hslot. }
  assert (Hh1 : hst w1 = hst w).
  { unfold w1, set_slot. rewrite Hin. reflexivity. }
  assert (Hlen4 : CW_HEAD_MIN <= Z.of_nat (List.length c4)).
  { unfold c4. rewrite write_at_length. lia. }
  assert (Hidx : index_out_of_range (dims cf) (r, col) (1, 1) = false).
  { rewrite Hdims. apply index_in_range; lia. }
  destruct (get_on_file (hst w) s4 (fp cf) n c4 CW_O_VERTICAL_SHIFT Hon4)
    as [s5 [Hg5 [Hon5 _]]];
    [unfold CW_O_VERTICAL_SHIFT; lia | unfold CW_O_VERTICAL_SHIFT, CW_HEAD_MIN in *; lia|].
  destruct (get_on_file (hst w) s5 (fp cf) n c4 CW_O_HORIZONTAL_SHIFT Hon5)
    as [s6 [Hg6 _]];
    [unfold CW_O_HORIZONTAL_SHIFT; lia
    | unfold CW_O_HORIZONTAL_SHIFT, CW_HEAD_MIN in *; lia|].
  pose proof (shift_code_nonzero (hst w) c v Hb Hv) as Hnz. fold c4 in Hnz.
  exists w1. eexists. split.
  - unfold cw_put_vara. rewrite slot_at_log, Hslot, Hdef, Hidx.
    cbn [hst fs log_index]. rewrite Hcc.
    change (negb (CW_NOERR =? CW_NOERR)) with false. cbv beta iota zeta.
    rewrite Hgs. change (negb (0 =? 0) || negb (0 =? 0)) with false. cbv beta iota.
    unfold put_vara_encode. change (CW_DATA =? CW_DATA) with true. cbv beta iota zeta.
    rewrite Hdid.
    change ((CW_DATA_ID_CLOUD =? CW_DATA_ID_VISIBLE) || (CW_DATA_ID_CLOUD =? CW_DATA_ID_IR))
      with false.
    change (CW_DATA_ID_CLOUD =? CW_DATA_ID_ANCILLARY) with false.
    change (CW_DATA_ID_CLOUD =? CW_DATA_ID_CLOUD) with true.
    cbn [type_of_data bytes_behind fst snd].
    change (negb (CW_BYTE =? CW_BYTE)) with false. cbv beta iota.
    change (CW_NOERR =? CW_NOERR) with true. cbv beta iota.
    change (firstn (Z.to_nat (to_size_t (1 * 1))) [v]) with [v].
    rewrite Hpsz, Hdims, Hput. reflexivity.
  - unfold cw_put_vara. rewrite slot_at_log, Hs1, Hdef, Hidx2.
    cbn [hst fs log_index]. rewrite Hh1, Hcc.
    change (negb (CW_NOERR =? CW_NOERR)) with false. cbv beta iota zeta.
    change (fs w1) with s4. unfold get_shifts. rewrite Hg5.
    change (negb (0 =? 0)) with false. cbv beta iota.
    rewrite Hg6. change (negb (0 =? 0)) with false. cbv beta iota.
    rewrite (proj2 (Z.eqb_neq _ _) Hnz). cbn [negb]. rewrite orb_true_r.
    reflexivity.
Qed.

Lemma narrow_grid_pixel_sets_shift_witness :
  exists w1 w2,
    cw_put_vara (sample_world (one_open (sample_cloud 20 5 false))
                              (sample_header 20 5 CW_DATA_ID_CLOUD 0 0))
                0 CW_DATA (16, 0) (1, 1) (DataByte [9]) = (w1, CW_NOERR)
    /\ cw_put_vara w1 0 CW_DATA (0, 0) (1, 1) (DataByte [1]) = (w2, CW_ERR_WRITE_SHIFT).
Proof.
  apply (narrow_grid_pixel_sets_shift
           (sample_world (one_open (sample_cloud 20 5 false))
                         (sample_header 20 5 CW_DATA_ID_CLOUD 0 0))
           0 (sample_cloud 20 5 false) 0 (sample_header 20 5 CW_DATA_ID_CLOUD 0 0)
           20 5 16 0 9 (0, 0) (1, 1) (DataByte [1])).
  - reflexivity.
  - reflexivity.
  - reflexivity.
  - reflexivity.
  - reflexivity.
  - reflexivity.
  - exists 0. repeat split. simpl. lia.
  - vm_compute. discriminate.
  - vm_compute. reflexivity.
  - vm_compute. reflexivity.
  - vm_compute. reflexivity.
  - lia.
  - lia.
  - lia.
  - lia.
  - reflexivity.
  - lia.
  - vm_compute. reflexivity.
Defined.

Lemma cloud_row_written_is_read_witness :
  exists w1 w2,
    cw_put_vara (sample_world (one_open (sample_cloud 2 136 false))
                              (sample_header 2 136 CW_DATA_ID_CLOUD 0 0 ++ repeat 0 272))
                0 CW_DATA (1, 3) (1, 2) (DataByte [7; 8]) = (w1, CW_NOERR)
    /\ cw_get_vara w1 0 CW_DATA (1, 3) (1, 2) CW_BYTE
       = (w2, CW_NOERR, Some (DataByte [7; 8])).
Proof.
  apply (cloud_row_written_is_read
           (sample_world (one_open (sample_cloud 2 136 false))
                         (sample_header 2 136 CW_DATA_ID_CLOUD 0 0 ++ repeat 0 272))
           0 (sample_cloud 2 136 false) 0
           (sample_header 2 136 CW_DATA_ID_CLOUD 0 0 ++ repeat 0 272)
           [7; 8] 2 136 1 3 2).
  - reflexivity.
  - reflexivity.
  - reflexivity.
  - reflexivity.
  - reflexivity.
  - reflexivity.
  - exists 0. repeat split. simpl. lia.
  - vm_compute. discriminate.
  - vm_compute. reflexivity.
  - vm_compute. reflexivity.
  - lia.
  - unfold CW_HEAD_MIN. lia.
  - lia.
  - lia.
  - lia.
  - lia.
  - reflexivity.
Defined.

(** cw_strerror never reads outside the table of messages: every code
    gives one of the 52 strings, a code from 0 to CW_ERR_NUM its own and any
    other code the message of CW_ERR_UNKNOWN. *)
Theorem strerror_stays_in_table (cwerr : Z) :
  In (cw_strerror cwerr) cw_error_table
  /\ (0 <= cwerr <= CW_ERR_NUM ->
      cw_strerror cwerr = nth (Z.to_nat cwerr) cw_error_table EmptyString)
  /\ (cwerr < 0 \/ CW_ERR_NUM < cwerr -> cw_strerror cwerr = "unknown error"%string).
Proof.
  unfold cw_strerror.
  assert (Hl : List.length cw_error_table = 52%nat) by reflexivity.
  destruct ((cwerr <? 0) || (CW_ERR_NUM <? cwerr)) eqn:E.
  - split; [|split].
    + apply nth_In. rewrite Hl. unfold CW_ERR_UNKNOWN. lia.
    + intro H. apply orb_true_iff in E. destruct E as [E|E]; apply Z.ltb_lt in E; lia.
    + intros _. reflexivity.
  - apply orb_false_iff in E. destruct E as [E1 E2].
    apply Z.ltb_ge in E1, E2. unfold CW_ERR_NUM in *. split; [|split].
    + apply nth_In. rewrite Hl. lia.
    + intros _. reflexivity.
    + intros [H|H]; lia.
Qed.


(** ** One attribute written, the others read *)

Lemma att_offsets_apart (a b : Z) :
  0 <= a < CW_ATT_NUM -> 0 <= b < CW_ATT_NUM -> a <> b ->
  att_offset (att_at a) + 2 <= att_offset (att_at b)
  \/ att_offset (att_at b) + 2 <= att_offset (att_at a).
Proof.
  intros Ha Hb Hne.
  assert (Hall : forallb (fun i => forallb (fun j =>
              Nat.eqb i j
              || (att_offset (att_at (Z.of_nat i)) + 2 <=? att_offset (att_at (Z.of_nat j)))
              || (att_offset (att_at (Z.of_nat j)) + 2 <=? att_offset (att_at (Z.of_nat i))))
                (seq 0 57)) (seq 0 57) = true) by (vm_compute; reflexivity).
  rewrite forallb_forall in Hall.
  assert (Hia : In (Z.to_nat a) (seq 0 57))
    by (apply in_seq; unfold CW_ATT_NUM in Ha; lia).
  assert (Hib : In (Z.to_nat b) (seq 0 57))
    by (apply in_seq; unfold CW_ATT_NUM in Hb; lia).
  specialize (Hall _ Hia). rewrite forallb_forall in Hall. specialize (Hall _ Hib).
  rewrite !Z2Nat.id in Hall by lia.
  apply orb_true_iff in Hall. destruct Hall as [Hall|Hall].
  - apply orb_true_iff in Hall. destruct Hall as [Hall|Hall].
    + apply Nat.eqb_eq in Hall. lia.
    + apply Z.leb_le in Hall. auto.
  - apply Z.leb_le in Hall. auto.
Qed.

(** X26: writing one attribute leaves the others as they are.  On a dataset
    with a full header, after cw_put_att_short has stored a value in a
    read-write integer attribute, cw_get_att_short on any other integer
    attribute of the schema returns the value it returned before. *)
Theorem att_write_keeps_other_attributes (w : world) (cwid : Z) (cf : cw_file_type)
    (n : nat) (c : list Z) (attid other sp : Z) :
  slot_at w cwid = Some cf -> wmode cf <> CW_NOWRITE -> data_id cf <> -1 ->
  on_file (fs w) (fp cf) n c -> CW_HEAD_MIN <= Z.of_nat (List.length c) ->
  0 <= attid < CW_ATT_NUM ->
  att_mode (att_at attid) = CW_ATT_RW -> att_type (att_at attid) = CW_SHORT ->
  0 <= other < CW_ATT_NUM -> other <> attid -> att_type (att_at other) = CW_SHORT ->
  exists w1 w2 w3 v,
    cw_put_att_short w cwid CW_DATA (att_name (att_at attid)) CW_SHORT 1 sp = (w1, CW_NOERR)
    /\ cw_get_att_short w1 cwid CW_DATA (att_name (att_at other)) = (w2, CW_NOERR, Some v)
    /\ cw_get_att_short w cwid CW_DATA (att_name (att_at other)) = (w3, CW_NOERR, Some v).
Proof.
  intros Hslot Hwm Hdid Hon Hlen Hid Hmode Htype Hoid Hne Hotype.
  destruct (att_offset_range attid Hid) as [Hoff Hoff2].
  destruct (att_offset_range other Hoid) as [Hoo Hoo2].
  pose proof (att_offsets_apart other attid Hoid Hid Hne) as Hap.
  destruct (put_on_file (hst w) (fs w) (fp cf) n c sp _ Hon Hoff) as [s1 [Hput [Hon1 _]]].
  pose proof (header_write_length (hst w) c sp _ Hlen Hoff Hoff2) as Hlen1.
  destruct (get_on_file (hst w) s1 (fp cf) n _ (att_offset (att_at other)) Hon1 Hoo
              ltac:(lia)) as [s2 [Hget1 _]].
  destruct (get_on_file (hst w) (fs w) (fp cf) n c (att_offset (att_at other)) Hon Hoo
              ltac:(lia)) as [s3 [Hget0 _]].
  rewrite (header_write_frame (hst w) c sp _ _ Hlen Hoff Hoff2 Hoo Hap) in Hget1.
  exists (with_fs (log_index w cwid) s1),
         (with_fs (log_index (with_fs (log_index w cwid) s1) cwid) s2),
         (with_fs (log_index w cwid) s3),
         (att_code_at (hst w) c (att_offset (att_at other))).
  split; [|split].
  - unfold cw_put_att_short. rewrite slot_at_log, Hslot.
    change (negb (1 =? 1)) with false. cbv beta iota.
    rewrite (proj2 (Z.eqb_neq _ _) Hwm), (att_checks_data cf attid Hdid Hid).
    cbv beta iota zeta. rewrite Hmode, Htype.
    change (CW_ATT_RW =? CW_ATT_RO) with false.
    change (negb (CW_SHORT =? CW_SHORT)) with false.
    change (CW_SHORT =? CW_SHORT) with true. cbv beta iota. cbn [orb].
    cbn [hst fs log_index]. rewrite Hput. reflexivity.
  - unfold cw_get_att_short. rewrite slot_at_log.
    change (slot_at (with_fs (log_index w cwid) s1) cwid) with (slot_at w cwid).
    rewrite Hslot, (att_checks_data cf other Hdid Hoid).
    cbv beta iota zeta. cbn [hst fs log_index with_fs]. rewrite Hget1.
    change (negb (0 =? 0)) with false. cbv beta iota. rewrite Hotype.
    change (CW_SHORT =? CW_SHORT) with true. reflexivity.
  - unfold cw_get_att_short. rewrite slot_at_log, Hslot, (att_checks_data cf other Hdid Hoid).
    cbv beta iota zeta. cbn [hst fs log_index with_fs]. rewrite Hget0.
    change (negb (0 =? 0)) with false. cbv beta iota. rewrite Hotype.
    change (CW_SHORT =? CW_SHORT) with true. reflexivity.
Qed.

Lemma att_write_keeps_other_attributes_witness :
  exists w1 w2 w3 v,
    cw_put_att_short W_shifted 0 CW_DATA (att_name (att_at 35)) CW_SHORT 1 9 = (w1, CW_NOERR)
    /\ cw_get_att_short w1 0 CW_DATA (att_name (att_at 36)) = (w2, CW_NOERR, Some v)
    /\ cw_get_att_short W_shifted 0 CW_DATA (att_name (att_at 36)) = (w3, CW_NOERR, Some v).
Proof.
  apply (att_write_keeps_other_attributes W_shifted 0 (sample_cloud 4 5 false) 0
           (sample_header 4 5 CW_DATA_ID_CLOUD 2 0) 35 36 9).
  - reflexivity.
  - discriminate.
  - discriminate.
  - exists 0. repeat split. simpl. lia.
  - vm_compute. discriminate.
  - vm_compute. split; [discriminate | reflexivity].
  - reflexivity.
  - reflexivity.
  - vm_compute. split; [discriminate | reflexivity].
  - discriminate.
  - reflexivity.
Defined.

(** ** A dataset opened, and one taken out of define mode *)





(** ** The channel stream, through cw_compress and cw_uncompress *)

Lemma touches_refl (f : nat) (s : filesys) : touches_only f s s.
Proof. repeat split; reflexivity. Qed.

Lemma touches_trans (f : nat) (s1 s2 s3 : filesys) :
  touches_only f s1 s2 -> touches_only f s2 s3 -> touches_only f s1 s3.
Proof.
  intros [A1 [A2 [A3 [A4 A5]]]] [B1 [B2 [B3 [B4 B5]]]].
  split; [congruence|]. split; [congruence|]. split; [|split].
  - intros g Hg. rewrite B3, A3 by exact Hg. reflexivity.
  - congruence.
  - intros m Hm. rewrite B5, A5; [reflexivity | exact Hm |].
    rewrite A4. exact Hm.
Qed.

Lemma touches_set_pos (s : filesys) (f : nat) (st : stream) (p : Z) :
  get_stream s f = Some st -> touches_only f s (set_pos s f st p).
Proof.
  intro Hg. split; [reflexivity|]. split; [reflexivity|]. split; [|split].
  - intros g Hne. apply get_stream_set_pos_other. congruence.
  - unfold stream_kind. rewrite (get_stream_set_pos s f st p Hg), Hg. reflexivity.
  - intros m _. reflexivity.
Qed.

Lemma touches_fseek_set (s : filesys) (f : nat) (off : Z) :
  touches_only f s (fst (fseek_set s f off)).
Proof.
  unfold fseek_set. destruct (get_stream s f) as [st|] eqn:Hg; [|apply touches_refl].
  destruct (off <? 0); [apply touches_refl|]. apply touches_set_pos. exact Hg.
Qed.

Lemma touches_fseek_cur (s : filesys) (f : nat) (off : Z) :
  touches_only f s (fst (fseek_cur s f off)).
Proof.
  unfold fseek_cur. destruct (get_stream s f) as [st|] eqn:Hg; [|apply touches_refl].
  destruct (s_pos st + off <? 0); [apply touches_refl|]. apply touches_set_pos. exact Hg.
Qed.

Lemma touches_fread (s : filesys) (f : nat) (size n : Z) :
  touches_only f s (fst (fst (fread s f size n))).
Proof.
  unfold fread. destruct (get_stream s f) as [st|] eqn:Hg; [|apply touches_refl].
  destruct (negb (s_read st) || (size <=? 0) || (n <=? 0)); [apply touches_refl|].
  apply touches_set_pos. exact Hg.
Qed.

Lemma touches_fwrite (s : filesys) (f : nat) (bytes : list Z) :
  touches_only f s (fst (fwrite s f bytes)).
Proof.
  unfold fwrite. destruct (get_stream s f) as [st|] eqn:Hg; [|apply touches_refl].
  destruct (negb (s_write st)); [apply touches_refl|]. cbn [fst].
  pose proof (get_stream_lt _ _ _ Hg) as Hlt.
  split; [|split; [|split; [|split]]].
  - unfold set_pos, set_files_of. cbn [files set_streams]. apply upd_length.
  - reflexivity.
  - intros g Hne. unfold get_stream, set_pos, set_files_of. cbn [streams set_streams].
    rewrite nth_error_upd_other by congruence. reflexivity.
  - unfold stream_kind. rewrite Hg.
    unfold get_stream, set_pos, set_files_of. cbn [streams set_streams].
    rewrite nth_error_upd_same by exact Hlt. reflexivity.
  - intros m Hm. unfold stream_kind in Hm. rewrite Hg in Hm.
    unfold file_bytes, set_pos, set_files_of. cbn [files set_streams].
    apply nth_upd_other. congruence.
Qed.

Lemma touches_get_raw_rows (n : nat) :
  forall (s : filesys) (f : nat) (psz cnt rstep ustep ucp : Z) (buf : list Z),
  touches_only f s (fst (fst (get_raw_rows n s f psz cnt rstep ustep ucp buf))).
Proof.
  induction n as [|k IH]; intros s f psz cnt rstep ustep ucp buf; [apply touches_refl|].
  cbn [get_raw_rows].
  pose proof (touches_fread s f (to_size_t psz) cnt) as T1.
  destruct (fread s f (to_size_t psz) cnt) as [[s1 bytes] items]. cbn [fst] in T1.
  destruct (items <? cnt); [exact T1|].
  destruct k as [|k'].
  - cbn [negb]. cbn [get_raw_rows fst]. exact T1.
  - pose proof (touches_fseek_cur s1 f rstep) as T2.
    destruct (fseek_cur s1 f rstep) as [s2 ok]. cbn [fst] in T2.
    destruct (negb ok); [exact (touches_trans _ _ _ _ T1 T2)|].
    apply (touches_trans _ _ _ _ (touches_trans _ _ _ _ T1 T2)). apply IH.
Qed.

Lemma touches_cw_get_raw (h : host) (s : filesys) (f : nat) (psz : Z)
    (dims start count : Z * Z) (shift : option (Z * Z)) :
  touches_only f s (fst (fst (cw_get_raw h s f psz dims start count shift))).
Proof.
  unfold cw_get_raw.
  match goal with |- context [match ?w with Some _ => _ | None => _ end] =>
    destruct w as [[[[[sr sc] cr] cc] uo]|] end; [|apply touches_refl].
  match goal with |- context [fseek_set s f ?o] =>
    pose proof (touches_fseek_set s f o) as T1; destruct (fseek_set s f o) as [s1 ok] end.
  cbn [fst] in T1. destruct (negb ok); [exact T1|].
  match goal with |- context [get_raw_rows ?n s1 f ?a ?b ?c ?d ?e ?g] =>
    pose proof (touches_get_raw_rows n s1 f a b c d e g) as T2;
    destruct (get_raw_rows n s1 f a b c d e g) as [[s2 ret] raw2] end.
  cbn [fst] in T2. pose proof (touches_trans _ _ _ _ T1 T2) as T.
  destruct (negb (ret =? CW_NOERR)); [exact T|].
  destruct (negb (cw_byteswap h =? 0) && (psz =? 2)); exact T.
Qed.

Lemma touches_put_raw_rows (n : nat) :
  forall (s : filesys) (f : nat) (psz cnt wstep ustep ucp : Z) (data : list Z),
  touches_only f s (fst (put_raw_rows n s f psz cnt wstep ustep ucp data)).
Proof.
  induction n as [|k IH]; intros s f psz cnt wstep ustep ucp data; [apply touches_refl|].
  cbn [put_raw_rows].
  match goal with |- context [fwrite s f ?b] =>
    pose proof (touches_fwrite s f b) as T1; destruct (fwrite s f b) as [s1 ok] end.
  cbn [fst] in T1.
  destruct (negb ok && (0 <? cnt)); [exact T1|].
  destruct k as [|k'].
  - cbn [negb put_raw_rows fst]. exact T1.
  - pose proof (touches_fseek_cur s1 f wstep) as T2.
    destruct (fseek_cur s1 f wstep) as [s2 ok2]. cbn [fst] in T2.
    destruct (negb ok2); [exact (touches_trans _ _ _ _ T1 T2)|].
    apply (touches_trans _ _ _ _ (touches_trans _ _ _ _ T1 T2)). apply IH.
Qed.

Lemma touches_cw_put_raw (h : host) (s : filesys) (f : nat) (raw : list Z) (psz : Z)
    (dims start count : Z * Z) :
  touches_only f s (fst (cw_put_raw h s f raw psz dims start count)).
Proof.
  unfold cw_put_raw.
  match goal with |- context [fseek_set s f ?o] =>
    pose proof (touches_fseek_set s f o) as T1; destruct (fseek_set s f o) as [s1 ok] end.
  cbn [fst] in T1. destruct (negb ok); [exact T1|].
  apply (touches_trans _ _ _ _ T1). apply touches_put_raw_rows.
Qed.

(** Another stream, on another file, is where it was. *)
Lemma stream_at_touches (s s' : filesys) (f g n m : nat) (p q : Z) (r w r' w' : bool)
    (c c' : list Z) :
  touches_only f s s' -> stream_at s f n p r w c -> stream_at s g m q r' w' c' ->
  g <> f -> m <> n -> stream_at s' g m q r' w' c'.
Proof.
  intros [A1 [A2 [A3 [A4 A5]]]] [Hf _] [Hg [Hm Hc]] Hne Hmn.
  split; [rewrite A3 by exact Hne; exact Hg|]. split; [rewrite A1; exact Hm|].
  rewrite A5; [exact Hc|]. unfold stream_kind. rewrite Hf. exact Hmn.
Qed.

Lemma two_at_sym (s : filesys) (f n : nat) (p : Z) (r w : bool) (c : list Z)
    (g m : nat) (q : Z) (r' w' : bool) (c' : list Z) :
  two_at s f n p r w c g m q r' w' c' -> two_at s g m q r' w' c' f n p r w c.
Proof. intros [A [B [C D]]]. repeat split; try apply A; try apply B; congruence. Qed.

Lemma two_at_step (s s' : filesys) (f n : nat) (p p2 : Z) (r w : bool) (c c2 : list Z)
    (g m : nat) (q : Z) (r' w' : bool) (c' : list Z) :
  two_at s f n p r w c g m q r' w' c' -> touches_only f s s' ->
  stream_at s' f n p2 r w c2 ->
  two_at s' f n p2 r w c2 g m q r' w' c'.
Proof.
  intros [A [B [C D]]] T A'. split; [exact A'|]. split; [|split; assumption].
  apply (stream_at_touches s s' f g n m p q r w r' w' c c' T A B); congruence.
Qed.

Lemma on_file_stream_at (s : filesys) (f n : nat) (c : list Z) :
  on_file s f n c <-> exists p, stream_at s f n p true true c.
Proof. unfold on_file, stream_at. split; intros [p H]; exists p; exact H. Qed.

Lemma stream_at_reads (s : filesys) (f n : nat) (p : Z) (w : bool) (c : list Z) :
  stream_at s f n p true w c -> reads s f p c.
Proof. intros [Hg [Hn Hc]]. eexists. split; [exact Hg|]. repeat split. exact Hc. Qed.

Lemma stream_at_fseek (s : filesys) (f n : nat) (p off : Z) (r w : bool) (c : list Z) :
  stream_at s f n p r w c -> 0 <= off ->
  exists s', fseek_set s f off = (s', true)
             /\ stream_at s' f n off r w c /\ touches_only f s s'.
Proof.
  intros [Hg [Hn Hc]] Hoff. pose proof (touches_fseek_set s f off) as T.
  unfold fseek_set in *. rewrite Hg in *.
  replace (off <? 0) with false in * by (symmetry; apply Z.ltb_ge; exact Hoff).
  eexists. split; [reflexivity|]. split; [|exact T].
  split; [apply (get_stream_set_pos s f _ off Hg)|]. split; assumption.
Qed.

Lemma stream_at_fread (s : filesys) (f n : nat) (p k : Z) (w : bool) (c : list Z) :
  stream_at s f n p true w c -> 0 <= p -> 0 < k -> p + k <= Z.of_nat (List.length c) ->
  exists s', fread s f 1 k = (s', firstn (Z.to_nat k) (skipn (Z.to_nat p) c), k)
             /\ stream_at s' f n (p + k) true w c /\ touches_only f s s'.
Proof.
  intros [Hg [Hn Hc]] Hp Hk Hlen. pose proof (touches_fread s f 1 k) as T.
  unfold fread in *. rewrite Hg in *. cbn [s_read s_file s_pos negb orb] in *.
  replace (1 <=? 0) with false in * by reflexivity.
  replace (k <=? 0) with false in * by (symmetry; apply Z.leb_gt; exact Hk).
  cbn [orb] in *. rewrite Hc in *. rewrite Z.div_1_r in *.
  replace (Z.min k (Z.max 0 (Z.of_nat (List.length c) - p))) with k in * by lia.
  rewrite Z.mul_1_r in *.
  eexists. split; [reflexivity|]. split; [|exact T].
  split; [apply (get_stream_set_pos s f _ (p + k) Hg)|]. split; assumption.
Qed.

Lemma stream_at_fwrite (s : filesys) (f n : nat) (p : Z) (r : bool) (c bytes : list Z) :
  stream_at s f n p r true c ->
  exists s', fwrite s f bytes = (s', true)
             /\ stream_at s' f n (p + Z.of_nat (List.length bytes)) r true
                          (write_at c (Z.to_nat p) bytes)
             /\ touches_only f s s'.
Proof.
  intros [Hg [Hn Hc]]. pose proof (touches_fwrite s f bytes) as T.
  pose proof (get_stream_lt _ _ _ Hg) as Hlt.
  unfold fwrite in *. rewrite Hg in *. cbn [s_write s_file s_pos negb] in *.
  eexists. split; [reflexivity|]. split; [|exact T].
  unfold stream_at, get_stream, file_bytes, set_pos, set_files_of in *.
  cbn [streams files set_streams].
  rewrite nth_error_upd_same by exact Hlt.
  rewrite upd_length, nth_upd_same by exact Hn.
  split; [reflexivity|]. split; [exact Hn|]. rewrite Hc. reflexivity.
Qed.

(** One row read from, and written to, a file of two-byte pixels. *)
Lemma stream_at_get_raw_row (h : host) (s : filesys) (f n : nat) (p : Z) (c data : list Z)
    (rows cols r : Z) :
  stream_at s f n p true true c ->
  1 <= rows <= 32767 -> 1 <= cols <= 32767 -> 0 <= r < rows ->
  Z.of_nat (List.length data) = cols * 2 ->
  (r + 1) * cols * 2 + cols * 2 <= Z.of_nat (List.length c) ->
  firstn (List.length data) (skipn (Z.to_nat ((r + 1) * cols * 2)) c) = data ->
  exists s' p',
    cw_get_raw h s f 2 (rows, cols) (r, 0) (1, cols) None
    = (s', CW_NOERR, if negb (cw_byteswap h =? 0) then byte_swap data else data)
    /\ stream_at s' f n p' true true c /\ touches_only f s s'.
Proof.
  intros Hs Hrows Hcols Hr Hlen Hcl Hdata.
  pose proof (touches_cw_get_raw h s f 2 (rows, cols) (r, 0) (1, cols) None) as T.
  destruct (cw_get_raw_row h s f n c data 2 rows cols r 0 cols) as [s' [E [p' Hs']]];
    try assumption; try lia.
  - apply on_file_stream_at. exists p. exact Hs.
  - replace ((r + 1) * cols * 2 + 0 * 2) with ((r + 1) * cols * 2) by lia. exact Hdata.
  - rewrite E in T. cbn [fst] in T. exists s', p'.
    change (2 =? 2) with true in E. rewrite andb_true_r in E.
    split; [exact E|]. split; [exact Hs' | exact T].
Qed.

Lemma stream_at_put_raw_row (h : host) (s : filesys) (f n : nat) (p : Z) (c raw : list Z)
    (rows cols r : Z) :
  stream_at s f n p true true c ->
  1 <= rows <= 32767 -> 1 <= cols <= 32767 -> 0 <= r < rows ->
  Z.of_nat (List.length raw) = cols * 2 ->
  exists s' p',
    cw_put_raw h s f raw 2 (rows, cols) (r, 0) (1, cols) = (s', CW_NOERR)
    /\ stream_at s' f n p' true true
         (write_at c (Z.to_nat ((r + 1) * cols * 2))
                   (if negb (cw_byteswap h =? 0) then byte_swap raw else raw))
    /\ touches_only f s s'.
Proof.
  intros Hs Hrows Hcols Hr Hlen.
  pose proof (touches_cw_put_raw h s f raw 2 (rows, cols) (r, 0) (1, cols)) as T.
  destruct (cw_put_raw_row h s f n c raw 2 rows cols r 0 cols) as [s' [E [p' Hs']]];
    try assumption; try lia.
  - apply on_file_stream_at. exists p. exact Hs.
  - rewrite E in T. cbn [fst] in T. exists s', p'.
    split; [exact E|]. split; [|exact T].
    change (2 =? 2) with true in Hs'. rewrite andb_true_r in Hs'.
    replace ((r + 1) * cols * 2 + 0 * 2) with ((r + 1) * cols * 2) in Hs' by lia.
    exact Hs'.
Qed.

Lemma land_shiftl_mask (a b n : Z) :
  0 <= n -> Z.land a (Z.shiftl b n) = Z.shiftl (Z.land (Z.shiftr a n) b) n.
Proof.
  intro Hn. apply Z.bits_inj'. intros k Hk.
  rewrite Z.land_spec, !Z.shiftl_spec by exact Hk.
  destruct (Z.ltb_spec k n) as [Hlt|Hge].
  - rewrite (Z.testbit_neg_r b), (Z.testbit_neg_r (Z.land _ _)) by lia.
    apply andb_false_r.
  - rewrite Z.land_spec, Z.shiftr_spec by lia.
    replace (k - n + n) with k by lia. reflexivity.
Qed.

Lemma word_value_spec (w : Z) :
  is_word w ->
  CW_UNC_RVAL w = word_value w /\ CW_UNC_RGRA w = word_graphics w
  /\ -2047 <= word_value w <= 2047 /\ 0 <= word_graphics w <= 15.
Proof.
  unfold is_word. intro Hw.
  assert (H : all_from 4096 0
                (fun q => (to_short (Z.shiftr (Z.shiftl (Z.land q 0x7FF) 4) 4)
                           * sign_of (Z.shiftl (Z.land q 0x800) 4)
                           =? (if q <? 2048 then 1 else -1) * (q mod 2048))
                          && (-2047 <=? (if q <? 2048 then 1 else -1) * (q mod 2048))
                          && ((if q <? 2048 then 1 else -1) * (q mod 2048) <=? 2047)) = true)
    by (vm_compute; reflexivity).
  assert (Hq : 0 <= w / 16 < 4096).
  { split; [apply Z.div_pos; lia | apply Z.div_lt_upper_bound; lia]. }
  pose proof (all_from_spec _ _ _ H (w / 16) ltac:(lia)) as Hv. cbv beta in Hv.
  apply andb_true_iff in Hv. destruct Hv as [Hv H3].
  apply andb_true_iff in Hv. destruct Hv as [H1 H2].
  apply Z.eqb_eq in H1. apply Z.leb_le in H2. apply Z.leb_le in H3.
  pose proof (Z.mod_pos_bound w 16 ltac:(lia)) as Hg.
  split; [|split; [|split; [split; assumption | unfold word_graphics; lia]]].
  - unfold CW_UNC_RVAL, word_value.
    change 0x7FF0 with (Z.shiftl 0x7FF 4). change 0x8000 with (Z.shiftl 0x800 4).
    rewrite !land_shiftl_mask by lia.
    rewrite (Z.shiftr_div_pow2 w 4) by lia. change (2 ^ 4) with 16. exact H1.
  - unfold CW_UNC_RGRA, word_graphics, to_uchar.
    change 0x000F with (Z.ones 4). rewrite Z.land_ones by lia. change (2 ^ 4) with 16.
    apply Z.mod_small. lia.
Qed.

Lemma com_value_spec (prev d : Z) :
  -2047 <= d <= 2047 -> -2047 <= prev <= 2047 ->
  com_value true prev d = absolute_code d
  /\ com_value false prev d
     = (if Z.abs (d - prev) <=? 63 then delta_code prev d else absolute_code d).
Proof.
  intros Hd Hp.
  assert (Ha : all_from 4095 (-2047)
                (fun d => match com_value true 0 d, absolute_code d with
                          | [b0; b1], [a0; a1] => (b0 =? a0) && (b1 =? a1)
                          | _, _ => false
                          end) = true) by (vm_compute; reflexivity).
  assert (Hb : all_from 127 (-63)
                (fun e => to_uchar (CW_COM_WVAL e) =? Z.abs e + (if e <? 0 then 64 else 0))
               = true) by (vm_compute; reflexivity).
  pose proof (all_from_spec _ _ _ Ha d ltac:(lia)) as Hv. cbv beta in Hv.
  assert (Habs : [to_uchar (CW_COM_WVAL_B1 d); to_uchar (CW_COM_WVAL_B2 d)] = absolute_code d).
  { unfold com_value in Hv. cbn [orb] in Hv. unfold absolute_code in *.
    apply andb_true_iff in Hv. destruct Hv as [H0 H1].
    apply Z.eqb_eq in H0. apply Z.eqb_eq in H1. rewrite H0, H1. reflexivity. }
  split.
  - unfold com_value. cbn [orb]. exact Habs.
  - unfold com_value. cbn [orb].
    destruct (Z.abs (d - prev) <=? 63) eqn:E.
    + apply Z.leb_le in E.
      replace (63 <? Z.abs (d - prev)) with false by (symmetry; apply Z.ltb_ge; exact E).
      pose proof (all_from_spec _ _ _ Hb (d - prev) ltac:(lia)) as Hw. cbv beta in Hw.
      apply Z.eqb_eq in Hw. unfold delta_code. rewrite Hw. reflexivity.
    + apply Z.leb_gt in E.
      replace (63 <? Z.abs (d - prev)) with true by (symmetry; apply Z.ltb_lt; exact E).
      exact Habs.
Qed.

Lemma last_cons (l : list Z) :
  forall x a, last (x :: l) a = last l x.
Proof.
  induction l as [|y t IH]; intros x a.
  - reflexivity.
  - change (last (x :: y :: t) a) with (last (y :: t) a).
    rewrite (IH y a), (IH y x). reflexivity.
Qed.

Lemma com_row_later (l : list Z) :
  forall prev, Forall is_value l -> is_value prev ->
  com_row false prev l = (spec_code_rest prev l, last l prev).
Proof.
  induction l as [|d t IH]; intros prev Hall Hp.
  - reflexivity.
  - pose proof (Forall_inv Hall) as Hd. pose proof (Forall_inv_tail Hall) as Ht.
    cbn [com_row spec_code_rest]. rewrite (IH d Ht Hd).
    rewrite (proj2 (com_value_spec prev d Hd Hp)), last_cons. reflexivity.
Qed.

Lemma com_row_first (l : list Z) (lastd : Z) :
  Forall is_value l ->
  com_row true lastd l = (spec_code_stream l, last l lastd).
Proof.
  intro Hall. destruct l as [|d t]; [reflexivity|].
  pose proof (Forall_inv Hall) as Hd. pose proof (Forall_inv_tail Hall) as Ht.
  cbn [com_row spec_code_stream]. rewrite (com_row_later t d Ht Hd), last_cons.
  pose proof (proj1 (com_value_spec 0 d Hd ltac:(unfold is_value; lia))) as H.
  unfold com_value in *. cbn [orb] in *. rewrite H. reflexivity.
Qed.

Lemma be_bytes_length (ws : list Z) :
  List.length (be_bytes ws) = (2 * List.length ws)%nat.
Proof. induction ws as [|w t IH]; [reflexivity|]. cbn [be_bytes flat_map app List.length] in *.
  unfold be_bytes in IH. rewrite IH. lia. Qed.

Lemma be_bytes_app (a b : list Z) : be_bytes (a ++ b) = be_bytes a ++ be_bytes b.
Proof. unfold be_bytes. apply flat_map_app. Qed.

(** Words as cw_get_raw hands them over and as cw_put_raw stores them, once
    the byte-order flag is set: in the file they lie high byte first. *)
Lemma read_words (h : host) (ws : list Z) :
  byteswap_set h -> Forall is_word ws ->
  ushorts_of_bytes (host_little h)
    (if negb (cw_byteswap h =? 0) then byte_swap (be_bytes ws) else be_bytes ws) = ws.
Proof.
  unfold byteswap_set. intros Hb Hall. rewrite Hb.
  induction Hall as [|w t Hw _ IH]; [destruct (host_little h); reflexivity|].
  unfold is_word in Hw.
  destruct (host_little h); cbn [Z.eqb negb be_bytes flat_map app byte_swap ushorts_of_bytes]
    in *; unfold mem_ushort; unfold be_bytes in IH; rewrite IH; f_equal.
  - pose proof (Z.div_mod w 256 ltac:(lia)). lia.
  - pose proof (Z.div_mod w 256 ltac:(lia)). lia.
Qed.

Lemma write_words (h : host) (ws : list Z) :
  byteswap_set h ->
  (if negb (cw_byteswap h =? 0) then byte_swap (bytes_of_ushorts (host_little h) ws)
   else bytes_of_ushorts (host_little h) ws) = be_bytes ws.
Proof.
  unfold byteswap_set. intros Hb. rewrite Hb.
  induction ws as [|w t IH]; [destruct (host_little h); reflexivity|].
  destruct (host_little h);
    cbn [Z.eqb negb be_bytes bytes_of_ushorts flat_map app byte_swap ushort_mem] in *;
    unfold be_bytes, bytes_of_ushorts in IH; rewrite IH; reflexivity.
Qed.

Lemma concat_length_rows (cols : Z) (rows : list (list Z)) :
  Forall (row_ok cols) rows ->
  Z.of_nat (List.length (List.concat rows)) = Z.of_nat (List.length rows) * cols.
Proof.
  induction 1 as [|r t [Hr _] _ IH]; [reflexivity|].
  cbn [List.concat List.length]. rewrite length_app. lia.
Qed.

Lemma concat_words (cols : Z) (rows : list (list Z)) :
  Forall (row_ok cols) rows ->
  Forall is_word (List.concat rows).
Proof.
  induction 1 as [|r t [_ Hr] _ IH]; [constructor|].
  cbn [List.concat]. apply Forall_app. split; assumption.
Qed.

(** The bytes of row [i] of a grid file. *)
Lemma grid_row (cols : Z) (done rest : list (list Z)) (row hdu tlu : list Z) :
  Z.of_nat (List.length hdu) = cols * 2 ->
  Forall (row_ok cols) done ->
  firstn (List.length (be_bytes row))
         (skipn (Z.to_nat ((Z.of_nat (List.length done) + 1) * cols * 2))
                (hdu ++ be_bytes (List.concat (done ++ row :: rest)) ++ tlu))
  = be_bytes row.
Proof.
  intros Hh Hd. pose proof (concat_length_rows cols done Hd) as Hl.
  rewrite concat_app. cbn [List.concat]. rewrite !be_bytes_app, <- !app_assoc.
  rewrite (app_assoc hdu).
  replace (Z.to_nat ((Z.of_nat (List.length done) + 1) * cols * 2))
    with (List.length (hdu ++ be_bytes (List.concat done)))
    by (rewrite length_app, be_bytes_length; lia).
  rewrite skipn_app, skipn_all, Nat.sub_diag. cbn [app skipn].
  rewrite firstn_app, firstn_all, Nat.sub_diag. cbn [firstn]. apply app_nil_r.
Qed.

Lemma write_at_middle (hd out tl bytes : list Z) :
  write_at (hd ++ out ++ tl) (List.length hd + List.length out) bytes
  = hd ++ (out ++ bytes) ++ skipn (List.length bytes) tl.
Proof.
  replace (hd ++ out ++ tl) with ((hd ++ out) ++ tl) by (symmetry; apply app_assoc).
  replace (List.length hd + List.length out)%nat with (List.length (hd ++ out))
    by apply length_app.
  set (pre := hd ++ out). unfold write_at.
  rewrite firstn_app, firstn_all, Nat.sub_diag. cbn [firstn]. rewrite app_nil_r.
  replace (List.length pre - List.length (pre ++ tl))%nat with 0%nat
    by (rewrite length_app; lia).
  cbn [repeat app].
  rewrite skipn_app.
  rewrite (skipn_all2 pre) by lia.
  replace (List.length pre + List.length bytes - List.length pre)%nat
    with (List.length bytes) by lia.
  cbn [app]. unfold pre. rewrite <- !app_assoc. reflexivity.
Qed.

Lemma spec_code_rest_app (a b : list Z) :
  forall prev, spec_code_rest prev (a ++ b)
               = spec_code_rest prev a ++ spec_code_rest (last a prev) b.
Proof.
  induction a as [|d t IH]; intro prev.
  - reflexivity.
  - cbn [app spec_code_rest]. rewrite IH, <- app_assoc, last_cons.
    reflexivity.
Qed.

Lemma spec_code_stream_app (a b : list Z) :
  a <> [] ->
  spec_code_stream (a ++ b) = spec_code_stream a ++ spec_code_rest (last a 0) b.
Proof.
  destruct a as [|d t]; [contradiction|]. intros _.
  cbn [app spec_code_stream]. rewrite spec_code_rest_app, <- app_assoc, last_cons.
  reflexivity.
Qed.

Lemma values_in_range (ws : list Z) :
  Forall is_word ws -> Forall is_value (map word_value ws).
Proof.
  induction 1 as [|w t Hw _ IH]; [constructor|].
  cbn [map]. constructor; [|exact IH]. apply (word_value_spec w Hw).
Qed.

Lemma separate_data_values (ws : list Z) :
  Forall is_word ws -> separate_data ws = map word_value ws.
Proof.
  induction 1 as [|w t Hw _ IH]; [reflexivity|].
  unfold separate_data in *. cbn [map]. rewrite IH.
  rewrite (proj1 (word_value_spec w Hw)). reflexivity.
Qed.

Lemma last_in_range (l : list Z) :
  forall d, Forall is_value l -> is_value d -> is_value (last l d).
Proof.
  induction l as [|a t IH]; intros d Hall Hd; [exact Hd|].
  rewrite last_cons. apply IH; [exact (Forall_inv_tail Hall) | exact (Forall_inv Hall)].
Qed.

Lemma last_app (a b : list Z) :
  forall d, last (a ++ b) d = last b (last a d).
Proof.
  induction a as [|x t IH]; intro d; [reflexivity|].
  cbn [app]. rewrite !last_cons. apply IH.
Qed.

(** One row of the uncompressed copy, read by the loops of cw_compress. *)
Lemma compress_reads_row (h : host) (s : filesys) (u nu : nat) (pu : Z) (cu : list Z)
    (cfp nc : nat) (q : Z) (cc : list Z) (rows cols : Z)
    (done rest : list (list Z)) (row hdu tlu : list Z) :
  byteswap_set h ->
  two_at s u nu pu true true cu cfp nc q false true cc ->
  cu = hdu ++ be_bytes (List.concat (done ++ row :: rest)) ++ tlu ->
  Z.of_nat (List.length hdu) = cols * 2 ->
  Forall (row_ok cols) (done ++ row :: rest) ->
  Z.of_nat (List.length (done ++ row :: rest)) = rows ->
  1 <= rows <= 32767 -> 1 <= cols <= 32767 ->
  exists s1 pu1,
    cw_get_raw h s u 2 (rows, cols) (Z.of_nat (List.length done), 0) (1, cols) None
    = (s1, CW_NOERR,
       if negb (cw_byteswap h =? 0) then byte_swap (be_bytes row) else be_bytes row)
    /\ ushorts_of_bytes (host_little h)
         (if negb (cw_byteswap h =? 0) then byte_swap (be_bytes row) else be_bytes row) = row
    /\ two_at s1 u nu pu1 true true cu cfp nc q false true cc.
Proof.
  intros Hbs Htwo Hcu Hh Hall Hlen Hrows Hcols.
  pose proof Htwo as [Hu _].
  pose proof (proj1 (Forall_app _ _ _) Hall) as [Hdone Hrest].
  pose proof (Forall_inv Hrest) as [Hrl Hrw].
  pose proof (concat_length_rows cols _ Hall) as Hcl.
  rewrite length_app in Hlen. cbn [List.length] in Hlen.
  destruct (stream_at_get_raw_row h s u nu pu cu (be_bytes row) rows cols
              (Z.of_nat (List.length done)) Hu Hrows Hcols ltac:(lia))
    as [s1 [pu1 [E [Hu1 T]]]].
  - rewrite be_bytes_length. lia.
  - rewrite Hcu, !length_app, be_bytes_length.
    rewrite length_app in Hcl. cbn [List.length] in Hcl. nia.
  - rewrite Hcu. apply grid_row; assumption.
  - exists s1, pu1. split; [exact E|]. split; [apply read_words; assumption|].
    apply (two_at_step s s1 u nu pu pu1 true true cu cu cfp nc q false true cc Htwo T Hu1).
Qed.

(** Bytes written by cw_compress behind what it has written. *)
Lemma compress_writes (s : filesys) (u nu : nat) (pu : Z) (cu : list Z) (cfp nc : nat)
    (hd out tl bytes : list Z) :
  two_at s u nu pu true true cu
         cfp nc (Z.of_nat (List.length hd + List.length out)) false true (hd ++ out ++ tl) ->
  exists s2,
    fwrite s cfp bytes = (s2, true)
    /\ compressing s2 u nu cu cfp nc hd (out ++ bytes).
Proof.
  intro Htwo. pose proof (two_at_sym _ _ _ _ _ _ _ _ _ _ _ _ _ Htwo) as Hsym.
  pose proof Hsym as [Hc _].
  destruct (stream_at_fwrite s cfp nc _ false _ bytes Hc) as [s2 [E [Hc2 T]]].
  exists s2. split; [exact E|].
  exists pu, (skipn (List.length bytes) tl).
  apply two_at_sym.
  rewrite Nat2Z.id, write_at_middle in Hc2.
  replace (Z.of_nat (List.length hd + List.length (out ++ bytes)))
    with (Z.of_nat (List.length hd + List.length out) + Z.of_nat (List.length bytes))
    by (rewrite length_app; lia).
  apply (two_at_step s s2 cfp nc _ _ false true _ _ u nu pu true true cu Hsym T Hc2).
Qed.

Lemma values_nonempty (cols : Z) (done : list (list Z)) :
  1 <= cols -> Forall (row_ok cols) done -> done <> [] ->
  map word_value (List.concat done) <> [].
Proof.
  intros Hc Hall Hne. destruct done as [|r t]; [contradiction|].
  pose proof (Forall_inv Hall) as [Hr _].
  destruct r as [|w r']; [simpl in Hr; lia|]. discriminate.
Qed.

(** The data loop of cw_compress writes the channel stream of the
    specification. *)
Lemma com_data_rows_spec (h : host) (u nu : nat) (cu : list Z) (cfp nc : nat)
    (hd hdu tlu : list Z) (rows cols : Z) :
  byteswap_set h ->
  Z.of_nat (List.length hdu) = cols * 2 ->
  1 <= rows <= 32767 -> 1 <= cols <= 32767 ->
  forall (rest done : list (list Z)) (s : filesys),
  cu = hdu ++ be_bytes (List.concat (done ++ rest)) ++ tlu ->
  Forall (row_ok cols) (done ++ rest) ->
  Z.of_nat (List.length (done ++ rest)) = rows ->
  compressing s u nu cu cfp nc hd (spec_code_stream (map word_value (List.concat done))) ->
  exists s',
    com_data_rows h (List.length rest) s u cfp (rows, cols) cols
                  (Z.of_nat (List.length done))
                  (last (map word_value (List.concat done)) 0)
    = (s', CW_NOERR)
    /\ compressing s' u nu cu cfp nc hd
         (spec_code_stream (map word_value (List.concat (done ++ rest)))).
Proof.
  intros Hbs Hh Hrows Hcols.
  induction rest as [|row rest IH]; intros done s Hcu Hall Hlen Hinv.
  - rewrite app_nil_r. exists s. split; [reflexivity | exact Hinv].
  - destruct Hinv as [pu [tl Htwo]].
    destruct (compress_reads_row h s u nu pu cu cfp nc _ _ rows cols done rest row hdu tlu
                Hbs Htwo Hcu Hh Hall Hlen Hrows Hcols) as [s1 [pu1 [E1 [Ew Htwo1]]]].
    cbn [List.length com_data_rows]. rewrite E1.
    change (negb (CW_NOERR =? CW_NOERR)) with false. cbv beta iota.
    rewrite Ew.
    pose proof (proj1 (Forall_app _ _ _) Hall) as [Hdone Hrest].
    pose proof (Forall_inv Hrest) as [Hrl Hrw].
    rewrite (separate_data_values row Hrw).
    pose proof (values_in_range row Hrw) as Hvr.
    set (vals := map word_value row) in *.
    set (dvals := map word_value (List.concat done)) in *.
    assert (Hdv : Forall is_value dvals).
    { apply values_in_range. apply (concat_words cols). exact Hdone. }
    assert (Hnext : List.concat (done ++ [row]) = List.concat done ++ row).
    { rewrite concat_app. cbn [List.concat]. rewrite app_nil_r. reflexivity. }
    assert (Hcode : exists bytes,
              com_row (Z.of_nat (List.length done) =? 0) (last dvals 0) vals
              = (bytes, last (map word_value (List.concat (done ++ [row]))) 0)
              /\ spec_code_stream dvals ++ bytes
                 = spec_code_stream (map word_value (List.concat (done ++ [row])))).
    { rewrite Hnext, map_app. fold dvals vals. rewrite last_app.
      destruct done as [|r0 done'].
      - cbn [List.length Z.of_nat Z.eqb]. unfold dvals. cbn [List.concat map last app].
        rewrite (com_row_first vals 0 Hvr). eexists. split; reflexivity.
      - assert (Hne : dvals <> [])
          by (apply (values_nonempty cols); [lia | exact Hdone | discriminate]).
        replace (Z.of_nat (List.length (r0 :: done')) =? 0) with false
          by (symmetry; apply Z.eqb_neq; cbn [List.length]; lia).
        rewrite (com_row_later vals (last dvals 0) Hvr
                   (last_in_range dvals 0 Hdv ltac:(unfold is_value; lia))).
        eexists. split; [reflexivity|].
        symmetry. apply spec_code_stream_app. exact Hne. }
    destruct Hcode as [bytes [Hc1 Hc2]]. rewrite Hc1.
    destruct (compress_writes s1 u nu pu1 cu cfp nc hd (spec_code_stream dvals) tl
                bytes Htwo1) as [s2 [E2 Hinv2]].
    rewrite E2. cbn [negb andb]. rewrite Hc2 in Hinv2.
    destruct (IH (done ++ [row]) s2) as [s' [E' Hinv']].
    + rewrite <- app_assoc. exact Hcu.
    + rewrite <- app_assoc. exact Hall.
    + rewrite <- app_assoc. exact Hlen.
    + exact Hinv2.
    + exists s'. rewrite length_app in E'. cbn [List.length] in E'.
      replace (Z.of_nat (List.length done + 1)) with (Z.of_nat (List.length done) + 1)
        in E' by lia.
      split; [exact E'|]. rewrite <- app_assoc in Hinv'. exact Hinv'.
Qed.

(** The graphics loop of cw_compress writes behind the channel stream. *)
Lemma com_graphics_rows_behind (h : host) (u nu : nat) (cu : list Z) (cfp nc : nat)
    (hd hdu tlu : list Z) (rows cols : Z) :
  byteswap_set h ->
  Z.of_nat (List.length hdu) = cols * 2 ->
  1 <= rows <= 32767 -> 1 <= cols <= 32767 ->
  forall (rest done : list (list Z)) (s : filesys) (out : list Z),
  cu = hdu ++ be_bytes (List.concat (done ++ rest)) ++ tlu ->
  Forall (row_ok cols) (done ++ rest) ->
  Z.of_nat (List.length (done ++ rest)) = rows ->
  compressing s u nu cu cfp nc hd out ->
  exists s' more,
    com_graphics_rows h (List.length rest) s u cfp (rows, cols) cols
                      (Z.of_nat (List.length done))
    = (s', CW_NOERR)
    /\ compressing s' u nu cu cfp nc hd (out ++ more).
Proof.
  intros Hbs Hh Hrows Hcols.
  induction rest as [|row rest IH]; intros done s out Hcu Hall Hlen Hinv.
  - exists s, []. rewrite app_nil_r. split; [reflexivity | exact Hinv].
  - destruct Hinv as [pu [tl Htwo]].
    destruct (compress_reads_row h s u nu pu cu cfp nc _ _ rows cols done rest row hdu tlu
                Hbs Htwo Hcu Hh Hall Hlen Hrows Hcols) as [s1 [pu1 [E1 [Ew Htwo1]]]].
    cbn [List.length com_graphics_rows]. rewrite E1.
    change (negb (CW_NOERR =? CW_NOERR)) with false. cbv beta iota.
    rewrite Ew.
    destruct (compress_writes s1 u nu pu1 cu cfp nc hd out tl
                (com_graphics (separate_graphics row) 0) Htwo1) as [s2 [E2 Hinv2]].
    rewrite E2. cbn [negb andb].
    destruct (IH (done ++ [row]) s2 (out ++ com_graphics (separate_graphics row) 0))
      as [s' [more [E' Hinv']]].
    + rewrite <- app_assoc. exact Hcu.
    + rewrite <- app_assoc. exact Hall.
    + rewrite <- app_assoc. exact Hlen.
    + exact Hinv2.
    + exists s', (com_graphics (separate_graphics row) 0 ++ more).
      rewrite length_app in E'. cbn [List.length] in E'.
      replace (Z.of_nat (List.length done + 1)) with (Z.of_nat (List.length done) + 1)
        in E' by lia.
      split; [exact E'|]. rewrite <- app_assoc in Hinv'. exact Hinv'.
Qed.

(** The file cw_compress opens: a new stream on an empty file that is not the
    file of the uncompressed copy. *)
Lemma fopen_create_beside (h : host) (s : filesys) (p : string) (u nu : nat) (pu : Z)
    (cu : list Z) :
  names_ok s -> can_create h p = true ->
  stream_at s u nu pu true true cu -> lookup_name (names s) p <> Some nu ->
  exists s0 nc,
    fopen_create h s p false = (s0, Some (List.length (streams s)))
    /\ two_at s0 u nu pu true true cu (List.length (streams s)) nc 0 false true [].
Proof.
  intros Hok Hcan [Hg [Hn Hc]] Hne. pose proof (get_stream_lt _ _ _ Hg) as Hlt.
  unfold fopen_create. rewrite Hcan. cbn [negb].
  destruct (lookup_name (names s) p) as [n|] eqn:Hl.
  - pose proof (Hok p n Hl) as Hnn. assert (Hnnu : n <> nu) by congruence.
    eexists. exists n. split; [reflexivity|].
    unfold two_at, stream_at, get_stream, file_bytes in *.
    cbn [streams files names set_streams set_files_of new_stream fst].
    rewrite nth_error_app1 by exact Hlt.
    rewrite nth_error_app_last, upd_length, nth_upd_same by exact Hnn.
    rewrite nth_upd_other by exact Hnnu.
    repeat split; try assumption; try reflexivity; try lia; congruence.
  - eexists. exists (List.length (files s)). split; [reflexivity|].
    unfold two_at, stream_at, get_stream, file_bytes in *.
    cbn [streams files names set_streams set_files_of set_names new_stream fst].
    rewrite nth_error_app1 by exact Hlt.
    rewrite nth_error_app_last, length_app.
    rewrite app_nth1 by exact Hn.
    rewrite app_nth2 by lia. rewrite Nat.sub_diag. cbn [List.length nth].
    repeat split; try assumption; try reflexivity; lia.
Qed.

Lemma write_at_empty (bytes : list Z) : write_at [] 0 bytes = bytes.
Proof. unfold write_at. cbn. destruct (List.length bytes); apply app_nil_r. Qed.

(** The header of the compressed file: the header of the uncompressed copy,
    cut or padded with zeros to CW_HEAD_COMP bytes. *)
Lemma compress_header (s : filesys) (u nu : nat) (pu : Z) (cu : list Z) (cfp nc : nat)
    (hdu : list Z) (cols : Z) :
  1 <= cols <= 32767 -> Z.of_nat (List.length hdu) = cols * 2 ->
  two_at s u nu pu true true cu cfp nc 0 false true [] ->
  exists s3 s4 hd,
    fwrite s cfp hdu = (s3, true)
    /\ (if CW_HEAD_COMP <? cols * 2 then fseek_set s3 cfp CW_HEAD_COMP
        else if cols * 2 <? CW_HEAD_COMP
             then fwrite s3 cfp (repeat 0 (Z.to_nat (CW_HEAD_COMP - cols * 2)))
             else (s3, true)) = (s4, true)
    /\ List.length hd = 1024%nat
    /\ compressing s4 u nu cu cfp nc hd [].
Proof.
  intros Hcols Hh Htwo. unfold CW_HEAD_COMP.
  pose proof (two_at_sym _ _ _ _ _ _ _ _ _ _ _ _ _ Htwo) as Hsym.
  pose proof Hsym as [Hc _].
  destruct (stream_at_fwrite s cfp nc 0 false [] hdu Hc) as [s3 [E3 [Hc3 T3]]].
  cbn [Z.to_nat] in Hc3. rewrite write_at_empty in Hc3.
  pose proof (two_at_step _ _ _ _ _ _ _ _ _ _ _ _ _ _ _ _ Hsym T3 Hc3) as Htwo3.
  exists s3.
  destruct (1024 <? cols * 2) eqn:E1; [|destruct (cols * 2 <? 1024) eqn:E2].
  - apply Z.ltb_lt in E1.
    destruct (stream_at_fseek s3 cfp nc _ 1024 false true hdu Hc3 ltac:(lia))
      as [s4 [E4 [Hc4 T4]]].
    pose proof (two_at_step _ _ _ _ _ _ _ _ _ _ _ _ _ _ _ _ Htwo3 T4 Hc4) as Htwo4.
    exists s4, (firstn 1024 hdu). split; [exact E3|]. split; [exact E4|].
    split; [rewrite length_firstn; lia|].
    exists pu, (skipn 1024 hdu). apply two_at_sym.
    cbn [app List.length]. rewrite length_firstn, firstn_skipn.
    replace (Z.of_nat (Nat.min 1024 (List.length hdu) + 0)) with 1024 by lia.
    exact Htwo4.
  - apply Z.ltb_lt in E2.
    destruct (stream_at_fwrite s3 cfp nc _ false hdu
                (repeat 0 (Z.to_nat (1024 - cols * 2))) Hc3) as [s4 [E4 [Hc4 T4]]].
    pose proof (two_at_step _ _ _ _ _ _ _ _ _ _ _ _ _ _ _ _ Htwo3 T4 Hc4) as Htwo4.
    exists s4, (hdu ++ repeat 0 (Z.to_nat (1024 - cols * 2))).
    split; [exact E3|]. split; [exact E4|].
    split; [rewrite length_app, repeat_length; lia|].
    exists pu, []. apply two_at_sym. cbn [app]. rewrite app_nil_r.
    replace (write_at hdu (Z.to_nat (0 + Z.of_nat (List.length hdu)))
                      (repeat 0 (Z.to_nat (1024 - cols * 2))))
      with (hdu ++ repeat 0 (Z.to_nat (1024 - cols * 2))) in Htwo4.
    + replace (Z.of_nat (List.length (hdu ++ repeat 0 (Z.to_nat (1024 - cols * 2)))
                         + List.length (@nil Z)))
        with (0 + Z.of_nat (List.length hdu)
              + Z.of_nat (List.length (repeat 0 (Z.to_nat (1024 - cols * 2)))))
        by (rewrite length_app; cbn [List.length]; lia).
      exact Htwo4.
    + pose proof (write_at_middle hdu [] [] (repeat 0 (Z.to_nat (1024 - cols * 2)))) as W.
      cbn [app List.length] in W. rewrite !app_nil_r, Nat.add_0_r in W.
      rewrite skipn_nil, app_nil_r in W.
      replace (Z.to_nat (0 + Z.of_nat (List.length hdu))) with (List.length hdu) by lia.
      symmetry. exact W.
  - apply Z.ltb_ge in E1. apply Z.ltb_ge in E2.
    exists s3, hdu. split; [exact E3|]. split; [reflexivity|].
    split; [lia|].
    exists pu, []. apply two_at_sym. cbn [app List.length]. rewrite app_nil_r.
    replace (Z.of_nat (List.length hdu + 0)) with (0 + Z.of_nat (List.length hdu)) by lia.
    exact Htwo3.
Qed.

Lemma stream_at_fclose_other (s : filesys) (f g n : nat) (p : Z) (r w : bool) (c : list Z) :
  stream_at s f n p r w c -> f <> g -> stream_at (fclose s g) f n p r w c.
Proof.
  intros [Hg [Hn Hc]] Hne. unfold stream_at, fclose, get_stream, file_bytes in *.
  cbn [streams files set_streams]. rewrite nth_error_upd_other by congruence.
  repeat split; assumption.
Qed.

(** C4: cw_compress, on a dataset whose uncompressed copy holds the rows
    [wrows] of 16-bit words, writes a file that holds from byte CW_HEAD_COMP
    on the channel stream of the specification for the channel values of the
    words in row-major order: the value at row 0, column 0 as a two-byte
    absolute code, every later value as a one-byte delta where it is within
    63 of the value before it and as an absolute code otherwise.  The first
    byte of an absolute code is 128 or more and a delta byte is less than
    128. *)
Theorem C4_compress_channel_stream (h : host) (s : filesys) (cf : cw_file_type)
    (u nu : nat) (cu : list Z) (wrows : list (list Z)) (rows cols : Z) :
  byteswap_set h ->
  can_create h (path cf) = true ->
  can_malloc h 0 = true -> can_malloc h 1 = true ->
  can_malloc h 2 = true -> can_malloc h 3 = true ->
  ufp cf = Some u -> dims cf = (rows, cols) ->
  1 <= rows <= 32767 -> 1 <= cols <= 32767 ->
  on_file s u nu cu -> names_ok s -> lookup_name (names s) (path cf) <> Some nu ->
  grid_file cu cols wrows -> Z.of_nat (List.length wrows) = rows ->
  (exists s1 cf1 nc q hd tl,
     cw_compress h s cf = (s1, CW_NOERR, cf1)
     /\ ufp cf1 = None
     /\ stream_at s1 (fp cf1) nc q false true
          (hd ++ spec_code_stream (map word_value (List.concat wrows)) ++ tl)
     /\ List.length hd = Z.to_nat CW_HEAD_COMP)
  /\ (forall d, -2047 <= d <= 2047 ->
        exists b0 b1, absolute_code d = [b0; b1] /\ 128 <= b0 <= 255 /\ 0 <= b1 <= 255)
  /\ (forall prev d, Z.abs (d - prev) <= 63 ->
        exists b0, delta_code prev d = [b0] /\ 0 <= b0 <= 127).
Proof.
  intros Hbs Hcan Hm0 Hm1 Hm2 Hm3 Hufp Hdims Hrows Hcols Hon Hnames Hpath Hgrid Hlen.
  split; [|split].
  - destruct Hgrid as [hdu [tlu [Hcu [Hh Hall]]]].
    apply on_file_stream_at in Hon. destruct Hon as [pu Hu].
    destruct (fopen_create_beside h s (path cf) u nu pu cu Hnames Hcan Hu Hpath)
      as [s0 [nc [E0 Htwo0]]].
    set (cfp := List.length (streams s)) in *.
    unfold cw_compress. rewrite E0, Hm0, Hufp, Hdims. cbn [negb fst snd].
    rewrite (size_t_of_dim rows Hrows), (size_t_of_dim cols Hcols).
    rewrite (to_size_t_id (cols * 2))
      by (change (2 ^ 63) with 9223372036854775808; lia).
    pose proof Htwo0 as [Hu0 _].
    destruct (stream_at_fseek s0 u nu pu 0 true true cu Hu0 ltac:(lia))
      as [s1 [E1 [Hu1 T1]]].
    pose proof (two_at_step _ _ _ _ _ _ _ _ _ _ _ _ _ _ _ _ Htwo0 T1 Hu1) as Htwo1.
    rewrite E1. cbn [negb].
    pose proof (concat_length_rows cols wrows Hall) as Hcl.
    destruct (stream_at_fread s1 u nu 0 (cols * 2) true cu Hu1 ltac:(lia) ltac:(lia))
      as [s2 [E2 [Hu2 T2]]].
    { rewrite Hcu, !length_app. lia. }
    pose proof (two_at_step _ _ _ _ _ _ _ _ _ _ _ _ _ _ _ _ Htwo1 T2 Hu2) as Htwo2.
    rewrite E2. rewrite Z.ltb_irrefl.
    assert (Hhead : firstn (Z.to_nat (cols * 2)) (skipn (Z.to_nat 0) cu) = hdu).
    { cbn [Z.to_nat skipn]. rewrite Hcu.
      replace (Z.to_nat (cols * 2)) with (List.length hdu) by lia.
      rewrite firstn_app, firstn_all, Nat.sub_diag. cbn [firstn]. apply app_nil_r. }
    rewrite Hhead.
    destruct (compress_header s2 u nu (0 + cols * 2) cu cfp nc hdu cols Hcols Hh Htwo2)
      as [s3 [s4 [hd [E3 [E4 [Hhd Hinv4]]]]]].
    rewrite E3. cbn [negb andb]. rewrite E4. cbn [negb].
    rewrite Hm1, Hm2, Hm3. cbn [andb negb].
    destruct (com_data_rows_spec h u nu cu cfp nc hd hdu tlu rows cols Hbs Hh Hrows Hcols
                wrows [] s4 Hcu Hall Hlen Hinv4) as [s5 [E5 Hinv5]].
    cbn [List.length Z.of_nat List.concat map last] in E5.
    replace (Z.to_nat rows) with (List.length wrows) by lia.
    rewrite E5. change (negb (CW_NOERR =? CW_NOERR)) with false. cbv beta iota.
    cbn [app] in Hinv5.
    destruct (com_graphics_rows_behind h u nu cu cfp nc hd hdu tlu rows cols Hbs Hh Hrows
                Hcols wrows [] s5 _ Hcu Hall Hlen Hinv5) as [s6 [more [E6 Hinv6]]].
    cbn [List.length Z.of_nat] in E6. rewrite E6.
    change (negb (CW_NOERR =? CW_NOERR)) with false. cbv beta iota.
    destruct Hinv6 as [pu6 [tl6 [Hu6 [Hc6 [Hne6 Hnn6]]]]].
    unfold fclose_ok. rewrite (proj1 Hu6). cbn [negb].
    eexists. eexists. exists nc. eexists. exists hd, (more ++ tl6).
    split; [reflexivity|]. cbn [ufp fp]. split; [reflexivity|].
    split; [|exact Hhd].
    rewrite <- app_assoc in Hc6.
    apply stream_at_fclose_other; [exact Hc6 | congruence].
  - intros d Hd. eexists. eexists. split; [reflexivity|].
    assert (0 <= Z.abs d / 256 <= 7).
    { split; [apply Z.div_pos; lia|].
      assert (Z.abs d / 256 < 8) by (apply Z.div_lt_upper_bound; lia). lia. }
    pose proof (Z.mod_pos_bound (Z.abs d) 256 ltac:(lia)).
    destruct (d <? 0); lia.
  - intros prev d Hd. eexists. split; [reflexivity|].
    destruct (d - prev <? 0); lia.
Qed.

Lemma C4_compress_channel_witness :
  exists s1 cf1 nc q hd tl,
    cw_compress (granting_host 1 true) S_grid F_grid = (s1, CW_NOERR, cf1)
    /\ ufp cf1 = None
    /\ stream_at s1 (fp cf1) nc q false true (hd ++ [128; 100; 10; 73; 129; 44] ++ tl)
    /\ List.length hd = Z.to_nat CW_HEAD_COMP.
Proof.
  refine (proj1 (C4_compress_channel_stream (granting_host 1 true) S_grid F_grid 0 0
                   ([213; 0; 0; 0] ++ be_bytes (List.concat sample_grid)) sample_grid 2 2
                   eq_refl eq_refl eq_refl eq_refl eq_refl eq_refl eq_refl eq_refl
                   _ _ _ _ _ _ eq_refl)).
  - lia.
  - lia.
  - exists 0. repeat split. simpl. lia.
  - intros q m H. discriminate H.
  - discriminate.
  - exists [213; 0; 0; 0], []. split; [reflexivity|]. split; [reflexivity|].
    repeat constructor; unfold is_word; lia.
Defined.

Lemma marker_spec (b : Z) :
  is_byte b -> (CW_COM_ISMVAL b =? 0) = negb (128 <=? b).
Proof.
  intro Hb.
  assert (H : all_from 256 0
                (fun b => Bool.eqb (CW_COM_ISMVAL b =? 0) (negb (128 <=? b))) = true)
    by (vm_compute; reflexivity).
  pose proof (all_from_spec _ _ _ H b ltac:(unfold is_byte in Hb; lia)) as Hv.
  cbv beta in Hv. apply Bool.eqb_prop in Hv. exact Hv.
Qed.

Lemma absolute_value_spec (b0 b1 : Z) :
  128 <= b0 <= 255 -> is_byte b1 ->
  to_short (CW_COM_RMVAL b0 b1) = absolute_value b0 b1.
Proof.
  intros H0 H1. unfold is_byte in H1.
  assert (H : all_from 128 128
                (fun a => (Z.shiftl (to_short (Z.land a 0x0F)) 8 =? (a mod 16) * 256)
                          && (sign_of (Z.land a 0x08) =? (if a mod 16 <? 8 then 1 else -1)))
              = true) by (vm_compute; reflexivity).
  pose proof (all_from_spec _ _ _ H b0 ltac:(lia)) as Hv. cbv beta in Hv.
  apply andb_true_iff in Hv. destruct Hv as [Ha Hs].
  apply Z.eqb_eq in Ha. apply Z.eqb_eq in Hs.
  unfold CW_COM_RMVAL, absolute_value. rewrite Ha, Hs, (to_short_small b1) by lia.
  pose proof (Z.mod_pos_bound b0 16 ltac:(lia)) as Hm.
  rewrite Z.mul_comm. apply to_short_small. destruct (b0 mod 16 <? 8); nia.
Qed.

Lemma delta_value_spec (prev b : Z) :
  0 <= b <= 127 -> -32768 <= delta_value prev b <= 32767 ->
  to_short (CW_COM_RVAL prev b) = delta_value prev b.
Proof.
  intros Hb Hr.
  assert (H : all_from 128 0
                (fun b => to_short (Z.land b 0x3F) * sign_of (Z.land b 0x40)
                          =? (if b <? 64 then b else 64 - b)) = true)
    by (vm_compute; reflexivity).
  pose proof (all_from_spec _ _ _ H b ltac:(lia)) as Hv. cbv beta in Hv.
  apply Z.eqb_eq in Hv. unfold CW_COM_RVAL, delta_value in *. rewrite Hv.
  apply to_short_small. exact Hr.
Qed.

(** One byte read from the compressed stream. *)
Lemma read_one_byte (s : filesys) (f nf : nat) (wf : bool) (pre : list Z) (b : Z)
    (t : list Z) :
  stream_at s f nf (Z.of_nat (List.length pre)) true wf (pre ++ b :: t) ->
  exists s1,
    fread s f 1 1 = (s1, [b], 1)
    /\ stream_at s1 f nf (Z.of_nat (List.length (pre ++ [b]))) true wf ((pre ++ [b]) ++ t)
    /\ touches_only f s s1.
Proof.
  intro Hs.
  destruct (stream_at_fread s f nf _ 1 wf _ Hs ltac:(lia) ltac:(lia)) as [s1 [E [Hs1 T]]].
  { rewrite length_app. cbn [List.length]. lia. }
  exists s1. rewrite skipn_middle in E. cbn [Z.to_nat Pos.to_nat Pos.iter_op Nat.add firstn] in E.
  split; [exact E|]. split; [|exact T].
  rewrite <- app_assoc. cbn [app].
  replace (Z.of_nat (List.length (pre ++ [b]))) with (Z.of_nat (List.length pre) + 1)
    by (rewrite length_app; cbn [List.length]; lia).
  exact Hs1.
Qed.

(** The decoder of a row follows the specification, on any bytes. *)
Lemma unc_row_spec (f nf : nat) (wf : bool) (n : nat) :
  forall (first : bool) (prev : Z) (bytes vals rest pre acc : list Z) (s : filesys),
  stream_at s f nf (Z.of_nat (List.length pre)) true wf (pre ++ bytes) ->
  Forall is_byte bytes ->
  spec_decode n first prev bytes = Some (vals, rest) -> Forall is_value vals ->
  exists s' used,
    unc_row n s f first prev acc = (s', CW_NOERR, acc ++ vals, last vals prev)
    /\ bytes = used ++ rest
    /\ stream_at s' f nf (Z.of_nat (List.length (pre ++ used))) true wf
                 ((pre ++ used) ++ rest)
    /\ touches_only f s s'.
Proof.
  induction n as [|k IH]; intros first prev bytes vals rest pre acc s Hs Hb Hd Hv.
  - cbn [spec_decode] in Hd. injection Hd as <- <-.
    exists s, []. cbn [unc_row last]. rewrite !app_nil_r.
    split; [reflexivity|]. split; [reflexivity|]. split; [exact Hs | apply touches_refl].
  - cbn [spec_decode] in Hd. destruct bytes as [|b0 t]; [discriminate Hd|].
    pose proof (Forall_inv Hb) as Hb0. pose proof (Forall_inv_tail Hb) as Hbt.
    destruct (read_one_byte s f nf wf pre b0 t Hs) as [s1 [E1 [Hs1 T1]]].
    cbn [unc_row]. rewrite E1. replace (1 <? 1) with false by reflexivity.
    cbn [nth]. rewrite (marker_spec b0 Hb0), negb_involutive.
    destruct (128 <=? b0) eqn:Em.
    + apply Z.leb_le in Em.
      destruct t as [|b1 t']; [discriminate Hd|].
      pose proof (Forall_inv Hbt) as Hb1. pose proof (Forall_inv_tail Hbt) as Hbt'.
      destruct (spec_decode k false (absolute_value b0 b1) t') as [[vs r]|] eqn:Ek;
        [|discriminate Hd].
      injection Hd as <- <-.
      destruct (read_one_byte s1 f nf wf (pre ++ [b0]) b1 t' Hs1) as [s2 [E2 [Hs2 T2]]].
      rewrite E2. replace (1 <? 1) with false by reflexivity. cbn [nth].
      rewrite (absolute_value_spec b0 b1 ltac:(unfold is_byte in Hb0; lia) Hb1).
      destruct (IH false (absolute_value b0 b1) t' vs r ((pre ++ [b0]) ++ [b1])
                   (acc ++ [absolute_value b0 b1]) s2 Hs2 Hbt' Ek (Forall_inv_tail Hv))
        as [s' [used [E' [Hu [Hs' T']]]]].
      exists s', (b0 :: b1 :: used). rewrite E'.
      split; [rewrite <- app_assoc, last_cons; reflexivity|].
      split; [rewrite Hu; reflexivity|].
      split; [|exact (touches_trans _ _ _ _ (touches_trans _ _ _ _ T1 T2) T')].
      replace (pre ++ b0 :: b1 :: used) with (((pre ++ [b0]) ++ [b1]) ++ used)
        by (rewrite <- !app_assoc; reflexivity).
      exact Hs'.
    + apply Z.leb_gt in Em. destruct first; [discriminate Hd|].
      destruct (spec_decode k false (delta_value prev b0) t) as [[vs r]|] eqn:Ek;
        [|discriminate Hd].
      injection Hd as <- <-.
      pose proof (Forall_inv Hv) as Hv0. unfold is_value in Hv0.
      rewrite (delta_value_spec prev b0 ltac:(unfold is_byte in Hb0; lia) ltac:(lia)).
      destruct (IH false (delta_value prev b0) t vs r (pre ++ [b0])
                   (acc ++ [delta_value prev b0]) s1 Hs1 Hbt Ek (Forall_inv_tail Hv))
        as [s' [used [E' [Hu [Hs' T']]]]].
      exists s', (b0 :: used). rewrite E'.
      split; [rewrite <- app_assoc, last_cons; reflexivity|].
      split; [rewrite Hu; reflexivity|].
      split; [|exact (touches_trans _ _ _ _ T1 T')].
      replace (pre ++ b0 :: used) with ((pre ++ [b0]) ++ used)
        by (rewrite <- !app_assoc; reflexivity).
      exact Hs'.
Qed.

Lemma spec_decode_split (n1 n2 : nat) :
  forall (first : bool) (prev : Z) (bytes v1 v2 rest : list Z),
  List.length v1 = n1 ->
  spec_decode (n1 + n2) first prev bytes = Some (v1 ++ v2, rest) ->
  exists mid,
    spec_decode n1 first prev bytes = Some (v1, mid)
    /\ spec_decode n2 (first && Nat.eqb n1 0) (last v1 prev) mid = Some (v2, rest).
Proof.
  induction n1 as [|k IH]; intros first prev bytes v1 v2 rest Hl Hd.
  - destruct v1; [|discriminate Hl]. cbn [Nat.add app] in Hd.
    exists bytes. cbn [spec_decode Nat.eqb last]. rewrite andb_true_r.
    split; [reflexivity | exact Hd].
  - destruct v1 as [|a v1']; [discriminate Hl|]. injection Hl as Hl.
    cbn [Nat.add spec_decode app] in *. cbn [Nat.eqb]. rewrite andb_false_r.
    destruct bytes as [|b0 t]; [discriminate Hd|].
    destruct (128 <=? b0).
    + destruct t as [|b1 t']; [discriminate Hd|].
      destruct (spec_decode (k + n2) false (absolute_value b0 b1) t') as [[vs r]|] eqn:Ek;
        [|discriminate Hd].
      injection Hd as Ha Hvs Hr. subst a vs r.
      destruct (IH false _ t' v1' v2 rest Hl Ek) as [mid [E1 E2]].
      exists mid. rewrite E1, last_cons. split; [reflexivity|].
      cbn [andb] in E2. exact E2.
    + destruct first; [discriminate Hd|].
      destruct (spec_decode (k + n2) false (delta_value prev b0) t) as [[vs r]|] eqn:Ek;
        [|discriminate Hd].
      injection Hd as Ha Hvs Hr. subst a vs r.
      destruct (IH false _ t v1' v2 rest Hl Ek) as [mid [E1 E2]].
      exists mid. rewrite E1, last_cons. split; [reflexivity|].
      cbn [andb] in E2. exact E2.
Qed.

Lemma spec_decode_suffix (n : nat) :
  forall (first : bool) (prev : Z) (bytes vals rest x : list Z),
  spec_decode n first prev bytes = Some (vals, rest) ->
  spec_decode n first prev (bytes ++ x) = Some (vals, rest ++ x).
Proof.
  induction n as [|k IH]; intros first prev bytes vals rest x Hd.
  - cbn [spec_decode] in *. injection Hd as <- <-. reflexivity.
  - cbn [spec_decode] in *. destruct bytes as [|b0 t]; [discriminate Hd|].
    cbn [app]. destruct (128 <=? b0).
    + destruct t as [|b1 t']; [discriminate Hd|]. cbn [app].
      destruct (spec_decode k false (absolute_value b0 b1) t') as [[vs r]|] eqn:Ek;
        [|discriminate Hd].
      injection Hd as <- <-. rewrite (IH _ _ _ _ _ x Ek). reflexivity.
    + destruct first; [discriminate Hd|].
      destruct (spec_decode k false (delta_value prev b0) t) as [[vs r]|] eqn:Ek;
        [|discriminate Hd].
      injection Hd as <- <-. rewrite (IH _ _ _ _ _ x Ek). reflexivity.
Qed.

Lemma touches_unc_graphics_row (n : nat) :
  forall (s : filesys) (f : nat) (j columns : Z) (g : list Z) (b1 k : Z),
  touches_only f s
    (fst (fst (fst (fst (fst (unc_graphics_row n s f j columns g b1 k)))))).
Proof.
  induction n as [|m IH]; intros s f j columns g b1 k; [apply touches_refl|].
  cbn [unc_graphics_row]. destruct (columns <=? j); [apply touches_refl|].
  pose proof (touches_fread s f 1 2) as T1.
  destruct (fread s f 1 2) as [[s1 bytes] items]. cbn [fst] in T1.
  destruct (items <? 2); [exact T1|].
  apply (touches_trans _ _ _ _ T1). apply IH.
Qed.

Lemma reads_to_stream_at (s s' : filesys) (f n : nat) (p p' : Z) (w : bool)
    (c c' : list Z) :
  stream_at s f n p true w c -> touches_only f s s' -> reads s' f p' c' ->
  stream_at s' f n p' true w c'.
Proof.
  intros [Hg [Hn Hc]] [A1 [A2 [A3 [A4 A5]]]] [st [Hg' [Hp [Hr Hb]]]].
  unfold stream_kind in A4. rewrite Hg, Hg' in A4. cbn [s_file s_read s_write] in A4.
  destruct st as [n2 p2 r2 w2]. cbn [s_file s_read s_write s_pos] in *.
  injection A4 as -> -> ->. subst p2.
  split; [exact Hg'|]. split; [rewrite A1; exact Hn | exact Hb].
Qed.

Lemma bytes_of_ushorts_length (little : bool) (ws : list Z) :
  List.length (bytes_of_ushorts little ws) = (2 * List.length ws)%nat.
Proof.
  induction ws as [|w t IH]; [reflexivity|].
  unfold bytes_of_ushorts in *. cbn [flat_map]. rewrite length_app, IH.
  unfold ushort_mem. destruct little; cbn [List.length]; lia.
Qed.

Lemma to_ushort_word (z : Z) : is_word (to_ushort z).
Proof. unfold is_word, to_ushort. apply Z.mod_pos_bound. lia. Qed.

Lemma data_words_facts (v : list Z) :
  Forall is_value v ->
  List.length (data_words v) = List.length v /\ Forall is_word (data_words v)
  /\ separate_data (data_words v) = v.
Proof.
  unfold data_words, cw_combine_channel, separate_data.
  induction 1 as [|a t Ha _ [IH1 [IH2 IH3]]]; [repeat split; constructor|].
  cbn [map List.length]. rewrite IH1, IH3.
  rewrite (proj1 (pack_unpack_value a 0 Ha ltac:(lia))).
  repeat split. constructor; [apply to_ushort_word | exact IH2].
Qed.

Lemma full_words_facts (v : list Z) :
  forall g, Forall is_value v -> Forall is_graphics g -> List.length v = List.length g ->
  List.length (full_words v g) = List.length v /\ Forall is_word (full_words v g)
  /\ map word_value (full_words v g) = v /\ map word_graphics (full_words v g) = g.
Proof.
  unfold full_words, cw_combine_channel.
  induction v as [|a t IH]; intros g Hv Hg Hl.
  - destruct g; [|discriminate Hl]. repeat split; constructor.
  - destruct g as [|b g']; [discriminate Hl|]. injection Hl as Hl.
    destruct (IH g' (Forall_inv_tail Hv) (Forall_inv_tail Hg) Hl) as [I1 [I2 [I3 I4]]].
    cbn [combine map List.length fst snd]. rewrite I1, I3, I4.
    destruct (pack_unpack_value a b (Forall_inv Hv) (Forall_inv Hg)) as [P1 P2].
    destruct (word_value_spec _ (to_ushort_word (CW_UNC_W a b))) as [W1 [W2 _]].
    rewrite <- W1, <- W2, P1, P2.
    repeat split. constructor; [apply to_ushort_word | exact I2].
Qed.

(** The bytes of row [i] of a file of words. *)
Lemma words_row (cols : Z) (i : nat) (hd wdone row wrest tl : list Z) :
  Z.of_nat (List.length hd) = cols * 2 ->
  Z.of_nat (List.length wdone) = Z.of_nat i * cols ->
  firstn (List.length (be_bytes row))
         (skipn (Z.to_nat ((Z.of_nat i + 1) * cols * 2))
                (hd ++ be_bytes (wdone ++ row ++ wrest) ++ tl))
  = be_bytes row.
Proof.
  intros Hh Hl. rewrite !be_bytes_app, <- !app_assoc. rewrite (app_assoc hd).
  replace (Z.to_nat ((Z.of_nat i + 1) * cols * 2))
    with (List.length (hd ++ be_bytes wdone))
    by (rewrite length_app, be_bytes_length; lia).
  rewrite skipn_app, skipn_all, Nat.sub_diag. cbn [app skipn].
  rewrite firstn_app, firstn_all, Nat.sub_diag. cbn [firstn]. apply app_nil_r.
Qed.

(** A row of words written over row [i]. *)
Lemma words_row_written (cols : Z) (i : nat) (hd wdone new old tl : list Z) :
  Z.of_nat (List.length hd) = cols * 2 ->
  Z.of_nat (List.length wdone) = Z.of_nat i * cols ->
  (List.length old <= List.length new)%nat ->
  write_at (hd ++ be_bytes wdone ++ be_bytes old ++ tl)
           (Z.to_nat ((Z.of_nat i + 1) * cols * 2)) (be_bytes new)
  = hd ++ be_bytes (wdone ++ new)
       ++ skipn (List.length (be_bytes new) - List.length (be_bytes old)) tl.
Proof.
  intros Hh Hl Hon.
  replace (Z.to_nat ((Z.of_nat i + 1) * cols * 2))
    with (List.length hd + List.length (be_bytes wdone))%nat
    by (rewrite be_bytes_length; lia).
  rewrite write_at_middle, be_bytes_app, <- !app_assoc.
  rewrite skipn_app.
  rewrite (skipn_all2 (be_bytes old)) by (rewrite !be_bytes_length; lia).
  reflexivity.
Qed.

(** The data loop of cw_uncompress decodes the channel stream as the
    specification reads it and stores the values row by row. *)
Lemma unc_data_rows_spec (h : host) (u nu cfp nc : nat) (wc : bool) (hd : list Z)
    (rows cols : Z) :
  byteswap_set h ->
  Z.of_nat (List.length hd) = cols * 2 ->
  1 <= rows <= 32767 -> 1 <= cols <= 32767 ->
  forall (vrest : list (list Z)) (i : nat) (wdone : list Z) (lastd : Z) (s : filesys)
         (pre bytes rest tl : list Z) (pu : Z),
  Forall (vrow_ok cols) vrest ->
  Z.of_nat (List.length wdone) = Z.of_nat i * cols ->
  Z.of_nat (i + List.length vrest) = rows ->
  two_at s cfp nc (Z.of_nat (List.length pre)) true wc (pre ++ bytes)
         u nu pu true true (hd ++ be_bytes wdone ++ tl) ->
  Forall is_byte bytes ->
  spec_decode (List.length (List.concat vrest)) (Z.of_nat i =? 0) lastd bytes
  = Some (List.concat vrest, rest) ->
  exists s' used pu' tl',
    unc_data_rows h (List.length vrest) s u cfp (rows, cols) cols (Z.of_nat i) lastd
    = (s', CW_NOERR)
    /\ bytes = used ++ rest
    /\ two_at s' cfp nc (Z.of_nat (List.length (pre ++ used))) true wc ((pre ++ used) ++ rest)
              u nu pu' true true
              (hd ++ be_bytes (wdone ++ List.concat (map data_words vrest)) ++ tl').
Proof.
  intros Hbs Hh Hrows Hcols.
  induction vrest as [|row vrest IH];
    intros i wdone lastd s pre bytes rest tl pu Hall Hwd Hlen Htwo Hb Hd.
  - cbn [List.concat List.length spec_decode] in Hd. injection Hd as <-.
    exists s, [], pu, tl. cbn [List.length unc_data_rows map List.concat].
    rewrite !app_nil_r. split; [reflexivity|]. split; [reflexivity | exact Htwo].
  - pose proof (Forall_inv Hall) as [Hrl Hrv]. pose proof (Forall_inv_tail Hall) as Hall'.
    cbn [List.concat] in Hd. rewrite length_app in Hd.
    destruct (spec_decode_split _ _ _ _ _ _ _ _ eq_refl Hd) as [mid [Hd1 Hd2]].
    replace (Nat.eqb (List.length row) 0) with false in Hd2
      by (symmetry; apply Nat.eqb_neq; lia).
    rewrite andb_false_r in Hd2.
    pose proof Htwo as [Hc _].
    destruct (unc_row_spec cfp nc wc (List.length row) _ lastd bytes row mid pre [] s
                Hc Hb Hd1 Hrv) as [s1 [used1 [E1 [Hu1 [Hc1 T1]]]]].
    pose proof (two_at_step _ _ _ _ _ _ _ _ _ _ _ _ _ _ _ _ Htwo T1 Hc1) as Htwo1.
    cbn [List.length unc_data_rows].
    replace (Z.to_nat cols) with (List.length row) by lia.
    rewrite E1. change (negb (CW_NOERR =? CW_NOERR)) with false. cbv beta iota.
    cbn [app]. fold (data_words row).
    destruct (data_words_facts row Hrv) as [Dl [Dw Ds]].
    pose proof (two_at_sym _ _ _ _ _ _ _ _ _ _ _ _ _ Htwo1) as Hsym1.
    pose proof Hsym1 as [Hu _].
    assert (Hi : 0 <= Z.of_nat i < rows) by (cbn [List.length] in Hlen; lia).
    destruct (stream_at_put_raw_row h s1 u nu pu _
                (bytes_of_ushorts (host_little h) (data_words row)) rows cols (Z.of_nat i)
                Hu Hrows Hcols Hi) as [s2 [pu2 [E2 [Hu2 T2]]]].
    { rewrite bytes_of_ushorts_length, Dl. lia. }
    rewrite E2. change (negb (CW_NOERR =? CW_NOERR)) with false. cbv beta iota.
    rewrite (write_words h _ Hbs) in Hu2.
    pose proof (words_row_written cols i hd wdone (data_words row) [] tl Hh Hwd
                  ltac:(cbn [List.length]; lia)) as W.
    set (tl2 := skipn (List.length (be_bytes (data_words row)) - List.length (be_bytes []))
                      tl) in W.
    cbn [be_bytes flat_map app] in W. rewrite W in Hu2.
    pose proof (two_at_step _ _ _ _ _ _ _ _ _ _ _ _ _ _ _ _ Hsym1 T2 Hu2) as Hsym2.
    apply two_at_sym in Hsym2.
    assert (Hmb : Forall is_byte mid).
    { rewrite Hu1 in Hb. apply Forall_app in Hb. apply Hb. }
    destruct (IH (S i) (wdone ++ data_words row) (last row lastd) s2 (pre ++ used1) mid rest
                 tl2 pu2 Hall') as [s' [used [pu' [tl' [E' [Hu' Htwo']]]]]].
    + rewrite length_app, Dl. lia.
    + cbn [List.length] in Hlen. lia.
    + exact Hsym2.
    + exact Hmb.
    + replace (Z.of_nat (S i) =? 0) with false by (symmetry; apply Z.eqb_neq; lia).
      exact Hd2.
    + exists s', (used1 ++ used), pu', tl'.
      replace (Z.of_nat (S i)) with (Z.of_nat i + 1) in E' by lia.
      split; [exact E'|]. split; [rewrite Hu1, Hu', app_assoc; reflexivity|].
      cbn [map List.concat]. rewrite !app_assoc in *. exact Htwo'.
Qed.

(** The graphics loop of cw_uncompress reads the runs of every row and puts
    the graphics into the words of the row, whose values stay. *)
Lemma unc_graphics_rows_spec (h : host) (u nu cfp nc : nat) (wc : bool) (hd : list Z)
    (rows cols : Z) :
  byteswap_set h ->
  Z.of_nat (List.length hd) = cols * 2 ->
  1 <= rows <= 32767 -> 1 <= cols <= 32767 ->
  forall (prest : list (list Z * list Z)) (i : nat) (wdone : list Z) (s : filesys)
         (pre post tl : list Z) (pu lastg b1 k : Z),
  Forall (prow_ok cols) prest ->
  Z.of_nat (List.length wdone) = Z.of_nat i * cols ->
  Z.of_nat (i + List.length prest) = rows ->
  two_at s cfp nc (Z.of_nat (List.length pre)) true wc
         (pre ++ List.concat (map (fun p => com_graphics (snd p) 0) prest) ++ post)
         u nu pu true true
         (hd ++ be_bytes (wdone ++ List.concat (map (fun p => data_words (fst p)) prest))
             ++ tl) ->
  exists s' pc' pu' cc',
    unc_graphics_rows h (List.length prest) s u cfp (rows, cols) cols (Z.of_nat i)
                      0 lastg b1 k
    = (s', CW_NOERR)
    /\ two_at s' cfp nc pc' true wc cc'
              u nu pu' true true
              (hd ++ be_bytes (wdone
                               ++ List.concat (map (fun p => full_words (fst p) (snd p)) prest))
                  ++ tl).
Proof.
  intros Hbs Hh Hrows Hcols.
  induction prest as [|[v g] prest IH];
    intros i wdone s pre post tl pu lastg b1 k Hall Hwd Hlen Htwo.
  - exists s. eexists. exists pu. eexists. split; [reflexivity|].
    cbn [map List.concat] in *. exact Htwo.
  - pose proof (Forall_inv Hall) as [[Hvl Hvv] [Hgl Hgg]].
    pose proof (Forall_inv_tail Hall) as Hall'. cbn [fst snd] in *.
    assert (Hi : 0 <= Z.of_nat i < rows) by (cbn [List.length] in Hlen; lia).
    cbn [map List.concat fst snd] in Htwo. rewrite <- !app_assoc in Htwo.
    pose proof Htwo as [Hc _].
    assert (Hg255 : Forall (fun a => 0 <= a <= 255) g).
    { eapply Forall_impl; [|exact Hgg]. unfold is_graphics. intros a Ha. lia. }
    assert (Hgne : g <> []) by (intro E; subst g; cbn [List.length] in Hgl; lia).
    destruct (unc_graphics_com_graphics g 0 pre
                (List.concat (map (fun p => com_graphics (snd p) 0) prest) ++ post)
                s cfp 0 cols [] (Z.to_nat (cols - 0)) b1 k Hgne Hg255
                ltac:(lia) ltac:(lia) ltac:(lia) ltac:(lia)
                (stream_at_reads _ _ _ _ _ _ Hc))
      as [s1 [b1' [k' [E1 [Hspill Hr1]]]]].
    pose proof (touches_unc_graphics_row (Z.to_nat (cols - 0)) s cfp 0 cols [] b1 k) as T1.
    rewrite E1 in T1. cbn [fst] in T1.
    pose proof (reads_to_stream_at _ _ _ _ _ _ _ _ _ Hc T1 Hr1) as Hc1.
    pose proof (two_at_step _ _ _ _ _ _ _ _ _ _ _ _ _ _ _ _ Htwo T1 Hc1) as Htwo1.
    cbn [List.length unc_graphics_rows].
    change (Z.to_nat 0) with 0%nat. cbn [repeat]. rewrite E1.
    cbn [negb]. cbv zeta. rewrite Hspill.
    change (to_size_t 0) with 0.
    (* the row is read again *)
    destruct (data_words_facts v Hvv) as [Dl [Dw Ds]].
    pose proof (two_at_sym _ _ _ _ _ _ _ _ _ _ _ _ _ Htwo1) as Hsym1.
    pose proof Hsym1 as [Hu _].
    destruct (stream_at_get_raw_row h s1 u nu pu _ (be_bytes (data_words v)) rows cols
                (Z.of_nat i) Hu Hrows Hcols Hi) as [s2 [pu2 [E2 [Hu2 T2]]]].
    { rewrite be_bytes_length, Dl. lia. }
    { rewrite !length_app, !be_bytes_length, !length_app, Dl. nia. }
    { apply words_row; assumption. }
    pose proof (two_at_step _ _ _ _ _ _ _ _ _ _ _ _ _ _ _ _ Hsym1 T2 Hu2) as Hsym2.
    rewrite E2. change (negb (CW_NOERR =? CW_NOERR)) with false. cbv beta iota.
    rewrite (read_words h _ Hbs Dw), Ds.
    cbn [app]. rewrite (firstn_all2 g) by lia. fold (full_words v g).
    destruct (full_words_facts v g Hvv Hgg ltac:(lia)) as [Fl [Fw _]].
    destruct (stream_at_put_raw_row h s2 u nu pu2 _
                (bytes_of_ushorts (host_little h) (full_words v g)) rows cols (Z.of_nat i)
                Hu2 Hrows Hcols Hi) as [s3 [pu3 [E3 [Hu3 T3]]]].
    { rewrite bytes_of_ushorts_length, Fl. lia. }
    rewrite E3. change (negb (CW_NOERR =? CW_NOERR)) with false. cbv beta iota.
    rewrite (write_words h _ Hbs) in Hu3.
    rewrite be_bytes_app, <- !app_assoc in Hu3.
    rewrite be_bytes_app, <- !app_assoc in Hu3.
    rewrite (words_row_written cols i hd wdone (full_words v g) (data_words v) _ Hh Hwd
               ltac:(lia)) in Hu3.
    replace (List.length (be_bytes (full_words v g)) - List.length (be_bytes (data_words v)))%nat
      with 0%nat in Hu3 by (rewrite !be_bytes_length; lia).
    cbn [skipn] in Hu3.
    pose proof (two_at_step _ _ _ _ _ _ _ _ _ _ _ _ _ _ _ _ Hsym2 T3 Hu3) as Hsym3.
    apply two_at_sym in Hsym3.
    destruct (IH (S i) (wdone ++ full_words v g) s3 (pre ++ com_graphics g 0) post tl pu3
                 (if cols <? 1 then 0 else nth (Z.to_nat (cols - 1)) g 0) b1' k' Hall')
      as [s' [pc' [pu' [cc' [E' Htwo']]]]].
    + rewrite length_app, Fl. lia.
    + cbn [List.length] in Hlen. lia.
    + rewrite <- ?app_assoc, ?be_bytes_app, <- ?app_assoc in Hsym3.
      rewrite <- ?app_assoc, ?be_bytes_app, <- ?app_assoc. exact Hsym3.
    + exists s', pc', pu', cc'.
      replace (Z.of_nat (S i)) with (Z.of_nat i + 1) in E' by lia.
      split; [exact E'|]. cbn [map List.concat fst snd].
      rewrite <- ?app_assoc, ?be_bytes_app, <- ?app_assoc in Htwo'.
      rewrite <- ?app_assoc, ?be_bytes_app, <- ?app_assoc. exact Htwo'.
Qed.

(** The temporary file of cw_uncompress: a new stream on a new, empty file. *)
Lemma tmpfile_beside (h : host) (s : filesys) (f n : nat) (p : Z) (r w : bool) (c : list Z) :
  can_tmpfile h = true -> stream_at s f n p r w c ->
  exists s0,
    tmpfile h s = (s0, Some (List.length (streams s)))
    /\ two_at s0 f n p r w c (List.length (streams s)) (List.length (files s)) 0 true true [].
Proof.
  intros Hcan [Hg [Hn Hc]]. pose proof (get_stream_lt _ _ _ Hg) as Hlt.
  unfold tmpfile. rewrite Hcan. cbn [negb].
  eexists. split; [reflexivity|].
  unfold two_at, stream_at, get_stream, file_bytes in *.
  cbn [streams files set_streams set_files_of new_stream fst].
  rewrite nth_error_app1 by exact Hlt.
  rewrite nth_error_app_last, length_app.
  rewrite app_nth1 by exact Hn.
  rewrite app_nth2 by lia. rewrite Nat.sub_diag. cbn [List.length nth].
  repeat split; try assumption; try reflexivity; lia.
Qed.

(** The header of the uncompressed copy: the 1024 bytes of the compressed
    header, padded with zeros to the length of one row where that is more. *)
Lemma uncompress_header (s : filesys) (f n : nat) (p : Z) (w : bool) (c : list Z)
    (u nu : nat) (hdc : list Z) (cols : Z) :
  1 <= cols <= 32767 -> List.length hdc = 1024%nat ->
  two_at s f n p true w c u nu 0 true true [] ->
  exists s3 s4 pu hd tl,
    fwrite s u hdc = (s3, true)
    /\ (if CW_HEAD_COMP <? cols * 2
        then fwrite s3 u (repeat 0 (Z.to_nat (cols * 2 - CW_HEAD_COMP)))
        else (s3, true)) = (s4, true)
    /\ Z.of_nat (List.length hd) = cols * 2
    /\ two_at s4 f n p true w c u nu pu true true (hd ++ tl).
Proof.
  intros Hcols Hl Htwo. unfold CW_HEAD_COMP.
  pose proof (two_at_sym _ _ _ _ _ _ _ _ _ _ _ _ _ Htwo) as Hsym.
  pose proof Hsym as [Hu _].
  destruct (stream_at_fwrite s u nu 0 true [] hdc Hu) as [s3 [E3 [Hu3 T3]]].
  cbn [Z.to_nat] in Hu3. rewrite write_at_empty in Hu3.
  pose proof (two_at_step _ _ _ _ _ _ _ _ _ _ _ _ _ _ _ _ Hsym T3 Hu3) as Hsym3.
  exists s3.
  destruct (1024 <? cols * 2) eqn:E1.
  - apply Z.ltb_lt in E1.
    destruct (stream_at_fwrite s3 u nu _ true hdc
                (repeat 0 (Z.to_nat (cols * 2 - 1024))) Hu3) as [s4 [E4 [Hu4 T4]]].
    pose proof (two_at_step _ _ _ _ _ _ _ _ _ _ _ _ _ _ _ _ Hsym3 T4 Hu4) as Hsym4.
    assert (W : write_at hdc (Z.to_nat (0 + Z.of_nat (List.length hdc)))
                         (repeat 0 (Z.to_nat (cols * 2 - 1024)))
                = hdc ++ repeat 0 (Z.to_nat (cols * 2 - 1024))).
    { pose proof (write_at_middle hdc [] [] (repeat 0 (Z.to_nat (cols * 2 - 1024)))) as W.
      cbn [app List.length] in W. rewrite !app_nil_r, Nat.add_0_r in W.
      rewrite skipn_nil, app_nil_r in W.
      replace (Z.to_nat (0 + Z.of_nat (List.length hdc))) with (List.length hdc) by lia.
      exact W. }
    rewrite W in Hsym4.
    exists s4. eexists. exists (hdc ++ repeat 0 (Z.to_nat (cols * 2 - 1024))), [].
    split; [exact E3|]. split; [exact E4|].
    split; [rewrite length_app, repeat_length; lia|].
    rewrite app_nil_r. apply two_at_sym. exact Hsym4.
  - apply Z.ltb_ge in E1.
    exists s3. eexists. exists (firstn (Z.to_nat (cols * 2)) hdc), (skipn (Z.to_nat (cols * 2)) hdc).
    split; [exact E3|]. split; [reflexivity|].
    split; [rewrite length_firstn; lia|].
    rewrite firstn_skipn. apply two_at_sym. exact Hsym3.
Qed.

Lemma combine_rows (vrows : list (list Z)) :
  forall (grows : list (list Z)) (cols : Z),
  Forall (vrow_ok cols) vrows -> Forall (grow_ok cols) grows ->
  List.length vrows = List.length grows ->
  Forall (prow_ok cols) (combine vrows grows)
  /\ List.length (combine vrows grows) = List.length vrows
  /\ List.concat (map (fun p => com_graphics (snd p) 0) (combine vrows grows))
     = List.concat (map (fun g => com_graphics g 0) grows)
  /\ List.concat (map (fun p => data_words (fst p)) (combine vrows grows))
     = List.concat (map data_words vrows)
  /\ map word_value
         (List.concat (map (fun p => full_words (fst p) (snd p)) (combine vrows grows)))
     = List.concat vrows
  /\ map word_graphics
         (List.concat (map (fun p => full_words (fst p) (snd p)) (combine vrows grows)))
     = List.concat grows.
Proof.
  induction vrows as [|v vt IH]; intros grows cols Hv Hg Hl.
  - destruct grows; [|discriminate Hl]. repeat split; constructor.
  - destruct grows as [|g gt]; [discriminate Hl|]. injection Hl as Hl.
    pose proof (Forall_inv Hv) as Hv0. pose proof (Forall_inv Hg) as Hg0.
    destruct (IH gt cols (Forall_inv_tail Hv) (Forall_inv_tail Hg) Hl)
      as [I1 [I2 [I3 [I4 [I5 I6]]]]].
    destruct Hv0 as [Hvl Hvv]. destruct Hg0 as [Hgl Hgg].
    destruct (full_words_facts v g Hvv Hgg ltac:(lia)) as [_ [_ [F3 F4]]].
    cbn [combine map List.concat List.length fst snd].
    rewrite !map_app, I2, I3, I4, I5, I6, F3, F4.
    repeat split. constructor; [|exact I1]. repeat split; assumption.
Qed.

(** cw_uncompress up to its data loop: the temporary file holds the header,
    and the compressed stream stands behind its own header of CW_HEAD_COMP
    bytes. *)
Lemma uncompress_start (h : host) (s : filesys) (cf : cw_file_type) (nc : nat) (pc : Z)
    (wc : bool) (hdc body : list Z) (rows cols : Z) :
  can_tmpfile h = true -> can_malloc h 0 = true ->
  can_malloc h 1 = true -> can_malloc h 2 = true ->
  stream_at s (fp cf) nc pc true wc (hdc ++ body) -> dims cf = (rows, cols) ->
  1 <= rows <= 32767 -> 1 <= cols <= 32767 -> List.length hdc = 1024%nat ->
  exists s4 pu hd tl,
    Z.of_nat (List.length hd) = cols * 2
    /\ two_at s4 (fp cf) nc (Z.of_nat (List.length hdc)) true wc (hdc ++ body)
              (List.length (streams s)) (List.length (files s)) pu true true (hd ++ tl)
    /\ cw_uncompress h s cf
       = let u := List.length (streams s) in
         let (w5, ret5) := unc_data_rows h (Z.to_nat rows) s4 u (fp cf) (rows, cols) cols 0 0 in
         if negb (ret5 =? CW_NOERR) then (w5, ret5, cf)
         else if negb (can_malloc h 3) then (w5, CW_ERR_NOMEM, cf)
         else
           let (w6, ret6) :=
             unc_graphics_rows h (Z.to_nat rows) w5 u (fp cf) (rows, cols) cols 0 0 0 0 0 in
           if negb (ret6 =? CW_NOERR) then (w6, ret6, cf)
           else
             (fclose w6 (fp cf), CW_NOERR,
              mkFile u (Some u) (path cf) (defmode cf) (wmode cf)
                     (data_id cf) (graphics cf) (dims cf) (pixel_size cf)).
Proof.
  intros Hcan Hm0 Hm1 Hm2 Hc Hdims Hrows Hcols Hl.
  destruct (tmpfile_beside h s (fp cf) nc pc true wc _ Hcan Hc) as [s0 [E0 Htwo0]].
  set (u := List.length (streams s)) in *. set (nu := List.length (files s)) in *.
  pose proof Htwo0 as [Hc0 _].
  destruct (stream_at_fseek s0 (fp cf) nc pc 0 true wc _ Hc0 ltac:(lia))
    as [s1 [E1 [Hc1 T1]]].
  pose proof (two_at_step _ _ _ _ _ _ _ _ _ _ _ _ _ _ _ _ Htwo0 T1 Hc1) as Htwo1.
  destruct (stream_at_fread s1 (fp cf) nc 0 1024 wc _ Hc1 ltac:(lia) ltac:(lia))
    as [s2 [E2 [Hc2 T2]]].
  { rewrite length_app. lia. }
  pose proof (two_at_step _ _ _ _ _ _ _ _ _ _ _ _ _ _ _ _ Htwo1 T2 Hc2) as Htwo2.
  assert (Hhead : firstn (Z.to_nat 1024) (skipn (Z.to_nat 0) (hdc ++ body)) = hdc).
  { cbn [Z.to_nat skipn]. replace (Pos.to_nat 1024) with (List.length hdc) by lia.
    rewrite firstn_app, firstn_all, Nat.sub_diag. cbn [firstn]. apply app_nil_r. }
  rewrite Hhead in E2.
  destruct (uncompress_header s2 (fp cf) nc (0 + 1024) wc _ u nu hdc cols Hcols Hl Htwo2)
    as [s3 [s4 [pu [hd [tl [E3 [E4 [Hhd Htwo4]]]]]]]].
  exists s4, pu, hd, tl. split; [exact Hhd|].
  split; [replace (Z.of_nat (List.length hdc)) with (0 + 1024) by lia; exact Htwo4|].
  unfold cw_uncompress. rewrite E0, Hm0, Hdims. cbn [negb fst snd].
  rewrite (size_t_of_dim rows Hrows), (size_t_of_dim cols Hcols).
  rewrite (to_size_t_id (cols * 2)) by (change (2 ^ 63) with 9223372036854775808; lia).
  rewrite E1. cbn [negb]. unfold CW_HEAD_COMP in *. rewrite E2.
  rewrite Z.ltb_irrefl. rewrite E3. cbn [negb]. rewrite E4. cbn [negb].
  rewrite Hm1, Hm2. cbn [andb negb]. reflexivity.
Qed.

(** C8: cw_uncompress on a compressed file of bytes.  Where the first byte
    of the channel stream, the byte behind the header of CW_HEAD_COMP bytes,
    is less than 128 and so has no marker, the call fails with
    CW_ERR_COM_BYTE0.  Where the channel stream decodes as the specification
    reads it, a byte without the marker at any later place, the first place
    of a later row too, being a delta on the value before, the call succeeds
    and the uncompressed copy holds, behind a header of the length of one
    row, the words of the decoded values with the graphics of the runs. *)
Theorem C8_first_byte_needs_marker (h : host) (s : filesys) (cf : cw_file_type)
    (nc : nat) (pc : Z) (wc : bool) (cc : list Z) (rows cols : Z) :
  byteswap_set h -> can_tmpfile h = true ->
  can_malloc h 0 = true -> can_malloc h 1 = true ->
  can_malloc h 2 = true -> can_malloc h 3 = true ->
  stream_at s (fp cf) nc pc true wc cc -> dims cf = (rows, cols) ->
  1 <= rows <= 32767 -> 1 <= cols <= 32767 -> Forall is_byte cc ->
  (forall hdc b rest,
     cc = hdc ++ b :: rest -> List.length hdc = Z.to_nat CW_HEAD_COMP -> b < 128 ->
     snd (fst (cw_uncompress h s cf)) = CW_ERR_COM_BYTE0)
  /\ (forall hdc chan post vrows grows,
        cc = hdc ++ chan ++ List.concat (map (fun g => com_graphics g 0) grows) ++ post ->
        List.length hdc = Z.to_nat CW_HEAD_COMP ->
        Forall (vrow_ok cols) vrows -> Forall (grow_ok cols) grows ->
        Z.of_nat (List.length vrows) = rows -> Z.of_nat (List.length grows) = rows ->
        spec_decode (List.length (List.concat vrows)) true 0 chan
        = Some (List.concat vrows, []) ->
        exists s1 cf1 u nu hd ws tl,
          cw_uncompress h s cf = (s1, CW_NOERR, cf1)
          /\ fp cf1 = u /\ ufp cf1 = Some u
          /\ on_file s1 u nu (hd ++ be_bytes ws ++ tl)
          /\ Z.of_nat (List.length hd) = cols * 2
          /\ map word_value ws = List.concat vrows
          /\ map word_graphics ws = List.concat grows).
Proof.
  intros Hbs Hcan Hm0 Hm1 Hm2 Hm3 Hc Hdims Hrows Hcols Hbytes.
  change (Z.to_nat CW_HEAD_COMP) with 1024%nat. split.
  - intros hdc b rest Hcc Hl Hb. subst cc.
    destruct (uncompress_start h s cf nc pc wc hdc (b :: rest) rows cols Hcan Hm0 Hm1 Hm2
                Hc Hdims Hrows Hcols Hl) as [s4 [pu [hd [tl [Hhd [Htwo4 E]]]]]].
    rewrite E. cbv zeta.
    destruct (Z.to_nat rows) as [|kr] eqn:Er; [lia|]. cbn [unc_data_rows].
    destruct (Z.to_nat cols) as [|kc] eqn:Ec; [lia|]. cbn [unc_row].
    pose proof Htwo4 as [Hc4 _].
    destruct (read_one_byte s4 (fp cf) nc wc hdc b rest Hc4) as [s5 [E5 _]].
    rewrite E5. replace (1 <? 1) with false by reflexivity. cbn [nth].
    apply Forall_app in Hbytes. destruct Hbytes as [_ Hbr].
    rewrite (marker_spec b (Forall_inv Hbr)).
    replace (128 <=? b) with false by (symmetry; apply Z.leb_gt; exact Hb).
    reflexivity.
  - intros hdc chan post vrows grows Hcc Hl Hv Hg Hlv Hlg Hd. subst cc.
    set (gra := List.concat (map (fun g => com_graphics g 0) grows)) in *.
    destruct (uncompress_start h s cf nc pc wc hdc (chan ++ gra ++ post) rows cols Hcan Hm0
                Hm1 Hm2 Hc Hdims Hrows Hcols Hl) as [s4 [pu [hd [tl [Hhd [Htwo4 E]]]]]].
    rewrite E. cbv zeta. clear E.
    set (u := List.length (streams s)) in *. set (nu := List.length (files s)) in *.
    apply Forall_app in Hbytes. destruct Hbytes as [_ Hbb].
    pose proof (spec_decode_suffix _ _ _ _ _ _ (gra ++ post) Hd) as Hd'.
    cbn [app] in Hd'.
    destruct (unc_data_rows_spec h u nu (fp cf) nc wc hd rows cols Hbs Hhd Hrows Hcols
                vrows 0%nat [] 0 s4 hdc (chan ++ gra ++ post) (gra ++ post) tl pu Hv
                ltac:(cbn [List.length]; lia) ltac:(lia) Htwo4 Hbb Hd')
      as [s5 [used [pu5 [tl5 [E5 [Hused Htwo5]]]]]].
    replace (Z.to_nat rows) with (List.length vrows) by lia.
    change (Z.of_nat 0) with 0 in E5. rewrite E5.
    change (negb (CW_NOERR =? CW_NOERR)) with false. cbv beta iota.
    rewrite Hm3. cbn [negb].
    destruct (combine_rows vrows grows cols Hv Hg ltac:(lia))
      as [Hp [Hpl [Hpg [Hpd [Hpv Hpgr]]]]].
    cbn [app] in Htwo5. rewrite <- Hpd in Htwo5.
    unfold gra in Htwo5. rewrite <- Hpg in Htwo5.
    destruct (unc_graphics_rows_spec h u nu (fp cf) nc wc hd rows cols Hbs Hhd Hrows Hcols
                (combine vrows grows) 0%nat [] s5 (hdc ++ used) post tl5 pu5 0 0 0 Hp
                ltac:(cbn [List.length]; lia) ltac:(lia) Htwo5)
      as [s6 [pc6 [pu6 [cc6 [E6 Htwo6]]]]].
    rewrite Hpl in E6. change (Z.of_nat 0) with 0 in E6. rewrite E6.
    change (negb (CW_NOERR =? CW_NOERR)) with false. cbv beta iota.
    destruct Htwo6 as [Hc6 [Hu6 [Hne6 Hnn6]]].
    eexists. eexists. exists u, nu, hd. eexists. exists tl5.
    split; [reflexivity|]. cbn [fp ufp]. split; [reflexivity|]. split; [reflexivity|].
    split; [|split; [exact Hhd | split; [exact Hpv | exact Hpgr]]].
    apply on_file_stream_at. exists pu6. cbn [app] in Hu6.
    apply stream_at_fclose_other; [exact Hu6 | congruence].
Qed.

Lemma bytes_checked (l : list Z) :
  forallb (fun b => (0 <=? b) && (b <=? 255)) l = true -> Forall is_byte l.
Proof.
  intro H. apply Forall_forall. intros b Hb.
  rewrite forallb_forall in H. specialize (H b Hb).
  apply andb_true_iff in H. destruct H as [H0 H1].
  apply Z.leb_le in H0. apply Z.leb_le in H1. split; assumption.
Qed.

Lemma C8_first_byte_witness :
  snd (fst (cw_uncompress (granting_host 1 true) S_no_marker F_one_pixel)) = CW_ERR_COM_BYTE0
  /\ exists s1 cf1 u nu hd ws tl,
       cw_uncompress (granting_host 1 true) S_coded F_coded = (s1, CW_NOERR, cf1)
       /\ fp cf1 = u /\ ufp cf1 = Some u
       /\ on_file s1 u nu (hd ++ be_bytes ws ++ tl)
       /\ Z.of_nat (List.length hd) = 2 * 2
       /\ map word_value ws = [100; 110; 101; 300]
       /\ map word_graphics ws = [3; 3; 0; 5].
Proof.
  split.
  - refine (proj1 (C8_first_byte_needs_marker (granting_host 1 true) S_no_marker F_one_pixel
                     0 0 false (repeat 0 1024 ++ [5; 0; 0]) 1 1
                     eq_refl eq_refl eq_refl eq_refl eq_refl eq_refl _ eq_refl _ _ _)
                  (repeat 0 1024) 5 [0; 0] eq_refl eq_refl _).
    + repeat split. simpl. lia.
    + lia.
    + lia.
    + apply bytes_checked. vm_compute. reflexivity.
    + lia.
  - refine (proj2 (C8_first_byte_needs_marker (granting_host 1 true) S_coded F_coded
                     0 0 false
                     (repeat 0 1024 ++ [128; 100; 10; 73; 129; 44] ++ [3; 1; 0; 0; 5; 0]) 2 2
                     eq_refl eq_refl eq_refl eq_refl eq_refl eq_refl _ eq_refl _ _ _)
                  (repeat 0 1024) [128; 100; 10; 73; 129; 44] []
                  [[100; 110]; [101; 300]] [[3; 3]; [0; 5]] eq_refl eq_refl _ _
                  eq_refl eq_refl eq_refl).
    + repeat split. simpl. lia.
    + lia.
    + lia.
    + apply bytes_checked. vm_compute. reflexivity.
    + repeat constructor; unfold is_value; lia.
    + repeat constructor; unfold is_graphics; lia.
Defined.

(** ** The polar longitude at the centre of the grid and beyond one turn *)

Section Unfolded.
Import Proj.

(** X29: the centre of the polar grid has no longitude.  With a C library
    for which pow (0, 2) and sqrt (0) are zero and acos of no number is no
    number, dist is 0 there, the quotient 0/0 is no number, and so is the
    longitude that cw_get_ll returns. *)
Theorem polar_centre_has_no_longitude (L : libm) (latlon : double * double) :
  m_pow L (S754_zero false) (d_of_Z 2) = S754_zero false ->
  m_sqrt L (S754_zero false) = S754_zero false ->
  m_acos L S754_nan = S754_nan ->
  snd (cw_get_ll L P_alaska (d_of_Z 12194) (d_of_Z 12194) latlon) = S754_nan.
Proof.
  intros Hpow Hsqrt Hacos.
  rewrite get_ll_polar by reflexivity.
  unfold P_alaska. cbn [ptype hem res plon ioff joff]. unfold polar_lon_unfolded.
  replace (polar_xy (d_of_Z 12194) (d_of_Z 12194) 1 (f32_of_Z 1) 0 0)
    with (d_of_Z ICEN, d_of_Z ICEN) by (vm_compute; reflexivity).
  replace (d_sub (d_of_Z ICEN) (d_of_Z ICEN)) with (S754_zero false)
    by (vm_compute; reflexivity).
  rewrite Hpow.
  replace (d_add (S754_zero false) (S754_zero false)) with (S754_zero false)
    by reflexivity.
  rewrite Hsqrt.
  replace (d_div (S754_zero false) (S754_zero false)) with S754_nan by reflexivity.
  rewrite Hacos. reflexivity.
Qed.

Lemma polar_centre_has_no_longitude_witness :
  snd (cw_get_ll sample_libm P_alaska (d_of_Z 12194) (d_of_Z 12194) (d_of_Z 0, d_of_Z 0))
  = S754_nan.
Proof.
  apply (polar_centre_has_no_longitude sample_libm); reflexivity.
Defined.

(** X30: the fold is by one turn and no more.  On a polar grid whose header
    gives the prime longitude 1000, [LONR] brings the prime longitude to 640,
    and the pixel 100 rows from the centre on its column, where the angle is
    acos (1) = 0, gets the longitude 280. *)
Theorem polar_fold_is_one_turn (L : libm) (latlon : double * double) :
  m_pow L (S754_zero false) (d_of_Z 2) = S754_zero false ->
  m_pow L (d_of_Z 100) (d_of_Z 2) = d_of_Z 10000 ->
  m_sqrt L (d_of_Z 10000) = d_of_Z 100 ->
  m_acos L (d_of_Z 1) = S754_zero false ->
  snd (cw_get_ll L P_far (d_of_Z 12194) (d_of_Z 12294) latlon) = d_of_Z 280
  /\ ~ lon_normalised (snd (cw_get_ll L P_far (d_of_Z 12194) (d_of_Z 12294) latlon)).
Proof.
  intros Hpow0 Hpow Hsqrt Hacos.
  assert (E : snd (cw_get_ll L P_far (d_of_Z 12194) (d_of_Z 12294) latlon) = d_of_Z 280).
  { rewrite get_ll_polar by reflexivity.
    unfold P_far. cbn [ptype hem res plon ioff joff]. unfold polar_lon_unfolded.
    replace (polar_xy (d_of_Z 12194) (d_of_Z 12294) 1 (f32_of_Z 1) 0 0)
      with (d_of_Z ICEN, d_of_Z 12293) by (vm_compute; reflexivity).
    replace (d_sub (d_of_Z ICEN) (d_of_Z ICEN)) with (S754_zero false)
      by (vm_compute; reflexivity).
    replace (d_sub (d_of_Z 12293) (d_of_Z ICEN)) with (d_of_Z 100)
      by (vm_compute; reflexivity).
    rewrite Hpow0, Hpow.
    replace (d_add (S754_zero false) (d_of_Z 10000)) with (d_of_Z 10000)
      by (vm_compute; reflexivity).
    rewrite Hsqrt.
    replace (d_div (d_of_Z 100) (d_of_Z 100)) with (d_of_Z 1) by (vm_compute; reflexivity).
    rewrite Hacos. vm_compute. reflexivity. }
  rewrite E. split; [reflexivity|].
  intros [_ H]. vm_compute in H. discriminate H.
Qed.

Lemma polar_fold_is_one_turn_witness :
  snd (cw_get_ll sample_libm P_far (d_of_Z 12194) (d_of_Z 12294) (d_of_Z 0, d_of_Z 0))
  = d_of_Z 280
  /\ ~ lon_normalised
       (snd (cw_get_ll sample_libm P_far (d_of_Z 12194) (d_of_Z 12294) (d_of_Z 0, d_of_Z 0))).
Proof.
  apply (polar_fold_is_one_turn sample_libm); vm_compute; reflexivity.
Defined.

End Unfolded.
